(** * Payment-gateway notifications: delivery and retry engine

    A shallow embedding of the notification core of
    [payment-gateway-notifications]:

    - [models/payment.py]    : [PaymentEvent], [WebhookPayload] (module [Payment])
    - [models/merchant.py]   : [Merchant] (module [MerchantModel])
    - [database/db.py]       : the delivery ledger (module [Db])
    - [services/webhook_service.py]  (module [WebhookService])
    - [services/telegram_service.py] (module [TelegramService])
    - [services/notification_router.py] (module [Router])

    Conventions.  A Python [str] is a [string] whose characters are the
    code points 0..255; every function below on strings is exact on that
    range.  A [datetime] is the number of microseconds since the epoch (a
    naive UTC instant), so [timedelta(minutes=d)] is [minutes d].  Code
    that awaits the network consumes one outcome from the environment,
    which is an explicit argument; Python exceptions are results of an
    error type.  The coroutines of the services and of the router come
    twice: run to their end without a suspension (modules
    [WebhookService], [TelegramService], [Router]), and cut at their
    awaits, for the event loop that interleaves them (module [Async],
    [run_moves]); the two agree when a task is not interrupted, and the
    properties on concurrent operations are stated on the second. *)

From Stdlib Require Import ZArith NArith List String Ascii Bool Lia.
From Stdlib Require Import DecimalString.
From Stdlib.Strings Require Import Byte.
From Stdlib Require Import Sorted Permutation.
From Stdlib Require OrderedTypeEx.
Import ListNotations.
Set Warnings "-register-all".
Open Scope string_scope.
Open Scope Z_scope.

(* ================================================================== *)
(** ** Python built-ins used by the sources *)
(* ================================================================== *)

Module Py.

(** [str.lower] on the code points 0..255: A-Z and the Latin-1 capitals
    0xC0..0xDE (except the multiplication sign 0xD7) move up by 32. *)
Definition lower_char (c : ascii) : ascii :=
  let n := N_of_ascii c in
  if ((65 <=? n) && (n <=? 90))%N
     || ((192 <=? n) && (n <=? 222) && negb (n =? 215))%N
  then ascii_of_N (n + 32) else c.

Fixpoint lower (s : string) : string :=
  match s with
  | EmptyString => EmptyString
  | String c s' => String (lower_char c) (lower s')
  end.

(** Two strings that differ only in letter case: same length, and the
    characters at each position are the same letter. *)
Fixpoint same_up_to_case (s t : string) : bool :=
  match s, t with
  | EmptyString, EmptyString => true
  | String a s', String b t' =>
      Ascii.eqb (lower_char a) (lower_char b) && same_up_to_case s' t'
  | _, _ => false
  end.

(** [s.startswith(p)] *)
Definition startswith (s p : string) : bool := String.prefix p s.

(** Truthiness of an optional string: [None] and [''] are falsy. *)
Definition truthy (o : option string) : bool :=
  match o with
  | None => false
  | Some s => negb (String.eqb s "")
  end.

(** [str(n)] for an integer. *)
Definition str_of_Z (z : Z) : string :=
  NilEmpty.string_of_int (Z.to_int z).

Definition str_of_N (n : N) : string :=
  NilEmpty.string_of_uint (N.to_uint n).

(** [sep.join(l)] *)
Fixpoint join (sep : string) (l : list string) : string :=
  match l with
  | [] => ""
  | [x] => x
  | x :: rest => x ++ sep ++ join sep rest
  end.

Definition is_digit (c : ascii) : bool :=
  let n := N_of_ascii c in ((48 <=? n) && (n <=? 57))%N.

Definition digit_val (c : ascii) : Z := Z.of_N (N_of_ascii c) - 48.

Fixpoint all_digits (s : string) : bool :=
  match s with
  | EmptyString => true
  | String c s' => is_digit c && all_digits s'
  end.

(** [s[:n]] and [s[-n:]] for [n > 0] *)
Definition first_n (n : nat) (s : string) : string := String.substring 0 n s.
Definition last_n (n : nat) (s : string) : string :=
  String.substring (String.length s - n) n s.

(** White space that [int()] strips: TAB..CR, space, NEL and NBSP. *)
Definition is_space (c : ascii) : bool :=
  let n := N_of_ascii c in
  (((9 <=? n) && (n <=? 13)) || (n =? 32) || (n =? 133) || (n =? 160))%N.

Fixpoint lstrip (s : string) : string :=
  match s with
  | String c s' => if is_space c then lstrip s' else s
  | EmptyString => EmptyString
  end.

Fixpoint rev_string (acc s : string) : string :=
  match s with
  | EmptyString => acc
  | String c s' => rev_string (String c acc) s'
  end.

Definition strip (s : string) : string :=
  rev_string "" (lstrip (rev_string "" (lstrip s))).

(** The digits of an [int()] literal: decimal digits, with single
    underscores allowed between two digits.  [prev_digit] tells whether
    the previous character was a digit. *)
Fixpoint int_digits (acc : Z) (prev_digit : bool) (s : string) : option Z :=
  match s with
  | EmptyString => if prev_digit then Some acc else None
  | String c s' =>
      if is_digit c then int_digits (10 * acc + digit_val c) true s'
      else if Ascii.eqb c "_" && prev_digit then
        match s' with
        | String d _ => if is_digit d then int_digits acc false s' else None
        | EmptyString => None
        end
      else None
  end.

(** [int(s)] in base 10; [None] is [ValueError].  (The interpreter's
    limit on the length of a literal is not modelled.) *)
Definition int_of_str (s : string) : option Z :=
  match strip s with
  | String "-" s' => option_map Z.opp (int_digits 0 false s')
  | String "+" s' => int_digits 0 false s'
  | s' => int_digits 0 false s'
  end.

(** [repr(s)] of a string.  The quotes are single unless the string
    has a single quote and no double quote; the quote in use and the
    backslash are escaped, TAB, LF and CR are written with their
    letter, and the other characters that are not printable (the
    controls, DEL, 0x80..0xA0 and the soft hyphen 0xAD) as [\xhh]. *)
Definition hex_digit (n : N) : ascii :=
  ascii_of_N (if (n <? 10)%N then 48 + n else 87 + n).

Definition is_printable (c : ascii) : bool :=
  let n := N_of_ascii c in
  (((32 <=? n) && (n <? 127)) || ((161 <=? n) && negb (n =? 173)))%N.

Fixpoint has_char (c : ascii) (s : string) : bool :=
  match s with
  | EmptyString => false
  | String d s' => Ascii.eqb c d || has_char c s'
  end.

Fixpoint repr_chars (quote : ascii) (s : string) : string :=
  match s with
  | EmptyString => EmptyString
  | String c s' =>
      let n := N_of_ascii c in
      let backslash := ascii_of_N 92 in
      (if Ascii.eqb c quote || (n =? 92)%N then
         String backslash (String c EmptyString)
       else if (n =? 9)%N then String backslash "t"
       else if (n =? 10)%N then String backslash "n"
       else if (n =? 13)%N then String backslash "r"
       else if is_printable c then String c EmptyString
       else
         String backslash
           (String "x"%char
              (String (hex_digit (n / 16))
                 (String (hex_digit (n mod 16)) EmptyString))))
      ++ repr_chars quote s'
  end.

Definition repr_str (s : string) : string :=
  let quote :=
    if has_char "'"%char s && negb (has_char (ascii_of_N 34) s)
    then ascii_of_N 34 else "'"%char in
  String quote (repr_chars quote s ++ String quote EmptyString).

(** The message of the [ValueError] of [int(s)]: the literal is shown
    by its [repr], cut after 200 characters. *)
Definition int_error (s : string) : string :=
  "invalid literal for int() with base 10: " ++ first_n 200 (repr_str s).

(** A Python call either returns or raises; [Raise] carries the
    exception class and its message. *)
Inductive result (A : Type) : Type :=
| Ok (a : A)
| Raise (exn msg : string).
Arguments Ok {A} a.
Arguments Raise {A} exn msg.

Definition bind {A B} (r : result A) (k : A -> result B) : result B :=
  match r with
  | Ok a => k a
  | Raise e m => Raise e m
  end.

End Py.

(* ================================================================== *)
(** ** decimal.Decimal, as far as [get_formatted_amount] uses it *)
(* ================================================================== *)

Module Dec.

(** A finite decimal: (-1)^sign * coeff * 10^exp. *)
Record t := mk { sign : bool; coeff : N; exp : Z }.

(** The default context: 28 significant digits, ROUND_HALF_EVEN. *)
Definition prec : Z := 28.

(** [Decimal(n)] for an integer is exact. *)
Definition of_Z (z : Z) : t := mk (z <? 0) (Z.abs_N z) 0.

(** [len(str(n))] *)
Definition ndigits (n : N) : Z :=
  Z.of_nat (String.length (Py.str_of_N n)).

Definition pow10 (k : Z) : N := (10 ^ Z.to_N k)%N.

(** [c / 10^k] rounded to the nearest integer, ties to even. *)
Definition round_half_even (c : N) (k : Z) : N :=
  let p := pow10 k in
  let q := (c / p)%N in
  let r2 := (2 * (c mod p))%N in
  if (r2 <? p)%N then q
  else if (p <? r2)%N then (q + 1)%N
  else if N.even q then q else (q + 1)%N.

(** Rounding of a result to the context precision ([_fix]). *)
Definition fix_ (d : t) : t :=
  let len := ndigits (coeff d) in
  if len <=? prec then d
  else
    let k := len - prec in
    let c := round_half_even (coeff d) k in
    if prec <? ndigits c then mk (sign d) (c / 10)%N (exp d + k + 1)
    else mk (sign d) c (exp d + k).

(** The loop of an exact division that brings the exponent as close to
    the ideal one as the trailing zeros allow; [n] bounds the steps. *)
Fixpoint strip_zeros (n : nat) (c : N) (e : Z) : N * Z :=
  match n with
  | O => (c, e)
  | S n' => if (c mod 10 =? 0)%N then strip_zeros n' (c / 10)%N (e + 1)
            else (c, e)
  end.

(** [a / b]; [None] is the exception for a zero divisor. *)
Definition div (a b : t) : option t :=
  if (coeff b =? 0)%N then None
  else
    let sg := xorb (sign a) (sign b) in
    if (coeff a =? 0)%N then Some (mk sg 0 (exp a - exp b))
    else
      let shift := ndigits (coeff b) - ndigits (coeff a) + prec + 1 in
      let e := exp a - exp b - shift in
      let (q, r) :=
        if 0 <=? shift
        then N.div_eucl (coeff a * pow10 shift) (coeff b)
        else N.div_eucl (coeff a) (coeff b * pow10 (- shift)) in
      if (r =? 0)%N then
        let (c, e') := strip_zeros (Z.to_nat (exp a - exp b - e)) q e in
        Some (fix_ (mk sg c e'))
      else
        Some (fix_ (mk sg (if (q mod 5 =? 0)%N then q + 1 else q)%N e)).

(** [_rescale]: the same value with exponent [e], rounded half-even
    when digits are lost. *)
Definition rescale (d : t) (e : Z) : t :=
  if (coeff d =? 0)%N then mk (sign d) 0 e
  else if e <=? exp d then mk (sign d) (coeff d * pow10 (exp d - e))%N e
  else mk (sign d) (round_half_even (coeff d) (e - exp d)) e.

Definition digit_char (n : N) : ascii := ascii_of_N (48 + n mod 10).

(** The last [k] decimal digits of [m], most significant first. *)
Fixpoint pad_digits (k : nat) (m : N) : string :=
  match k with
  | O => ""
  | S k' => pad_digits k' (m / 10) ++ String (digit_char m) ""
  end.

(** [format(d, '.<p>f')] for [p > 0]: sign, integer part, a point and
    exactly [p] fraction digits. *)
Definition format_f (p : nat) (d : t) : string :=
  let r := rescale d (- Z.of_nat p) in
  let unit := pow10 (Z.of_nat p) in
  (if sign r then "-" else "")
    ++ Py.str_of_N (coeff r / unit) ++ "." ++ pad_digits p (coeff r mod unit).

End Dec.

(* ================================================================== *)
(** ** hashlib.sha256 and hmac (FIPS 180-4, RFC 2104) *)
(* ================================================================== *)

Definition bytes := list Byte.byte.
Definition datetime := Z.

Module Sha256.

Open Scope N_scope.

Definition mask32 : N := 0xFFFFFFFF.
Definition add32 (a b : N) : N := N.land (a + b) mask32.
Definition rotr (n x : N) : N :=
  N.land (N.lor (N.shiftr x n) (N.shiftl x (32 - n))) mask32.
Definition not32 (x : N) : N := N.lxor x mask32.

Definition Ch (x y z : N) : N := N.lxor (N.land x y) (N.land (not32 x) z).
Definition Maj (x y z : N) : N :=
  N.lxor (N.lxor (N.land x y) (N.land x z)) (N.land y z).
Definition Sigma0 (x : N) : N :=
  N.lxor (N.lxor (rotr 2 x) (rotr 13 x)) (rotr 22 x).
Definition Sigma1 (x : N) : N :=
  N.lxor (N.lxor (rotr 6 x) (rotr 11 x)) (rotr 25 x).
Definition sigma0 (x : N) : N :=
  N.lxor (N.lxor (rotr 7 x) (rotr 18 x)) (N.shiftr x 3).
Definition sigma1 (x : N) : N :=
  N.lxor (N.lxor (rotr 17 x) (rotr 19 x)) (N.shiftr x 10).

(** The round constants are the first 32 bits of the fractional parts of
    the cube roots of the first 64 primes, the initial hash value those of
    the square roots of the first 8. *)
Fixpoint cube_root_bits (b : nat) (n r : N) : N :=
  match b with
  | O => r
  | S b' =>
      let c := r + N.shiftl 1 (N.of_nat b') in
      cube_root_bits b' n (if c * c * c <=? n then c else r)
  end.

Definition frac_cbrt32 (p : N) : N :=
  N.land (cube_root_bits 40 (N.shiftl p 96) 0) mask32.

Definition frac_sqrt32 (p : N) : N :=
  N.land (N.sqrt (N.shiftl p 64)) mask32.

Definition is_prime (n : N) : bool :=
  forallb (fun d => negb (n mod d =? 0))
          (map N.of_nat (seq 2 (N.to_nat n - 2))).

Definition primes : list N := filter is_prime (map N.of_nat (seq 2 310)).

Definition K : list N := Eval vm_compute in map frac_cbrt32 primes.

Definition H0 : list N := Eval vm_compute in map frac_sqrt32 (firstn 8 primes).

(** Big-endian bytes of a number, [n] of them. *)
Fixpoint be_bytes (n : nat) (x : N) : bytes :=
  match n with
  | O => []
  | S n' =>
      match Byte.of_N (N.land (N.shiftr x (8 * N.of_nat n')) 0xFF) with
      | Some b => b :: be_bytes n' x
      | None => be_bytes n' x
      end
  end.

Definition be_word (l : bytes) : N :=
  fold_left (fun acc b => N.lor (N.shiftl acc 8) (Byte.to_N b)) l 0.

(** Message padding: a [0x80] byte, zeros up to 56 modulo 64, and the
    bit length on 8 bytes. *)
Definition pad (msg : bytes) : bytes :=
  let len := N.of_nat (List.length msg) in
  let zeros := N.to_nat ((119 - len mod 64) mod 64) in
  (msg ++ [Byte.x80] ++ repeat Byte.x00 zeros ++ be_bytes 8 (8 * len))%list.

(** The 16 words of a block. *)
Fixpoint words (n : nat) (l : bytes) : list N :=
  match n with
  | O => []
  | S n' => be_word (firstn 4 l) :: words n' (skipn 4 l)
  end.

(** Message schedule: [w] holds the words so far, latest first. *)
Fixpoint schedule (n : nat) (w : list N) : list N :=
  match n with
  | O => rev w
  | S n' =>
      let wt := add32 (add32 (sigma1 (nth 1 w 0)) (nth 6 w 0))
                      (add32 (sigma0 (nth 14 w 0)) (nth 15 w 0)) in
      schedule n' (wt :: w)
  end.

Definition round (st : list N) (kw : N * N) : list N :=
  match st with
  | [a; b; c; d; e; f; g; h] =>
      let t1 := add32 (add32 (add32 h (Sigma1 e)) (add32 (Ch e f g) (fst kw)))
                      (snd kw) in
      let t2 := add32 (Sigma0 a) (Maj a b c) in
      [add32 t1 t2; a; b; c; add32 d t1; e; f; g]
  | _ => st
  end.

Definition compress (h : list N) (block : bytes) : list N :=
  let w := schedule 48 (rev (words 16 block)) in
  let st := fold_left round (combine K w) h in
  map (fun p => add32 (fst p) (snd p)) (combine h st).

Fixpoint process (n : nat) (h : list N) (l : bytes) : list N :=
  match n with
  | O => h
  | S n' =>
      match l with
      | [] => h
      | _ => process n' (compress h (firstn 64 l)) (skipn 64 l)
      end
  end.

(** [hashlib.sha256(msg).digest()] *)
Definition digest (msg : bytes) : bytes :=
  let p := pad msg in
  flat_map (be_bytes 4) (process (List.length p) H0 p).

Definition block_size : nat := 64.

End Sha256.

Module Hmac.

Definition xor_byte (k : N) (b : Byte.byte) : Byte.byte :=
  match Byte.of_N (N.lxor (Byte.to_N b) k) with
  | Some r => r
  | None => b
  end.

(** The key brought to the block size: hashed when longer, then padded
    with zero bytes. *)
Definition block_key (key : bytes) : bytes :=
  let k := if (Sha256.block_size <? List.length key)%nat
           then Sha256.digest key else key in
  (k ++ repeat Byte.x00 (Sha256.block_size - List.length k))%list.

(** [hmac.new(key, msg, hashlib.sha256).digest()] *)
Definition hmac_sha256 (key msg : bytes) : bytes :=
  let k := block_key key in
  Sha256.digest (map (xor_byte 0x5c) k
                 ++ Sha256.digest (map (xor_byte 0x36) k ++ msg))%list.

Definition hex_digit (n : N) : ascii :=
  if (n <? 10)%N then ascii_of_N (48 + n) else ascii_of_N (87 + n).

(** [bytes.hex()] *)
Fixpoint hex (l : bytes) : string :=
  match l with
  | [] => ""
  | b :: rest =>
      String (hex_digit (Byte.to_N b / 16))
        (String (hex_digit (Byte.to_N b mod 16)) (hex rest))
  end.

(** [hmac.new(key, msg, hashlib.sha256).hexdigest()] *)
Definition hexdigest (key msg : bytes) : string := hex (hmac_sha256 key msg).

Definition is_ascii (s : string) : bool :=
  forallb (fun c => (N_of_ascii c <? 128)%N) (list_ascii_of_string s).

(** [hmac.compare_digest(a, b)] on two [str]: equality, decided in time
    independent of the contents; non-ASCII text is a [TypeError]. *)
Definition compare_digest (a b : string) : Py.result bool :=
  if is_ascii a && is_ascii b then Py.Ok (String.eqb a b)
  else Py.Raise "TypeError"
         "comparing strings with non-ASCII characters is not supported".

End Hmac.

(* ================================================================== *)
(** ** json.dumps and datetime.isoformat *)
(* ================================================================== *)

Module Json.

(** The values the payloads hold.  A dict keeps its insertion order. *)
Inductive value : Type :=
| JNull
| JBool (b : bool)
| JInt (z : Z)
| JStr (s : string)
| JDict (items : list (string * value)).

Definition dquote : string := String (ascii_of_N 34) "".

Definition u00 (n : N) : string :=
  "\u00" ++ String (Hmac.hex_digit (n / 16))
              (String (Hmac.hex_digit (n mod 16)) "").

(** One character of a string literal, with [ensure_ascii]. *)
Definition escape_char (c : ascii) : string :=
  let n := N_of_ascii c in
  if (n =? 34)%N then "\" ++ dquote
  else if (n =? 92)%N then "\\"
  else if (n =? 10)%N then "\n"
  else if (n =? 13)%N then "\r"
  else if (n =? 9)%N then "\t"
  else if (n =? 8)%N then "\b"
  else if (n =? 12)%N then "\f"
  else if ((32 <=? n) && (n <=? 126))%N then String c ""
  else u00 n.

Fixpoint escape (s : string) : string :=
  match s with
  | EmptyString => ""
  | String c s' => escape_char c ++ escape s'
  end.

Definition quote (s : string) : string := dquote ++ escape s ++ dquote.

(** Stable insertion sort of rendered items by key. *)
Fixpoint insert_item (x : string * string) (l : list (string * string))
  : list (string * string) :=
  match l with
  | [] => [x]
  | y :: rest =>
      if String.ltb (fst x) (fst y) then x :: l
      else y :: insert_item x rest
  end.

Definition sort_items (l : list (string * string)) : list (string * string) :=
  fold_right insert_item [] l.

(** [json.dumps(v, separators=(',', ':'), sort_keys=sort)] *)
Fixpoint dumps (sort : bool) (v : value) : string :=
  match v with
  | JNull => "null"
  | JBool true => "true"
  | JBool false => "false"
  | JInt z => Py.str_of_Z z
  | JStr s => quote s
  | JDict items =>
      let rendered :=
        (fix go (l : list (string * value)) : list (string * string) :=
           match l with
           | [] => []
           | (k, x) :: rest => (k, dumps sort x) :: go rest
           end) items in
      let ordered := if sort then sort_items rendered else rendered in
      "{" ++ Py.join ","
               (map (fun kv => quote (fst kv) ++ ":" ++ snd kv) ordered)
          ++ "}"
  end.

(** [d.pop(k, None)] *)
Definition pop (k : string) (d : list (string * value))
  : list (string * value) :=
  filter (fun kv => negb (String.eqb (fst kv) k)) d.

(** [s.encode('utf-8')] *)
Definition utf8_char (c : ascii) : bytes :=
  let n := N_of_ascii c in
  if (n <? 128)%N then [byte_of_ascii c]
  else
    match Byte.of_N (192 + n / 64), Byte.of_N (128 + n mod 64) with
    | Some hi, Some lo => [hi; lo]
    | _, _ => []
    end.

Definition encode (s : string) : bytes :=
  flat_map utf8_char (list_ascii_of_string s).

End Json.

Module DateTime.

Definition minutes (d : Z) : Z := d * 60000000.

(** Zero-padded decimal of a non-negative number on [k] digits. *)
Definition pad0 (k : nat) (z : Z) : string := Dec.pad_digits k (Z.to_N z).

(** The proleptic Gregorian date of a day number counted from
    1970-01-01. *)
Definition civil (days : Z) : Z * Z * Z :=
  let z := days + 719468 in
  let era := z / 146097 in
  let doe := z - era * 146097 in
  let yoe := (doe - doe / 1460 + doe / 36524 - doe / 146096) / 365 in
  let doy := doe - (365 * yoe + yoe / 4 - yoe / 100) in
  let mp := (5 * doy + 2) / 153 in
  let d := doy - (153 * mp + 2) / 5 + 1 in
  let m := if mp <? 10 then mp + 3 else mp - 9 in
  let y := yoe + era * 400 + (if m <=? 2 then 1 else 0) in
  (y, m, d).

Definition date_part (t : datetime) : string :=
  let '(y, m, d) := civil (t / 86400000000) in
  pad0 4 y ++ "-" ++ pad0 2 m ++ "-" ++ pad0 2 d.

Definition time_part (t : datetime) : string :=
  let s := (t mod 86400000000) / 1000000 in
  pad0 2 (s / 3600) ++ ":" ++ pad0 2 (s / 60 mod 60) ++ ":" ++ pad0 2 (s mod 60).

(** [t.isoformat()]: the microseconds are printed when they are not 0. *)
Definition isoformat (t : datetime) : string :=
  let us := t mod 1000000 in
  date_part t ++ "T" ++ time_part t
    ++ (if us =? 0 then "" else "." ++ pad0 6 us).

(** [t.strftime('%Y-%m-%d %H:%M:%S')] *)
Definition strftime (t : datetime) : string :=
  date_part t ++ " " ++ time_part t.

End DateTime.

(* ================================================================== *)
(** ** models/payment.py : PaymentEvent *)
(* ================================================================== *)

Module Payment.

Record PaymentEvent := mkPaymentEvent {
  payment_intent_id : string;
  merchant_id : string;
  customer_address : string;
  token_address : string;
  amount : string;
  transaction_hash : string;
  block_number : Z;
  block_timestamp : datetime;
  status : string;
  processed_at : datetime
}.

(** The dataclass constructor followed by [__post_init__]: the four
    address-like fields are normalised to lower case. *)
Definition PaymentEvent_init
    (payment_intent_id merchant_id customer_address token_address
     amount transaction_hash : string)
    (block_number : Z) (block_timestamp : datetime)
    (status : string) (processed_at : datetime) : PaymentEvent :=
  mkPaymentEvent payment_intent_id
                 (Py.lower merchant_id)
                 (Py.lower customer_address)
                 (Py.lower token_address)
                 amount
                 (Py.lower transaction_hash)
                 block_number block_timestamp status processed_at.

(** Common token decimals mapping *)
Definition TOKEN_DECIMALS : list (string * Z) :=
  [ ("0xa0b86991c6218b36c1d19d4a2e9eb0ce3606eb48", 6);
    ("0x1c7d4b196cb0c7b01d743fbc6116a902379c7238", 6);
    ("0xdac17f958d2ee523a2206206994597c13d831ec7", 6);
    ("0x6b175474e89094c44da98b954eedeac495271d0f", 18) ].

(** Token symbol mapping *)
Definition TOKEN_SYMBOLS : list (string * string) :=
  [ ("0xa0b86991c6218b36c1d19d4a2e9eb0ce3606eb48", "USDC");
    ("0x1c7d4b196cb0c7b01d743fbc6116a902379c7238", "USDC");
    ("0xdac17f958d2ee523a2206206994597c13d831ec7", "USDT");
    ("0x6b175474e89094c44da98b954eedeac495271d0f", "DAI") ].

(** [d.get(k, default)] *)
Fixpoint dict_get {V} (d : list (string * V)) (k : string) (default : V) : V :=
  match d with
  | [] => default
  | (k', v) :: rest => if String.eqb k' k then v else dict_get rest k default
  end.

Definition get_token_symbol (e : PaymentEvent) : string :=
  dict_get TOKEN_SYMBOLS (token_address e) "TOKEN".

Definition get_token_decimals (e : PaymentEvent) : Z :=
  dict_get TOKEN_DECIMALS (token_address e) 18.

(** [get_formatted_amount]: the amount with two decimal places for a
    token of at most 6 decimals and four otherwise, and the symbol. *)
Definition get_formatted_amount (e : PaymentEvent) : Py.result string :=
  let decimals := get_token_decimals e in
  match Py.int_of_str (amount e) with
  | None => Py.Raise "ValueError" (Py.int_error (amount e))
  | Some amount_int =>
      match Dec.div (Dec.of_Z amount_int) (Dec.of_Z (10 ^ decimals)) with
      | None => Py.Raise "decimal.DivisionByZero" ""
      | Some amount_decimal =>
          let formatted :=
            if decimals <=? 6 then Dec.format_f 2 amount_decimal
            else Dec.format_f 4 amount_decimal in
          Py.Ok (formatted ++ " " ++ get_token_symbol e)
      end
  end.

(** The number of decimal places a formatted amount shows: the digits
    that follow its first point. *)
Fixpoint count_digits (s : string) : nat :=
  match s with
  | String c s' => if Py.is_digit c then S (count_digits s') else O
  | EmptyString => O
  end.

Fixpoint decimal_places (s : string) : option nat :=
  match s with
  | EmptyString => None
  | String c s' =>
      if Ascii.eqb c "." then Some (count_digits s') else decimal_places s'
  end.

(** [get_event_id]: [f"evt_{transaction_hash}_{payment_intent_id}"] *)
Definition get_event_id (e : PaymentEvent) : string :=
  "evt_" ++ transaction_hash e ++ "_" ++ payment_intent_id e.

(** The key under which the router and the ledger deduplicate. *)
Definition dedup_key (e : PaymentEvent) : string * string :=
  (get_event_id e, merchant_id e).

(** *** WebhookPayload *)

Record WebhookPayload := mkWebhookPayload {
  event_id : string;
  event_type : string;
  timestamp : datetime;
  data : list (string * Json.value);
  signature : option string
}.

(** [from_payment_event]; [now] is the value of [datetime.utcnow()].
    Rendering the amount may raise. *)
Definition from_payment_event (now : datetime) (event : PaymentEvent)
    (event_type : string) : Py.result WebhookPayload :=
  Py.bind (get_formatted_amount event) (fun formatted_amount =>
  Py.Ok (mkWebhookPayload
    (get_event_id event)
    event_type
    now
    [ ("payment_intent_id", Json.JStr (payment_intent_id event));
      ("merchant_id", Json.JStr (merchant_id event));
      ("customer_address", Json.JStr (customer_address event));
      ("token_address", Json.JStr (token_address event));
      ("amount", Json.JStr (amount event));
      ("formatted_amount", Json.JStr formatted_amount);
      ("transaction_hash", Json.JStr (transaction_hash event));
      ("block_number", Json.JInt (block_number event));
      ("block_timestamp", Json.JStr (DateTime.isoformat (block_timestamp event)));
      ("status", Json.JStr (status event)) ]
    None)).

Definition to_dict (p : WebhookPayload) : list (string * Json.value) :=
  [ ("event_id", Json.JStr (event_id p));
    ("event_type", Json.JStr (event_type p));
    ("timestamp", Json.JStr (DateTime.isoformat (timestamp p) ++ "Z"));
    ("data", Json.JDict (data p));
    ("signature", match signature p with
                  | Some sg => Json.JStr sg
                  | None => Json.JNull
                  end) ].

(** [to_json]: compact, keys in insertion order, signature included. *)
Definition to_json (p : WebhookPayload) : string :=
  Json.dumps false (Json.JDict (to_dict p)).

(** The text that [sign] signs ([payload_json] there): the dictionary
    without its signature, compact, keys sorted. *)
Definition canonical_json (p : WebhookPayload) : string :=
  let payload_dict := Json.pop "signature" (to_dict p) in
  Json.dumps true (Json.JDict payload_dict).

(** [sign]: stores the signature in the payload and returns it. *)
Definition sign (p : WebhookPayload) (secret : string)
  : WebhookPayload * string :=
  let payload_json := canonical_json p in
  let sg := Hmac.hexdigest (Json.encode secret) (Json.encode payload_json) in
  (mkWebhookPayload (event_id p) (event_type p) (timestamp p) (data p) (Some sg),
   sg).

(** [verify_signature] (a static method) *)
Definition verify_signature (payload_json signature secret : string)
  : Py.result bool :=
  let expected :=
    Hmac.hexdigest (Json.encode secret) (Json.encode payload_json) in
  Hmac.compare_digest expected signature.

(** *** TelegramMessage *)

Definition short_customer_address (e : PaymentEvent) : string :=
  Py.first_n 6 (customer_address e) ++ "..." ++ Py.last_n 4 (customer_address e).

Definition short_merchant_address (e : PaymentEvent) : string :=
  Py.first_n 6 (merchant_id e) ++ "..." ++ Py.last_n 4 (merchant_id e).

Definition short_payment_id (e : PaymentEvent) : string :=
  if (20 <? String.length (payment_intent_id e))%nat
  then Py.first_n 10 (payment_intent_id e) ++ "..."
         ++ Py.last_n 6 (payment_intent_id e)
  else payment_intent_id e.

Definition nl : string := String (ascii_of_N 10) "".

(** [TelegramMessage.format].  The seven pictographs of the template
    lie outside the character range of the model and are written as
    their UTF-8 bytes. *)
Definition format (event : PaymentEvent) (etherscan_url : string)
  : Py.result string :=
  let tx_link := etherscan_url ++ "/tx/" ++ transaction_hash event in
  Py.bind (get_formatted_amount event) (fun formatted_amount =>
  Py.Ok ("🎉 *Payment Received!*" ++ nl ++ nl
    ++ "💰 *Amount:* " ++ formatted_amount ++ nl
    ++ "👤 *Customer:* `" ++ short_customer_address event ++ "`" ++ nl
    ++ "📝 *Payment ID:* `" ++ short_payment_id event ++ "`" ++ nl ++ nl
    ++ "🔗 [View Transaction](" ++ tx_link ++ ")" ++ nl ++ nl
    ++ "⏰ *Time:* " ++ DateTime.strftime (block_timestamp event) ++ " UTC" ++ nl
    ++ "📦 *Block:* #" ++ Py.str_of_Z (block_number event) ++ nl ++ nl
    ++ "---" ++ nl
    ++ "_Powered by PaymentGateway_")).

End Payment.

(* ================================================================== *)
(** ** models/merchant.py *)
(* ================================================================== *)

Module MerchantModel.

Inductive NotificationType := WEBHOOK | TELEGRAM.

(** [NotificationType(value)]: a string that names no member raises. *)
Definition NotificationType_of_str (v : string) : Py.result NotificationType :=
  if String.eqb v "webhook" then Py.Ok WEBHOOK
  else if String.eqb v "telegram" then Py.Ok TELEGRAM
  else Py.Raise "ValueError" ("'" ++ v ++ "' is not a valid NotificationType").

Record Merchant := mkMerchant {
  id : string;
  notification_type : NotificationType;
  name : option string;
  webhook_url : option string;
  webhook_secret : option string;
  telegram_chat_id : option string;
  is_active : bool;
  created_at : datetime;
  updated_at : datetime
}.

(** A row of the table [merchants], the dictionary [from_dict] reads. *)
Record Row := mkRow {
  row_id : string;
  row_notification_type : string;
  row_name : option string;
  row_webhook_url : option string;
  row_webhook_secret : option string;
  row_telegram_chat_id : option string;
  row_is_active : bool;
  row_created_at : datetime;
  row_updated_at : datetime
}.

Definition is_http_url (u : string) : bool :=
  Py.startswith u "http://" || Py.startswith u "https://".

(** [validate] *)
Definition validate (m : Merchant) : Py.result unit :=
  if String.eqb (id m) "" || negb (String.length (id m) =? 42)%nat then
    Py.Raise "ValueError" "Invalid Ethereum address"
  else
    match notification_type m with
    | WEBHOOK =>
        match webhook_url m with
        | Some u =>
            if String.eqb u "" then
              Py.Raise "ValueError"
                "Webhook URL is required for webhook notifications"
            else if negb (is_http_url u) then
              Py.Raise "ValueError" "Webhook URL must be a valid HTTP(S) URL"
            else Py.Ok tt
        | None =>
            Py.Raise "ValueError"
              "Webhook URL is required for webhook notifications"
        end
    | TELEGRAM =>
        if negb (Py.truthy (telegram_chat_id m)) then
          Py.Raise "ValueError"
            "Telegram chat ID is required for Telegram notifications"
        else Py.Ok tt
    end.

(** The address normalisation of [__post_init__]. *)
Definition normalise_id (i : string) : string :=
  Py.lower (if negb (String.eqb i "") && negb (Py.startswith i "0x")
            then "0x" ++ i else i).

(** [from_dict]: the constructor on the fields of a row, then
    [__post_init__] (enum conversion, address normalisation,
    [validate]). *)
Definition from_dict (r : Row) : Py.result Merchant :=
  Py.bind (NotificationType_of_str (row_notification_type r)) (fun nt =>
  let m := mkMerchant (normalise_id (row_id r)) nt (row_name r)
             (row_webhook_url r) (row_webhook_secret r)
             (row_telegram_chat_id r) (row_is_active r)
             (row_created_at r) (row_updated_at r) in
  Py.bind (validate m) (fun _ => Py.Ok m)).

Definition is_webhook (m : Merchant) : bool :=
  match notification_type m with WEBHOOK => true | TELEGRAM => false end.

Definition is_telegram (m : Merchant) : bool :=
  match notification_type m with TELEGRAM => true | WEBHOOK => false end.

End MerchantModel.

(* ================================================================== *)
(** ** database/db.py : the ledger *)
(* ================================================================== *)

Module Db.

(** The [payload] column.  The source stores text: [to_json] of the
    payload for a webhook row, the rendered message for a chat row.  The
    model keeps the payload itself for a webhook row; where the source
    parses the stored text back, the model reads the payload. *)
Inductive Payload :=
| JsonPayload (p : Payment.WebhookPayload)
| TextPayload (s : string).

Definition payload_text (p : Payload) : string :=
  match p with
  | JsonPayload w => Payment.to_json w
  | TextPayload s => s
  end.

(** A row of the table [webhook_deliveries]. *)
Record Delivery := mkDelivery {
  id : Z;
  merchant_id : string;
  event_type : string;
  event_id : string;
  delivery_method : string;
  payload : Payload;
  success : bool;
  response_code : option Z;
  response_body : option string;
  retry_count : Z;
  next_retry_at : option datetime;
  delivered_at : datetime;
  created_at : datetime
}.

Record Database := mkDatabase {
  _is_postgres : bool;
  merchants : list MerchantModel.Row;
  webhook_deliveries : list Delivery;
  (** the next value of the row-id sequence *)
  next_id : Z
}.

Definition set_deliveries (db : Database) (l : list Delivery) : Database :=
  mkDatabase (_is_postgres db) (merchants db) l (next_id db).

(** [get_merchant] *)
Definition get_merchant (db : Database) (merchant_id : string)
  : option MerchantModel.Row :=
  find (fun r => String.eqb (MerchantModel.row_id r) merchant_id)
       (merchants db).

Definition same_key (event_id merchant_id : string) (d : Delivery) : bool :=
  String.eqb (Db.event_id d) event_id
  && String.eqb (Db.merchant_id d) merchant_id.

(** Modelled from the spec: [schema.sql] is not among the sources; the
    table holds one row per (event id, merchant id), which is the
    uniqueness constraint the two upserts of [log_delivery] resolve
    against.

    [log_delivery].  PostgreSQL ([ON CONFLICT ... DO UPDATE]) overwrites
    six columns of the row of that key and keeps its id; SQLite
    ([INSERT OR REPLACE]) deletes the row of that key and inserts the
    new one under a fresh id.  Returns the id of the row written. *)
Definition log_delivery (now : datetime) (db : Database)
    (merchant_id event_type event_id delivery_method : string)
    (payload : Payload) (success : bool)
    (response_code : option Z) (response_body : option string)
    (retry_count : Z) (next_retry_at : option datetime)
  : Database * Z :=
  let fresh :=
    mkDelivery (next_id db) merchant_id event_type event_id delivery_method
      payload success response_code response_body retry_count next_retry_at
      now now in
  let rows := webhook_deliveries db in
  if _is_postgres db then
    match find (same_key event_id merchant_id) rows with
    | Some old =>
        let upd d :=
          if same_key event_id merchant_id d then
            mkDelivery (id d) (Db.merchant_id d) (Db.event_type d)
              (Db.event_id d) (Db.delivery_method d) (Db.payload d)
              success response_code response_body retry_count next_retry_at
              now (created_at d)
          else d in
        (mkDatabase true (merchants db) (map upd rows) (next_id db + 1),
         id old)
    | None =>
        (mkDatabase true (merchants db) (rows ++ [fresh]) (next_id db + 1),
         next_id db)
    end
  else
    let kept := filter (fun d => negb (same_key event_id merchant_id d)) rows in
    (mkDatabase false (merchants db) (kept ++ [fresh]) (next_id db + 1),
     next_id db).

(** [update_merchant_status] *)
Definition update_merchant_status (now : datetime) (db : Database)
    (merchant_id : string) (is_active : bool) : Database :=
  mkDatabase (_is_postgres db)
    (map (fun r =>
            if String.eqb (MerchantModel.row_id r) merchant_id then
              MerchantModel.mkRow (MerchantModel.row_id r)
                (MerchantModel.row_notification_type r) (MerchantModel.row_name r)
                (MerchantModel.row_webhook_url r)
                (MerchantModel.row_webhook_secret r)
                (MerchantModel.row_telegram_chat_id r) is_active
                (MerchantModel.row_created_at r) now
            else r)
         (merchants db))
    (webhook_deliveries db) (next_id db).

(** A row of the join of [get_pending_retries]. *)
Record Pending := mkPending {
  delivery : Delivery;
  webhook_url : option string;
  webhook_secret : option string;
  telegram_chat_id : option string
}.

Definition due (now : datetime) (d : Delivery) : bool :=
  negb (success d)
  && match next_retry_at d with
     | Some t => t <=? now
     | None => false
     end.

Definition retry_time (p : Pending) : datetime :=
  match next_retry_at (delivery p) with Some t => t | None => 0 end.

Fixpoint insert_by_time (x : Pending) (l : list Pending) : list Pending :=
  match l with
  | [] => [x]
  | y :: rest =>
      if retry_time x <=? retry_time y then x :: l
      else y :: insert_by_time x rest
  end.

(** [get_pending_retries]: the unsuccessful rows whose retry time has
    come, joined with their merchant, ordered by retry time (rows of
    equal time in table order). *)
Definition get_pending_retries (now : datetime) (db : Database)
  : list Pending :=
  let joined :=
    flat_map (fun d =>
      map (fun m => mkPending d (MerchantModel.row_webhook_url m)
                      (MerchantModel.row_webhook_secret m)
                      (MerchantModel.row_telegram_chat_id m))
          (filter (fun m => String.eqb (MerchantModel.row_id m) (merchant_id d))
                  (merchants db)))
      (filter (due now) (webhook_deliveries db)) in
  fold_right insert_by_time [] joined.

(** [mark_delivery_success] *)
Definition mark_delivery_success (now : datetime) (db : Database)
    (delivery_id : Z) : Database :=
  set_deliveries db
    (map (fun d =>
            if id d =? delivery_id then
              mkDelivery (id d) (merchant_id d) (event_type d) (event_id d)
                (delivery_method d) (payload d) true (response_code d)
                (response_body d) (retry_count d) None now (created_at d)
            else d)
         (webhook_deliveries db)).

(** [update_delivery_retry] *)
Definition update_delivery_retry (now : datetime) (db : Database)
    (delivery_id : Z) (retry_count : Z) (next_retry_at : option datetime)
    (response_code : option Z) (response_body : option string) : Database :=
  set_deliveries db
    (map (fun d =>
            if id d =? delivery_id then
              mkDelivery (id d) (merchant_id d) (event_type d) (event_id d)
                (delivery_method d) (payload d) (success d) response_code
                response_body retry_count next_retry_at now (created_at d)
            else d)
         (webhook_deliveries db)).

(** [check_event_processed]: is there a successful row of that key? *)
Definition check_event_processed (db : Database)
    (event_id merchant_id : string) : bool :=
  existsb (fun d => same_key event_id merchant_id d && success d)
          (webhook_deliveries db).

(** The row of an id, for reading the ledger. *)
Definition by_id (db : Database) (i : Z) : option Delivery :=
  find (fun d => id d =? i) (webhook_deliveries db).

(** The row of a key, for reading the ledger. *)
Definition lookup (db : Database) (event_id merchant_id : string)
  : option Delivery :=
  find (same_key event_id merchant_id) (webhook_deliveries db).

End Db.

(* ================================================================== *)
(** ** The process state, the environment and the effect monad *)
(* ================================================================== *)

(** What a POST of the webhook transport comes back with. *)
Inductive HttpOutcome :=
| HttpResponse (status : Z) (body : string)
| HttpClientError (msg : string)
| HttpTimeout
| HttpException (msg : string).

(** The JSON object of a bot-API answer, as far as the service reads it:
    [error_code], [description] and its [str()]. *)
Record TgData := mkTgData {
  error_code : option Z;
  description : option string;
  repr : string
}.

(** What a [sendMessage] call comes back with: the decoded answer (its
    [ok] flag, the answer itself and its [result] member), or an
    exception. *)
Inductive TgOutcome :=
| TgResponse (ok : bool) (data result : TgData)
| TgClientError (msg : string)
| TgException (msg : string).

(** The network: the outcome of the n-th call of each transport. *)
Record Env := mkEnv {
  http_reply : nat -> HttpOutcome;
  telegram_reply : nat -> TgOutcome
}.

Record HttpRequest := mkHttpRequest {
  req_url : string;
  req_body : string;
  req_headers : list (string * string)
}.

Record TgRequest := mkTgRequest {
  req_chat_id : string;
  req_text : string;
  req_parse_mode : string
}.

(** The counters of [NotificationRouter._stats]. *)
Record Stats := mkStats {
  total_notifications : Z;
  webhook_sent : Z;
  telegram_sent : Z;
  webhook_failed : Z;
  telegram_failed : Z;
  merchant_not_found : Z;
  already_processed : Z
}.

(** The mutable state the services and the router share.  [clock] is the
    time, in microseconds: both [datetime.utcnow()] and the event loop's
    [time()] read it, and [asyncio.sleep] advances it.  [http_posts] and
    [telegram_posts] record the transport calls performed. *)
Record State := mkState {
  db : Db.Database;
  clock : Z;
  webhook_session : bool;
  telegram_session : bool;
  http_posts : list HttpRequest;
  telegram_posts : list TgRequest;
  _last_send_times : list Z;
  _stats : Stats
}.

Definition with_db (d : Db.Database) (st : State) : State :=
  mkState d (clock st) (webhook_session st) (telegram_session st)
    (http_posts st) (telegram_posts st) (_last_send_times st) (_stats st).

Definition with_stats (s : Stats) (st : State) : State :=
  mkState (db st) (clock st) (webhook_session st) (telegram_session st)
    (http_posts st) (telegram_posts st) (_last_send_times st) s.

(** Time passes: [d] microseconds. *)
Definition advance (d : Z) (st : State) : State :=
  mkState (db st) (clock st + d) (webhook_session st) (telegram_session st)
    (http_posts st) (telegram_posts st) (_last_send_times st) (_stats st).

(** The number of transport calls performed so far. *)
Definition transport_calls (st : State) : nat :=
  (List.length (http_posts st) + List.length (telegram_posts st))%nat.

Module Eff.

Definition M (A : Type) : Type := State -> Py.result A * State.

Definition ret {A} (a : A) : M A := fun st => (Py.Ok a, st).

Definition bind {A B} (m : M A) (k : A -> M B) : M B :=
  fun st =>
    match m st with
    | (Py.Ok a, st') => k a st'
    | (Py.Raise e msg, st') => (Py.Raise e msg, st')
    end.

Definition lift {A} (r : Py.result A) : M A := fun st => (r, st).

Definition get : M State := fun st => (Py.Ok st, st).

Definition put (st : State) : M unit := fun _ => (Py.Ok tt, st).

(** [try: m  except Exception: pass] *)
Definition swallow (m : M unit) : M unit :=
  fun st =>
    match m st with
    | (Py.Ok _, st') => (Py.Ok tt, st')
    | (Py.Raise _ _, st') => (Py.Ok tt, st')
    end.

(** [for x in l: await f(x)] *)
Fixpoint for_each {A} (l : list A) (f : A -> M unit) : M unit :=
  match l with
  | [] => ret tt
  | x :: rest => bind (f x) (fun _ => for_each rest f)
  end.

Definition set_db (d : Db.Database) : M unit :=
  fun st => (Py.Ok tt, with_db d st).

Definition set_stats (s : Stats) : M unit :=
  fun st => (Py.Ok tt, with_stats s st).

(** [datetime.utcnow()] *)
Definition utcnow : M datetime := fun st => (Py.Ok (clock st), st).

End Eff.

Notation "x <- c1 ;; c2" := (Eff.bind c1 (fun x => c2))
  (at level 61, c1 at next level, right associativity).
Notation "c1 ;;; c2" := (Eff.bind c1 (fun _ => c2))
  (at level 61, right associativity).

(** The database calls, on the shared state. *)
Module DbM.

Definition log_delivery
    (merchant_id event_type event_id delivery_method : string)
    (payload : Db.Payload) (success : bool)
    (response_code : option Z) (response_body : option string)
    (retry_count : Z) (next_retry_at : option datetime) : Eff.M Z :=
  st <- Eff.get ;;
  let (d, i) := Db.log_delivery (clock st) (db st) merchant_id event_type
                  event_id delivery_method payload success response_code
                  response_body retry_count next_retry_at in
  Eff.set_db d ;;; Eff.ret i.

Definition get_pending_retries : Eff.M (list Db.Pending) :=
  st <- Eff.get ;; Eff.ret (Db.get_pending_retries (clock st) (db st)).

Definition mark_delivery_success (delivery_id : Z) : Eff.M unit :=
  st <- Eff.get ;;
  Eff.set_db (Db.mark_delivery_success (clock st) (db st) delivery_id).

Definition update_delivery_retry (delivery_id retry_count : Z)
    (next_retry_at : option datetime) (response_code : option Z)
    (response_body : option string) : Eff.M unit :=
  st <- Eff.get ;;
  Eff.set_db (Db.update_delivery_retry (clock st) (db st) delivery_id
                retry_count next_retry_at response_code response_body).

Definition check_event_processed (event_id merchant_id : string)
  : Eff.M bool :=
  st <- Eff.get ;;
  Eff.ret (Db.check_event_processed (db st) event_id merchant_id).

Definition get_merchant (merchant_id : string)
  : Eff.M (option MerchantModel.Row) :=
  st <- Eff.get ;; Eff.ret (Db.get_merchant (db st) merchant_id).

End DbM.

(* ================================================================== *)
(** ** services/webhook_service.py *)
(* ================================================================== *)

Module WebhookService.

Record t := mk {
  timeout : Z;
  max_retries : Z;
  (** delays in minutes between retries *)
  retry_delays : list Z
}.

(** The defaults of [config.webhook]. *)
Definition default : t := mk 30 4 [1; 5; 15; 60].

Definition signature_header (p : Payment.WebhookPayload) : string :=
  "sha256=" ++ match Payment.signature p with
               | Some sg => sg
               | None => "None"
               end.

(** [_deliver]: one POST, classified by its status.  (The time the POST
    takes is not part of the call: in the event loop below it passes
    between this call and what follows it.) *)
Definition _deliver (env : Env) (url : string)
    (payload : Payment.WebhookPayload) (secret : string)
  : Eff.M (bool * option Z * option string) :=
  fun st =>
    if negb (webhook_session st) then
      (Py.Ok (false, None, Some "Session not initialized"), st)
    else
      let headers :=
        [ ("Content-Type", "application/json");
          ("X-Webhook-Signature", signature_header payload);
          ("X-Webhook-Event", Payment.event_type payload);
          ("X-Webhook-ID", Payment.event_id payload);
          ("X-Webhook-Timestamp",
           DateTime.isoformat (Payment.timestamp payload)) ] in
      let request := mkHttpRequest url (Payment.to_json payload) headers in
      let st' :=
        mkState (db st) (clock st) (webhook_session st) (telegram_session st)
          (http_posts st ++ [request])%list (telegram_posts st)
          (_last_send_times st) (_stats st) in
      match http_reply env (List.length (http_posts st)) with
      | HttpResponse status response_body =>
          if (200 <=? status) && (status <? 300)
          then (Py.Ok (true, Some status, Some response_body), st')
          else (Py.Ok (false, Some status, Some response_body), st')
      | HttpClientError e => (Py.Ok (false, None, Some e), st')
      | HttpTimeout => (Py.Ok (false, None, Some "Request timeout"), st')
      | HttpException e => (Py.Ok (false, None, Some e), st')
      end.

(** [send_notification] *)
Definition send_notification (self : t) (env : Env)
    (merchant : MerchantModel.Merchant) (event : Payment.PaymentEvent)
    (event_type : string) : Eff.M (bool * option string) :=
  if negb (MerchantModel.is_webhook merchant) then
    Eff.ret (false, Some "Merchant is not configured for webhook notifications")
  else
    match MerchantModel.webhook_url merchant,
          MerchantModel.webhook_secret merchant with
    | Some url, Some secret =>
        if String.eqb url "" || String.eqb secret "" then
          Eff.ret (false, Some "Webhook URL or secret not configured")
        else
          now <- Eff.utcnow ;;
          unsigned <- Eff.lift (Payment.from_payment_event now event event_type) ;;
          let payload := fst (Payment.sign unsigned secret) in
          r <- _deliver env url payload secret ;;
          let '(success, response_code, response_body) := r in
          now' <- Eff.utcnow ;;
          let next_retry :=
            if negb success && (0 <? List.length (retry_delays self))%nat
            then Some (now' + DateTime.minutes (nth 0 (retry_delays self) 0))
            else None in
          DbM.log_delivery (MerchantModel.id merchant) event_type
            (Payment.event_id payload) "webhook" (Db.JsonPayload payload)
            success response_code response_body 0 next_retry ;;;
          if success then Eff.ret (true, None)
          else Eff.ret (false, response_body)
    | _, _ => Eff.ret (false, Some "Webhook URL or secret not configured")
    end.

(** [_retry_delivery] *)
Definition _retry_delivery (self : t) (env : Env) (delivery : Db.Pending)
  : Eff.M unit :=
  let row := Db.delivery delivery in
  let delivery_id := Db.id row in
  let retry_count := Db.retry_count row in
  let payload_json := Db.payload_text (Db.payload row) in
  if negb (Py.truthy (Db.webhook_url delivery))
     || negb (Py.truthy (Db.webhook_secret delivery))
     || String.eqb payload_json ""
  then
    DbM.update_delivery_retry delivery_id (retry_count + 1) None None
      (Some "Missing webhook configuration")
  else
    match Db.webhook_url delivery, Db.webhook_secret delivery,
          Db.payload row with
    | Some webhook_url, Some webhook_secret, Db.JsonPayload stored =>
        let payload := fst (Payment.sign stored webhook_secret) in
        r <- _deliver env webhook_url payload webhook_secret ;;
        let '(success, response_code, response_body) := r in
        if success then DbM.mark_delivery_success delivery_id
        else
          let new_retry_count := retry_count + 1 in
          now <- Eff.utcnow ;;
          let next_retry :=
            if new_retry_count <? Z.of_nat (List.length (retry_delays self))
            then
              let next_delay :=
                nth (Z.to_nat new_retry_count) (retry_delays self) 0 in
              Some (now + DateTime.minutes next_delay)
            else None in
          DbM.update_delivery_retry delivery_id new_retry_count next_retry
            response_code response_body
    | _, _, _ =>
        Eff.lift (Py.Raise "json.JSONDecodeError" "Expecting value")
    end.

(** [_process_retries] *)
Definition _process_retries (self : t) (env : Env) : Eff.M unit :=
  pending <- DbM.get_pending_retries ;;
  let webhook_retries :=
    filter (fun p => String.eqb (Db.delivery_method (Db.delivery p)) "webhook")
           pending in
  Eff.for_each webhook_retries (_retry_delivery self env).

(** One turn of the loop of [_retry_processor]: an exception of the
    sweep is logged and the loop goes on. *)
Definition retry_tick (self : t) (env : Env) : Eff.M unit :=
  Eff.swallow (_process_retries self env).

End WebhookService.

(* ================================================================== *)
(** ** services/telegram_service.py *)
(* ================================================================== *)

Module TelegramService.

Record t := mk {
  bot_token : string;
  etherscan_url : string
}.

(** 20 sends per period of one second (in microseconds). *)
Definition RATE_LIMIT : nat := 20.
Definition RATE_PERIOD : Z := 1000000.

(** The decision of [_apply_rate_limit] at loop time [now] with the
    recorded send times [times]: the time to sleep and the new record.
    The time appended is [now], the reading taken on entry. *)
Definition rate_limit (now : Z) (times : list Z) : Z * list Z :=
  let times := filter (fun t => now - t <? RATE_PERIOD) times in
  let wait_time :=
    if (RATE_LIMIT <=? List.length times)%nat
    then nth 0 times 0 + RATE_PERIOD - now
    else 0 in
  ((if 0 <? wait_time then wait_time else 0), (times ++ [now])%list).

(** [_apply_rate_limit]: sleeping advances the clock. *)
Definition _apply_rate_limit : Eff.M unit :=
  fun st =>
    let (wait_time, times) := rate_limit (clock st) (_last_send_times st) in
    (Py.Ok tt,
     mkState (db st) (clock st + wait_time) (webhook_session st)
       (telegram_session st) (http_posts st) (telegram_posts st) times
       (_stats st)).

(** The dictionary [{'description': msg}] that stands for an exception,
    with its [str()]. *)
Definition error_data (msg : string) : TgData :=
  mkTgData None (Some msg) ("{'description': " ++ Py.repr_str msg ++ "}").

(** [_send_message] *)
Definition _send_message (env : Env) (chat_id text parse_mode : string)
  : Eff.M (bool * TgData) :=
  fun st =>
    if negb (telegram_session st) then
      (Py.Ok (false, error_data "Session not initialized"), st)
    else
      match _apply_rate_limit st with
      | (_, st1) =>
          let request := mkTgRequest chat_id text parse_mode in
          let st' :=
            mkState (db st1) (clock st1) (webhook_session st1)
              (telegram_session st1) (http_posts st1)
              (telegram_posts st1 ++ [request])%list (_last_send_times st1)
              (_stats st1) in
          match telegram_reply env (List.length (telegram_posts st1)) with
          | TgResponse true _ result => (Py.Ok (true, result), st')
          | TgResponse false data _ => (Py.Ok (false, data), st')
          | TgClientError e => (Py.Ok (false, error_data e), st')
          | TgException e => (Py.Ok (false, error_data e), st')
          end
      end.

(** [send_notification] *)
Definition send_notification (self : t) (env : Env)
    (merchant : MerchantModel.Merchant) (event : Payment.PaymentEvent)
    (event_type : string) : Eff.M (bool * option string) :=
  if negb (MerchantModel.is_telegram merchant) then
    Eff.ret (false, Some "Merchant is not configured for Telegram notifications")
  else
    match MerchantModel.telegram_chat_id merchant with
    | Some chat_id =>
        if String.eqb chat_id "" then
          Eff.ret (false, Some "Telegram chat ID not configured")
        else
          message_text <- Eff.lift (Payment.format event (etherscan_url self)) ;;
          r <- _send_message env chat_id message_text "Markdown" ;;
          let (success, response) := r in
          let event_id := Payment.get_event_id event in
          now <- Eff.utcnow ;;
          let next_retry :=
            if negb success then Some (now + DateTime.minutes 1) else None in
          DbM.log_delivery (MerchantModel.id merchant) event_type event_id
            "telegram" (Db.TextPayload message_text) success
            (if negb success then error_code response else Some 200)
            (Some (repr response)) 0 next_retry ;;;
          if success then Eff.ret (true, None)
          else
            Eff.ret (false,
                     Some (match description response with
                           | Some error_msg => error_msg
                           | None => "Unknown error"
                           end))
    | None => Eff.ret (false, Some "Telegram chat ID not configured")
    end.

(** [_retry_delivery] *)
Definition _retry_delivery (env : Env) (delivery : Db.Pending) : Eff.M unit :=
  let row := Db.delivery delivery in
  let delivery_id := Db.id row in
  let message_text := Db.payload_text (Db.payload row) in
  let retry_count := Db.retry_count row in
  match Db.telegram_chat_id delivery with
  | Some chat_id =>
      if String.eqb chat_id "" || String.eqb message_text "" then
        DbM.update_delivery_retry delivery_id (retry_count + 1) None None
          (Some "Missing Telegram configuration")
      else
        r <- _send_message env chat_id message_text "Markdown" ;;
        let (success, response) := r in
        if success then DbM.mark_delivery_success delivery_id
        else
          let new_retry_count := retry_count + 1 in
          now <- Eff.utcnow ;;
          (* Max 3 retries for Telegram *)
          let next_retry :=
            if new_retry_count <? 3
            then Some (now + DateTime.minutes (5 * new_retry_count))
            else None in
          DbM.update_delivery_retry delivery_id new_retry_count next_retry
            (error_code response) (Some (repr response))
  | None =>
      DbM.update_delivery_retry delivery_id (retry_count + 1) None None
        (Some "Missing Telegram configuration")
  end.

(** [_process_retries] *)
Definition _process_retries (env : Env) : Eff.M unit :=
  pending <- DbM.get_pending_retries ;;
  let telegram_retries :=
    filter (fun p => String.eqb (Db.delivery_method (Db.delivery p)) "telegram")
           pending in
  Eff.for_each telegram_retries (_retry_delivery env).

(** One turn of the loop of [_retry_processor]. *)
Definition retry_tick (env : Env) : Eff.M unit :=
  Eff.swallow (_process_retries env).

(** The times at which [n] sends issued one after the other leave
    [_apply_rate_limit], when [gap] microseconds pass between the return
    of one call and the entry of the next. *)
Fixpoint send_times (n : nat) (gap : Z) (clock : Z) (times : list Z)
  : list Z :=
  match n with
  | O => []
  | S n' =>
      let (wait_time, times') := rate_limit clock times in
      let sent := clock + wait_time in
      sent :: send_times n' gap (sent + gap) times'
  end.

(** How many of the sends at [sent] fall in the window of one period
    that ends at [t] (the instants [t - RATE_PERIOD < x <= t]). *)
Definition sends_in_window (sent : list Z) (t : Z) : nat :=
  List.length (filter (fun x => (t - RATE_PERIOD <? x) && (x <=? t)) sent).

End TelegramService.

(* ================================================================== *)
(** ** services/notification_router.py *)
(* ================================================================== *)

Module Router.

Definition bump (f : Stats -> Stats) : Eff.M unit :=
  st <- Eff.get ;; Eff.set_stats (f (_stats st)).

Definition inc_total (s : Stats) : Stats :=
  mkStats (total_notifications s + 1) (webhook_sent s) (telegram_sent s)
    (webhook_failed s) (telegram_failed s) (merchant_not_found s)
    (already_processed s).
Definition inc_webhook_sent (s : Stats) : Stats :=
  mkStats (total_notifications s) (webhook_sent s + 1) (telegram_sent s)
    (webhook_failed s) (telegram_failed s) (merchant_not_found s)
    (already_processed s).
Definition inc_telegram_sent (s : Stats) : Stats :=
  mkStats (total_notifications s) (webhook_sent s) (telegram_sent s + 1)
    (webhook_failed s) (telegram_failed s) (merchant_not_found s)
    (already_processed s).
Definition inc_webhook_failed (s : Stats) : Stats :=
  mkStats (total_notifications s) (webhook_sent s) (telegram_sent s)
    (webhook_failed s + 1) (telegram_failed s) (merchant_not_found s)
    (already_processed s).
Definition inc_telegram_failed (s : Stats) : Stats :=
  mkStats (total_notifications s) (webhook_sent s) (telegram_sent s)
    (webhook_failed s) (telegram_failed s + 1) (merchant_not_found s)
    (already_processed s).
Definition inc_merchant_not_found (s : Stats) : Stats :=
  mkStats (total_notifications s) (webhook_sent s) (telegram_sent s)
    (webhook_failed s) (telegram_failed s) (merchant_not_found s + 1)
    (already_processed s).
Definition inc_already_processed (s : Stats) : Stats :=
  mkStats (total_notifications s) (webhook_sent s) (telegram_sent s)
    (webhook_failed s) (telegram_failed s) (merchant_not_found s)
    (already_processed s + 1).

Record t := mk {
  webhook_service : WebhookService.t;
  telegram_service : TelegramService.t
}.

(** [_send_webhook] *)
Definition _send_webhook (self : t) (env : Env)
    (merchant : MerchantModel.Merchant) (event : Payment.PaymentEvent)
    (event_type : string) : Eff.M (bool * option string) :=
  r <- WebhookService.send_notification (webhook_service self) env merchant
         event event_type ;;
  let (success, error) := r in
  (if success then bump inc_webhook_sent else bump inc_webhook_failed) ;;;
  Eff.ret (success, error).

(** [_send_telegram] *)
Definition _send_telegram (self : t) (env : Env)
    (merchant : MerchantModel.Merchant) (event : Payment.PaymentEvent)
    (event_type : string) : Eff.M (bool * option string) :=
  r <- TelegramService.send_notification (telegram_service self) env merchant
         event event_type ;;
  let (success, error) := r in
  (if success then bump inc_telegram_sent else bump inc_telegram_failed) ;;;
  Eff.ret (success, error).

(** [route_notification].  The notification type of a merchant is one
    of the two members of the enumeration, so the last branch of the
    source (unknown type) has no counterpart. *)
Definition route_notification (self : t) (env : Env)
    (event : Payment.PaymentEvent) (event_type : string)
  : Eff.M (bool * option string) :=
  bump inc_total ;;;
  let merchant_id := Payment.merchant_id event in
  (* Check if already processed (deduplication) *)
  already <- DbM.check_event_processed (Payment.get_event_id event) merchant_id ;;
  if already : bool then
    bump inc_already_processed ;;; Eff.ret (true, None)
  else
    (* Look up merchant *)
    merchant_data <- DbM.get_merchant merchant_id ;;
    match merchant_data with
    | None =>
        bump inc_merchant_not_found ;;;
        Eff.ret (false, Some ("Merchant " ++ merchant_id ++ " not registered"))
    | Some row =>
        merchant <- Eff.lift (MerchantModel.from_dict row) ;;
        (* Check if merchant is active *)
        if negb (MerchantModel.is_active merchant) then
          Eff.ret (false, Some "Merchant is inactive")
        else
          match MerchantModel.notification_type merchant with
          | MerchantModel.WEBHOOK => _send_webhook self env merchant event event_type
          | MerchantModel.TELEGRAM => _send_telegram self env merchant event event_type
          end
    end.

End Router.

(* ================================================================== *)
(** ** The process as a whole *)
(* ================================================================== *)

(** What happens to the process: an event is routed, the retry loop of
    a transport wakes up, or time passes.  [step] and [run_ops] run the
    operations one after the other, each to its end before the next
    starts; in the event loop further down ([run_moves]) they overlap
    at their awaits. *)
Inductive Op :=
| Route (event : Payment.PaymentEvent) (event_type : string)
| WebhookRetry
| TelegramRetry
| Wait (d : Z).

Definition step (self : Router.t) (env : Env) (st : State) (o : Op) : State :=
  match o with
  | Route event event_type =>
      snd (Router.route_notification self env event event_type st)
  | WebhookRetry =>
      snd (WebhookService.retry_tick (Router.webhook_service self) env st)
  | TelegramRetry => snd (TelegramService.retry_tick env st)
  | Wait d => advance d st
  end.

Definition run_ops (self : Router.t) (env : Env) (ops : list Op) (st : State)
  : State :=
  fold_left (step self env) ops st.

(** [d'] comes from [d] by rewriting rows in place: the same ids in the
    same order, only rows whose id is [touched] may differ; the directory
    and the id sequence are as they were. *)
Definition rows_rewritten (touched : Z -> Prop) (d d' : Db.Database) : Prop :=
  exists f,
    Db.webhook_deliveries d' = map f (Db.webhook_deliveries d)
    /\ (forall x, Db.id (f x) = Db.id x)
    /\ (forall x, ~ touched (Db.id x) -> f x = x)
    /\ Db.merchants d' = Db.merchants d
    /\ Db.next_id d' = Db.next_id d.

(** The ids of the rows in the retry queue of a state. *)
Definition queued (st : State) (i : Z) : Prop :=
  exists p, In p (Db.get_pending_retries (clock st) (db st))
            /\ Db.id (Db.delivery p) = i.

(** On PostgreSQL and on SQLite. *)
Definition forall_backends (P : bool -> Prop) : Prop := P true /\ P false.

(** A ledger as the service and the merchant API leave it: row ids are
    distinct and below the next id of the sequence, and the ids of the
    directory are in normal form (lower case, with the 0x prefix). *)
Definition well_formed (d : Db.Database) : Prop :=
  NoDup (map Db.id (Db.webhook_deliveries d))
  /\ Forall (fun r => Db.id r < Db.next_id d) (Db.webhook_deliveries d)
  /\ Forall (fun m => MerchantModel.normalise_id (MerchantModel.row_id m)
                      = MerchantModel.row_id m)
            (Db.merchants d).

(* ================================================================== *)
(** ** A small deployment, for running the model *)
(* ================================================================== *)

Module Scenario.

Definition shop_id : string := "0x1234567890123456789012345678901234567890".
Definition chat_shop_id : string := "0xabcdefabcdefabcdefabcdefabcdefabcdefabcd".

Definition shop : MerchantModel.Row :=
MerchantModel.mkRow shop_id "webhook" (Some "Test Shop")
  (Some "https://example.com/webhook") (Some "secret123") None true 0 0.

Definition chat_shop : MerchantModel.Row :=
MerchantModel.mkRow chat_shop_id "telegram" (Some "Chat Shop") None None
  (Some "123456789") true 0 0.

Definition closed_shop : MerchantModel.Row :=
MerchantModel.mkRow shop_id "webhook" (Some "Test Shop")
  (Some "https://example.com/webhook") (Some "secret123") None false 0 0.

(** A directory row whose id was stored without the 0x prefix. *)
Definition bare_id : string := "1234567890123456789012345678901234567890".

Definition bare_shop : MerchantModel.Row :=
MerchantModel.mkRow bare_id "webhook" (Some "Test Shop")
  (Some "https://example.com/webhook") (Some "secret123") None true 0 0.

Definition usdc : string := "0xA0b86991c6218b36c1d19d4a2e9eb0ce3606eb48".

Definition payment (merchant : string) : Payment.PaymentEvent :=
Payment.PaymentEvent_init "pi_test123" merchant
  "0x0987654321098765432109876543210987654321" usdc "100000000"
  "0xABCDEF1234567890abcdef1234567890abcdef1234567890abcdef1234567890"
  12345678 1706400000000000 "completed" 1706400005000000.

Definition no_stats : Stats := mkStats 0 0 0 0 0 0 0.

(** A started process at 2024-01-28T00:00:10 with an empty ledger. *)
Definition start (postgres : bool) (merchants : list MerchantModel.Row) : State :=
mkState (Db.mkDatabase postgres merchants [] 1) 1706400010000000 true true
  [] [] [] no_stats.

Definition bot_error : TgData :=
mkTgData (Some 400) (Some "Bad Request: chat not found")
  "{'ok': False, 'error_code': 400, 'description': 'Bad Request: chat not found'}".

Definition bot_result : TgData := mkTgData None None "{'message_id': 1}".

(** Every endpoint is down. *)
Definition down : Env :=
mkEnv (fun _ => HttpResponse 500 "Internal Server Error")
      (fun _ => TgResponse false bot_error bot_error).

(** Every endpoint answers. *)
Definition up : Env :=
mkEnv (fun _ => HttpResponse 200 "ok")
      (fun _ => TgResponse true bot_result bot_result).

(** The first call of each transport succeeds, the later ones fail. *)
Definition up_once : Env :=
mkEnv (fun n => match n with
                | O => HttpResponse 200 "ok"
                | _ => HttpResponse 500 "Internal Server Error"
                end)
      (fun n => match n with
                | O => TgResponse true bot_result bot_result
                | _ => TgResponse false bot_error bot_error
                end).

Definition router : Router.t :=
Router.mk WebhookService.default
  (TelegramService.mk "token" "https://sepolia.etherscan.io").

(** The state a computation ends in. *)
Definition after {A} (m : Eff.M A) (st : State) : State := snd (m st).

(** What the ledger says of the delivery of [e]: its success flag, its
    retry count, and how far ahead of the clock its next retry lies. *)
Definition schedule_of (e : Payment.PaymentEvent) (st : State)
  : option (bool * Z * option Z) :=
  option_map
    (fun d => (Db.success d, Db.retry_count d,
               option_map (fun t => t - clock st) (Db.next_retry_at d)))
    (Db.lookup (db st) (Payment.get_event_id e) (Payment.merchant_id e)).

(** Two hours pass, then the retry loop of a transport wakes up. *)
Definition webhook_tick (env : Env) (st : State) : State :=
  after (WebhookService.retry_tick WebhookService.default env)
        (advance (DateTime.minutes 120) st).

Definition telegram_tick (env : Env) (st : State) : State :=
  after (TelegramService.retry_tick env) (advance (DateTime.minutes 120) st).

(** The live delivery of a payment of [merchant] while every endpoint is
    down. *)
Definition failed_delivery (postgres : bool) (merchant : MerchantModel.Row)
  : State :=
  after (Router.route_notification router down
           (payment (MerchantModel.row_id merchant)) "payment.completed")
        (start postgres [merchant]).

Definition a_payload : Payment.WebhookPayload :=
Payment.mkWebhookPayload "evt_test" "payment.completed" 1704067200000000
  [("amount", Json.JStr "100")] None.

Definition nul : string := String (ascii_of_N 0) "".

End Scenario.

(* ================================================================== *)
(** ** Further code of the same files *)
(* ================================================================== *)

(** [c in s] for a character. *)
Fixpoint has_char (c : ascii) (s : string) : bool :=
  match s with
  | EmptyString => false
  | String a s' => Ascii.eqb a c || has_char c s'
  end.

(** The characters U+0020..U+007E. *)
Definition is_printable (s : string) : bool :=
  forallb (fun c => (32 <=? N_of_ascii c)%N && (N_of_ascii c <=? 126)%N)
          (list_ascii_of_string s).

(** The characters [0-9a-f]. *)
Definition is_lower_hex (s : string) : bool :=
  forallb (fun c => Py.is_digit c
                    || ((97 <=? N_of_ascii c)%N && (N_of_ascii c <=? 102)%N))
          (list_ascii_of_string s).

(** The order of the keys of two rendered items. *)
Definition key_before (x y : string * string) : Prop :=
  String.ltb (fst x) (fst y) = true.

(* ------------------------------------------------------------------ *)
(** *** models/merchant.py : constructor, factories, dictionaries *)

Module Merchant.

Import MerchantModel.

(** [NotificationType.value] *)
Definition NotificationType_value (t : NotificationType) : string :=
  match t with
  | WEBHOOK => "webhook"
  | TELEGRAM => "telegram"
  end.

(** The dataclass constructor followed by [__post_init__], for a
    notification type that is a member of the enumeration. *)
Definition Merchant_init (id : string) (notification_type : NotificationType)
    (name webhook_url webhook_secret telegram_chat_id : option string)
    (is_active : bool) (created_at updated_at : datetime)
  : Py.result Merchant :=
  let m := mkMerchant (normalise_id id) notification_type name webhook_url
             webhook_secret telegram_chat_id is_active created_at updated_at in
  Py.bind (validate m) (fun _ => Py.Ok m).

(** [create_webhook_merchant]; [secret] is the value of
    [generate_secret()] (64 random hexadecimal characters) and [now] that
    of [datetime.utcnow()]. *)
Definition create_webhook_merchant (secret : string) (now : datetime)
    (merchant_id webhook_url : string) (name : option string)
  : Py.result Merchant :=
  Merchant_init merchant_id WEBHOOK name (Some webhook_url) (Some secret) None
    true now now.

(** [create_telegram_merchant] *)
Definition create_telegram_merchant (now : datetime)
    (merchant_id telegram_chat_id : string) (name : option string)
  : Py.result Merchant :=
  Merchant_init merchant_id TELEGRAM name None None (Some telegram_chat_id)
    true now now.

(** An optional string as a JSON value. *)
Definition opt_str (o : option string) : Json.value :=
  match o with
  | Some s => Json.JStr s
  | None => Json.JNull
  end.

(** What a merchant object holds in [created_at] and [updated_at].
    The constructor and the factories put [datetime] objects there, and
    so does a row read from PostgreSQL, where [create_merchant] binds
    the [datetime] itself.  A row read from SQLite holds the text of the
    column ([create_merchant] stores [now.isoformat()], and the
    connection is opened without [detect_types]); [from_dict] passes it
    on as it is. *)
Inductive TimeFields := Datetimes | Texts.

(** The time fields of a merchant that [from_dict] made from a row of
    the directory. *)
Definition held_by_row (is_postgres : bool) : TimeFields :=
  if is_postgres then Datetimes else Texts.

(** [self.created_at.isoformat() if self.created_at else None]: a
    [datetime] is true; a text is true unless it is empty (the text of
    a time never is), and a [str] has no [isoformat]. *)
Definition time_entry (held : TimeFields) (t : datetime)
  : Py.result Json.value :=
  match held with
  | Datetimes => Py.Ok (Json.JStr (DateTime.isoformat t))
  | Texts =>
      if String.eqb (DateTime.isoformat t) "" then Py.Ok Json.JNull
      else Py.Raise "AttributeError"
             "'str' object has no attribute 'isoformat'"
  end.

(** [to_dict] *)
Definition to_dict (held : TimeFields) (m : Merchant)
  : Py.result (list (string * Json.value)) :=
  Py.bind (time_entry held (created_at m)) (fun created =>
  Py.bind (time_entry held (updated_at m)) (fun updated =>
  Py.Ok
    [ ("id", Json.JStr (id m));
      ("notification_type",
       Json.JStr (NotificationType_value (notification_type m)));
      ("name", opt_str (name m));
      ("webhook_url", opt_str (webhook_url m));
      ("webhook_secret", opt_str (webhook_secret m));
      ("telegram_chat_id", opt_str (telegram_chat_id m));
      ("is_active", Json.JBool (is_active m));
      ("created_at", created);
      ("updated_at", updated) ])).

(** The truth value of a JSON value. *)
Definition truthy_value (v : Json.value) : bool :=
  match v with
  | Json.JNull => false
  | Json.JBool b => b
  | Json.JInt z => negb (z =? 0)
  | Json.JStr s => negb (String.eqb s "")
  | Json.JDict items => negb (Nat.eqb (List.length items) 0)
  end.

(** [k in d] and [d[k] = v] *)
Definition has_key (d : list (string * Json.value)) (k : string) : bool :=
  existsb (fun kv => String.eqb (fst kv) k) d.

Definition set_item (d : list (string * Json.value)) (k : string)
    (v : Json.value) : list (string * Json.value) :=
  if has_key d k
  then map (fun kv => if String.eqb (fst kv) k then (fst kv, v) else kv) d
  else (d ++ [(k, v)])%list.

(** [to_public_dict] *)
Definition to_public_dict (held : TimeFields) (m : Merchant)
  : Py.result (list (string * Json.value)) :=
  Py.bind (to_dict held m) (fun data =>
  Py.Ok
    (if has_key data "webhook_secret" then
       set_item data "webhook_secret"
         (if truthy_value (Payment.dict_get data "webhook_secret" Json.JNull)
          then Json.JStr "***" else Json.JNull)
     else data)).

(** [short_id] *)
Definition short_id (m : Merchant) : string :=
  if (10 <? String.length (id m))%nat
  then Py.first_n 6 (id m) ++ "..." ++ Py.last_n 4 (id m)
  else id m.

(** The row that holds the fields of a merchant. *)
Definition row_of (m : Merchant) : Row :=
  mkRow (id m) (NotificationType_value (notification_type m)) (name m)
    (webhook_url m) (webhook_secret m) (telegram_chat_id m) (is_active m)
    (created_at m) (updated_at m).

End Merchant.

(* ------------------------------------------------------------------ *)
(** *** database/db.py : the table of merchants *)

Module Directory.

(** [get_active_merchants] *)
Definition get_active_merchants (db : Db.Database) : list MerchantModel.Row :=
  filter MerchantModel.row_is_active (Db.merchants db).

Definition has_id (merchant_id : string) (r : MerchantModel.Row) : bool :=
  String.eqb (MerchantModel.row_id r) merchant_id.

(** [create_merchant].  The column [id] is the key of the table (the
    conflict target of the upsert).  [schema.sql] is not among the
    sources: [default_is_active] stands for the default of the column
    [is_active], which neither statement sets.  PostgreSQL
    ([ON CONFLICT (id) DO UPDATE]) overwrites six columns of an existing
    row; SQLite ([INSERT OR REPLACE]) deletes the row and inserts the new
    one, columns that are not given falling back to their defaults.
    Returns the row read back with [get_merchant]. *)
Definition create_merchant (default_is_active : bool) (now : datetime)
    (db : Db.Database) (merchant_id notification_type : string)
    (name webhook_url webhook_secret telegram_chat_id : option string)
  : Db.Database * option MerchantModel.Row :=
  let fresh :=
    MerchantModel.mkRow merchant_id notification_type name webhook_url
      webhook_secret telegram_chat_id default_is_active now now in
  let rows := Db.merchants db in
  let rows' :=
    if Db._is_postgres db then
      if existsb (has_id merchant_id) rows then
        map (fun r =>
               if has_id merchant_id r then
                 MerchantModel.mkRow (MerchantModel.row_id r) notification_type
                   name webhook_url webhook_secret telegram_chat_id
                   (MerchantModel.row_is_active r)
                   (MerchantModel.row_created_at r) now
               else r)
            rows
      else (rows ++ [fresh])%list
    else (filter (fun r => negb (has_id merchant_id r)) rows ++ [fresh])%list in
  let db' :=
    Db.mkDatabase (Db._is_postgres db) rows' (Db.webhook_deliveries db)
      (Db.next_id db) in
  (db', Db.get_merchant db' merchant_id).

End Directory.

(* ------------------------------------------------------------------ *)
(** *** The ledger as the services leave it *)

(** The most retries a row can see: the length of the delay schedule of
    the webhook transport, or 3, the limit of the chat transport. *)
Definition retry_bound (self : Router.t) : Z :=
  Z.max (Z.of_nat (List.length
                     (WebhookService.retry_delays (Router.webhook_service self))))
        3.

(** The key of a row of the ledger. *)
Definition key (r : Db.Delivery) : string * string :=
  (Db.event_id r, Db.merchant_id r).

(** A row that succeeded has no retry time; the retry count lies
    between 0 and the bound, and below the bound while a retry is
    scheduled. *)
Definition row_consistent (M : Z) (r : Db.Delivery) : Prop :=
  (Db.success r = true -> Db.next_retry_at r = None)
  /\ 0 <= Db.retry_count r <= M
  /\ (Db.next_retry_at r <> None -> Db.retry_count r < M).

(** One row per key and one directory row per id, every row
    consistent. *)
Definition consistent (M : Z) (d : Db.Database) : Prop :=
  NoDup (map key (Db.webhook_deliveries d))
  /\ NoDup (map MerchantModel.row_id (Db.merchants d))
  /\ Forall (row_consistent M) (Db.webhook_deliveries d).

(** The parts of the state a retry sweep of the webhook transport has no
    business with, and those the chat transport has none with.  (The
    clock is in neither: a call of a transport takes time.) *)
Definition webhook_frame (st st' : State) : Prop :=
  telegram_posts st' = telegram_posts st
  /\ _last_send_times st' = _last_send_times st
  /\ _stats st' = _stats st
  /\ Db.merchants (db st') = Db.merchants (db st).

Definition telegram_frame (st st' : State) : Prop :=
  http_posts st' = http_posts st
  /\ _stats st' = _stats st
  /\ Db.merchants (db st') = Db.merchants (db st).

(** The delivery of row [x] is complete in state [st]: the row with its
    id has succeeded, has no retry time and has the retry count of [x];
    it is in no retry queue; and a routing of its event to its merchant
    is answered as delivered, without a transport call or a ledger
    write. *)
Definition settled (self : Router.t) (env : Env) (x : Db.Delivery)
    (st : State) : Prop :=
  (exists x',
      In x' (Db.webhook_deliveries (db st))
      /\ Db.id x' = Db.id x /\ Db.success x' = true
      /\ Db.next_retry_at x' = None
      /\ Db.retry_count x' = Db.retry_count x)
  /\ (forall t q, In q (Db.get_pending_retries t (db st)) ->
                  Db.id (Db.delivery q) <> Db.id x)
  /\ (forall e et,
         Payment.get_event_id e = Db.event_id x ->
         Payment.merchant_id e = Db.merchant_id x ->
         exists st',
           Router.route_notification self env e et st
           = (Py.Ok (true, None), st')
           /\ db st' = db st
           /\ transport_calls st' = transport_calls st).

(* ------------------------------------------------------------------ *)
(** *** services/notification_router.py : counters and broadcast *)

Module NotificationRouter.

(** [get_stats]: a copy of the counters. *)
Definition get_stats : Eff.M Stats :=
  st <- Eff.get ;; Eff.ret (_stats st).

(** [reset_stats] *)
Definition reset_stats : Eff.M unit :=
  Eff.set_stats (mkStats 0 0 0 0 0 0 0).

(** [results[k] = v] *)
Fixpoint set_result (results : list (string * bool)) (k : string) (v : bool)
  : list (string * bool) :=
  match results with
  | [] => [(k, v)]
  | (k', v') :: rest =>
      if String.eqb k' k then (k', v) :: rest
      else (k', v') :: set_result rest k v
  end.

(** The loop of [broadcast_to_all] over the rows read at its start.
    The event built for a merchant has the default status and the time
    of its construction as [processed_at]. *)
Fixpoint broadcast_loop (self : Router.t) (env : Env)
    (event : Payment.PaymentEvent) (event_type : string)
    (merchants : list MerchantModel.Row) (results : list (string * bool))
  : Eff.M (list (string * bool)) :=
  match merchants with
  | [] => Eff.ret results
  | merchant_data :: rest =>
      merchant <- Eff.lift (MerchantModel.from_dict merchant_data) ;;
      now <- Eff.utcnow ;;
      r <- Router.route_notification self env
             (Payment.PaymentEvent_init
                (Payment.payment_intent_id event)
                (MerchantModel.id merchant)
                (Payment.customer_address event)
                (Payment.token_address event)
                (Payment.amount event)
                (Payment.transaction_hash event)
                (Payment.block_number event)
                (Payment.block_timestamp event)
                "completed" now)
             event_type ;;
      broadcast_loop self env event event_type rest
        (set_result results (MerchantModel.id merchant) (fst r))
  end.

(** [broadcast_to_all] *)
Definition broadcast_to_all (self : Router.t) (env : Env)
    (event : Payment.PaymentEvent) (event_type : string)
  : Eff.M (list (string * bool)) :=
  st <- Eff.get ;;
  broadcast_loop self env event event_type
    (Directory.get_active_merchants (db st)) [].

End NotificationRouter.

(* ------------------------------------------------------------------ *)
(** *** main.py : the callback of the listener *)

Module Main.

(** [_handle_payment]: an exception of the routing is logged and
    swallowed. *)
Definition _handle_payment (notification_router : Router.t) (env : Env)
    (event : Payment.PaymentEvent) : Eff.M unit :=
  Eff.swallow
    (Router.route_notification notification_router env event
       "payment.completed" ;;; Eff.ret tt).

End Main.

(** The six counters of the outcomes, added up. *)
Definition outcomes (s : Stats) : Z :=
  webhook_sent s + telegram_sent s + webhook_failed s + telegram_failed s
  + merchant_not_found s + already_processed s.

(** The routings among the operations of a run. *)
Definition routings (ops : list Op) : Z :=
  Z.of_nat (List.length
              (filter (fun o => match o with Route _ _ => true | _ => false end)
                      ops)).

(** The request that [_deliver] posts for a payload. *)
Definition request_of (url : string) (payload : Payment.WebhookPayload)
  : HttpRequest :=
  mkHttpRequest url (Payment.to_json payload)
    [ ("Content-Type", "application/json");
      ("X-Webhook-Signature", WebhookService.signature_header payload);
      ("X-Webhook-Event", Payment.event_type payload);
      ("X-Webhook-ID", Payment.event_id payload);
      ("X-Webhook-Timestamp", DateTime.isoformat (Payment.timestamp payload)) ].

(** The state with the table [merchants] replaced by [ms]. *)
Definition with_merchants (ms : list MerchantModel.Row) (st : State) : State :=
  with_db (Db.mkDatabase (Db._is_postgres (db st)) ms
             (Db.webhook_deliveries (db st)) (Db.next_id (db st)))
          st.

(* ================================================================== *)
(** ** The event loop *)
(* ================================================================== *)

(** A coroutine, cut at its awaits.  [Await act k]: the code up to the
    next awaited call together with that call, [act], runs in one piece;
    the task is then suspended, the other tasks may run, and it goes on
    with [k] on the value the call returned.  The awaited calls are the
    methods of [Database] (one statement each), [_deliver] and
    [_send_message]; the code after the last await of a coroutine is a
    piece of its own.  [_deliver] and [_send_message] await the network
    (and the limiter) inside; each is one piece here, as they read and
    write the sessions, the requests sent, the limiter and the clock,
    and no table.  The time a call takes is a [Wait] between two
    pieces. *)
Inductive Proc (A : Type) : Type :=
| Done (r : Py.result A)
| Await (X : Type) (act : Eff.M X) (k : X -> Proc A).

Arguments Done {A} r.
Arguments Await {A X} act k.

Module Co.

Definition ret {A} (a : A) : Proc A := Done (Py.Ok a).

(** The coroutine run without a suspension. *)
Fixpoint run {A} (p : Proc A) : Eff.M A :=
  match p with
  | Done r => Eff.lift r
  | Await act k => Eff.bind act (fun x => run (k x))
  end.

(** [x = await p; f(x)] *)
Fixpoint bind {A B} (p : Proc A) (f : A -> Proc B) : Proc B :=
  match p with
  | Done (Py.Ok a) => f a
  | Done (Py.Raise e msg) => Done (Py.Raise e msg)
  | Await act k => Await act (fun x => bind (k x) f)
  end.

(** [for x in l: await f(x)] *)
Fixpoint for_each {A} (l : list A) (f : A -> Proc unit) : Proc unit :=
  match l with
  | [] => ret tt
  | x :: rest => bind (f x) (fun _ => for_each rest f)
  end.

End Co.

(** The coroutines of the services and of the router, with the awaits
    of the source. *)
Module Async.

Module Webhook.

(** [send_notification]: awaits [_deliver], then [log_delivery]. *)
Definition send_notification (self : WebhookService.t) (env : Env)
    (merchant : MerchantModel.Merchant) (event : Payment.PaymentEvent)
    (event_type : string) : Proc (bool * option string) :=
  if negb (MerchantModel.is_webhook merchant) then
    Co.ret (false, Some "Merchant is not configured for webhook notifications")
  else
    match MerchantModel.webhook_url merchant,
          MerchantModel.webhook_secret merchant with
    | Some url, Some secret =>
        if String.eqb url "" || String.eqb secret "" then
          Co.ret (false, Some "Webhook URL or secret not configured")
        else
          Await
            (now <- Eff.utcnow ;;
             unsigned <- Eff.lift
                           (Payment.from_payment_event now event event_type) ;;
             let payload := fst (Payment.sign unsigned secret) in
             r <- WebhookService._deliver env url payload secret ;;
             Eff.ret (payload, r))
            (fun sent =>
               let '(payload, (success, response_code, response_body)) :=
                 sent in
               Await
                 (now' <- Eff.utcnow ;;
                  let next_retry :=
                    if negb success
                       && (0 <? List.length
                                  (WebhookService.retry_delays self))%nat
                    then Some (now' + DateTime.minutes
                                        (nth 0 (WebhookService.retry_delays self)
                                             0))
                    else None in
                  DbM.log_delivery (MerchantModel.id merchant) event_type
                    (Payment.event_id payload) "webhook"
                    (Db.JsonPayload payload) success response_code
                    response_body 0 next_retry)
                 (fun _ =>
                    if success then Co.ret (true, None)
                    else Co.ret (false, response_body)))
    | _, _ => Co.ret (false, Some "Webhook URL or secret not configured")
    end.

(** [_retry_delivery]: awaits [_deliver], then the write by row id. *)
Definition _retry_delivery (self : WebhookService.t) (env : Env)
    (delivery : Db.Pending) : Proc unit :=
  let row := Db.delivery delivery in
  let delivery_id := Db.id row in
  let retry_count := Db.retry_count row in
  let payload_json := Db.payload_text (Db.payload row) in
  if negb (Py.truthy (Db.webhook_url delivery))
     || negb (Py.truthy (Db.webhook_secret delivery))
     || String.eqb payload_json ""
  then
    Await
      (DbM.update_delivery_retry delivery_id (retry_count + 1) None None
         (Some "Missing webhook configuration"))
      (fun _ => Co.ret tt)
  else
    match Db.webhook_url delivery, Db.webhook_secret delivery,
          Db.payload row with
    | Some webhook_url, Some webhook_secret, Db.JsonPayload stored =>
        let payload := fst (Payment.sign stored webhook_secret) in
        Await (WebhookService._deliver env webhook_url payload webhook_secret)
          (fun r =>
             let '(success, response_code, response_body) := r in
             if success then
               Await (DbM.mark_delivery_success delivery_id)
                 (fun _ => Co.ret tt)
             else
               let new_retry_count := retry_count + 1 in
               Await
                 (now <- Eff.utcnow ;;
                  let next_retry :=
                    if new_retry_count
                       <? Z.of_nat (List.length
                                      (WebhookService.retry_delays self))
                    then
                      let next_delay :=
                        nth (Z.to_nat new_retry_count)
                            (WebhookService.retry_delays self) 0 in
                      Some (now + DateTime.minutes next_delay)
                    else None in
                  DbM.update_delivery_retry delivery_id new_retry_count
                    next_retry response_code response_body)
                 (fun _ => Co.ret tt))
    | _, _, _ =>
        Done (Py.Raise "json.JSONDecodeError" "Expecting value")
    end.

(** [_process_retries]: awaits the queue, then each retry in turn. *)
Definition _process_retries (self : WebhookService.t) (env : Env)
  : Proc unit :=
  Await DbM.get_pending_retries
    (fun pending =>
       let webhook_retries :=
         filter (fun p => String.eqb (Db.delivery_method (Db.delivery p))
                                     "webhook")
                pending in
       Co.for_each webhook_retries (_retry_delivery self env)).

End Webhook.

Module Telegram.

(** [send_notification]: awaits [_send_message], then [log_delivery]. *)
Definition send_notification (self : TelegramService.t) (env : Env)
    (merchant : MerchantModel.Merchant) (event : Payment.PaymentEvent)
    (event_type : string) : Proc (bool * option string) :=
  if negb (MerchantModel.is_telegram merchant) then
    Co.ret (false, Some "Merchant is not configured for Telegram notifications")
  else
    match MerchantModel.telegram_chat_id merchant with
    | Some chat_id =>
        if String.eqb chat_id "" then
          Co.ret (false, Some "Telegram chat ID not configured")
        else
          Await
            (message_text <- Eff.lift
                               (Payment.format event
                                  (TelegramService.etherscan_url self)) ;;
             r <- TelegramService._send_message env chat_id message_text
                    "Markdown" ;;
             Eff.ret (message_text, r))
            (fun sent =>
               let '(message_text, (success, response)) := sent in
               let event_id := Payment.get_event_id event in
               Await
                 (now <- Eff.utcnow ;;
                  let next_retry :=
                    if negb success then Some (now + DateTime.minutes 1)
                    else None in
                  DbM.log_delivery (MerchantModel.id merchant) event_type
                    event_id "telegram" (Db.TextPayload message_text) success
                    (if negb success then error_code response else Some 200)
                    (Some (repr response)) 0 next_retry)
                 (fun _ =>
                    if success then Co.ret (true, None)
                    else
                      Co.ret (false,
                              Some (match description response with
                                    | Some error_msg => error_msg
                                    | None => "Unknown error"
                                    end))))
    | None => Co.ret (false, Some "Telegram chat ID not configured")
    end.

(** [_retry_delivery]: awaits [_send_message], then the write by row
    id. *)
Definition _retry_delivery (env : Env) (delivery : Db.Pending) : Proc unit :=
  let row := Db.delivery delivery in
  let delivery_id := Db.id row in
  let message_text := Db.payload_text (Db.payload row) in
  let retry_count := Db.retry_count row in
  match Db.telegram_chat_id delivery with
  | Some chat_id =>
      if String.eqb chat_id "" || String.eqb message_text "" then
        Await
          (DbM.update_delivery_retry delivery_id (retry_count + 1) None None
             (Some "Missing Telegram configuration"))
          (fun _ => Co.ret tt)
      else
        Await (TelegramService._send_message env chat_id message_text
                 "Markdown")
          (fun r =>
             let (success, response) := r in
             if success then
               Await (DbM.mark_delivery_success delivery_id)
                 (fun _ => Co.ret tt)
             else
               let new_retry_count := retry_count + 1 in
               Await
                 (now <- Eff.utcnow ;;
                  let next_retry :=
                    if new_retry_count <? 3
                    then Some (now + DateTime.minutes (5 * new_retry_count))
                    else None in
                  DbM.update_delivery_retry delivery_id new_retry_count
                    next_retry (error_code response) (Some (repr response)))
                 (fun _ => Co.ret tt))
  | None =>
      Await
        (DbM.update_delivery_retry delivery_id (retry_count + 1) None None
           (Some "Missing Telegram configuration"))
        (fun _ => Co.ret tt)
  end.

(** [_process_retries] *)
Definition _process_retries (env : Env) : Proc unit :=
  Await DbM.get_pending_retries
    (fun pending =>
       let telegram_retries :=
         filter (fun p => String.eqb (Db.delivery_method (Db.delivery p))
                                     "telegram")
                pending in
       Co.for_each telegram_retries (_retry_delivery env)).

End Telegram.

Module Routing.

(** [_send_webhook] *)
Definition _send_webhook (self : Router.t) (env : Env)
    (merchant : MerchantModel.Merchant) (event : Payment.PaymentEvent)
    (event_type : string) : Proc (bool * option string) :=
  Co.bind
    (Webhook.send_notification (Router.webhook_service self) env merchant
       event event_type)
    (fun r =>
       let (success, error) := r in
       Await (if success then Router.bump Router.inc_webhook_sent
              else Router.bump Router.inc_webhook_failed)
         (fun _ => Co.ret (success, error))).

(** [_send_telegram] *)
Definition _send_telegram (self : Router.t) (env : Env)
    (merchant : MerchantModel.Merchant) (event : Payment.PaymentEvent)
    (event_type : string) : Proc (bool * option string) :=
  Co.bind
    (Telegram.send_notification (Router.telegram_service self) env merchant
       event event_type)
    (fun r =>
       let (success, error) := r in
       Await (if success then Router.bump Router.inc_telegram_sent
              else Router.bump Router.inc_telegram_failed)
         (fun _ => Co.ret (success, error))).

(** [route_notification]: awaits [check_event_processed], then
    [get_merchant], then the transport. *)
Definition route_notification (self : Router.t) (env : Env)
    (event : Payment.PaymentEvent) (event_type : string)
  : Proc (bool * option string) :=
  let merchant_id := Payment.merchant_id event in
  Await
    (Router.bump Router.inc_total ;;;
     DbM.check_event_processed (Payment.get_event_id event) merchant_id)
    (fun already : bool =>
       if already then
         Await (Router.bump Router.inc_already_processed)
           (fun _ => Co.ret (true, None))
       else
         Await (DbM.get_merchant merchant_id)
           (fun merchant_data =>
              match merchant_data with
              | None =>
                  Await (Router.bump Router.inc_merchant_not_found)
                    (fun _ =>
                       Co.ret (false,
                               Some ("Merchant " ++ merchant_id
                                       ++ " not registered")))
              | Some row =>
                  match MerchantModel.from_dict row with
                  | Py.Raise e msg => Done (Py.Raise e msg)
                  | Py.Ok merchant =>
                      if negb (MerchantModel.is_active merchant) then
                        Co.ret (false, Some "Merchant is inactive")
                      else
                        match MerchantModel.notification_type merchant with
                        | MerchantModel.WEBHOOK =>
                            _send_webhook self env merchant event event_type
                        | MerchantModel.TELEGRAM =>
                            _send_telegram self env merchant event event_type
                        end
                  end
              end)).

End Routing.

End Async.

(** The event loop: the shared state and the tasks, finished ones
    included. *)
Record Loop := mkLoop {
  shared : State;
  tasks : list (Proc unit)
}.

(** What the loop does next: it starts the task of an operation (time
    passes, for [Wait]), or it runs task [i] up to its next await. *)
Inductive Move :=
| Start (o : Op)
| Resume (i : nat).

(** The task of an operation: a routing whose result is dropped, or one
    turn of a retry loop. *)
Definition task_of (self : Router.t) (env : Env) (o : Op)
  : list (Proc unit) :=
  match o with
  | Route event event_type =>
      [Co.bind (Async.Routing.route_notification self env event event_type)
               (fun _ => Co.ret tt)]
  | WebhookRetry =>
      [Async.Webhook._process_retries (Router.webhook_service self) env]
  | TelegramRetry => [Async.Telegram._process_retries env]
  | Wait _ => []
  end.

Fixpoint put {A} (i : nat) (x : A) (l : list A) : list A :=
  match l, i with
  | [], _ => []
  | _ :: rest, O => x :: rest
  | y :: rest, S j => y :: put j x rest
  end.

(** Task [i] runs up to its next await; an exception ends it. *)
Definition resume (i : nat) (l : Loop) : Loop :=
  match nth_error (tasks l) i with
  | Some (Await act k) =>
      let (r, st) := act (shared l) in
      mkLoop st
        (put i
           (match r with
            | Py.Ok x => k x
            | Py.Raise e msg => Done (Py.Raise e msg)
            end)
           (tasks l))
  | _ => l
  end.

Definition move (self : Router.t) (env : Env) (l : Loop) (m : Move) : Loop :=
  match m with
  | Start (Wait d) => mkLoop (advance d (shared l)) (tasks l)
  | Start o => mkLoop (shared l) (tasks l ++ task_of self env o)%list
  | Resume i => resume i l
  end.

Definition run_moves (self : Router.t) (env : Env) (ms : list Move)
    (l : Loop) : Loop :=
  fold_left (move self env) ms l.

(** Every piece of [p] keeps [I], whatever state satisfying [I] it
    finds and whatever the awaited calls return in such states. *)
Fixpoint safe {A} (I : State -> Prop) (p : Proc A) : Prop :=
  match p with
  | Done _ => True
  | Await act k =>
      forall st, I st ->
        I (snd (act st)) /\ forall x, fst (act st) = Py.Ok x -> safe I (k x)
  end.

(** The row [x] is in the ledger of [st], and the ledger is well
    formed. *)
Definition holds_row (x : Db.Delivery) (st : State) : Prop :=
  well_formed (db st) /\ In x (Db.webhook_deliveries (db st)).

(** The retry count of a row lies between 0 and [M], and below [M]
    while a retry is scheduled. *)
Definition row_bounded (M : Z) (r : Db.Delivery) : Prop :=
  0 <= Db.retry_count r <= M
  /\ (Db.next_retry_at r <> None -> Db.retry_count r < M).

(** One row per key, every row within the bounds. *)
Definition bounded (M : Z) (st : State) : Prop :=
  NoDup (map key (Db.webhook_deliveries (db st)))
  /\ Forall (row_bounded M) (Db.webhook_deliveries (db st)).

(** One piece of a coroutine run in [st]: the state it leaves, and what
    is left of the coroutine. *)
Definition piece {A} (p : Proc A) (st : State) : State * Proc A :=
  match p with
  | Done r => (st, Done r)
  | Await act k =>
      match act st with
      | (Py.Ok x, st') => (st', k x)
      | (Py.Raise e msg, st') => (st', Done (Py.Raise e msg))
      end
  end.

(* ================================================================== *)
(** * Properties *)
(* ================================================================== *)

Section Lowercase.

Lemma lower_char_idem (c : ascii) :
  Py.lower_char (Py.lower_char c) = Py.lower_char c.
Proof. destruct c as [[] [] [] [] [] [] [] []]; reflexivity. Qed.

Lemma lower_idem (s : string) : Py.lower (Py.lower s) = Py.lower s.
Proof.
  induction s as [|c s IH]; simpl; [reflexivity|].
  now rewrite lower_char_idem, IH.
Qed.

Lemma same_up_to_case_lower (s t : string) :
  Py.same_up_to_case s t = true -> Py.lower s = Py.lower t.
Proof.
  revert t; induction s as [|a s IH]; intros [|b t]; simpl;
    try discriminate; [reflexivity|].
  intros H. apply andb_true_iff in H as [Hc Hs].
  apply Ascii.eqb_eq in Hc. rewrite Hc. f_equal. now apply IH.
Qed.

End Lowercase.

(** C10. The constructor lowercases the merchant id, the customer
    address, the token address and the transaction hash; hence two events
    built from arguments that differ only in the letter case of those
    fields have the same event id and the same deduplication key. *)
Theorem constructor_normalises_case :
  (forall pid mid cust tok amt txh bn bt st pa,
      let e := Payment.PaymentEvent_init pid mid cust tok amt txh bn bt st pa in
      Payment.merchant_id e = Py.lower mid
      /\ Payment.customer_address e = Py.lower cust
      /\ Payment.token_address e = Py.lower tok
      /\ Payment.transaction_hash e = Py.lower txh)
  /\ (forall pid mid mid' cust cust' tok tok' amt txh txh' bn bt st pa,
      Py.same_up_to_case mid mid' = true ->
      Py.same_up_to_case cust cust' = true ->
      Py.same_up_to_case tok tok' = true ->
      Py.same_up_to_case txh txh' = true ->
      let e := Payment.PaymentEvent_init pid mid cust tok amt txh bn bt st pa in
      let e' := Payment.PaymentEvent_init pid mid' cust' tok' amt txh' bn bt st pa in
      Payment.get_event_id e = Payment.get_event_id e'
      /\ Payment.dedup_key e = Payment.dedup_key e').
Proof.
  split.
  - intros; repeat split; reflexivity.
  - intros pid mid mid' cust cust' tok tok' amt txh txh' bn bt st pa Hm Hc Ht Hh.
    apply same_up_to_case_lower in Hm, Hc, Ht, Hh.
    unfold Payment.PaymentEvent_init, Payment.dedup_key, Payment.get_event_id;
      simpl.
    rewrite Hm, Hh. split; reflexivity.
Qed.

Lemma constructor_normalises_case_witness :
  let e := Payment.PaymentEvent_init "pi_1" "0xABCDEF" "0xC0FFEE" "0xA0B8"
             "100" "0xDEADBEEF" 7 0 "completed" 0 in
  let e' := Payment.PaymentEvent_init "pi_1" "0xabcdef" "0xc0ffee" "0xa0b8"
             "100" "0xdeadbeef" 7 0 "completed" 0 in
  Payment.get_event_id e = Payment.get_event_id e'
  /\ Payment.dedup_key e = Payment.dedup_key e'.
Proof.
  apply (proj2 constructor_normalises_case); reflexivity.
Defined.

Section AmountFormatting.

Lemma all_digits_app (s t : string) :
  Py.all_digits (s ++ t) = Py.all_digits s && Py.all_digits t.
Proof.
  induction s as [|c s IH]; simpl; [reflexivity|].
  now rewrite IH, andb_assoc.
Qed.

(** A property of the numbers below a bound, checked case by case. *)
Lemma below_cases (P : N -> Prop) (b : nat) :
  (forall k, (k < b)%nat -> P (N.of_nat k)) ->
  forall n, (n < N.of_nat b)%N -> P n.
Proof.
  intros H n Hn. rewrite <- (N2Nat.id n). apply H. lia.
Qed.

Lemma digit_char_is_digit (n : N) : Py.is_digit (Dec.digit_char n) = true.
Proof.
  unfold Dec.digit_char.
  assert (H : (n mod 10 < N.of_nat 10)%N)
    by (apply N.mod_upper_bound; discriminate).
  revert H. generalize (n mod 10)%N. apply below_cases.
  intros k Hk. do 10 (destruct k as [|k]; [reflexivity|]). lia.
Qed.

Lemma pad_digits_all_digits (k : nat) (m : N) :
  Py.all_digits (Dec.pad_digits k m) = true.
Proof.
  revert m; induction k as [|k IH]; intros m; simpl; [reflexivity|].
  rewrite all_digits_app, IH; simpl.
  now rewrite digit_char_is_digit.
Qed.

Lemma length_app (s t : string) :
  String.length (s ++ t) = (String.length s + String.length t)%nat.
Proof. induction s as [|c s IH]; simpl; [reflexivity|now rewrite IH]. Qed.

Lemma app_assoc (s t u : string) : (s ++ t) ++ u = s ++ (t ++ u).
Proof. induction s as [|c s IH]; simpl; [reflexivity|now rewrite IH]. Qed.

Lemma pad_digits_length (k : nat) (m : N) :
  String.length (Dec.pad_digits k m) = k.
Proof.
  revert m; induction k as [|k IH]; intros m; simpl; [reflexivity|].
  rewrite length_app, IH; simpl; lia.
Qed.

Lemma string_of_uint_all_digits (d : Decimal.uint) :
  Py.all_digits (NilEmpty.string_of_uint d) = true.
Proof. induction d; simpl; auto. Qed.

Lemma str_of_N_all_digits (n : N) : Py.all_digits (Py.str_of_N n) = true.
Proof. apply string_of_uint_all_digits. Qed.

(** A point is not a digit, so a run of digits is skipped when looking
    for the first point. *)
Lemma decimal_places_skip_digits (s t : string) :
  Py.all_digits s = true ->
  Payment.decimal_places (s ++ t) = Payment.decimal_places t.
Proof.
  induction s as [|c s IH]; simpl; [reflexivity|].
  intros H; apply andb_true_iff in H as [Hc Hs].
  destruct (Ascii.eqb c ".") eqn:E.
  - apply Ascii.eqb_eq in E; subst c; discriminate.
  - now apply IH.
Qed.

Lemma count_digits_run (s t : string) :
  Py.all_digits s = true ->
  Payment.count_digits (s ++ String " " t) = String.length s.
Proof.
  induction s as [|c s IH]; simpl; [reflexivity|].
  intros H; apply andb_true_iff in H as [Hc Hs].
  now rewrite Hc, IH.
Qed.

Lemma format_f_places (p : nat) (d : Dec.t) (sym : string) :
  Payment.decimal_places (Dec.format_f p d ++ " " ++ sym) = Some p.
Proof.
  unfold Dec.format_f.
  set (r := Dec.rescale d _). set (u := Dec.pow10 _).
  set (ip := Py.str_of_N _). set (fp := Dec.pad_digits _ _).
  assert (Hip : Py.all_digits ip = true) by apply str_of_N_all_digits.
  assert (Hfp : Py.all_digits fp = true) by apply pad_digits_all_digits.
  assert (Hlen : String.length fp = p) by apply pad_digits_length.
  assert (Hshape : forall sg,
    ((sg ++ ip ++ "." ++ fp) ++ " " ++ sym)
    = sg ++ (ip ++ String "." (fp ++ String " " sym))).
  { intros sg. now rewrite !app_assoc. }
  rewrite Hshape.
  assert (Hgo : Payment.decimal_places (ip ++ String "." (fp ++ String " " sym))
                = Some p).
  { rewrite decimal_places_skip_digits by exact Hip.
    simpl. now rewrite count_digits_run, Hlen. }
  destruct (Dec.sign r); simpl; exact Hgo.
Qed.

Lemma div_by_nonzero (a b : Dec.t) :
  Dec.coeff b <> 0%N -> exists d, Dec.div a b = Some d.
Proof.
  intros Hb. unfold Dec.div.
  destruct (Dec.coeff b =? 0)%N eqn:E; [apply N.eqb_eq in E; contradiction|].
  destruct (Dec.coeff a =? 0)%N; [eauto|].
  destruct (if 0 <=? _ then _ else _) as [q r].
  destruct (r =? 0)%N; [|eauto].
  destruct (Dec.strip_zeros _ _ _); eauto.
Qed.

End AmountFormatting.

(** C9. Raw amount "100000000" on a token of 6 decimals whose symbol is
    USDC is formatted as "100.00 USDC"; on a token of 18 decimals every
    event whose amount is an integer literal is formatted, and every
    formatted amount has exactly four decimal places. *)
Theorem formatted_amount_places :
  (forall e,
      Payment.amount e = "100000000" ->
      Payment.get_token_decimals e = 6 ->
      Payment.get_token_symbol e = "USDC" ->
      Payment.get_formatted_amount e = Py.Ok "100.00 USDC")
  /\ (forall e n,
      Payment.get_token_decimals e = 18 ->
      Py.int_of_str (Payment.amount e) = Some n ->
      exists s, Payment.get_formatted_amount e = Py.Ok s)
  /\ (forall e s,
      Payment.get_token_decimals e = 18 ->
      Payment.get_formatted_amount e = Py.Ok s ->
      Payment.decimal_places s = Some 4%nat).
Proof.
  split; [|split].
  - intros e Ha Hd Hs. unfold Payment.get_formatted_amount.
    rewrite Ha, Hd, Hs. vm_compute. reflexivity.
  - intros e n Hd Hn. unfold Payment.get_formatted_amount.
    rewrite Hd, Hn.
    destruct (div_by_nonzero (Dec.of_Z n) (Dec.of_Z (10 ^ 18))) as [d Hdiv];
      [vm_compute; discriminate|].
    rewrite Hdiv. eexists; reflexivity.
  - intros e s Hd. unfold Payment.get_formatted_amount. rewrite Hd.
    destruct (Py.int_of_str (Payment.amount e)) as [n|]; [|discriminate].
    destruct (Dec.div _ _) as [d|]; [|discriminate].
    replace (18 <=? 6) with false by reflexivity.
    intros H; inversion H; subst. apply format_f_places.
Qed.

Lemma formatted_amount_places_witness :
  Payment.get_formatted_amount
    (Payment.PaymentEvent_init "pi_test" "0x1234567890123456789012345678901234567890"
       "0x0987654321098765432109876543210987654321"
       "0xA0b86991c6218b36c1d19d4a2e9eb0ce3606eb48" "100000000" "0xabc123"
       12345 0 "completed" 0) = Py.Ok "100.00 USDC"
  /\ Payment.decimal_places "1234.5679 DAI" = Some 4%nat.
Proof.
  split.
  - apply (proj1 formatted_amount_places); reflexivity.
  - apply (proj2 (proj2 formatted_amount_places)
             (Payment.PaymentEvent_init "pi_test"
                "0x1234567890123456789012345678901234567890"
                "0x0987654321098765432109876543210987654321"
                "0x6B175474E89094C44Da98b954EedeAC495271d0F"
                "1234567890123456785000" "0xabc123" 12345 0 "completed" 0));
      vm_compute; reflexivity.
Defined.


(* ------------------------------------------------------------------ *)
(** ** Signatures *)

(** The hash and the MAC on the test vectors of FIPS 180-4 and on values
    of [hashlib] and [hmac]. *)
Example sha256_vectors :
  List.length Sha256.K = 64%nat
  /\ nth 0 Sha256.K 0%N = 0x428a2f98%N /\ nth 63 Sha256.K 0%N = 0xc67178f2%N
  /\ nth 0 Sha256.H0 0%N = 0x6a09e667%N /\ nth 7 Sha256.H0 0%N = 0x5be0cd19%N
  /\ Hmac.hex (Sha256.digest (Json.encode "abc"))
     = "ba7816bf8f01cfea414140de5dae2223b00361a396177a9cb410ff61f20015ad"
  /\ Hmac.hex (Sha256.digest (Json.encode ""))
     = "e3b0c44298fc1c149afbf4c8996fb92427ae41e4649b934ca495991b7852b855"
  /\ Hmac.hex (Sha256.digest
                 (Json.encode "01234567890123456789012345678901234567890123456789012345"))
     = "83aa034bda83e458a0dc9cbce0d4e354716aa0ff770ed37ac0ed2b292052e4af"
  /\ Hmac.hexdigest (Json.encode "k") (Json.encode "m")
     = "b60090e3052297aeb5a080889ce2fc4bca957e756faeb4df7d31800ca1e771ec"
  /\ Hmac.hexdigest
       (Json.encode "0123456789012345678901234567890123456789012345678901234567890123456789")
       (Json.encode "m")
     = "a7e395b7f3345b0a557a861a727f747c16533e241f4cc3bbe3424e51ef1c36eb".
Proof. repeat split; vm_compute; reflexivity. Qed.

Section Signatures.

Lemma hex_digit_ascii (n : N) :
  (n < 16)%N -> (N_of_ascii (Hmac.hex_digit n) <? 128)%N = true.
Proof.
  revert n. apply (below_cases _ 16).
  intros k Hk. do 16 (destruct k as [|k]; [reflexivity|]). lia.
Qed.

Lemma hex_is_ascii (l : bytes) : Hmac.is_ascii (Hmac.hex l) = true.
Proof.
  unfold Hmac.is_ascii.
  induction l as [|b l IH]; [reflexivity|].
  assert (Hb : (Byte.to_N b < 256)%N)
    by (pose proof (Byte.to_N_bounded b); lia).
  cbn [Hmac.hex list_ascii_of_string forallb].
  rewrite IH, !hex_digit_ascii; [reflexivity| |].
  - apply N.mod_upper_bound; discriminate.
  - apply N.Div0.div_lt_upper_bound; lia.
Qed.

(** Signing leaves the signed text as it was: the signature is not part
    of it. *)
Lemma canonical_json_signed (p : Payment.WebhookPayload) (secret : string) :
  Payment.canonical_json (fst (Payment.sign p secret))
  = Payment.canonical_json p.
Proof. reflexivity. Qed.

(** Verification is the comparison of two digests. *)
Lemma verify_signature_eq (payload_json secret payload_json' secret' : string) :
  Payment.verify_signature payload_json'
    (Hmac.hexdigest (Json.encode secret) (Json.encode payload_json)) secret'
  = Py.Ok (String.eqb
             (Hmac.hexdigest (Json.encode secret') (Json.encode payload_json'))
             (Hmac.hexdigest (Json.encode secret) (Json.encode payload_json))).
Proof.
  unfold Payment.verify_signature, Hmac.compare_digest, Hmac.hexdigest.
  now rewrite !hex_is_ascii.
Qed.

End Signatures.

(** C5, as the code has it.  Verifying the signed text of a payload
    against the signature [sign] made, with the same secret, returns
    true; and verification of any text under any secret against that
    signature returns true exactly when the HMAC-SHA256 digest of the
    text under the secret equals the signature, so a changed text or
    another secret is rejected whenever it changes the digest. *)
Theorem signature_round_trip :
  (forall p secret,
      Payment.verify_signature
        (Payment.canonical_json (fst (Payment.sign p secret)))
        (snd (Payment.sign p secret)) secret = Py.Ok true)
  /\ (forall p secret payload_json' secret',
      Payment.verify_signature payload_json' (snd (Payment.sign p secret)) secret'
      = Py.Ok (String.eqb
                 (Hmac.hexdigest (Json.encode secret') (Json.encode payload_json'))
                 (snd (Payment.sign p secret)))).
Proof.
  split.
  - intros p secret. rewrite canonical_json_signed.
    unfold Payment.sign; cbn [snd].
    rewrite verify_signature_eq. now rewrite String.eqb_refl.
  - intros p secret pj' secret'. unfold Payment.sign; cbn [snd].
    apply verify_signature_eq.
Qed.

(** C5 as stated fails: a secret and the same secret followed by a NUL
    character are different secrets, and the second verifies what the
    first signed (HMAC pads a short key with zero bytes). *)
Lemma other_secret_verifies :
  "s3cret" <> "s3cret" ++ Scenario.nul
  /\ Payment.verify_signature
       (Payment.canonical_json Scenario.a_payload)
       (snd (Payment.sign Scenario.a_payload "s3cret"))
       ("s3cret" ++ Scenario.nul) = Py.Ok true.
Proof.
  split; [discriminate|]. vm_compute. reflexivity.
Qed.

(** A changed byte of the text, or an unrelated secret, is rejected on
    this payload. *)
Example tampering_rejected :
  Payment.verify_signature
    (Payment.canonical_json
       (Payment.mkWebhookPayload "evt_test" "payment.completed"
          1704067200000000 [("amount", Json.JStr "900")] None))
    (snd (Payment.sign Scenario.a_payload "s3cret")) "s3cret" = Py.Ok false
  /\ Payment.verify_signature
       (Payment.canonical_json Scenario.a_payload)
       (snd (Payment.sign Scenario.a_payload "s3cret")) "other" = Py.Ok false.
Proof. split; vm_compute; reflexivity. Qed.

(* ------------------------------------------------------------------ *)
(** ** The ledger *)

Section Ledger.

Lemma find_map_key {A} (P : A -> bool) (f : A -> A) (l : list A) :
  (forall x, P (f x) = P x) ->
  find P (map f l) = option_map f (find P l).
Proof.
  intros HP. induction l as [|a l IH]; simpl; [reflexivity|].
  rewrite HP. destruct (P a); [reflexivity|exact IH].
Qed.

Lemma find_app_miss {A} (P : A -> bool) (l : list A) (x : A) :
  find P l = None -> P x = true -> find P (l ++ [x]) = Some x.
Proof.
  intros Hl Hx. induction l as [|a l IH]; simpl in *.
  - now rewrite Hx.
  - destruct (P a); [discriminate|auto].
Qed.

Lemma find_filter_out {A} (P : A -> bool) (l : list A) :
  find P (filter (fun x => negb (P x)) l) = None.
Proof.
  induction l as [|a l IH]; simpl; [reflexivity|].
  destruct (P a) eqn:E; simpl; [exact IH|now rewrite E].
Qed.

Lemma same_key_refl (e m : string) (d : Db.Delivery) :
  Db.event_id d = e -> Db.merchant_id d = m -> Db.same_key e m d = true.
Proof.
  intros <- <-. unfold Db.same_key. now rewrite !String.eqb_refl.
Qed.

Lemma same_key_true (e m : string) (d : Db.Delivery) :
  Db.same_key e m d = true -> Db.event_id d = e /\ Db.merchant_id d = m.
Proof.
  unfold Db.same_key. intros H. apply andb_true_iff in H as [H1 H2].
  now apply String.eqb_eq in H1, H2.
Qed.

(** What [log_delivery] leaves under the key it writes. *)
Lemma log_delivery_lookup now db mid et eid meth pl s rc rb cnt nr :
  exists row,
    Db.lookup (fst (Db.log_delivery now db mid et eid meth pl s rc rb cnt nr))
      eid mid = Some row
    /\ Db.event_id row = eid /\ Db.merchant_id row = mid
    /\ Db.success row = s /\ Db.response_code row = rc
    /\ Db.response_body row = rb /\ Db.retry_count row = cnt
    /\ Db.next_retry_at row = nr.
Proof.
  unfold Db.log_delivery, Db.lookup.
  destruct (Db._is_postgres db).
  - destruct (find (Db.same_key eid mid) (Db.webhook_deliveries db))
      as [old|] eqn:F; cbn [fst Db.webhook_deliveries].
    + rewrite find_map_key.
      * rewrite F; cbn [option_map].
        apply find_some in F as [_ K]. rewrite K.
        apply same_key_true in K as [K1 K2].
        eexists; split; [reflexivity|]. cbn. repeat split; assumption.
      * intros x. destruct (Db.same_key eid mid x) eqn:K; [|exact K].
        apply same_key_true in K as [K1 K2]. now apply same_key_refl.
    + eexists; split.
      * apply find_app_miss; [exact F|]. now apply same_key_refl.
      * cbn. repeat split.
  - cbn [fst Db.webhook_deliveries]. eexists; split.
    + apply find_app_miss; [apply find_filter_out|]. now apply same_key_refl.
    + cbn. repeat split.
Qed.

Lemma lookup_success_processed db eid mid row :
  Db.lookup db eid mid = Some row -> Db.success row = true ->
  Db.check_event_processed db eid mid = true.
Proof.
  unfold Db.lookup, Db.check_event_processed. intros F S.
  apply find_some in F as [I K].
  apply existsb_exists. exists row. now rewrite K, S.
Qed.

End Ledger.

(* ------------------------------------------------------------------ *)
(** ** Webhook delivery *)

Ltac run :=
  unfold Eff.bind, Eff.ret, Eff.lift, Eff.get, Eff.put, Eff.utcnow,
    Eff.set_db, Eff.set_stats, DbM.log_delivery, DbM.get_pending_retries,
    DbM.mark_delivery_success, DbM.update_delivery_retry,
    DbM.check_event_processed, DbM.get_merchant, Router.bump.

Arguments Payment.sign : simpl never.
Arguments Payment.to_json : simpl never.
Arguments Payment.canonical_json : simpl never.
Arguments Payment.from_payment_event : simpl never.
Arguments Payment.format : simpl never.
Arguments Payment.get_formatted_amount : simpl never.
Arguments Payment.get_event_id : simpl never.
Arguments DateTime.isoformat : simpl never.
Arguments DateTime.minutes : simpl never.
Arguments Db.log_delivery : simpl never.
Arguments Db.get_pending_retries : simpl never.
Arguments Db.mark_delivery_success : simpl never.
Arguments Db.update_delivery_retry : simpl never.
Arguments Db.check_event_processed : simpl never.
Arguments Db.get_merchant : simpl never.
Arguments MerchantModel.from_dict : simpl never.
Arguments TelegramService.rate_limit : simpl never.
Arguments with_db : simpl never.
Arguments with_stats : simpl never.

Ltac exec := repeat run; cbn.

Section Webhook.

Variables (self : WebhookService.t) (env : Env).

(** [_deliver] touches neither the ledger nor the clock. *)
Lemma deliver_frame url payload secret st r st' :
  WebhookService._deliver env url payload secret st = (r, st') ->
  db st' = db st /\ clock st' = clock st
  /\ telegram_posts st' = telegram_posts st
  /\ _last_send_times st' = _last_send_times st /\ _stats st' = _stats st
  /\ webhook_session st' = webhook_session st
  /\ telegram_session st' = telegram_session st.
Proof.
  unfold WebhookService._deliver.
  destruct (webhook_session st) eqn:S; cbn [negb].
  - destruct (http_reply env _) as [status body|e| |e];
      [destruct ((200 <=? status) && (status <? 300))| | |];
      intros H; inversion H; subst; cbn; rewrite ?S; repeat split.
  - intros H; inversion H; subst; repeat split; auto.
Qed.

Lemma deliver_total url payload secret st :
  exists success code body st',
    WebhookService._deliver env url payload secret st
    = (Py.Ok (success, code, body), st').
Proof.
  unfold WebhookService._deliver.
  destruct (negb (webhook_session st)); [eauto 6|].
  destruct (http_reply env _) as [status body|e| |e];
    [destruct ((200 <=? status) && (status <? 300))| | |]; eauto 6.
Qed.

End Webhook.

Section WebhookSend.

Variables (self : WebhookService.t) (env : Env).

Lemma from_payment_event_id now e et p :
  Payment.from_payment_event now e et = Py.Ok p ->
  Payment.event_id p = Payment.get_event_id e /\ Payment.timestamp p = now.
Proof.
  unfold Payment.from_payment_event.
  destruct (Payment.get_formatted_amount e); cbn [Py.bind]; [|discriminate].
  intros H; inversion H; subst; cbn; auto.
Qed.

(** [send_notification], once the merchant is a configured webhook
    merchant and the payload could be built: one [_deliver], then one
    ledger write of its outcome. *)
Lemma send_notification_run m e et st url secret unsigned success code body st1 :
  MerchantModel.is_webhook m = true ->
  MerchantModel.webhook_url m = Some url ->
  MerchantModel.webhook_secret m = Some secret ->
  url <> "" -> secret <> "" ->
  Payment.from_payment_event (clock st) e et = Py.Ok unsigned ->
  WebhookService._deliver env url (fst (Payment.sign unsigned secret)) secret st
  = (Py.Ok (success, code, body), st1) ->
  WebhookService.send_notification self env m e et st
  = (Py.Ok (success, if success then None else body),
     with_db (fst (Db.log_delivery (clock st) (db st) (MerchantModel.id m) et
                     (Payment.get_event_id e) "webhook"
                     (Db.JsonPayload (fst (Payment.sign unsigned secret)))
                     success code body 0
                     (if negb success
                         && (0 <? List.length (WebhookService.retry_delays self))%nat
                      then Some (clock st + DateTime.minutes
                                   (nth 0 (WebhookService.retry_delays self) 0))
                      else None)))
             st1).
Proof.
  intros W U S Un Sn F D.
  unfold WebhookService.send_notification. rewrite W, U, S. cbn [negb].
  apply String.eqb_neq in Un, Sn. rewrite Un, Sn. cbn [orb].
  exec. rewrite F. exec. rewrite D. exec.
  destruct (deliver_frame env _ _ _ _ _ _ D) as (Hdb & Hck & _).
  rewrite Hdb, Hck.
  destruct (from_payment_event_id _ _ _ _ F) as [Hid _].
  replace (Payment.event_id (fst (Payment.sign unsigned secret)))
    with (Payment.get_event_id e) by (now rewrite <- Hid).
  destruct (Db.log_delivery _ _ _ _ _ _ _ _ _ _ _ _) as [d i] eqn:L. cbn.
  destruct success; reflexivity.
Qed.

(** A send that reports success performed exactly one POST; any send
    performs at most one, and writes the ledger only under the key
    (event id, merchant id). *)
Lemma send_notification_cases m e et st r st' :
  WebhookService.send_notification self env m e et st = (r, st') ->
  (st' = st /\ (exists err, r = Py.Ok (false, Some err) \/ exists x y, r = Py.Raise x y))
  \/ exists url secret unsigned success code body st1,
       Payment.from_payment_event (clock st) e et = Py.Ok unsigned
       /\ WebhookService._deliver env url (fst (Payment.sign unsigned secret))
            secret st = (Py.Ok (success, code, body), st1)
       /\ r = Py.Ok (success, if success then None else body)
       /\ st' = with_db (fst (Db.log_delivery (clock st) (db st)
                        (MerchantModel.id m) et (Payment.get_event_id e) "webhook"
                        (Db.JsonPayload (fst (Payment.sign unsigned secret)))
                        success code body 0
                        (if negb success
                            && (0 <? List.length (WebhookService.retry_delays self))%nat
                         then Some (clock st + DateTime.minutes
                                      (nth 0 (WebhookService.retry_delays self) 0))
                         else None)))
                  st1.
Proof.
  intros H.
  destruct (MerchantModel.is_webhook m) eqn:W.
  2:{ unfold WebhookService.send_notification in H. rewrite W in H.
      inversion H; subst. left; split; [reflexivity|]. eexists; left; reflexivity. }
  destruct (MerchantModel.webhook_url m) as [url|] eqn:U.
  2:{ unfold WebhookService.send_notification in H. rewrite W, U in H.
      inversion H; subst. left; split; [reflexivity|]. eexists; left; reflexivity. }
  destruct (MerchantModel.webhook_secret m) as [secret|] eqn:S.
  2:{ unfold WebhookService.send_notification in H. rewrite W, U, S in H.
      inversion H; subst. left; split; [reflexivity|]. eexists; left; reflexivity. }
  destruct (String.eqb url "") eqn:Un.
  { unfold WebhookService.send_notification in H. rewrite W, U, S, Un in H.
    inversion H; subst. left; split; [reflexivity|]. eexists; left; reflexivity. }
  destruct (String.eqb secret "") eqn:Sn.
  { unfold WebhookService.send_notification in H. rewrite W, U, S, Un, Sn in H.
    inversion H; subst. left; split; [reflexivity|]. eexists; left; reflexivity. }
  destruct (Payment.from_payment_event (clock st) e et) as [unsigned|x y] eqn:F.
  2:{ unfold WebhookService.send_notification in H. rewrite W, U, S, Un, Sn in H.
      revert H. exec. rewrite F. exec. intros H; inversion H; subst.
      left; split; [reflexivity|]. exists ""; right; eauto. }
  destruct (deliver_total env url (fst (Payment.sign unsigned secret)) secret st)
    as (success & code & body & st1 & D).
  apply String.eqb_neq in Un, Sn.
  rewrite (send_notification_run m e et st url secret unsigned success code body st1)
    in H by assumption.
  inversion H; subst. right. exists url, secret, unsigned, success, code, body, st1.
  repeat split; assumption.
Qed.

End WebhookSend.


(** C7. A webhook delivery attempt succeeds exactly when a response
    came back with a status in [200, 300); any other status, a network
    error or a timeout is a failure; the status code (absent without a
    response) and the response body (or the error text) are returned and
    are what the ledger record of the delivery carries. *)
Theorem delivery_outcome_recorded :
  forall self env st,
  (forall url payload secret,
      exists success code body st',
        WebhookService._deliver env url payload secret st
        = (Py.Ok (success, code, body), st')
        /\ (success = true <->
            webhook_session st = true
            /\ exists status b,
                http_reply env (List.length (http_posts st)) = HttpResponse status b
                /\ 200 <= status < 300)
        /\ (webhook_session st = true ->
            match http_reply env (List.length (http_posts st)) with
            | HttpResponse status b => code = Some status /\ body = Some b
            | HttpClientError e => code = None /\ body = Some e
            | HttpTimeout => code = None /\ body = Some "Request timeout"
            | HttpException e => code = None /\ body = Some e
            end))
  /\ (forall m e et url secret unsigned success code body st1,
      MerchantModel.is_webhook m = true ->
      MerchantModel.webhook_url m = Some url ->
      MerchantModel.webhook_secret m = Some secret ->
      url <> "" -> secret <> "" ->
      Payment.from_payment_event (clock st) e et = Py.Ok unsigned ->
      WebhookService._deliver env url (fst (Payment.sign unsigned secret)) secret st
      = (Py.Ok (success, code, body), st1) ->
      exists st' row,
        WebhookService.send_notification self env m e et st
        = (Py.Ok (success, if success then None else body), st')
        /\ Db.lookup (db st') (Payment.get_event_id e) (MerchantModel.id m)
           = Some row
        /\ Db.success row = success
        /\ Db.response_code row = code
        /\ Db.response_body row = body).
Proof.
  intros self env st. split.
  - intros url payload secret. unfold WebhookService._deliver.
    destruct (webhook_session st) eqn:S; cbn [negb].
    + destruct (http_reply env _) as [status b|e| |e] eqn:R.
      * destruct ((200 <=? status) && (status <? 300)) eqn:C;
          do 4 eexists; (split; [reflexivity|]); split; auto; split.
        -- intros _. split; [reflexivity|]. exists status, b. split; [reflexivity|].
           apply andb_true_iff in C as [C1 C2]. lia.
        -- reflexivity.
        -- discriminate.
        -- intros [_ (s' & b' & E & Hs)]. inversion E; subst. 
           apply andb_false_iff in C as [C|C]; lia.
      * do 4 eexists; (split; [reflexivity|]); split; auto; split;
          [discriminate|]. intros [_ (s' & b' & E & _)]. discriminate.
      * do 4 eexists; (split; [reflexivity|]); split; auto; split;
          [discriminate|]. intros [_ (s' & b' & E & _)]. discriminate.
      * do 4 eexists; (split; [reflexivity|]); split; auto; split;
          [discriminate|]. intros [_ (s' & b' & E & _)]. discriminate.
    + do 4 eexists; (split; [reflexivity|]); split; [|discriminate]; split;
        [discriminate|]. intros [E _]; discriminate.
  - intros m e et url secret unsigned success code body st1 W U S Un Sn F D.
    rewrite (send_notification_run self env m e et st url secret unsigned
               success code body st1) by assumption.
    destruct (log_delivery_lookup (clock st) (db st) (MerchantModel.id m) et
                (Payment.get_event_id e) "webhook"
                (Db.JsonPayload (fst (Payment.sign unsigned secret)))
                success code body 0
                (if negb success
                    && (0 <? List.length (WebhookService.retry_delays self))%nat
                 then Some (clock st + DateTime.minutes
                              (nth 0 (WebhookService.retry_delays self) 0))
                 else None))
      as (row & L & _ & _ & Hs & Hc & Hb & _).
    eexists; exists row. split; [reflexivity|]. auto.
Qed.

(* ------------------------------------------------------------------ *)
(** ** Chat delivery *)

Section TelegramSend.

Variables (self : TelegramService.t) (env : Env).

(** [_send_message] leaves the ledger alone; it may advance the clock
    (the rate limiter sleeps). *)
Lemma send_message_frame chat text pm st r st' :
  TelegramService._send_message env chat text pm st = (r, st') ->
  db st' = db st /\ http_posts st' = http_posts st /\ _stats st' = _stats st
  /\ webhook_session st' = webhook_session st
  /\ telegram_session st' = telegram_session st
  /\ exists success response, r = Py.Ok (success, response).
Proof.
  unfold TelegramService._send_message, TelegramService._apply_rate_limit.
  destruct (telegram_session st) eqn:S; cbn [negb].
  - destruct (TelegramService.rate_limit _ _) as [w ts].
    destruct (telegram_reply env _) as [[|] data result|e|e];
      intros H; inversion H; subst; cbn; rewrite ?S; repeat split; eauto.
  - intros H; inversion H; subst; repeat split; eauto.
Qed.

Lemma send_message_total chat text pm st :
  exists success response st',
    TelegramService._send_message env chat text pm st
    = (Py.Ok (success, response), st').
Proof.
  destruct (TelegramService._send_message env chat text pm st) as [r st'] eqn:E.
  destruct (send_message_frame _ _ _ _ _ _ E) as (_ & _ & _ & _ & _ & s & x & ->).
  eauto.
Qed.

(** [send_notification] of the chat transport, once the merchant is a
    configured chat merchant and the message could be rendered. *)
Lemma telegram_send_run m e et st chat text success response st1 :
  MerchantModel.is_telegram m = true ->
  MerchantModel.telegram_chat_id m = Some chat -> chat <> "" ->
  Payment.format e (TelegramService.etherscan_url self) = Py.Ok text ->
  TelegramService._send_message env chat text "Markdown" st
  = (Py.Ok (success, response), st1) ->
  TelegramService.send_notification self env m e et st
  = (Py.Ok (success,
            if success then None
            else Some (match description response with
                       | Some error_msg => error_msg
                       | None => "Unknown error"
                       end)),
     with_db (fst (Db.log_delivery (clock st1) (db st) (MerchantModel.id m) et
                     (Payment.get_event_id e) "telegram" (Db.TextPayload text)
                     success
                     (if negb success then error_code response else Some 200)
                     (Some (repr response)) 0
                     (if negb success
                      then Some (clock st1 + DateTime.minutes 1) else None)))
             st1).
Proof.
  intros T C Cn F D.
  unfold TelegramService.send_notification. rewrite T, C. cbn [negb].
  apply String.eqb_neq in Cn. rewrite Cn.
  exec. rewrite F. exec. rewrite D. exec.
  destruct (send_message_frame _ _ _ _ _ _ D) as (Hdb & _).
  rewrite Hdb.
  destruct (Db.log_delivery _ _ _ _ _ _ _ _ _ _ _ _) as [d i] eqn:L. cbn.
  destruct success; reflexivity.
Qed.

Lemma telegram_send_cases m e et st r st' :
  TelegramService.send_notification self env m e et st = (r, st') ->
  (st' = st /\ (exists err, r = Py.Ok (false, Some err) \/ exists x y, r = Py.Raise x y))
  \/ exists chat text success response st1,
       Payment.format e (TelegramService.etherscan_url self) = Py.Ok text
       /\ TelegramService._send_message env chat text "Markdown" st
          = (Py.Ok (success, response), st1)
       /\ (exists err, r = Py.Ok (success, if success then None else Some err))
       /\ st' = with_db (fst (Db.log_delivery (clock st1) (db st)
                        (MerchantModel.id m) et (Payment.get_event_id e)
                        "telegram" (Db.TextPayload text) success
                        (if negb success then error_code response else Some 200)
                        (Some (repr response)) 0
                        (if negb success
                         then Some (clock st1 + DateTime.minutes 1) else None)))
                  st1.
Proof.
  intros H.
  destruct (MerchantModel.is_telegram m) eqn:T.
  2:{ unfold TelegramService.send_notification in H. rewrite T in H.
      inversion H; subst. left; split; [reflexivity|]. eexists; left; reflexivity. }
  destruct (MerchantModel.telegram_chat_id m) as [chat|] eqn:C.
  2:{ unfold TelegramService.send_notification in H. rewrite T, C in H.
      inversion H; subst. left; split; [reflexivity|]. eexists; left; reflexivity. }
  destruct (String.eqb chat "") eqn:Cn.
  { unfold TelegramService.send_notification in H. rewrite T, C, Cn in H.
    inversion H; subst. left; split; [reflexivity|]. eexists; left; reflexivity. }
  destruct (Payment.format e (TelegramService.etherscan_url self))
    as [text|x y] eqn:F.
  2:{ unfold TelegramService.send_notification in H. rewrite T, C, Cn in H.
      revert H. exec. rewrite F. exec. intros H; inversion H; subst.
      left; split; [reflexivity|]. exists ""; right; eauto. }
  destruct (send_message_total chat text "Markdown" st)
    as (success & response & st1 & D).
  apply String.eqb_neq in Cn.
  rewrite (telegram_send_run m e et st chat text success response st1)
    in H by assumption.
  inversion H; subst. right. exists chat, text, success, response, st1.
  repeat split; try assumption. eexists; reflexivity.
Qed.

End TelegramSend.


(* ------------------------------------------------------------------ *)
(** ** The router *)

Section Routing.

Variables (self : Router.t) (env : Env).

(** [route_notification], branch by branch. *)
Lemma route_run e et st :
  Router.route_notification self env e et st =
  let st0 := with_stats (Router.inc_total (_stats st)) st in
  if Db.check_event_processed (db st) (Payment.get_event_id e)
       (Payment.merchant_id e)
  then (Py.Ok (true, None),
        with_stats (Router.inc_already_processed (_stats st0)) st0)
  else
    match Db.get_merchant (db st) (Payment.merchant_id e) with
    | None =>
        (Py.Ok (false, Some ("Merchant " ++ Payment.merchant_id e
                               ++ " not registered")),
         with_stats (Router.inc_merchant_not_found (_stats st0)) st0)
    | Some row =>
        match MerchantModel.from_dict row with
        | Py.Raise x y => (Py.Raise x y, st0)
        | Py.Ok m =>
            if negb (MerchantModel.is_active m)
            then (Py.Ok (false, Some "Merchant is inactive"), st0)
            else
              match MerchantModel.notification_type m with
              | MerchantModel.WEBHOOK => Router._send_webhook self env m e et st0
              | MerchantModel.TELEGRAM => Router._send_telegram self env m e et st0
              end
        end
    end.
Proof.
  unfold Router.route_notification. exec.
  change (db (with_stats (Router.inc_total (_stats st)) st)) with (db st).
  destruct (Db.check_event_processed _ _ _); [reflexivity|].
  exec. change (db (with_stats (Router.inc_total (_stats st)) st)) with (db st).
  destruct (Db.get_merchant _ _) as [row|]; [|reflexivity].
  exec. destruct (MerchantModel.from_dict row) as [m|x y]; [|reflexivity].
  exec. destruct (MerchantModel.is_active m); [|reflexivity].
  cbn. destruct (MerchantModel.notification_type m); reflexivity.
Qed.

End Routing.


Section RoutingCalls.

Variables (self : Router.t) (env : Env).

Lemma db_with_stats s st : db (with_stats s st) = db st.
Proof. reflexivity. Qed.

Lemma db_with_db d st : db (with_db d st) = d.
Proof. reflexivity. Qed.

Lemma calls_with_stats s st :
  transport_calls (with_stats s st) = transport_calls st.
Proof. reflexivity. Qed.

Lemma calls_with_db d st : transport_calls (with_db d st) = transport_calls st.
Proof. reflexivity. Qed.

Lemma send_webhook_run m e et st success err st' :
  WebhookService.send_notification (Router.webhook_service self) env m e et st
  = (Py.Ok (success, err), st') ->
  Router._send_webhook self env m e et st
  = (Py.Ok (success, err),
     with_stats ((if success then Router.inc_webhook_sent
                  else Router.inc_webhook_failed) (_stats st')) st').
Proof.
  intros H. unfold Router._send_webhook. exec. rewrite H. exec.
  destruct success; reflexivity.
Qed.

Lemma send_webhook_raise m e et st x y st' :
  WebhookService.send_notification (Router.webhook_service self) env m e et st
  = (Py.Raise x y, st') ->
  Router._send_webhook self env m e et st = (Py.Raise x y, st').
Proof.
  intros H. unfold Router._send_webhook. exec. now rewrite H.
Qed.

Lemma send_telegram_run m e et st success err st' :
  TelegramService.send_notification (Router.telegram_service self) env m e et st
  = (Py.Ok (success, err), st') ->
  Router._send_telegram self env m e et st
  = (Py.Ok (success, err),
     with_stats ((if success then Router.inc_telegram_sent
                  else Router.inc_telegram_failed) (_stats st')) st').
Proof.
  intros H. unfold Router._send_telegram. exec. rewrite H. exec.
  destruct success; reflexivity.
Qed.

Lemma send_telegram_raise m e et st x y st' :
  TelegramService.send_notification (Router.telegram_service self) env m e et st
  = (Py.Raise x y, st') ->
  Router._send_telegram self env m e et st = (Py.Raise x y, st').
Proof.
  intros H. unfold Router._send_telegram. exec. now rewrite H.
Qed.

Lemma deliver_success_calls url payload secret st code body st1 :
  WebhookService._deliver env url payload secret st
  = (Py.Ok (true, code, body), st1) ->
  transport_calls st1 = S (transport_calls st).
Proof.
  unfold WebhookService._deliver, transport_calls.
  destruct (negb (webhook_session st)); [discriminate|].
  destruct (http_reply env _) as [status b|e| |e];
    [destruct ((200 <=? status) && (status <? 300))| | |];
    intros H; inversion H; subst; cbn.
  rewrite List.length_app; cbn; lia.
Qed.

Lemma send_message_success_calls chat text pm st response st1 :
  TelegramService._send_message env chat text pm st
  = (Py.Ok (true, response), st1) ->
  transport_calls st1 = S (transport_calls st).
Proof.
  unfold TelegramService._send_message, TelegramService._apply_rate_limit,
    transport_calls.
  destruct (negb (telegram_session st)); [discriminate|].
  destruct (TelegramService.rate_limit _ _) as [w ts].
  destruct (telegram_reply env _) as [[|] data result|e|e];
    intros H; inversion H; subst; cbn.
  rewrite List.length_app; cbn; lia.
Qed.

(** A routing that was not a replay and reports delivery performed
    exactly one transport call, and recorded the success under the
    event id and the id of the merchant object. *)
Lemma route_delivered e et st err st1 :
  Db.check_event_processed (db st) (Payment.get_event_id e)
    (Payment.merchant_id e) = false ->
  Router.route_notification self env e et st = (Py.Ok (true, err), st1) ->
  transport_calls st1 = S (transport_calls st)
  /\ exists row m,
       Db.get_merchant (db st) (Payment.merchant_id e) = Some row
       /\ MerchantModel.from_dict row = Py.Ok m
       /\ Db.check_event_processed (db st1) (Payment.get_event_id e)
            (MerchantModel.id m) = true.
Proof.
  intros C H. rewrite route_run in H. cbv zeta in H. rewrite C in H.
  destruct (Db.get_merchant (db st) (Payment.merchant_id e)) as [row|] eqn:G;
    [|discriminate].
  destruct (MerchantModel.from_dict row) as [m|x y] eqn:FD; [|discriminate].
  destruct (negb (MerchantModel.is_active m)); [discriminate|].
  set (st0 := with_stats (Router.inc_total (_stats st)) st) in *.
  destruct (MerchantModel.notification_type m).
  - destruct (WebhookService.send_notification (Router.webhook_service self)
                env m e et st0) as [r st'] eqn:S.
    destruct (send_notification_cases _ _ _ _ _ _ _ _ S)
      as [[-> [err' [->|(x & y & ->)]]]|
          (url & secret & unsigned & success & code & body & st2 & F & D & -> & ->)].
    + rewrite (send_webhook_run _ _ _ _ _ _ _ S) in H. discriminate.
    + rewrite (send_webhook_raise _ _ _ _ _ _ _ S) in H. discriminate.
    + rewrite (send_webhook_run _ _ _ _ _ _ _ S) in H.
      injection H as Hs _ Hst. subst success st1.
      rewrite calls_with_stats, calls_with_db, db_with_stats, db_with_db.
      split.
      * apply deliver_success_calls in D. exact D.
      * exists row, m. split; [reflexivity|]. split; [exact FD|].
        destruct (log_delivery_lookup (clock st0) (db st0) (MerchantModel.id m) et
                    (Payment.get_event_id e) "webhook"
                    (Db.JsonPayload (fst (Payment.sign unsigned secret)))
                    true code body 0
                    (if negb true
                        && (0 <? List.length
                                   (WebhookService.retry_delays
                                      (Router.webhook_service self)))%nat
                     then Some (clock st0 + DateTime.minutes
                                  (nth 0 (WebhookService.retry_delays
                                            (Router.webhook_service self)) 0))
                     else None))
          as (r & L & _ & _ & Hs & _).
        eapply lookup_success_processed; [exact L|exact Hs].
  - destruct (TelegramService.send_notification (Router.telegram_service self)
                env m e et st0) as [r st'] eqn:S.
    destruct (telegram_send_cases _ _ _ _ _ _ _ _ S)
      as [[-> [err' [->|(x & y & ->)]]]|
          (chat & text & success & response & st2 & F & D & [err' ->] & ->)].
    + rewrite (send_telegram_run _ _ _ _ _ _ _ S) in H. discriminate.
    + rewrite (send_telegram_raise _ _ _ _ _ _ _ S) in H. discriminate.
    + rewrite (send_telegram_run _ _ _ _ _ _ _ S) in H.
      injection H as Hs _ Hst. subst success st1.
      rewrite calls_with_stats, calls_with_db, db_with_stats, db_with_db.
      split.
      * apply send_message_success_calls in D. exact D.
      * exists row, m. split; [reflexivity|]. split; [exact FD|].
        destruct (log_delivery_lookup (clock st2) (db st0) (MerchantModel.id m) et
                    (Payment.get_event_id e) "telegram" (Db.TextPayload text)
                    true (if negb true then error_code response else Some 200)
                    (Some (repr response)) 0
                    (if negb true
                     then Some (clock st2 + DateTime.minutes 1) else None))
          as (r & L & _ & _ & Hs & _).
        eapply lookup_success_processed; [exact L|exact Hs].
Qed.

End RoutingCalls.


Lemma delivery_outcome_recorded_witness :
  let st := Scenario.start true [Scenario.shop] in
  exists st' row,
    WebhookService.send_notification WebhookService.default Scenario.down
      (MerchantModel.mkMerchant Scenario.shop_id MerchantModel.WEBHOOK None
         (Some "https://example.com/webhook") (Some "secret123") None true 0 0)
      (Scenario.payment Scenario.shop_id) "payment.completed" st
    = (Py.Ok (false, Some "Internal Server Error"), st')
    /\ Db.lookup (db st') (Payment.get_event_id (Scenario.payment Scenario.shop_id))
         Scenario.shop_id = Some row
    /\ Db.success row = false
    /\ Db.response_code row = Some 500
    /\ Db.response_body row = Some "Internal Server Error".
Proof.
  intros st.
  destruct (Payment.from_payment_event (clock st)
              (Scenario.payment Scenario.shop_id) "payment.completed")
    as [unsigned|x y] eqn:F; [|vm_compute in F; discriminate].
  eapply (proj2 (delivery_outcome_recorded WebhookService.default Scenario.down st))
    with (url := "https://example.com/webhook") (secret := "secret123")
         (unsigned := unsigned) (success := false) (code := Some 500)
         (body := Some "Internal Server Error")
         (st1 := snd (WebhookService._deliver Scenario.down
                        "https://example.com/webhook"
                        (fst (Payment.sign unsigned "secret123")) "secret123" st));
    [reflexivity|reflexivity|reflexivity|discriminate|discriminate|exact F|].
  unfold WebhookService._deliver. cbn. reflexivity.
Defined.


(** C1. Routing an event whose (event id, merchant id) pair already has
    a success record returns delivered=true, performs no transport call
    and writes no ledger record: only the two counters of the router
    move.  Hence, when a first routing delivered the event and left the
    success record of the pair, the two routings together performed
    exactly one transport call. *)
Theorem replay_is_noop :
  forall self env e et,
  (forall st,
      Db.check_event_processed (db st) (Payment.get_event_id e)
        (Payment.merchant_id e) = true ->
      Router.route_notification self env e et st
      = (Py.Ok (true, None),
         with_stats (Router.inc_already_processed
                       (Router.inc_total (_stats st))) st))
  /\ (forall st0 err st1,
      Db.check_event_processed (db st0) (Payment.get_event_id e)
        (Payment.merchant_id e) = false ->
      Router.route_notification self env e et st0 = (Py.Ok (true, err), st1) ->
      Db.check_event_processed (db st1) (Payment.get_event_id e)
        (Payment.merchant_id e) = true ->
      exists st2,
        Router.route_notification self env e et st1 = (Py.Ok (true, None), st2)
        /\ db st2 = db st1
        /\ http_posts st2 = http_posts st1
        /\ telegram_posts st2 = telegram_posts st1
        /\ transport_calls st2 = S (transport_calls st0)).
Proof.
  intros self env e et. split.
  - intros st C. rewrite route_run. cbv zeta. rewrite C. reflexivity.
  - intros st0 err st1 C0 R1 C1.
    eexists. split.
    + rewrite route_run. cbv zeta. rewrite C1. reflexivity.
    + repeat split.
      rewrite !calls_with_stats.
      apply (route_delivered self env e et st0 err st1 C0 R1).
Qed.

Lemma replay_is_noop_witness :
  let e := Scenario.payment Scenario.shop_id in
  let st0 := Scenario.start true [Scenario.shop] in
  let st1 := Scenario.after
               (Router.route_notification Scenario.router Scenario.up_once e
                  "payment.completed") st0 in
  exists st2,
    Router.route_notification Scenario.router Scenario.up_once e
      "payment.completed" st1 = (Py.Ok (true, None), st2)
    /\ db st2 = db st1
    /\ http_posts st2 = http_posts st1
    /\ telegram_posts st2 = telegram_posts st1
    /\ transport_calls st2 = S (transport_calls st0).
Proof.
  intros e st0 st1.
  apply (proj2 (replay_is_noop Scenario.router Scenario.up_once e
                  "payment.completed")) with (err := None).
  - vm_compute. reflexivity.
  - vm_compute. reflexivity.
  - vm_compute. reflexivity.
Defined.


Lemma get_merchant_id db mid row :
  Db.get_merchant db mid = Some row -> MerchantModel.row_id row = mid.
Proof.
  unfold Db.get_merchant. intros H. apply find_some in H as [_ H].
  now apply String.eqb_eq in H.
Qed.

Lemma from_dict_fields row m :
  MerchantModel.from_dict row = Py.Ok m ->
  MerchantModel.id m = MerchantModel.normalise_id (MerchantModel.row_id row)
  /\ MerchantModel.is_active m = MerchantModel.row_is_active row
  /\ MerchantModel.webhook_url m = MerchantModel.row_webhook_url row
  /\ MerchantModel.webhook_secret m = MerchantModel.row_webhook_secret row
  /\ MerchantModel.telegram_chat_id m = MerchantModel.row_telegram_chat_id row.
Proof.
  unfold MerchantModel.from_dict.
  destruct (MerchantModel.NotificationType_of_str _) as [nt|]; cbn [Py.bind];
    [|discriminate].
  destruct (MerchantModel.validate _); cbn [Py.bind]; [|discriminate].
  intros H; inversion H; subst; cbn; auto.
Qed.

(** With a merchant id in the normal form of the directory, a delivered
    routing leaves the success record under the very pair the router
    looks up, so the next routing of the event is the replay of C1. *)
Lemma delivered_then_replay self env e et st0 err st1 :
  MerchantModel.normalise_id (Payment.merchant_id e) = Payment.merchant_id e ->
  Db.check_event_processed (db st0) (Payment.get_event_id e)
    (Payment.merchant_id e) = false ->
  Router.route_notification self env e et st0 = (Py.Ok (true, err), st1) ->
  Db.check_event_processed (db st1) (Payment.get_event_id e)
    (Payment.merchant_id e) = true.
Proof.
  intros N C R.
  destruct (route_delivered self env e et st0 err st1 C R)
    as (_ & row & m & G & F & P).
  apply get_merchant_id in G. apply from_dict_fields in F as (I & _).
  now rewrite I, G, N in P.
Qed.

(** Why the normal form of the directory matters: with a directory id
    stored without the 0x prefix, the merchant object carries the
    prefixed id, the success record is written under it, and the replay
    of the event does not find it and delivers again. *)
Example bare_directory_id_redelivers :
  let e := Scenario.payment Scenario.bare_id in
  let route := Router.route_notification Scenario.router Scenario.up e
                 "payment.completed" in
  let st1 := Scenario.after route (Scenario.start true [Scenario.bare_shop]) in
  let st2 := Scenario.after route st1 in
  map Db.merchant_id (Db.webhook_deliveries (db st1)) = ["0x" ++ Scenario.bare_id]
  /\ Db.check_event_processed (db st1) (Payment.get_event_id e)
       (Payment.merchant_id e) = false
  /\ List.length (http_posts st1) = 1%nat
  /\ List.length (http_posts st2) = 2%nat.
Proof. repeat split; vm_compute; reflexivity. Qed.

(** C8 as stated fails: an event already delivered to a merchant that
    was deactivated afterwards is routed as a replay, delivered=true,
    not as an error of an inactive merchant. *)
Lemma inactive_merchant_replay :
  let e := Scenario.payment Scenario.shop_id in
  let st1 := Scenario.after
               (Router.route_notification Scenario.router Scenario.up e
                  "payment.completed")
               (Scenario.start true [Scenario.shop]) in
  let st2 := with_db (Db.update_merchant_status (clock st1) (db st1)
                        Scenario.shop_id false) st1 in
  option_map MerchantModel.row_is_active
    (Db.get_merchant (db st2) (Payment.merchant_id e)) = Some false
  /\ fst (Router.route_notification Scenario.router Scenario.up e
            "payment.completed" st2) = Py.Ok (true, None).
Proof. split; vm_compute; reflexivity. Qed.

(** C8, as the code has it.  For an event with no success record of its
    pair: when the merchant is missing from the directory, routing fails
    with the not-registered message; when the merchant is present, its
    row is a valid configuration and it is inactive, routing fails with
    the inactive message.  Either way nothing but the counters of the
    router changes: no ledger record is written and no transport call
    is made. *)
Theorem unknown_or_inactive_merchant :
  forall self env e et st,
  Db.check_event_processed (db st) (Payment.get_event_id e)
    (Payment.merchant_id e) = false ->
  (Db.get_merchant (db st) (Payment.merchant_id e) = None ->
   Router.route_notification self env e et st
   = (Py.Ok (false, Some ("Merchant " ++ Payment.merchant_id e
                            ++ " not registered")),
      with_stats (Router.inc_merchant_not_found
                    (Router.inc_total (_stats st))) st))
  /\ (forall row m,
      Db.get_merchant (db st) (Payment.merchant_id e) = Some row ->
      MerchantModel.from_dict row = Py.Ok m ->
      MerchantModel.row_is_active row = false ->
      Router.route_notification self env e et st
      = (Py.Ok (false, Some "Merchant is inactive"),
         with_stats (Router.inc_total (_stats st)) st)).
Proof.
  intros self env e et st C. split.
  - intros G. rewrite route_run. cbv zeta. rewrite C, G. reflexivity.
  - intros row m G F A. rewrite route_run. cbv zeta. rewrite C, G, F.
    apply from_dict_fields in F as (_ & I & _). rewrite I, A. reflexivity.
Qed.

Lemma unknown_or_inactive_merchant_witness :
  let e := Scenario.payment Scenario.shop_id in
  Router.route_notification Scenario.router Scenario.up e "payment.completed"
    (Scenario.start true [])
  = (Py.Ok (false, Some ("Merchant " ++ Payment.merchant_id e
                           ++ " not registered")),
     with_stats (Router.inc_merchant_not_found
                   (Router.inc_total Scenario.no_stats))
       (Scenario.start true []))
  /\ Router.route_notification Scenario.router Scenario.up e "payment.completed"
       (Scenario.start true [Scenario.closed_shop])
     = (Py.Ok (false, Some "Merchant is inactive"),
        with_stats (Router.inc_total Scenario.no_stats)
          (Scenario.start true [Scenario.closed_shop])).
Proof.
  intros e. split.
  - apply (proj1 (unknown_or_inactive_merchant Scenario.router Scenario.up e
                    "payment.completed" (Scenario.start true []) eq_refl)).
    reflexivity.
  - apply (proj2 (unknown_or_inactive_merchant Scenario.router Scenario.up e
                    "payment.completed"
                    (Scenario.start true [Scenario.closed_shop]) eq_refl))
      with (row := Scenario.closed_shop)
           (m := MerchantModel.mkMerchant Scenario.shop_id MerchantModel.WEBHOOK
                   (Some "Test Shop") (Some "https://example.com/webhook")
                   (Some "secret123") None false 0 0);
      reflexivity.
Defined.


(* ------------------------------------------------------------------ *)
(** ** Retries *)

Section Retries.

Variable env : Env.

Lemma to_json_nonempty p : String.eqb (Payment.to_json p) "" = false.
Proof. reflexivity. Qed.

(** What [update_delivery_retry] does to the row of the id. *)
Lemma by_id_update now db i c nr rc rb :
  Db.by_id (Db.update_delivery_retry now db i c nr rc rb) i
  = option_map
      (fun d => Db.mkDelivery (Db.id d) (Db.merchant_id d) (Db.event_type d)
                  (Db.event_id d) (Db.delivery_method d) (Db.payload d)
                  (Db.success d) rc rb c nr now (Db.created_at d))
      (Db.by_id db i).
Proof.
  unfold Db.by_id, Db.update_delivery_retry. cbn [Db.set_deliveries Db.webhook_deliveries].
  induction (Db.webhook_deliveries db) as [|d l IH]; [reflexivity|].
  cbn [map find]. destruct (Db.id d =? i) eqn:E.
  - cbn [Db.id]. rewrite E. reflexivity.
  - rewrite E. exact IH.
Qed.

(** A failed retry of the webhook transport. *)
Lemma webhook_retry_failed self p st url secret stored code body st1 :
  Db.webhook_url p = Some url -> url <> "" ->
  Db.webhook_secret p = Some secret -> secret <> "" ->
  Db.payload (Db.delivery p) = Db.JsonPayload stored ->
  WebhookService._deliver env url (fst (Payment.sign stored secret)) secret st
  = (Py.Ok (false, code, body), st1) ->
  let c := Db.retry_count (Db.delivery p) in
  WebhookService._retry_delivery self env p st
  = (Py.Ok tt,
     with_db (Db.update_delivery_retry (clock st) (db st)
                (Db.id (Db.delivery p)) (c + 1)
                (if c + 1 <? Z.of_nat (List.length (WebhookService.retry_delays self))
                 then Some (clock st + DateTime.minutes
                              (nth (Z.to_nat (c + 1))
                                   (WebhookService.retry_delays self) 0))
                 else None)
                code body)
             st1).
Proof.
  intros U Un S Sn P D c.
  unfold WebhookService._retry_delivery. rewrite U, S, P.
  apply String.eqb_neq in Un, Sn.
  cbn [Py.truthy Db.payload_text negb]. rewrite Un, Sn, to_json_nonempty.
  cbn [negb orb]. exec. rewrite D. exec.
  destruct (deliver_frame env _ _ _ _ _ _ D) as (Hdb & Hck & _).
  rewrite Hdb, Hck. reflexivity.
Qed.

(** A successful retry of the webhook transport. *)
Lemma webhook_retry_succeeded self p st url secret stored code body st1 :
  Db.webhook_url p = Some url -> url <> "" ->
  Db.webhook_secret p = Some secret -> secret <> "" ->
  Db.payload (Db.delivery p) = Db.JsonPayload stored ->
  WebhookService._deliver env url (fst (Payment.sign stored secret)) secret st
  = (Py.Ok (true, code, body), st1) ->
  WebhookService._retry_delivery self env p st
  = (Py.Ok tt,
     with_db (Db.mark_delivery_success (clock st) (db st) (Db.id (Db.delivery p)))
             st1).
Proof.
  intros U Un S Sn P D.
  unfold WebhookService._retry_delivery. rewrite U, S, P.
  apply String.eqb_neq in Un, Sn.
  cbn [Py.truthy Db.payload_text negb]. rewrite Un, Sn, to_json_nonempty.
  cbn [negb orb]. exec. rewrite D. exec.
  destruct (deliver_frame env _ _ _ _ _ _ D) as (Hdb & Hck & _).
  rewrite Hdb, Hck. reflexivity.
Qed.

(** A failed retry of the chat transport. *)
Lemma telegram_retry_failed p st chat response st1 :
  Db.telegram_chat_id p = Some chat -> chat <> "" ->
  Db.payload_text (Db.payload (Db.delivery p)) <> "" ->
  TelegramService._send_message env chat
    (Db.payload_text (Db.payload (Db.delivery p))) "Markdown" st
  = (Py.Ok (false, response), st1) ->
  let c := Db.retry_count (Db.delivery p) in
  TelegramService._retry_delivery env p st
  = (Py.Ok tt,
     with_db (Db.update_delivery_retry (clock st1) (db st)
                (Db.id (Db.delivery p)) (c + 1)
                (if c + 1 <? 3
                 then Some (clock st1 + DateTime.minutes (5 * (c + 1)))
                 else None)
                (error_code response) (Some (repr response)))
             st1).
Proof.
  intros C Cn T D c.
  unfold TelegramService._retry_delivery. rewrite C.
  apply String.eqb_neq in Cn, T. rewrite Cn, T.
  cbn [orb]. exec. rewrite D. exec.
  destruct (send_message_frame env _ _ _ _ _ _ D) as (Hdb & _).
  rewrite Hdb. reflexivity.
Qed.

Lemma In_insert_by_time x p l :
  In x (Db.insert_by_time p l) <-> x = p \/ In x l.
Proof.
  induction l as [|y l IH]; cbn.
  - intuition.
  - destruct (Db.retry_time p <=? Db.retry_time y); cbn; rewrite ?IH; intuition.
Qed.

Lemma In_sorted x l :
  In x (fold_right Db.insert_by_time [] l) <-> In x l.
Proof.
  induction l as [|y l IH]; cbn; [reflexivity|].
  rewrite In_insert_by_time, IH. intuition.
Qed.

(** The retry queue holds only rows of the ledger that are due:
    unsuccessful, with a retry time that has come. *)
Lemma pending_due now db p :
  In p (Db.get_pending_retries now db) ->
  In (Db.delivery p) (Db.webhook_deliveries db)
  /\ Db.due now (Db.delivery p) = true.
Proof.
  unfold Db.get_pending_retries. rewrite In_sorted, in_flat_map.
  intros (d & Hd & Hp). apply filter_In in Hd as [Hin Hdue].
  apply in_map_iff in Hp as (m & <- & _). cbn. auto.
Qed.

Lemma due_not_exhausted now d :
  Db.due now d = true ->
  Db.success d = false /\ exists t, Db.next_retry_at d = Some t /\ t <= now.
Proof.
  unfold Db.due. intros H. apply andb_true_iff in H as [H1 H2].
  split; [now apply negb_true_iff|].
  destruct (Db.next_retry_at d) as [t|]; [|discriminate].
  exists t. split; [reflexivity|lia].
Qed.

End Retries.


(** C3 as stated fails: with the schedule [1, 5, 15, 60], after four
    failures in all (the live delivery and three retries, four POSTs
    answered 500) the record is not exhausted: its fourth retry is
    scheduled 60 minutes ahead. *)
Lemma four_failures_not_exhausted :
  let e := Scenario.payment Scenario.shop_id in
  let st := Nat.iter 3 (Scenario.webhook_tick Scenario.down)
              (Scenario.failed_delivery true Scenario.shop) in
  WebhookService.retry_delays WebhookService.default = [1; 5; 15; 60]
  /\ List.length (http_posts st) = 4%nat
  /\ Scenario.schedule_of e st = Some (false, 3, Some (DateTime.minutes 60)).
Proof. repeat split; vm_compute; reflexivity. Qed.

(** The whole progression on one record, on either backend: the live
    failure, then one failed retry per tick; the fifth failure exhausts
    the record and the sixth tick sends nothing. *)
Example webhook_progression_run :
  forall postgres,
  let e := Scenario.payment Scenario.shop_id in
  let run n := Nat.iter n (Scenario.webhook_tick Scenario.down)
                 (Scenario.failed_delivery postgres Scenario.shop) in
  map (fun n => Scenario.schedule_of e (run n)) [0; 1; 2; 3; 4; 5]%nat
  = [ Some (false, 0, Some (DateTime.minutes 1));
      Some (false, 1, Some (DateTime.minutes 5));
      Some (false, 2, Some (DateTime.minutes 15));
      Some (false, 3, Some (DateTime.minutes 60));
      Some (false, 4, None);
      Some (false, 4, None) ]
  /\ map (fun n => List.length (http_posts (run n))) [0; 1; 2; 3; 4; 5]%nat
     = [1; 2; 3; 4; 5; 5]%nat.
Proof. intros [|]; split; vm_compute; reflexivity. Qed.

(** C3, as the code has it.  With the delay schedule [1, 5, 15, 60]: a
    failed first delivery is recorded with retry count 0 and its retry
    one minute ahead; a failed retry of a record of retry count c raises
    the count to c + 1 and schedules the next retry 5, 15 and 60 minutes
    ahead for c = 0, 1, 2; the failed retry of a record of count 3 or
    more (the fourth failed retry, the fifth failure in all) leaves it
    exhausted, without a retry time.  The success flag stays false
    throughout. *)
Theorem webhook_retry_progression :
  forall self env,
  WebhookService.retry_delays self = [1; 5; 15; 60] ->
  (forall m e et st url secret unsigned code body st1,
      MerchantModel.is_webhook m = true ->
      MerchantModel.webhook_url m = Some url ->
      MerchantModel.webhook_secret m = Some secret ->
      url <> "" -> secret <> "" ->
      Payment.from_payment_event (clock st) e et = Py.Ok unsigned ->
      WebhookService._deliver env url (fst (Payment.sign unsigned secret)) secret st
      = (Py.Ok (false, code, body), st1) ->
      exists st' row,
        WebhookService.send_notification self env m e et st
        = (Py.Ok (false, body), st')
        /\ Db.lookup (db st') (Payment.get_event_id e) (MerchantModel.id m)
           = Some row
        /\ Db.success row = false
        /\ Db.retry_count row = 0
        /\ Db.next_retry_at row = Some (clock st + DateTime.minutes 1))
  /\ (forall p st url secret stored code body st1 d,
      Db.webhook_url p = Some url -> url <> "" ->
      Db.webhook_secret p = Some secret -> secret <> "" ->
      Db.payload (Db.delivery p) = Db.JsonPayload stored ->
      Db.by_id (db st) (Db.id (Db.delivery p)) = Some d ->
      0 <= Db.retry_count (Db.delivery p) ->
      WebhookService._deliver env url (fst (Payment.sign stored secret)) secret st
      = (Py.Ok (false, code, body), st1) ->
      exists st' d',
        WebhookService._retry_delivery self env p st = (Py.Ok tt, st')
        /\ Db.by_id (db st') (Db.id (Db.delivery p)) = Some d'
        /\ Db.success d' = Db.success d
        /\ Db.retry_count d' = Db.retry_count (Db.delivery p) + 1
        /\ Db.next_retry_at d'
           = match Db.retry_count (Db.delivery p) with
             | 0 => Some (clock st + DateTime.minutes 5)
             | 1 => Some (clock st + DateTime.minutes 15)
             | 2 => Some (clock st + DateTime.minutes 60)
             | _ => None
             end).
Proof.
  intros self env Hd. split.
  - intros m e et st url secret unsigned code body st1 W U S Un Sn F D.
    rewrite (send_notification_run self env m e et st url secret unsigned
               false code body st1) by assumption.
    rewrite Hd. cbn [negb andb List.length Nat.ltb Nat.leb nth].
    destruct (log_delivery_lookup (clock st) (db st) (MerchantModel.id m) et
                (Payment.get_event_id e) "webhook"
                (Db.JsonPayload (fst (Payment.sign unsigned secret)))
                false code body 0 (Some (clock st + DateTime.minutes 1)))
      as (row & L & _ & _ & Hs & _ & _ & Hc & Hn).
    eexists; exists row. split; [reflexivity|]. auto.
  - intros p st url secret stored code body st1 d U Un S Sn P B C D.
    rewrite (webhook_retry_failed env self p st url secret stored code body st1)
      by assumption.
    eexists; eexists. split; [reflexivity|].
    rewrite db_with_db, by_id_update, B. cbn [option_map].
    split; [reflexivity|]. cbn. repeat split.
    rewrite Hd. cbn [List.length].
    remember (Db.retry_count (Db.delivery p)) as c eqn:Hc. clear Hc.
    destruct (Z.eq_dec c 0) as [->|N0]; [reflexivity|].
    destruct (Z.eq_dec c 1) as [->|N1]; [reflexivity|].
    destruct (Z.eq_dec c 2) as [->|N2]; [reflexivity|].
    assert (Hlt : (c + 1 <? Z.of_nat 4) = false) by (apply Z.ltb_ge; lia).
    rewrite Hlt.
    destruct c as [|[q|q|]|q]; try reflexivity; try lia.
    destruct q; try reflexivity; lia.
Qed.


Lemma webhook_retry_progression_witness :
  let st := Scenario.start true [Scenario.shop] in
  let e := Scenario.payment Scenario.shop_id in
  exists st' row,
    WebhookService.send_notification WebhookService.default Scenario.down
      (MerchantModel.mkMerchant Scenario.shop_id MerchantModel.WEBHOOK None
         (Some "https://example.com/webhook") (Some "secret123") None true 0 0)
      e "payment.completed" st
    = (Py.Ok (false, Some "Internal Server Error"), st')
    /\ Db.lookup (db st') (Payment.get_event_id e) Scenario.shop_id = Some row
    /\ Db.success row = false
    /\ Db.retry_count row = 0
    /\ Db.next_retry_at row = Some (clock st + DateTime.minutes 1).
Proof.
  intros st e.
  destruct (Payment.from_payment_event (clock st) e "payment.completed")
    as [unsigned|x y] eqn:F; [|vm_compute in F; discriminate].
  eapply (proj1 (webhook_retry_progression WebhookService.default Scenario.down
                   eq_refl))
    with (url := "https://example.com/webhook") (secret := "secret123")
         (unsigned := unsigned) (code := Some 500)
         (st1 := snd (WebhookService._deliver Scenario.down
                        "https://example.com/webhook"
                        (fst (Payment.sign unsigned "secret123")) "secret123" st));
    [reflexivity|reflexivity|reflexivity|discriminate|discriminate|exact F|].
  unfold WebhookService._deliver. cbn. reflexivity.
Defined.

(** C4 as stated fails on the first failure: the live delivery of the
    chat transport schedules the retry one minute ahead, not
    5 * (0 + 1) minutes. *)
Lemma chat_first_retry_after_one_minute :
  let e := Scenario.payment Scenario.chat_shop_id in
  let st := Scenario.failed_delivery true Scenario.chat_shop in
  Scenario.schedule_of e st = Some (false, 0, Some (DateTime.minutes 1))
  /\ DateTime.minutes 1 <> DateTime.minutes (5 * (0 + 1)).
Proof. split; vm_compute; [reflexivity|discriminate]. Qed.

(** The whole progression on one record, on either backend: the live
    failure, three failed retries, and ticks that send nothing more. *)
Example chat_progression_run :
  forall postgres,
  let e := Scenario.payment Scenario.chat_shop_id in
  let run n := Nat.iter n (Scenario.telegram_tick Scenario.down)
                 (Scenario.failed_delivery postgres Scenario.chat_shop) in
  map (fun n => Scenario.schedule_of e (run n)) [0; 1; 2; 3; 4; 5]%nat
  = [ Some (false, 0, Some (DateTime.minutes 1));
      Some (false, 1, Some (DateTime.minutes 5));
      Some (false, 2, Some (DateTime.minutes 10));
      Some (false, 3, None);
      Some (false, 3, None);
      Some (false, 3, None) ]
  /\ map (fun n => List.length (telegram_posts (run n))) [0; 1; 2; 3; 4; 5]%nat
     = [1; 2; 3; 4; 4; 4]%nat.
Proof. intros [|]; split; vm_compute; reflexivity. Qed.

(** C4, as the code has it.  A failed live delivery of the chat
    transport is recorded with retry count 0 and its retry one minute
    ahead.  A failed retry of a record of retry count c raises the count
    to c + 1 and schedules the next retry 5 * (c + 1) minutes ahead while
    c + 1 < 3, and leaves the record exhausted otherwise: three failed
    retries in a row give +5m, +10m and then no retry time.  A row
    without a retry time is never in the retry queue, so the next tick
    makes no attempt for it. *)
Theorem chat_retry_progression :
  forall self env,
  (forall m e et st chat text response st1,
      MerchantModel.is_telegram m = true ->
      MerchantModel.telegram_chat_id m = Some chat -> chat <> "" ->
      Payment.format e (TelegramService.etherscan_url self) = Py.Ok text ->
      TelegramService._send_message env chat text "Markdown" st
      = (Py.Ok (false, response), st1) ->
      exists st' row err,
        TelegramService.send_notification self env m e et st
        = (Py.Ok (false, Some err), st')
        /\ Db.lookup (db st') (Payment.get_event_id e) (MerchantModel.id m)
           = Some row
        /\ Db.success row = false
        /\ Db.retry_count row = 0
        /\ Db.next_retry_at row = Some (clock st' + DateTime.minutes 1))
  /\ (forall p st chat response st1 d,
      Db.telegram_chat_id p = Some chat -> chat <> "" ->
      Db.payload_text (Db.payload (Db.delivery p)) <> "" ->
      Db.by_id (db st) (Db.id (Db.delivery p)) = Some d ->
      0 <= Db.retry_count (Db.delivery p) ->
      TelegramService._send_message env chat
        (Db.payload_text (Db.payload (Db.delivery p))) "Markdown" st
      = (Py.Ok (false, response), st1) ->
      exists st' d',
        TelegramService._retry_delivery env p st = (Py.Ok tt, st')
        /\ Db.by_id (db st') (Db.id (Db.delivery p)) = Some d'
        /\ Db.success d' = Db.success d
        /\ Db.retry_count d' = Db.retry_count (Db.delivery p) + 1
        /\ Db.next_retry_at d'
           = match Db.retry_count (Db.delivery p) with
             | 0 => Some (clock st' + DateTime.minutes 5)
             | 1 => Some (clock st' + DateTime.minutes 10)
             | _ => None
             end)
  /\ (forall now db p,
      In p (Db.get_pending_retries now db) ->
      Db.success (Db.delivery p) = false
      /\ Db.next_retry_at (Db.delivery p) <> None).
Proof.
  intros self env. split; [|split].
  - intros m e et st chat text response st1 T C Cn F D.
    rewrite (telegram_send_run self env m e et st chat text false response st1)
      by assumption.
    cbn [negb].
    destruct (log_delivery_lookup (clock st1) (db st) (MerchantModel.id m) et
                (Payment.get_event_id e) "telegram" (Db.TextPayload text)
                false (error_code response) (Some (repr response)) 0
                (Some (clock st1 + DateTime.minutes 1)))
      as (row & L & _ & _ & Hs & _ & _ & Hc & Hn).
    eexists; exists row; eexists. split; [reflexivity|]. auto.
  - intros p st chat response st1 d C Cn T B Hc D.
    rewrite (telegram_retry_failed env p st chat response st1) by assumption.
    eexists; eexists. split; [reflexivity|].
    rewrite db_with_db, by_id_update, B. cbn [option_map].
    split; [reflexivity|]. cbn. repeat split.
    remember (Db.retry_count (Db.delivery p)) as c eqn:E. clear E.
    destruct (Z.eq_dec c 0) as [->|N0]; [reflexivity|].
    destruct (Z.eq_dec c 1) as [->|N1]; [reflexivity|].
    assert (Hlt : (c + 1 <? 3) = false) by (apply Z.ltb_ge; lia).
    rewrite Hlt.
    destruct c as [|[q|q|]|q]; try reflexivity; lia.
  - intros now db p H. apply pending_due in H as [_ H].
    apply due_not_exhausted in H as (S & t & N & _).
    split; [exact S|]. rewrite N. discriminate.
Qed.

Lemma chat_retry_progression_witness :
  let st := Scenario.start true [Scenario.chat_shop] in
  let e := Scenario.payment Scenario.chat_shop_id in
  exists st' row err,
    TelegramService.send_notification (Router.telegram_service Scenario.router)
      Scenario.down
      (MerchantModel.mkMerchant Scenario.chat_shop_id MerchantModel.TELEGRAM None
         None None (Some "123456789") true 0 0)
      e "payment.completed" st
    = (Py.Ok (false, Some err), st')
    /\ Db.lookup (db st') (Payment.get_event_id e) Scenario.chat_shop_id
       = Some row
    /\ Db.success row = false
    /\ Db.retry_count row = 0
    /\ Db.next_retry_at row = Some (clock st' + DateTime.minutes 1).
Proof.
  intros st e.
  destruct (Payment.format e
              (TelegramService.etherscan_url
                 (Router.telegram_service Scenario.router)))
    as [text|x y] eqn:F; [|vm_compute in F; discriminate].
  eapply (proj1 (chat_retry_progression
                   (Router.telegram_service Scenario.router) Scenario.down))
    with (chat := "123456789") (text := text) (response := Scenario.bot_error)
         (st1 := snd (TelegramService._send_message Scenario.down "123456789"
                        text "Markdown" st));
    [reflexivity|reflexivity|discriminate|exact F|].
  reflexivity.
Defined.


(* ------------------------------------------------------------------ *)
(** ** The rate limiter *)

(** When the window is full the caller sleeps until the oldest recorded
    time leaves it; otherwise it does not sleep. *)
Lemma rate_limit_wait now times :
  let kept := filter (fun t => now - t <? TelegramService.RATE_PERIOD) times in
  fst (TelegramService.rate_limit now times)
  = if (TelegramService.RATE_LIMIT <=? List.length kept)%nat
    then Z.max 0 (nth 0 kept 0 + TelegramService.RATE_PERIOD - now)
    else 0.
Proof.
  unfold TelegramService.rate_limit. cbn [fst].
  destruct (TelegramService.RATE_LIMIT <=? _)%nat; [|reflexivity].
  destruct (0 <? _) eqn:E; [apply Z.ltb_lt in E|apply Z.ltb_ge in E]; lia.
Qed.

(** The time recorded for a send is the time of entry, also when the
    caller slept before sending. *)
Lemma rate_limit_records_entry now times :
  snd (TelegramService.rate_limit now times)
  = (filter (fun t => now - t <? TelegramService.RATE_PERIOD) times ++ [now])%list.
Proof. reflexivity. Qed.

(** C6, the part that holds: 25 sends issued at the same instant under
    the limit of 20 per second leave at once for the first 20, and the
    21st is delayed until the oldest send is one second old; no window
    of one second holds more than 20 of them. *)
Example burst_of_25 :
  let sent := TelegramService.send_times 25 0 0 [] in
  sent = (repeat 0 20 ++ repeat TelegramService.RATE_PERIOD 5)%list
  /\ nth 20 sent 0 = nth 0 sent 0 + TelegramService.RATE_PERIOD
  /\ forallb (fun t => (TelegramService.sends_in_window sent t <=? 20)%nat)
       [0; 1; 999999; 1000000; 1000001; 1999999; 2000000] = true.
Proof. repeat split; vm_compute; reflexivity. Qed.

(** C6 fails on the code: of 41 sends issued one after the other, a
    millisecond apart, 21 leave within the 20 milliseconds from 1.000 s
    to 1.020 s.  The 21st send sleeps until 1.000 s but is recorded at
    its time of entry, 0.020 s, so the limiter stops counting it while
    it is still in the window. *)
Theorem rate_limit_overrun :
  let sent := TelegramService.send_times 41 1000 0 [] in
  nth 20 sent 0 = 1000000
  /\ firstn 21 (skipn 20 sent)
     = map (fun k => 1000000 + 1000 * Z.of_nat k) (seq 0 21)
  /\ TelegramService.sends_in_window sent 1020000 = 21%nat
  /\ (TelegramService.RATE_LIMIT < TelegramService.sends_in_window sent 1020000)%nat.
Proof. repeat split; vm_compute; reflexivity. Qed.

(** The same at a single instant: 41 sends issued without any delay
    between them put 21 sends at the instant 1.000 s. *)
Example rate_limit_overrun_instant :
  TelegramService.sends_in_window (TelegramService.send_times 41 0 0 []) 1000000
  = 21%nat.
Proof. vm_compute. reflexivity. Qed.


(* ------------------------------------------------------------------ *)
(** ** Success is terminal *)

Section Terminal.

Lemma rows_rewritten_refl touched db : rows_rewritten touched db db.
Proof.
  exists (fun x => x). rewrite map_id. repeat split; auto.
Qed.

Lemma rows_rewritten_trans t1 t2 db1 db2 db3 :
  rows_rewritten t1 db1 db2 -> rows_rewritten t2 db2 db3 ->
  rows_rewritten (fun i => t1 i \/ t2 i) db1 db3.
Proof.
  intros (f & Hf & If & Kf & Mf & Nf) (g & Hg & Ig & Kg & Mg & Ng).
  exists (fun x => g (f x)). repeat split.
  - now rewrite Hg, Hf, map_map.
  - intros x. now rewrite Ig, If.
  - intros x Hx. rewrite (Kf x) by tauto. apply Kg. tauto.
  - congruence.
  - congruence.
Qed.

Lemma rows_rewritten_weaken (t1 t2 : Z -> Prop) db db' :
  (forall i, t1 i -> t2 i) ->
  rows_rewritten t1 db db' -> rows_rewritten t2 db db'.
Proof.
  intros Ht (f & Hf & If & Kf & Mf & Nf).
  exists f. repeat split; auto.
Qed.

Lemma update_delivery_retry_rewrites now db i c nr rc rb :
  rows_rewritten (eq i) db (Db.update_delivery_retry now db i c nr rc rb).
Proof.
  unfold Db.update_delivery_retry, Db.set_deliveries.
  eexists. split; [reflexivity|]. repeat split.
  - intros x. cbn. destruct (Db.id x =? i); reflexivity.
  - intros x Hx. cbn. destruct (Db.id x =? i) eqn:E; [|reflexivity].
    apply Z.eqb_eq in E. congruence.
Qed.

Lemma mark_delivery_success_rewrites now db i :
  rows_rewritten (eq i) db (Db.mark_delivery_success now db i).
Proof.
  unfold Db.mark_delivery_success, Db.set_deliveries.
  eexists. split; [reflexivity|]. repeat split.
  - intros x. cbn. destruct (Db.id x =? i); reflexivity.
  - intros x Hx. cbn. destruct (Db.id x =? i) eqn:E; [|reflexivity].
    apply Z.eqb_eq in E. congruence.
Qed.

Lemma rewritten_well_formed touched db db' :
  rows_rewritten touched db db' -> well_formed db -> well_formed db'.
Proof.
  intros (f & Hf & If & Kf & Mf & Nf) (Hn & Hb & Hm).
  assert (Hids : map Db.id (Db.webhook_deliveries db')
                 = map Db.id (Db.webhook_deliveries db)).
  { rewrite Hf, map_map. apply map_ext. exact If. }
  repeat split.
  - now rewrite Hids.
  - rewrite Hf, Nf. apply Forall_forall. intros x Hx.
    apply in_map_iff in Hx as (y & <- & Hy). rewrite If.
    rewrite Forall_forall in Hb. auto.
  - now rewrite Mf.
Qed.

Lemma rewritten_keeps touched db db' d :
  rows_rewritten touched db db' ->
  In d (Db.webhook_deliveries db) -> ~ touched (Db.id d) ->
  In d (Db.webhook_deliveries db').
Proof.
  intros (f & Hf & If & Kf & Mf & Nf) Hd Ht.
  rewrite Hf. apply in_map_iff. exists d. split; [now apply Kf|exact Hd].
Qed.

Lemma unique_id (l : list Db.Delivery) a b :
  NoDup (map Db.id l) -> In a l -> In b l -> Db.id a = Db.id b -> a = b.
Proof.
  induction l as [|x l IH]; cbn; [tauto|].
  intros Hn Ha Hb E. inversion Hn as [|? ? Hx Hl]; subst.
  destruct Ha as [->|Ha], Hb as [->|Hb]; auto.
  - exfalso. apply Hx. rewrite E. now apply in_map.
  - exfalso. apply Hx. rewrite <- E. now apply in_map.
Qed.

Variables (self : Router.t) (env : Env).

(** A retry of the webhook transport rewrites at most the row it
    retries. *)
Lemma webhook_retry_rewrites p st r st' :
  WebhookService._retry_delivery (Router.webhook_service self) env p st = (r, st') ->
  rows_rewritten (eq (Db.id (Db.delivery p))) (db st) (db st').
Proof.
  unfold WebhookService._retry_delivery.
  destruct (negb (Py.truthy (Db.webhook_url p))
            || negb (Py.truthy (Db.webhook_secret p))
            || String.eqb (Db.payload_text (Db.payload (Db.delivery p))) "").
  - exec. intros H; inversion H; subst. rewrite db_with_db.
    apply update_delivery_retry_rewrites.
  - destruct (Db.webhook_url p) as [url|];
      [|intros H; inversion H; subst; apply rows_rewritten_refl].
    destruct (Db.webhook_secret p) as [secret|];
      [|intros H; inversion H; subst; apply rows_rewritten_refl].
    destruct (Db.payload (Db.delivery p)) as [stored|text];
      [|intros H; inversion H; subst; apply rows_rewritten_refl].
    destruct (deliver_total env url (fst (Payment.sign stored secret)) secret st)
      as (success & code & body & st1 & D).
    destruct (deliver_frame env _ _ _ _ _ _ D) as (Hdb & _).
    exec. rewrite D. destruct success; exec;
      intros H; inversion H; subst; rewrite db_with_db, Hdb.
    + apply mark_delivery_success_rewrites.
    + apply update_delivery_retry_rewrites.
Qed.

(** A retry of the chat transport rewrites at most the row it retries. *)
Lemma telegram_retry_rewrites p st r st' :
  TelegramService._retry_delivery env p st = (r, st') ->
  rows_rewritten (eq (Db.id (Db.delivery p))) (db st) (db st').
Proof.
  unfold TelegramService._retry_delivery.
  destruct (Db.telegram_chat_id p) as [chat|].
  2:{ exec. intros H; inversion H; subst. rewrite db_with_db.
      apply update_delivery_retry_rewrites. }
  destruct (String.eqb chat ""
            || String.eqb (Db.payload_text (Db.payload (Db.delivery p))) "").
  - exec. intros H; inversion H; subst. rewrite db_with_db.
    apply update_delivery_retry_rewrites.
  - destruct (send_message_total env chat
                (Db.payload_text (Db.payload (Db.delivery p))) "Markdown" st)
      as (success & response & st1 & D).
    destruct (send_message_frame env _ _ _ _ _ _ D) as (Hdb & _).
    exec. rewrite D. destruct success; exec;
      intros H; inversion H; subst; rewrite db_with_db, Hdb.
    + apply mark_delivery_success_rewrites.
    + apply update_delivery_retry_rewrites.
Qed.

(** A loop of retries rewrites at most the rows of its queue. *)
Lemma for_each_rewrites (f : Db.Pending -> Eff.M unit) l :
  (forall p st r st', f p st = (r, st') ->
     rows_rewritten (eq (Db.id (Db.delivery p))) (db st) (db st')) ->
  forall st r st',
    Eff.for_each l f st = (r, st') ->
    rows_rewritten (fun i => exists p, In p l /\ Db.id (Db.delivery p) = i)
      (db st) (db st').
Proof.
  intros Hf. induction l as [|p l IH]; intros st r st' H.
  - cbn in H. inversion H; subst. apply rows_rewritten_refl.
  - cbn [Eff.for_each] in H. unfold Eff.bind in H.
    destruct (f p st) as [[[]|x y] st1] eqn:E.
    + apply Hf in E. apply IH in H.
      eapply rows_rewritten_weaken;
        [|eapply rows_rewritten_trans; [exact E|exact H]].
      intros i [<-|(q & Hq & <-)]; [exists p|exists q]; cbn; auto.
    + inversion H; subst. apply Hf in E.
      eapply rows_rewritten_weaken; [|exact E].
      intros i <-. exists p; cbn; auto.
Qed.

Lemma swallow_state (m : Eff.M unit) st : snd (Eff.swallow m st) = snd (m st).
Proof.
  unfold Eff.swallow. destruct (m st) as [[[]|x y] st']; reflexivity.
Qed.

Lemma webhook_tick_rewrites st :
  rows_rewritten (queued st) (db st)
    (db (snd (WebhookService.retry_tick (Router.webhook_service self) env st))).
Proof.
  unfold WebhookService.retry_tick. rewrite swallow_state.
  unfold WebhookService._process_retries. exec.
  destruct (Eff.for_each _ _ st) as [r st'] eqn:E. cbn [snd].
  apply for_each_rewrites in E; [|apply webhook_retry_rewrites].
  eapply rows_rewritten_weaken; [|exact E].
  intros i (p & Hp & <-). apply filter_In in Hp as [Hp _]. exists p; auto.
Qed.

Lemma telegram_tick_rewrites st :
  rows_rewritten (queued st) (db st)
    (db (snd (TelegramService.retry_tick env st))).
Proof.
  unfold TelegramService.retry_tick. rewrite swallow_state.
  unfold TelegramService._process_retries. exec.
  destruct (Eff.for_each _ _ st) as [r st'] eqn:E. cbn [snd].
  apply for_each_rewrites in E; [|apply telegram_retry_rewrites].
  eapply rows_rewritten_weaken; [|exact E].
  intros i (p & Hp & <-). apply filter_In in Hp as [Hp _]. exists p; auto.
Qed.

(** A successful row is not in the retry queue. *)
Lemma success_not_queued st d :
  well_formed (db st) ->
  In d (Db.webhook_deliveries (db st)) -> Db.success d = true ->
  ~ queued st (Db.id d).
Proof.
  intros (Hn & _) Hd Hs (p & Hp & E).
  apply pending_due in Hp as [Hin Hdue].
  apply due_not_exhausted in Hdue as [Hf _].
  assert (Db.delivery p = d) by (eapply unique_id; eauto).
  congruence.
Qed.

End Terminal.


Section TerminalRoute.

Variables (self : Router.t) (env : Env).

Lemma NoDup_snoc (l : list Z) (x : Z) :
  NoDup l -> ~ In x l -> NoDup (l ++ [x]).
Proof.
  intros Hl Hx. induction Hl as [|y l Hy Hl IH]; cbn.
  - constructor; [intros []|constructor].
  - constructor.
    + rewrite in_app_iff. cbn. intros [H|[H|[]]]; [tauto|].
      apply Hx. left. auto.
    + apply IH. intros H. apply Hx. now right.
Qed.

Lemma NoDup_map_filter (P : Db.Delivery -> bool) (l : list Db.Delivery) :
  NoDup (map Db.id l) -> NoDup (map Db.id (filter P l)).
Proof.
  induction l as [|x l IH]; cbn; [auto|].
  intros H. inversion H as [|? ? Hx Hl]; subst.
  destruct (P x); cbn; auto. constructor; auto.
  intros Hin. apply Hx. apply in_map_iff in Hin as (y & E & Hy).
  apply filter_In in Hy as [Hy _]. apply in_map_iff. eauto.
Qed.

Lemma fresh_id_not_in (l : list Db.Delivery) (n : Z) :
  Forall (fun r => Db.id r < n) l -> ~ In n (map Db.id l).
Proof.
  intros H Hin. apply in_map_iff in Hin as (y & E & Hy).
  rewrite Forall_forall in H. specialize (H y Hy). lia.
Qed.

(** [log_delivery] keeps the ledger well formed. *)
Lemma log_delivery_well_formed now d mid et eid meth pl s rc rb cnt nr :
  well_formed d ->
  well_formed (fst (Db.log_delivery now d mid et eid meth pl s rc rb cnt nr)).
Proof.
  intros (Hn & Hb & Hm). unfold Db.log_delivery.
  destruct (Db._is_postgres d).
  - destruct (find _ _) as [old|]; cbn [fst]; unfold well_formed;
      cbn [Db.webhook_deliveries Db.next_id Db.merchants].
    + repeat split; [| |exact Hm].
      * rewrite map_map.
        erewrite map_ext; [exact Hn|].
        intros x. destruct (Db.same_key eid mid x); reflexivity.
      * apply Forall_forall. intros x Hx.
        apply in_map_iff in Hx as (y & <- & Hy).
        rewrite Forall_forall in Hb. specialize (Hb y Hy).
        destruct (Db.same_key eid mid y); cbn; lia.
    + repeat split; [| |exact Hm].
      * rewrite map_app. cbn. apply NoDup_snoc; [exact Hn|].
        now apply fresh_id_not_in.
      * apply Forall_app. split.
        -- eapply Forall_impl; [|exact Hb]. cbn. intros; lia.
        -- constructor; [cbn; lia|constructor].
  - cbn [fst]; unfold well_formed;
      cbn [Db.webhook_deliveries Db.next_id Db.merchants].
    repeat split; [| |exact Hm].
    + rewrite map_app. cbn. apply NoDup_snoc.
      * now apply NoDup_map_filter.
      * intros Hin. apply (fresh_id_not_in _ _ Hb).
        apply in_map_iff in Hin as (y & E & Hy).
        apply filter_In in Hy as [Hy _]. apply in_map_iff. eauto.
    + apply Forall_app. split.
      * apply Forall_forall. intros x Hx. apply filter_In in Hx as [Hx _].
        rewrite Forall_forall in Hb. specialize (Hb x Hx). lia.
      * constructor; [cbn; lia|constructor].
Qed.

(** [log_delivery] leaves the rows of the other keys as they are. *)
Lemma log_delivery_keeps now d mid et eid meth pl s rc rb cnt nr x :
  In x (Db.webhook_deliveries d) -> Db.same_key eid mid x = false ->
  In x (Db.webhook_deliveries
          (fst (Db.log_delivery now d mid et eid meth pl s rc rb cnt nr))).
Proof.
  intros Hx K. unfold Db.log_delivery.
  destruct (Db._is_postgres d).
  - destruct (find _ _) as [old|]; cbn [fst Db.webhook_deliveries].
    + apply in_map_iff. exists x. rewrite K. auto.
    + apply in_or_app. now left.
  - cbn [fst Db.webhook_deliveries]. apply in_or_app. left.
    apply filter_In. rewrite K. auto.
Qed.

Lemma not_processed_other_key d eid mid x :
  Db.check_event_processed d eid mid = false ->
  In x (Db.webhook_deliveries d) -> Db.success x = true ->
  Db.same_key eid mid x = false.
Proof.
  unfold Db.check_event_processed. intros C Hx S.
  destruct (Db.same_key eid mid x) eqn:K; [|reflexivity].
  assert (H : existsb (fun d0 => Db.same_key eid mid d0 && Db.success d0)
                (Db.webhook_deliveries d) = true).
  { apply existsb_exists. exists x. now rewrite K, S. }
  congruence.
Qed.

(** What a routing does to the ledger: nothing, or one [log_delivery]
    under the event id and the id of the merchant object, and that only
    when the pair of the event had no success record. *)
Lemma route_db e et st r st' :
  Router.route_notification self env e et st = (r, st') ->
  db st' = db st
  \/ (Db.check_event_processed (db st) (Payment.get_event_id e)
        (Payment.merchant_id e) = false
      /\ exists row m now meth pl s rc rb nr,
           Db.get_merchant (db st) (Payment.merchant_id e) = Some row
           /\ MerchantModel.from_dict row = Py.Ok m
           /\ db st' = fst (Db.log_delivery now (db st) (MerchantModel.id m) et
                              (Payment.get_event_id e) meth pl s rc rb 0 nr)).
Proof.
  rewrite route_run. cbv zeta.
  destruct (Db.check_event_processed _ _ _) eqn:C.
  { intros H; inversion H; subst. now left. }
  destruct (Db.get_merchant _ _) as [row|] eqn:G.
  2:{ intros H; inversion H; subst. now left. }
  destruct (MerchantModel.from_dict row) as [m|x y] eqn:F.
  2:{ intros H; inversion H; subst. now left. }
  destruct (negb (MerchantModel.is_active m)).
  { intros H; inversion H; subst. now left. }
  set (st0 := with_stats (Router.inc_total (_stats st)) st).
  destruct (MerchantModel.notification_type m).
  - destruct (WebhookService.send_notification (Router.webhook_service self)
                env m e et st0) as [r1 st1] eqn:S.
    destruct (send_notification_cases _ _ _ _ _ _ _ _ S)
      as [[-> [err' [->|(x & y & ->)]]]|
          (url & secret & unsigned & success & code & body & st2 & _ & D & -> & ->)].
    + rewrite (send_webhook_run _ _ _ _ _ _ _ _ _ S).
      intros H; inversion H; subst. now left.
    + rewrite (send_webhook_raise _ _ _ _ _ _ _ _ _ S).
      intros H; inversion H; subst. now left.
    + rewrite (send_webhook_run _ _ _ _ _ _ _ _ _ S).
      intros H; inversion H; subst. right. split; [reflexivity|].
      exists row, m. do 7 eexists. split; [reflexivity|]. split; [exact F|].
      rewrite db_with_stats, db_with_db. reflexivity.
  - destruct (TelegramService.send_notification (Router.telegram_service self)
                env m e et st0) as [r1 st1] eqn:S.
    destruct (telegram_send_cases _ _ _ _ _ _ _ _ S)
      as [[-> [err' [->|(x & y & ->)]]]|
          (chat & text & success & response & st2 & _ & D & [err' ->] & ->)].
    + rewrite (send_telegram_run _ _ _ _ _ _ _ _ _ S).
      intros H; inversion H; subst. now left.
    + rewrite (send_telegram_raise _ _ _ _ _ _ _ _ _ S).
      intros H; inversion H; subst. now left.
    + rewrite (send_telegram_run _ _ _ _ _ _ _ _ _ S).
      intros H; inversion H; subst. right. split; [reflexivity|].
      exists row, m. do 7 eexists. split; [reflexivity|]. split; [exact F|].
      rewrite db_with_stats, db_with_db. reflexivity.
Qed.

Lemma get_merchant_in d mid row :
  Db.get_merchant d mid = Some row -> In row (Db.merchants d).
Proof.
  unfold Db.get_merchant. intros H. now apply find_some in H as [H _].
Qed.

(** One step of the process keeps the ledger well formed and keeps
    every successful row. *)
Lemma step_keeps_success st o x :
  well_formed (db st) ->
  In x (Db.webhook_deliveries (db st)) -> Db.success x = true ->
  well_formed (db (step self env st o))
  /\ In x (Db.webhook_deliveries (db (step self env st o))).
Proof.
  intros W Hx S. destruct o as [e et| | |d]; cbn [step].
  - destruct (Router.route_notification self env e et st) as [r st'] eqn:R.
    cbn [snd].
    destruct (route_db _ _ _ _ _ R)
      as [->|(C & row & m & now & meth & pl & s & rc & rb & nr & G & F & ->)];
      [auto|].
    split; [now apply log_delivery_well_formed|].
    apply log_delivery_keeps; [exact Hx|].
    assert (Hid : MerchantModel.id m = Payment.merchant_id e).
    { destruct W as (_ & _ & Wm). rewrite Forall_forall in Wm.
      apply from_dict_fields in F as (I & _). rewrite I.
      rewrite (Wm row (get_merchant_in _ _ _ G)).
      now apply get_merchant_id in G. }
    rewrite Hid. eapply not_processed_other_key; eauto.
  - pose proof (webhook_tick_rewrites self env st) as Hr. split.
    + eapply rewritten_well_formed; eauto.
    + eapply rewritten_keeps; eauto. now apply success_not_queued.
  - pose proof (telegram_tick_rewrites env st) as Hr. split.
    + eapply rewritten_well_formed; eauto.
    + eapply rewritten_keeps; eauto. now apply success_not_queued.
  - auto.
Qed.

End TerminalRoute.

(** C2 as stated fails: on either backend a failure write for a key
    whose record has success = true replaces the outcome, success flag
    included. *)
Lemma failure_write_overwrites_success :
  forall_backends
    (fun postgres =>
       let write success code body next d :=
         fst (Db.log_delivery 20 d "0xm" "payment.completed" "evt_1" "webhook"
                (Db.TextPayload "{}") success code body 0 next) in
       let d1 := write true (Some 200) (Some "ok") None
                   (Db.mkDatabase postgres [] [] 1) in
       let d2 := write false (Some 500) (Some "down") (Some 80) d1 in
       option_map Db.success (Db.lookup d1 "evt_1" "0xm") = Some true
       /\ option_map Db.success (Db.lookup d2 "evt_1" "0xm") = Some false
       /\ option_map Db.next_retry_at (Db.lookup d2 "evt_1" "0xm")
          = Some (Some 80)).
Proof. split; vm_compute; repeat split; reflexivity. Qed.

(** The same through the service: a delivered webhook event whose
    merchant is sent the event again past the router, while the endpoint
    is down, is left unsuccessful and scheduled for a retry. *)
Example direct_send_overwrites_success :
  let e := Scenario.payment Scenario.shop_id in
  let st1 := Scenario.after
               (Router.route_notification Scenario.router Scenario.up_once e
                  "payment.completed")
               (Scenario.start true [Scenario.shop]) in
  let st2 := Scenario.after
               (WebhookService.send_notification WebhookService.default
                  Scenario.up_once
                  (MerchantModel.mkMerchant Scenario.shop_id MerchantModel.WEBHOOK
                     None (Some "https://example.com/webhook") (Some "secret123")
                     None true 0 0)
                  e "payment.completed") st1 in
  Scenario.schedule_of e st1 = Some (true, 0, None)
  /\ Scenario.schedule_of e st2 = Some (false, 0, Some (DateTime.minutes 1)).
Proof. split; vm_compute; reflexivity. Qed.

(** Operations that run one after the other, none overlapping another,
    keep a successful record of a well-formed ledger: the router's
    check of the success record and the filter of the retry queue keep
    it; the ledger write itself would overwrite it. *)
Lemma success_kept_in_sequence :
  forall self env ops st x,
  well_formed (db st) ->
  In x (Db.webhook_deliveries (db st)) -> Db.success x = true ->
  In x (Db.webhook_deliveries (db (run_ops self env ops st))).
Proof.
  intros self env ops. unfold run_ops.
  induction ops as [|o ops IH]; intros st x W Hx S; cbn [fold_left].
  - exact Hx.
  - destruct (step_keeps_success self env st o x W Hx S) as [W' Hx'].
    now apply IH.
Qed.



(* ------------------------------------------------------------------ *)
(** ** Event ids and display forms *)

Lemma event_id_tail (t1 t2 p1 p2 : string) :
  has_char "_" t1 = false -> has_char "_" t2 = false ->
  t1 ++ "_" ++ p1 = t2 ++ "_" ++ p2 -> t1 = t2 /\ p1 = p2.
Proof.
  revert t2. induction t1 as [|a t1 IH]; intros [|b t2]; cbn.
  - intros _ _ H. injection H as H. auto.
  - intros _ Hb H. injection H as Ha H. subst b.
    cbn in Hb. discriminate.
  - intros Ha _ H. injection H as Hb H. subst a.
    cbn in Ha. discriminate.
  - intros Ha Hb H. injection H as E H. subst b.
    apply orb_false_iff in Ha as [_ Ha]. apply orb_false_iff in Hb as [_ Hb].
    destruct (IH t2 Ha Hb H) as [-> ->]. auto.
Qed.

(** X1: the event id identifies the payment.  When the transaction
    hashes hold no underscore (a hash is hexadecimal), two events with
    the same event id have the same transaction hash and the same
    payment intent id. *)
Theorem event_id_determines_payment (e1 e2 : Payment.PaymentEvent) :
  has_char "_" (Payment.transaction_hash e1) = false ->
  has_char "_" (Payment.transaction_hash e2) = false ->
  Payment.get_event_id e1 = Payment.get_event_id e2 ->
  Payment.transaction_hash e1 = Payment.transaction_hash e2
  /\ Payment.payment_intent_id e1 = Payment.payment_intent_id e2.
Proof.
  unfold Payment.get_event_id. intros H1 H2 H.
  injection H as H. now apply event_id_tail.
Qed.

Lemma event_id_determines_payment_witness :
  Payment.transaction_hash (Scenario.payment Scenario.shop_id)
  = Payment.transaction_hash (Scenario.payment Scenario.chat_shop_id)
  /\ Payment.payment_intent_id (Scenario.payment Scenario.shop_id)
     = Payment.payment_intent_id (Scenario.payment Scenario.chat_shop_id).
Proof.
  apply (event_id_determines_payment (Scenario.payment Scenario.shop_id)
           (Scenario.payment Scenario.chat_shop_id));
    vm_compute; reflexivity.
Defined.

(** Without the condition on the hash the id is ambiguous: the
    separator may belong to either part. *)
Example event_id_collision :
  let e1 := Payment.PaymentEvent_init "c" "m" "" "" "1" "a_b" 1 0 "completed" 0 in
  let e2 := Payment.PaymentEvent_init "b_c" "m" "" "" "1" "a" 1 0 "completed" 0 in
  Payment.get_event_id e1 = Payment.get_event_id e2
  /\ Payment.payment_intent_id e1 <> Payment.payment_intent_id e2.
Proof. split; [reflexivity|discriminate]. Qed.

Lemma substring_length (s : string) (n m : nat) :
  String.length (String.substring n m s)
  = Nat.min m (String.length s - n)%nat.
Proof.
  revert n m. induction s as [|c s IH]; intros [|n] [|m]; cbn; auto;
    rewrite IH; try reflexivity; now rewrite Nat.sub_0_r.
Qed.

Lemma first_n_length (k : nat) (s : string) :
  String.length (Py.first_n k s) = Nat.min k (String.length s).
Proof. unfold Py.first_n. rewrite substring_length. f_equal. lia. Qed.

Lemma last_n_length (k : nat) (s : string) :
  String.length (Py.last_n k s) = Nat.min k (String.length s).
Proof. unfold Py.last_n. rewrite substring_length. lia. Qed.

(** X2: the length of the display forms.  A shortened payment id never
    exceeds 20 characters: an id of more than 20 characters is cut to
    19, any other is shown as it is.  A shortened address has
    min(6, n) + 3 + min(4, n) characters for an address of n characters:
    13 for a real address, and more than n when n is below 10. *)
Theorem display_forms_length (e : Payment.PaymentEvent) :
  String.length (Payment.short_payment_id e)
  = (if (20 <? String.length (Payment.payment_intent_id e))%nat then 19%nat
     else String.length (Payment.payment_intent_id e))
  /\ (String.length (Payment.short_payment_id e) <= 20)%nat
  /\ String.length (Payment.short_customer_address e)
     = (Nat.min 6 (String.length (Payment.customer_address e)) + 3
        + Nat.min 4 (String.length (Payment.customer_address e)))%nat
  /\ String.length (Payment.short_merchant_address e)
     = (Nat.min 6 (String.length (Payment.merchant_id e)) + 3
        + Nat.min 4 (String.length (Payment.merchant_id e)))%nat.
Proof.
  unfold Payment.short_payment_id, Payment.short_customer_address,
    Payment.short_merchant_address.
  rewrite !length_app, !first_n_length, !last_n_length.
  destruct (20 <? String.length (Payment.payment_intent_id e))%nat eqn:E.
  - apply Nat.ltb_lt in E.
    rewrite !length_app, !first_n_length, !last_n_length. cbn [String.length].
    repeat split; lia.
  - apply Nat.ltb_ge in E. cbn [String.length]. repeat split; lia.
Qed.


(* ------------------------------------------------------------------ *)
(** ** The JSON texts of a payload *)

Section JsonText.

Lemma printable_app (s t : string) :
  is_printable (s ++ t) = is_printable s && is_printable t.
Proof.
  unfold is_printable. induction s as [|c s IH]; cbn; [reflexivity|].
  rewrite IH. now rewrite andb_assoc.
Qed.

Lemma escape_char_printable (c : ascii) :
  is_printable (Json.escape_char c) = true.
Proof. destruct c as [[] [] [] [] [] [] [] []]; reflexivity. Qed.

Lemma quote_printable (s : string) : is_printable (Json.quote s) = true.
Proof.
  unfold Json.quote. rewrite !printable_app.
  assert (H : is_printable (Json.escape s) = true).
  { induction s as [|c s IH]; [reflexivity|].
    cbn [Json.escape]. now rewrite printable_app, escape_char_printable. }
  now rewrite H.
Qed.

Lemma digits_printable (s : string) :
  Py.all_digits s = true -> is_printable s = true.
Proof.
  unfold is_printable. induction s as [|c s IH]; cbn; [reflexivity|].
  intros H. apply andb_true_iff in H as [Hc Hs]. rewrite (IH Hs).
  unfold Py.is_digit in Hc. apply andb_true_iff in Hc as [H1 H2].
  apply N.leb_le in H1, H2.
  replace (32 <=? N_of_ascii c)%N with true by (symmetry; apply N.leb_le; lia).
  replace (N_of_ascii c <=? 126)%N with true by (symmetry; apply N.leb_le; lia).
  reflexivity.
Qed.

Lemma str_of_Z_printable (z : Z) : is_printable (Py.str_of_Z z) = true.
Proof.
  unfold Py.str_of_Z. destruct (Z.to_int z) as [d|d]; cbn.
  - apply digits_printable, string_of_uint_all_digits.
  - change (is_printable ("-" ++ NilEmpty.string_of_uint d) = true).
    rewrite printable_app.
    now rewrite (digits_printable _ (string_of_uint_all_digits d)).
Qed.

Lemma join_printable (sep : string) (l : list string) :
  is_printable sep = true -> Forall (fun s => is_printable s = true) l ->
  is_printable (Py.join sep l) = true.
Proof.
  intros Hsep Hl. induction Hl as [|x l Hx Hl IH]; [reflexivity|].
  destruct l as [|y l]; [exact Hx|].
  change (is_printable (x ++ sep ++ Py.join sep (y :: l)) = true).
  now rewrite !printable_app, Hx, Hsep, IH.
Qed.

Lemma In_insert_item x y l :
  In x (Json.insert_item y l) <-> x = y \/ In x l.
Proof.
  induction l as [|z l IH]; cbn; [intuition|].
  destruct (fst y <? fst z)%string; cbn; rewrite ?IH; intuition.
Qed.

Lemma In_sort_items x l : In x (Json.sort_items l) <-> In x l.
Proof.
  unfold Json.sort_items. induction l as [|y l IH]; cbn; [tauto|].
  rewrite In_insert_item, IH. intuition.
Qed.

(** The rendered items of a dictionary. *)
Lemma dumps_dict (sort : bool) (items : list (string * Json.value)) :
  Json.dumps sort (Json.JDict items)
  = let rendered :=
      map (fun kv => (fst kv, Json.dumps sort (snd kv))) items in
    "{" ++ Py.join ","
             (map (fun kv => Json.quote (fst kv) ++ ":" ++ snd kv)
                  (if sort then Json.sort_items rendered else rendered))
        ++ "}".
Proof.
  assert (E : forall l : list (string * Json.value),
             (fix go (l : list (string * Json.value)) {struct l}
                : list (string * string) :=
                match l with
                | [] => []
                | (k, x) :: rest => (k, Json.dumps sort x) :: go rest
                end) l
             = map (fun kv => (fst kv, Json.dumps sort (snd kv))) l).
  { induction l as [|[k x] rest IH]; [reflexivity|].
    cbn [map fst snd]. now rewrite <- IH. }
  cbn [Json.dumps]. cbv zeta.
  now rewrite E.
Qed.

(** Induction on a JSON value, with the property at hand for the
    members of a dictionary. *)
Lemma value_induction (P : Json.value -> Prop) :
  P Json.JNull -> (forall b, P (Json.JBool b)) -> (forall z, P (Json.JInt z)) ->
  (forall s, P (Json.JStr s)) ->
  (forall items, Forall (fun kv => P (snd kv)) items -> P (Json.JDict items)) ->
  forall v, P v.
Proof.
  intros Hn Hb Hi Hs Hd. fix IH 1.
  intros [|b|z|s|items]; [exact Hn|apply Hb|apply Hi|apply Hs|].
  apply Hd. induction items as [|[k x] rest IHl]; constructor.
  - apply IH.
  - exact IHl.
Qed.

Lemma dumps_printable (sort : bool) (v : Json.value) :
  is_printable (Json.dumps sort v) = true.
Proof.
  induction v as [|[|]|z|s|items IH] using value_induction;
    try reflexivity.
  - apply str_of_Z_printable.
  - apply quote_printable.
  - rewrite dumps_dict. cbv zeta. rewrite !printable_app.
    rewrite join_printable; [reflexivity|reflexivity|].
    apply Forall_forall. intros r Hr. apply in_map_iff in Hr as ([k t] & <- & Hkt).
    assert (Hin : In (k, t)
              (map (fun kv => (fst kv, Json.dumps sort (snd kv))) items))
      by (destruct sort; [now apply In_sort_items|exact Hkt]).
    apply in_map_iff in Hin as ([k' x] & E & Hx). injection E as <- <-.
    rewrite Forall_forall in IH. specialize (IH _ Hx).
    cbn [fst snd] in *. now rewrite !printable_app, quote_printable, IH.
Qed.

Lemma printable_encode (s : string) :
  is_printable s = true ->
  Json.encode s = map byte_of_ascii (list_ascii_of_string s).
Proof.
  unfold is_printable, Json.encode. induction s as [|c s IH]; cbn; [reflexivity|].
  intros H. apply andb_true_iff in H as [Hc Hs]. rewrite (IH Hs).
  apply andb_true_iff in Hc as [_ Hc]. apply N.leb_le in Hc.
  unfold Json.utf8_char.
  replace (N_of_ascii c <? 128)%N with true by (symmetry; apply N.ltb_lt; lia).
  reflexivity.
Qed.

End JsonText.

(** X3: the body of a webhook and the text that is signed are plain
    ASCII whatever characters the payment data holds: every character
    of [to_json] and of the canonical text lies in U+0020..U+007E, and
    their UTF-8 encodings have one byte per character. *)
Theorem payload_text_is_ascii (p : Payment.WebhookPayload) :
  is_printable (Payment.to_json p) = true
  /\ is_printable (Payment.canonical_json p) = true
  /\ Json.encode (Payment.to_json p)
     = map byte_of_ascii (list_ascii_of_string (Payment.to_json p))
  /\ Json.encode (Payment.canonical_json p)
     = map byte_of_ascii (list_ascii_of_string (Payment.canonical_json p)).
Proof.
  assert (H1 : is_printable (Payment.to_json p) = true)
    by apply dumps_printable.
  assert (H2 : is_printable (Payment.canonical_json p) = true)
    by apply dumps_printable.
  repeat split; auto using printable_encode.
Qed.


(* ------------------------------------------------------------------ *)
(** ** Sorted keys *)

Section KeyOrder.

Lemma ltb_lt (a b : string) :
  String.ltb a b = true <-> OrderedTypeEx.String_as_OT.lt a b.
Proof.
  rewrite <- OrderedTypeEx.String_as_OT.cmp_lt.
  unfold String.ltb, OrderedTypeEx.String_as_OT.cmp.
  destruct (String.compare a b); split; congruence.
Qed.

Lemma ltb_trans (a b c : string) :
  String.ltb a b = true -> String.ltb b c = true -> String.ltb a c = true.
Proof.
  rewrite !ltb_lt. apply OrderedTypeEx.String_as_OT.lt_trans.
Qed.

Lemma ltb_irrefl (a : string) : String.ltb a a = false.
Proof.
  destruct (String.ltb a a) eqn:E; [|reflexivity].
  apply ltb_lt, OrderedTypeEx.String_as_OT.lt_not_eq in E.
  now contradiction E.
Qed.

Lemma ltb_total (a b : string) :
  String.ltb a b = false -> String.ltb b a = false -> a = b.
Proof.
  unfold String.ltb. rewrite (String.compare_antisym b a).
  destruct (String.compare a b) eqn:E; cbn; try discriminate.
  intros _ _. now apply String.compare_eq_iff.
Qed.

Lemma insert_item_perm x l : Permutation (Json.insert_item x l) (x :: l).
Proof.
  induction l as [|y l IH]; cbn; [reflexivity|].
  destruct (String.ltb (fst x) (fst y)); [reflexivity|].
  rewrite IH. apply perm_swap.
Qed.

Lemma sort_items_perm l : Permutation (Json.sort_items l) l.
Proof.
  unfold Json.sort_items. induction l as [|x l IH]; cbn; [reflexivity|].
  rewrite insert_item_perm. now constructor.
Qed.

Lemma insert_item_sorted x l :
  StronglySorted key_before l -> ~ In (fst x) (map fst l) ->
  StronglySorted key_before (Json.insert_item x l).
Proof.
  induction 1 as [|y l Hl IH Hy]; cbn; intros Hx.
  - repeat constructor.
  - destruct (String.ltb (fst x) (fst y)) eqn:E.
    + constructor; [now constructor|]. constructor; [exact E|].
      rewrite Forall_forall in *. intros z Hz.
      eapply ltb_trans; [exact E|]. now apply Hy.
    + assert (Hyx : key_before y x).
      { unfold key_before. destruct (String.ltb (fst y) (fst x)) eqn:F; auto.
        exfalso. apply Hx. left. symmetry. now apply ltb_total. }
      constructor; [apply IH; tauto|].
      rewrite Forall_forall in *. intros z Hz.
      apply In_insert_item in Hz as [->|Hz]; auto.
Qed.

Lemma sort_items_sorted l :
  NoDup (map fst l) -> StronglySorted key_before (Json.sort_items l).
Proof.
  unfold Json.sort_items. induction l as [|x l IH]; cbn; intros Hn.
  - constructor.
  - inversion Hn as [|? ? Hx Hl]; subst.
    apply insert_item_sorted; [auto|].
    intros Hin. apply Hx. apply in_map_iff in Hin as (y & E & Hy).
    apply in_map_iff. exists y. split; [exact E|].
    now apply (In_sort_items y l).
Qed.

Lemma sorted_perm_eq l1 l2 :
  StronglySorted key_before l1 -> StronglySorted key_before l2 ->
  Permutation l1 l2 -> l1 = l2.
Proof.
  intros H1. revert l2. induction H1 as [|a l1 Hl1 IH Ha]; intros l2 H2 Hp.
  - now apply Permutation_nil in Hp.
  - destruct H2 as [|b l2 Hl2 Hb].
    + symmetry in Hp. now apply Permutation_nil in Hp.
    + assert (E : a = b).
      { assert (Hin : In a (b :: l2))
          by (eapply Permutation_in; [exact Hp|now left]).
        assert (Hin' : In b (a :: l1))
          by (eapply Permutation_in; [symmetry; exact Hp|now left]).
        destruct Hin as [<-|Hin]; [reflexivity|].
        destruct Hin' as [->|Hin']; [reflexivity|].
        rewrite Forall_forall in Ha, Hb.
        specialize (Ha _ Hin'). specialize (Hb _ Hin).
        unfold key_before in Ha, Hb.
        pose proof (ltb_trans _ _ _ Ha Hb) as F.
        rewrite ltb_irrefl in F. discriminate. }
      subst b. f_equal. apply IH; [exact Hl2|].
      now apply Permutation_cons_inv in Hp.
Qed.

Lemma sort_items_unique l1 l2 :
  Permutation l1 l2 -> NoDup (map fst l1) ->
  Json.sort_items l1 = Json.sort_items l2.
Proof.
  intros Hp Hn. apply sorted_perm_eq.
  - now apply sort_items_sorted.
  - apply sort_items_sorted.
    eapply Permutation_NoDup; [|exact Hn]. now apply Permutation_map.
  - rewrite !sort_items_perm. exact Hp.
Qed.

Lemma pop_to_dict (p : Payment.WebhookPayload) :
  Json.pop "signature" (Payment.to_dict p)
  = [ ("event_id", Json.JStr (Payment.event_id p));
      ("event_type", Json.JStr (Payment.event_type p));
      ("timestamp", Json.JStr (DateTime.isoformat (Payment.timestamp p) ++ "Z"));
      ("data", Json.JDict (Payment.data p)) ].
Proof. reflexivity. Qed.

End KeyOrder.

(** X4: the signature does not depend on the order in which the keys
    of the data were inserted.  Two payloads with the same event id,
    type and timestamp whose data hold the same items under distinct
    keys have the same canonical text, and so the same signature under
    every secret. *)
Theorem signature_ignores_key_order
    (i t : string) (ts : datetime) (d1 d2 : list (string * Json.value))
    (sg1 sg2 : option string) (secret : string) :
  Permutation d1 d2 -> NoDup (map fst d1) ->
  let p1 := Payment.mkWebhookPayload i t ts d1 sg1 in
  let p2 := Payment.mkWebhookPayload i t ts d2 sg2 in
  Payment.canonical_json p1 = Payment.canonical_json p2
  /\ snd (Payment.sign p1 secret) = snd (Payment.sign p2 secret).
Proof.
  intros Hp Hn p1 p2.
  assert (H : Json.dumps true (Json.JDict d1) = Json.dumps true (Json.JDict d2)).
  { rewrite !dumps_dict. cbv zeta. do 4 f_equal.
    apply sort_items_unique; [now apply Permutation_map|].
    rewrite map_map. cbn [fst]. exact Hn. }
  assert (C : Payment.canonical_json p1 = Payment.canonical_json p2).
  { unfold Payment.canonical_json. rewrite !pop_to_dict, !dumps_dict.
    subst p1 p2. cbn [map fst snd Payment.data Payment.event_id
                        Payment.event_type Payment.timestamp].
    now rewrite H. }
  split; [exact C|].
  unfold Payment.sign. cbn [snd]. now rewrite C.
Qed.

Lemma signature_ignores_key_order_witness :
  let p1 := Payment.mkWebhookPayload "evt_1" "payment.completed" 0
              [("amount", Json.JStr "100"); ("status", Json.JStr "completed")]
              None in
  let p2 := Payment.mkWebhookPayload "evt_1" "payment.completed" 0
              [("status", Json.JStr "completed"); ("amount", Json.JStr "100")]
              None in
  Payment.canonical_json p1 = Payment.canonical_json p2
  /\ snd (Payment.sign p1 "s3cret") = snd (Payment.sign p2 "s3cret").
Proof.
  apply (signature_ignores_key_order "evt_1" "payment.completed" 0
           [("amount", Json.JStr "100"); ("status", Json.JStr "completed")]
           [("status", Json.JStr "completed"); ("amount", Json.JStr "100")]
           None None "s3cret").
  - apply perm_swap.
  - repeat constructor; cbn; intuition discriminate.
Defined.

(* ------------------------------------------------------------------ *)
(** ** The shape of a signature *)

Section Digest.

Lemma be_bytes_length (n : nat) (x : N) :
  List.length (Sha256.be_bytes n x) = n.
Proof.
  induction n as [|n IH]; [reflexivity|]. cbn [Sha256.be_bytes].
  destruct (Byte.of_N _) eqn:E; [cbn; now rewrite IH|].
  apply Byte.of_N_None_iff in E. exfalso.
  change 255%N with (N.ones 8) in E. rewrite N.land_ones in E.
  pose proof (N.mod_upper_bound (N.shiftr x (8 * N.of_nat n)) (2 ^ 8)%N) as B.
  change (N.ones 8) with 255%N in E. change (2 ^ 8)%N with 256%N in *. lia.
Qed.

Lemma round_length (st : list N) (kw : N * N) :
  List.length (Sha256.round st kw) = List.length st.
Proof.
  unfold Sha256.round. do 9 (destruct st as [|? st]; try reflexivity).
Qed.

Lemma fold_round_length (l : list (N * N)) (st : list N) :
  List.length (fold_left Sha256.round l st) = List.length st.
Proof.
  revert st. induction l as [|kw l IH]; intros st; cbn; [reflexivity|].
  now rewrite IH, round_length.
Qed.

Lemma compress_length (h : list N) (block : bytes) :
  List.length (Sha256.compress h block) = List.length h.
Proof.
  unfold Sha256.compress.
  rewrite length_map, length_combine, fold_round_length. apply Nat.min_id.
Qed.

Lemma process_length (n : nat) (h : list N) (l : bytes) :
  List.length (Sha256.process n h l) = List.length h.
Proof.
  revert h l. induction n as [|n IH]; intros h l; cbn; [reflexivity|].
  destruct l; [reflexivity|]. now rewrite IH, compress_length.
Qed.

Lemma digest_length (msg : bytes) : List.length (Sha256.digest msg) = 32%nat.
Proof.
  unfold Sha256.digest.
  assert (F : forall l : list N,
             List.length (flat_map (Sha256.be_bytes 4) l)
             = (4 * List.length l)%nat).
  { induction l as [|x l IH]; [reflexivity|].
    cbn [flat_map]. rewrite List.length_app, be_bytes_length, IH. cbn. lia. }
  rewrite F, process_length. reflexivity.
Qed.

Lemma hex_length (l : bytes) :
  String.length (Hmac.hex l) = (2 * List.length l)%nat.
Proof. induction l as [|b l IH]; cbn; [reflexivity|]. rewrite IH. lia. Qed.

Lemma hex_digit_lower (n : N) :
  (n < 16)%N -> is_lower_hex (String (Hmac.hex_digit n) "") = true.
Proof.
  revert n. apply (below_cases _ 16). intros k Hk.
  do 16 (destruct k as [|k]; [reflexivity|]). lia.
Qed.

Lemma hex_lower (l : bytes) : is_lower_hex (Hmac.hex l) = true.
Proof.
  induction l as [|b l IH]; [reflexivity|].
  pose proof (Byte.to_N_bounded b) as B.
  assert (H1 : (Byte.to_N b / 16 < 16)%N)
    by (apply N.Div0.div_lt_upper_bound; lia).
  assert (H2 : (Byte.to_N b mod 16 < 16)%N)
    by (apply N.mod_upper_bound; lia).
  apply hex_digit_lower in H1, H2.
  unfold is_lower_hex in *. cbn in *.
  apply andb_true_iff in H1 as [-> _]. apply andb_true_iff in H2 as [-> _].
  exact IH.
Qed.

End Digest.

(** X5: a signature is 64 lower-case hexadecimal characters, whatever
    the payload and the secret; [sign] stores it in the payload, and the
    header that carries it has 71 characters. *)
Theorem signature_shape (p : Payment.WebhookPayload) (secret : string) :
  let sg := snd (Payment.sign p secret) in
  String.length sg = 64%nat
  /\ is_lower_hex sg = true
  /\ Payment.signature (fst (Payment.sign p secret)) = Some sg
  /\ String.length (WebhookService.signature_header (fst (Payment.sign p secret)))
     = 71%nat.
Proof.
  unfold Payment.sign, WebhookService.signature_header, Hmac.hexdigest,
    Hmac.hmac_sha256.
  cbn [fst snd Payment.signature].
  rewrite length_app, hex_length, digest_length.
  repeat split; auto using hex_lower.
Qed.

(** X6: what [verify_signature] answers.  A signature with a character
    outside ASCII raises [TypeError]; any other signature is compared
    with the digest, whatever its length; and the value of the
    [X-Webhook-Signature] header, which carries the prefix [sha256=], is
    rejected when it is passed as it is. *)
Theorem verify_signature_outcomes (payload_json signature secret : string) :
  Payment.verify_signature payload_json signature secret
  = (if Hmac.is_ascii signature
     then Py.Ok (String.eqb
                   (Hmac.hexdigest (Json.encode secret) (Json.encode payload_json))
                   signature)
     else Py.Raise "TypeError"
            "comparing strings with non-ASCII characters is not supported")
  /\ Payment.verify_signature payload_json
       ("sha256=" ++ Hmac.hexdigest (Json.encode secret) (Json.encode payload_json))
       secret = Py.Ok false.
Proof.
  unfold Payment.verify_signature, Hmac.compare_digest, Hmac.hexdigest. split.
  - now rewrite hex_is_ascii.
  - rewrite hex_is_ascii.
    assert (A : forall l, Hmac.is_ascii ("sha256=" ++ Hmac.hex l) = true).
    { intros l. pose proof (hex_is_ascii l) as H. unfold Hmac.is_ascii in *.
      cbn. exact H. }
    rewrite A. cbn [andb]. f_equal.
    apply String.eqb_neq. intros E.
    apply (f_equal String.length) in E. rewrite length_app in E.
    cbn [String.length] in E. lia.
Qed.

Lemma encode_app (s t : string) :
  Json.encode (s ++ t) = (Json.encode s ++ Json.encode t)%list.
Proof.
  unfold Json.encode. induction s as [|c s IH]; cbn; [reflexivity|].
  now rewrite IH, List.app_assoc.
Qed.

Lemma block_key_nul (k : bytes) :
  (List.length k < Sha256.block_size)%nat ->
  Hmac.block_key (k ++ [Byte.x00])%list = Hmac.block_key k.
Proof.
  intros H. unfold Hmac.block_key. rewrite List.length_app. cbn [List.length].
  replace (Sha256.block_size <? List.length k + 1)%nat with false
    by (symmetry; apply Nat.ltb_ge; lia).
  replace (Sha256.block_size <? List.length k)%nat with false
    by (symmetry; apply Nat.ltb_ge; lia).
  rewrite List.length_app. cbn [List.length].
  replace (Sha256.block_size - List.length k)%nat
    with (S (Sha256.block_size - (List.length k + 1)))%nat by lia.
  cbn [repeat]. now rewrite <- List.app_assoc.
Qed.

(** X7: a secret and the same secret followed by a NUL character sign
    alike, as long as the secret is shorter than the 64-byte block of
    the hash: the key of the HMAC is padded with zero bytes. *)
Theorem trailing_nul_signs_alike (p : Payment.WebhookPayload) (secret : string) :
  (List.length (Json.encode secret) < 64)%nat ->
  snd (Payment.sign p (secret ++ Scenario.nul)) = snd (Payment.sign p secret)
  /\ Payment.verify_signature (Payment.canonical_json p)
       (snd (Payment.sign p secret)) (secret ++ Scenario.nul) = Py.Ok true.
Proof.
  intros H.
  assert (E : forall msg,
             Hmac.hexdigest (Json.encode (secret ++ Scenario.nul)) msg
             = Hmac.hexdigest (Json.encode secret) msg).
  { intros msg. unfold Hmac.hexdigest, Hmac.hmac_sha256.
    rewrite encode_app. change (Json.encode Scenario.nul) with [Byte.x00].
    now rewrite block_key_nul. }
  split.
  - unfold Payment.sign. cbn [snd]. apply E.
  - unfold Payment.verify_signature, Payment.sign, Hmac.compare_digest.
    cbn [snd]. rewrite E. unfold Hmac.hexdigest.
    rewrite hex_is_ascii. cbn [andb]. now rewrite String.eqb_refl.
Qed.

Lemma trailing_nul_signs_alike_witness :
  snd (Payment.sign Scenario.a_payload ("s3cret" ++ Scenario.nul))
  = snd (Payment.sign Scenario.a_payload "s3cret")
  /\ Payment.verify_signature (Payment.canonical_json Scenario.a_payload)
       (snd (Payment.sign Scenario.a_payload "s3cret"))
       ("s3cret" ++ Scenario.nul) = Py.Ok true.
Proof.
  apply (trailing_nul_signs_alike Scenario.a_payload "s3cret").
  vm_compute. lia.
Defined.


(* ------------------------------------------------------------------ *)
(** ** Merchants *)

Section Merchants.

Import MerchantModel.

Lemma lower_length (s : string) : String.length (Py.lower s) = String.length s.
Proof. induction s as [|c s IH]; cbn; [reflexivity|now rewrite IH]. Qed.

Lemma startswith_0x (s : string) :
  Py.startswith s "0x" = true -> exists r, s = "0x" ++ r.
Proof.
  unfold Py.startswith. destruct s as [|a [|b r]]; cbn -[ascii_dec];
    try discriminate.
  - destruct (ascii_dec "0" a); discriminate.
  - destruct (ascii_dec "0" a) as [<-|]; [|discriminate].
    destruct (ascii_dec "x" b) as [<-|]; [|discriminate].
    intros _. now exists r.
Qed.

(** What the normalisation makes of an id that is not empty. *)
Lemma normalise_id_shape (i : string) :
  i <> "" ->
  exists r, normalise_id i = "0x" ++ Py.lower r
            /\ String.length i
               = (if Py.startswith i "0x" then 2 + String.length r
                  else String.length r)%nat.
Proof.
  intros Hi. unfold normalise_id.
  destruct (String.eqb_spec i ""); [contradiction|]. cbn [negb andb].
  destruct (Py.startswith i "0x") eqn:E; cbn [negb].
  - apply startswith_0x in E as (r & ->). now exists r.
  - now exists i.
Qed.

Lemma normalise_id_fixed (r : string) :
  normalise_id ("0x" ++ Py.lower r) = "0x" ++ Py.lower r.
Proof.
  unfold normalise_id. cbn.
  replace (prefix "" (Py.lower r)) with true
    by (destruct (Py.lower r); reflexivity).
  cbn. now rewrite lower_idem.
Qed.

Lemma validate_ok (m : Merchant) :
  validate m = Py.Ok tt ->
  String.length (id m) = 42%nat
  /\ match notification_type m with
     | WEBHOOK => exists u, webhook_url m = Some u /\ is_http_url u = true
     | TELEGRAM => exists c, telegram_chat_id m = Some c /\ c <> ""
     end.
Proof.
  unfold validate.
  destruct (String.eqb (id m) "" || negb (String.length (id m) =? 42)%nat)
    eqn:E; [discriminate|].
  apply orb_false_iff in E as [_ E]. apply negb_false_iff, Nat.eqb_eq in E.
  intros H. split; [exact E|].
  destruct (notification_type m).
  - destruct (webhook_url m) as [u|]; [|discriminate].
    destruct (String.eqb u ""); [discriminate|].
    destruct (is_http_url u) eqn:F; [|discriminate]. now exists u.
  - destruct (telegram_chat_id m) as [c|]; cbn in H; [|discriminate].
    destruct (String.eqb_spec c ""); cbn in H; [discriminate|]. now exists c.
Qed.

Lemma from_dict_inv (r : Row) (m : Merchant) :
  from_dict r = Py.Ok m ->
  exists nt,
    NotificationType_of_str (row_notification_type r) = Py.Ok nt
    /\ m = mkMerchant (normalise_id (row_id r)) nt (row_name r)
             (row_webhook_url r) (row_webhook_secret r)
             (row_telegram_chat_id r) (row_is_active r)
             (row_created_at r) (row_updated_at r)
    /\ validate m = Py.Ok tt.
Proof.
  unfold from_dict.
  destruct (NotificationType_of_str (row_notification_type r)) as [nt|];
    [|discriminate].
  cbn [Py.bind].
  destruct (validate _) as [[]|] eqn:V; [|discriminate].
  cbn [Py.bind]. intros H. injection H as <-. now exists nt.
Qed.

Lemma value_of_str (nt : NotificationType) :
  NotificationType_of_str (Merchant.NotificationType_value nt) = Py.Ok nt.
Proof. destruct nt; reflexivity. Qed.

End Merchants.

(** X8: what an accepted merchant looks like.  When [from_dict]
    returns a merchant, its id has 42 characters, starts with [0x] and
    is in lower case (its display form has 13 characters); the id of the
    row had 42 characters with the prefix [0x] or 40 without it; a
    webhook merchant has a URL that starts with [http://] or
    [https://], and a chat merchant a chat id that is not empty. *)
Theorem accepted_merchant_shape (r : MerchantModel.Row)
    (m : MerchantModel.Merchant) :
  MerchantModel.from_dict r = Py.Ok m ->
  String.length (MerchantModel.id m) = 42%nat
  /\ Py.startswith (MerchantModel.id m) "0x" = true
  /\ Py.lower (MerchantModel.id m) = MerchantModel.id m
  /\ String.length (Merchant.short_id m) = 13%nat
  /\ String.length (MerchantModel.row_id r)
     = (if Py.startswith (MerchantModel.row_id r) "0x" then 42 else 40)%nat
  /\ match MerchantModel.notification_type m with
     | MerchantModel.WEBHOOK =>
         exists u, MerchantModel.webhook_url m = Some u
                   /\ MerchantModel.is_http_url u = true
     | MerchantModel.TELEGRAM =>
         exists c, MerchantModel.telegram_chat_id m = Some c /\ c <> ""
     end.
Proof.
  intros H. apply from_dict_inv in H as (nt & _ & Hm & V).
  apply validate_ok in V as [L K].
  assert (Hi : MerchantModel.row_id r <> "").
  { intros E. rewrite Hm in L. cbn in L. rewrite E in L. discriminate. }
  destruct (normalise_id_shape _ Hi) as (s & Hs & Hlen).
  assert (Hid : MerchantModel.id m = "0x" ++ Py.lower s)
    by (rewrite Hm; exact Hs).
  rewrite Hid in L. cbn in L. rewrite lower_length in L.
  repeat split.
  - rewrite Hid. cbn. now rewrite lower_length.
  - rewrite Hid. unfold Py.startswith. cbn.
    destruct (Py.lower s); reflexivity.
  - rewrite Hid. cbn. now rewrite lower_idem.
  - unfold Merchant.short_id. rewrite Hid.
    replace (10 <? String.length ("0x" ++ Py.lower s))%nat with true
      by (symmetry; apply Nat.ltb_lt; cbn; rewrite lower_length; lia).
    rewrite !length_app, first_n_length, last_n_length, length_app.
    cbn [String.length]. rewrite lower_length. lia.
  - rewrite Hlen. destruct (Py.startswith (MerchantModel.row_id r) "0x"); lia.
  - exact K.
Qed.

Lemma accepted_merchant_shape_witness :
  let m := MerchantModel.mkMerchant ("0x" ++ Scenario.bare_id)
             MerchantModel.WEBHOOK (Some "Test Shop")
             (Some "https://example.com/webhook") (Some "secret123") None
             true 0 0 in
  String.length (MerchantModel.id m) = 42%nat
  /\ String.length (Merchant.short_id m) = 13%nat
  /\ String.length Scenario.bare_id = 40%nat.
Proof.
  intros m.
  assert (E : MerchantModel.from_dict Scenario.bare_shop = Py.Ok m)
    by (vm_compute; reflexivity).
  destruct (accepted_merchant_shape Scenario.bare_shop m E)
    as (H1 & _ & _ & H4 & H5 & _).
  exact (conj H1 (conj H4 H5)).
Defined.

Lemma dict_get_set_item_other (d : list (string * Json.value))
    (k k' : string) (v dflt : Json.value) :
  k' <> k ->
  Payment.dict_get (Merchant.set_item d k v) k' dflt
  = Payment.dict_get d k' dflt.
Proof.
  intros Hk. unfold Merchant.set_item. destruct (Merchant.has_key d k).
  - induction d as [|[a x] d IH]; [reflexivity|]. cbn [map fst].
    destruct (String.eqb_spec a k) as [->|Ha]; cbn [Payment.dict_get fst].
    + destruct (String.eqb_spec k k'); [congruence|exact IH].
    + now rewrite IH.
  - induction d as [|[a x] d IH]; cbn.
    + destruct (String.eqb_spec k k'); [congruence|reflexivity].
    + now rewrite IH.
Qed.

Lemma dict_get_set_item_same (d : list (string * Json.value))
    (k : string) (v dflt : Json.value) :
  Merchant.has_key d k = true ->
  Payment.dict_get (Merchant.set_item d k v) k dflt = v.
Proof.
  intros H. unfold Merchant.set_item. rewrite H.
  unfold Merchant.has_key in H.
  induction d as [|[a x] d IH]; [discriminate|]. cbn [map fst existsb] in *.
  destruct (String.eqb_spec a k) as [->|Ha]; cbn [Payment.dict_get].
  - now rewrite String.eqb_refl.
  - apply String.eqb_neq in Ha. rewrite Ha. cbn [orb] in H. auto.
Qed.

Lemma isoformat_nonempty (t : datetime) :
  String.eqb (DateTime.isoformat t) "" = false.
Proof.
  unfold DateTime.isoformat. now destruct (DateTime.date_part t).
Qed.

(** X10: the public dictionary of a merchant.  For a merchant whose
    time fields are [datetime] objects (one made by the constructor or a
    factory, or read from PostgreSQL), [to_dict] and [to_public_dict]
    return, and the public dictionary does not depend on the secret
    beyond whether there is one: the entry [webhook_secret] is three
    asterisks for a secret that is not empty and null otherwise, every
    other entry is that of [to_dict], and a merchant that differs only
    in a non-empty secret has the same public dictionary.  For a
    merchant read from SQLite, whose time fields are the text of the
    columns, both [to_dict] and [to_public_dict] raise
    [AttributeError]. *)
Theorem public_dict_hides_secret (m : MerchantModel.Merchant) :
  (exists d p,
      Merchant.to_dict Merchant.Datetimes m = Py.Ok d
      /\ Merchant.to_public_dict Merchant.Datetimes m = Py.Ok p
      /\ Payment.dict_get p "webhook_secret" Json.JNull
         = (if Py.truthy (MerchantModel.webhook_secret m)
            then Json.JStr "***" else Json.JNull)
      /\ (forall k, k <> "webhook_secret" ->
            Payment.dict_get p k Json.JNull = Payment.dict_get d k Json.JNull)
      /\ (forall secret,
            Py.truthy secret = Py.truthy (MerchantModel.webhook_secret m) ->
            Merchant.to_public_dict Merchant.Datetimes
              (MerchantModel.mkMerchant (MerchantModel.id m)
                 (MerchantModel.notification_type m) (MerchantModel.name m)
                 (MerchantModel.webhook_url m) secret
                 (MerchantModel.telegram_chat_id m) (MerchantModel.is_active m)
                 (MerchantModel.created_at m) (MerchantModel.updated_at m))
            = Py.Ok p))
  /\ Merchant.to_dict Merchant.Texts m
     = Py.Raise "AttributeError" "'str' object has no attribute 'isoformat'"
  /\ Merchant.to_public_dict Merchant.Texts m
     = Py.Raise "AttributeError" "'str' object has no attribute 'isoformat'".
Proof.
  assert (P : forall x,
             Merchant.to_public_dict Merchant.Datetimes x
             = Py.bind (Merchant.to_dict Merchant.Datetimes x) (fun d =>
               Py.Ok (Merchant.set_item d "webhook_secret"
                        (if Py.truthy (MerchantModel.webhook_secret x)
                         then Json.JStr "***" else Json.JNull)))).
  { intros [i nt nm url [[|c s]|] chat act ca ua]; reflexivity. }
  split; [|split].
  - eexists. eexists. split; [reflexivity|].
    split; [rewrite P; reflexivity|]. split; [|split].
    + now apply dict_get_set_item_same.
    + intros k Hk. now apply dict_get_set_item_other.
    + intros secret Hs. rewrite P. cbn [MerchantModel.webhook_secret].
      rewrite Hs. destruct m as [i nt nm url sec chat act ca ua]. reflexivity.
  - unfold Merchant.to_dict, Merchant.time_entry.
    now rewrite isoformat_nonempty.
  - unfold Merchant.to_public_dict, Merchant.to_dict, Merchant.time_entry.
    now rewrite isoformat_nonempty.
Qed.

Lemma public_dict_hides_secret_witness :
  Merchant.to_public_dict Merchant.Datetimes
    (MerchantModel.mkMerchant Scenario.shop_id MerchantModel.WEBHOOK None
       (Some "https://example.com/webhook") (Some "another secret") None
       true 0 0)
  = Merchant.to_public_dict Merchant.Datetimes
      (MerchantModel.mkMerchant Scenario.shop_id MerchantModel.WEBHOOK None
         (Some "https://example.com/webhook") (Some "secret123") None
         true 0 0)
  /\ Merchant.to_public_dict Merchant.Texts
       (MerchantModel.mkMerchant Scenario.shop_id MerchantModel.WEBHOOK None
          (Some "https://example.com/webhook") (Some "secret123") None
          true 0 0)
     = Py.Raise "AttributeError" "'str' object has no attribute 'isoformat'".
Proof.
  destruct (public_dict_hides_secret
              (MerchantModel.mkMerchant Scenario.shop_id MerchantModel.WEBHOOK
                 None (Some "https://example.com/webhook") (Some "secret123")
                 None true 0 0)) as [(d & p & _ & Hp & _ & _ & Hs) [_ Ht]].
  split; [|exact Ht].
  rewrite Hp. apply (Hs (Some "another secret")). reflexivity.
Defined.

(** The merchant API on the default backend: a merchant that was
    registered on SQLite and is read back from its row has no public
    dictionary, so the handlers that answer with it fail. *)
Example sqlite_row_has_no_public_dict :
  let d := db (Scenario.start false [Scenario.shop]) in
  exists row m,
    Db.get_merchant d Scenario.shop_id = Some row
    /\ MerchantModel.from_dict row = Py.Ok m
    /\ Merchant.to_public_dict (Merchant.held_by_row (Db._is_postgres d)) m
       = Py.Raise "AttributeError" "'str' object has no attribute 'isoformat'".
Proof.
  eexists. eexists. split; [vm_compute; reflexivity|].
  split; [vm_compute; reflexivity|]. vm_compute. reflexivity.
Qed.


(* ------------------------------------------------------------------ *)
(** ** The table of merchants *)

Section DirectoryTable.

Lemma existsb_find {A} (P : A -> bool) (l : list A) :
  existsb P l = true -> exists x, find P l = Some x /\ P x = true.
Proof.
  induction l as [|a l IH]; cbn; [discriminate|].
  destruct (P a) eqn:E; [intros _; now exists a|exact IH].
Qed.

Lemma not_existsb_find {A} (P : A -> bool) (l : list A) :
  existsb P l = false -> find P l = None.
Proof.
  induction l as [|a l IH]; cbn; [reflexivity|].
  destruct (P a); [discriminate|exact IH].
Qed.

Lemma find_app_other {A} (P : A -> bool) (l : list A) (x : A) :
  P x = false -> find P (l ++ [x]) = find P l.
Proof.
  intros Hx. induction l as [|a l IH]; cbn; [now rewrite Hx|].
  now destruct (P a).
Qed.

Lemma find_filter_keep {A} (P Q : A -> bool) (l : list A) :
  (forall x, P x = true -> Q x = true) ->
  find P (filter Q l) = find P l.
Proof.
  intros H. induction l as [|a l IH]; cbn; [reflexivity|].
  destruct (P a) eqn:E.
  - rewrite (H a E). cbn. now rewrite E.
  - destruct (Q a); cbn; [now rewrite E|exact IH].
Qed.

Lemma find_map_same {A} (P : A -> bool) (f : A -> A) (l : list A) :
  (forall x, P x = true -> f x = x) -> (forall x, P (f x) = P x) ->
  find P (map f l) = find P l.
Proof.
  intros Hf HP. induction l as [|a l IH]; cbn; [reflexivity|].
  rewrite HP. destruct (P a) eqn:E; [now rewrite Hf|exact IH].
Qed.

Lemma has_id_other (i j : string) (r : MerchantModel.Row) :
  j <> i -> Directory.has_id j r = true -> Directory.has_id i r = false.
Proof.
  unfold Directory.has_id. intros Hj H. apply String.eqb_eq in H.
  apply String.eqb_neq. congruence.
Qed.

End DirectoryTable.

(** The row that [create_merchant] leaves under the id. *)
Lemma create_merchant_row (dflt : bool) (now : datetime)
    (db : Db.Database) (i nt : string) (nm url sec chat : option string) :
  exists row,
    snd (Directory.create_merchant dflt now db i nt nm url sec chat) = Some row
    /\ Db.get_merchant
         (fst (Directory.create_merchant dflt now db i nt nm url sec chat)) i
       = Some row
    /\ MerchantModel.row_id row = i
    /\ MerchantModel.row_notification_type row = nt
    /\ MerchantModel.row_name row = nm
    /\ MerchantModel.row_webhook_url row = url
    /\ MerchantModel.row_webhook_secret row = sec
    /\ MerchantModel.row_telegram_chat_id row = chat
    /\ MerchantModel.row_updated_at row = now
    /\ MerchantModel.row_is_active row
       = match Db.get_merchant db i with
         | Some old =>
             if Db._is_postgres db then MerchantModel.row_is_active old
             else dflt
         | None => dflt
         end
    /\ MerchantModel.row_created_at row
       = match Db.get_merchant db i with
         | Some old =>
             if Db._is_postgres db then MerchantModel.row_created_at old
             else now
         | None => now
         end.
Proof.
  unfold Directory.create_merchant, Db.get_merchant.
  cbn [fst snd Db.merchants Db.webhook_deliveries Db.next_id Db._is_postgres].
  change (fun r => String.eqb (MerchantModel.row_id r) i)
    with (Directory.has_id i).
  destruct (Db._is_postgres db).
  - destruct (existsb (Directory.has_id i) (Db.merchants db)) eqn:E.
    + apply existsb_find in E as (old & F & K).
      rewrite find_map_key.
      * rewrite F. cbn [option_map]. rewrite K.
        eexists. split; [reflexivity|]. split; [reflexivity|].
        cbn. apply String.eqb_eq in K. repeat split; auto.
      * intros x. unfold Directory.has_id.
        destruct (String.eqb (MerchantModel.row_id x) i) eqn:Q; cbn;
          exact Q.
    + apply not_existsb_find in E.
      rewrite find_app_miss;
        [|exact E|unfold Directory.has_id; apply String.eqb_refl].
      rewrite E. eexists. split; [reflexivity|]. split; [reflexivity|].
      cbn. repeat split.
  - rewrite find_app_miss;
      [|apply find_filter_out|unfold Directory.has_id; apply String.eqb_refl].
    eexists. split; [reflexivity|]. split; [reflexivity|].
    cbn. repeat split;
      destruct (find (Directory.has_id i) (Db.merchants db)); reflexivity.
Qed.

(** [create_merchant] leaves the rows of the other ids alone. *)
Lemma create_merchant_others (dflt : bool) (now : datetime)
    (db : Db.Database) (i nt : string) (nm url sec chat : option string)
    (j : string) :
  j <> i ->
  Db.get_merchant
    (fst (Directory.create_merchant dflt now db i nt nm url sec chat)) j
  = Db.get_merchant db j.
Proof.
  unfold Directory.create_merchant, Db.get_merchant.
  cbn [fst snd Db.merchants Db.webhook_deliveries Db.next_id Db._is_postgres].
  intros Hj.
  change (fun r => String.eqb (MerchantModel.row_id r) j)
    with (Directory.has_id j).
  assert (Hfresh : forall a b c d e f g h,
             Directory.has_id j (MerchantModel.mkRow i a b c d e f g h)
             = false).
  { intros. unfold Directory.has_id. cbn. apply String.eqb_neq. congruence. }
  destruct (Db._is_postgres db).
  - destruct (existsb (Directory.has_id i) (Db.merchants db)).
    + apply find_map_same.
      * intros x Hx. now rewrite (has_id_other i j x Hj Hx).
      * intros x. unfold Directory.has_id.
        destruct (String.eqb (MerchantModel.row_id x) i); reflexivity.
    + apply find_app_other, Hfresh.
  - rewrite find_app_other by apply Hfresh.
    apply find_filter_keep. intros x Hx.
    now rewrite (has_id_other i j x Hj Hx).
Qed.

Lemma validate_fields (m m' : MerchantModel.Merchant) :
  MerchantModel.id m' = MerchantModel.id m ->
  MerchantModel.notification_type m' = MerchantModel.notification_type m ->
  MerchantModel.webhook_url m' = MerchantModel.webhook_url m ->
  MerchantModel.telegram_chat_id m' = MerchantModel.telegram_chat_id m ->
  MerchantModel.validate m' = MerchantModel.validate m.
Proof.
  unfold MerchantModel.validate. now intros -> -> -> ->.
Qed.

Lemma normal_id_of_valid (i : string) (m : MerchantModel.Merchant) :
  MerchantModel.validate m = Py.Ok tt ->
  MerchantModel.id m = MerchantModel.normalise_id i ->
  MerchantModel.normalise_id (MerchantModel.id m) = MerchantModel.id m.
Proof.
  intros V Hm. apply validate_ok in V as [L _].
  assert (Hi : i <> "").
  { intros E. rewrite Hm, E in L. discriminate. }
  destruct (normalise_id_shape _ Hi) as (s & Hs & _).
  rewrite Hm, Hs. apply normalise_id_fixed.
Qed.

(** A row with the id, the type, the URL and the chat id of a valid
    merchant is accepted, whatever its other columns are. *)
Lemma from_dict_of_valid (m : MerchantModel.Merchant)
    (nm sec : option string) (act : bool) (ca ua : datetime) :
  MerchantModel.validate m = Py.Ok tt ->
  MerchantModel.normalise_id (MerchantModel.id m) = MerchantModel.id m ->
  MerchantModel.from_dict
    (MerchantModel.mkRow (MerchantModel.id m)
       (Merchant.NotificationType_value (MerchantModel.notification_type m))
       nm (MerchantModel.webhook_url m) sec (MerchantModel.telegram_chat_id m)
       act ca ua)
  = Py.Ok (MerchantModel.mkMerchant (MerchantModel.id m)
             (MerchantModel.notification_type m) nm (MerchantModel.webhook_url m)
             sec (MerchantModel.telegram_chat_id m) act ca ua).
Proof.
  intros V N. unfold MerchantModel.from_dict.
  cbn [MerchantModel.row_notification_type MerchantModel.row_id
       MerchantModel.row_name MerchantModel.row_webhook_url
       MerchantModel.row_webhook_secret MerchantModel.row_telegram_chat_id
       MerchantModel.row_is_active MerchantModel.row_created_at
       MerchantModel.row_updated_at].
  rewrite value_of_str, N. cbn [Py.bind].
  rewrite (validate_fields m) by reflexivity. now rewrite V.
Qed.

Lemma init_valid i nt nm url sec chat act ca ua (m : MerchantModel.Merchant) :
  Merchant.Merchant_init i nt nm url sec chat act ca ua = Py.Ok m ->
  MerchantModel.validate m = Py.Ok tt
  /\ MerchantModel.normalise_id (MerchantModel.id m) = MerchantModel.id m.
Proof.
  unfold Merchant.Merchant_init.
  destruct (MerchantModel.validate _) as [[]|] eqn:V; [|discriminate].
  cbn [Py.bind]. intros H. injection H as <-.
  split; [exact V|]. now apply (normal_id_of_valid i).
Qed.

(** X9: an accepted merchant is a fixed point of the constructor:
    reading the row that holds its fields gives the same merchant again
    (the normalisation of the id and the validation are idempotent). *)
Theorem accepted_merchant_rereads (r : MerchantModel.Row)
    (m : MerchantModel.Merchant) :
  MerchantModel.from_dict r = Py.Ok m ->
  MerchantModel.from_dict (Merchant.row_of m) = Py.Ok m
  /\ MerchantModel.normalise_id (MerchantModel.id m) = MerchantModel.id m.
Proof.
  intros H. apply from_dict_inv in H as (nt & _ & Hm & V).
  assert (N : MerchantModel.normalise_id (MerchantModel.id m)
              = MerchantModel.id m).
  { apply (normal_id_of_valid (MerchantModel.row_id r)); [exact V|].
    rewrite Hm. reflexivity. }
  split; [|exact N].
  unfold Merchant.row_of. rewrite (from_dict_of_valid m) by assumption.
  now destruct m.
Qed.

Lemma accepted_merchant_rereads_witness :
  let m := MerchantModel.mkMerchant ("0x" ++ Scenario.bare_id)
             MerchantModel.WEBHOOK (Some "Test Shop")
             (Some "https://example.com/webhook") (Some "secret123") None
             true 0 0 in
  MerchantModel.from_dict (Merchant.row_of m) = Py.Ok m
  /\ MerchantModel.normalise_id (MerchantModel.id m) = MerchantModel.id m.
Proof.
  intros m. apply (accepted_merchant_rereads Scenario.bare_shop m).
  vm_compute. reflexivity.
Defined.

(** X11: storing a merchant and reading it back.  On both backends,
    after [create_merchant] the directory holds under the id a row with
    the six values given and the time of the call as its update time,
    which is the row returned; the rows of the other ids, the ledger and
    its id sequence are as they were. *)
Theorem stored_merchant_reads_back (dflt : bool) (now : datetime)
    (db : Db.Database) (i nt : string) (nm url sec chat : option string) :
  let db' := fst (Directory.create_merchant dflt now db i nt nm url sec chat) in
  (exists row,
      snd (Directory.create_merchant dflt now db i nt nm url sec chat) = Some row
      /\ Db.get_merchant db' i = Some row
      /\ MerchantModel.row_id row = i
      /\ MerchantModel.row_notification_type row = nt
      /\ MerchantModel.row_name row = nm
      /\ MerchantModel.row_webhook_url row = url
      /\ MerchantModel.row_webhook_secret row = sec
      /\ MerchantModel.row_telegram_chat_id row = chat
      /\ MerchantModel.row_updated_at row = now)
  /\ (forall j, j <> i -> Db.get_merchant db' j = Db.get_merchant db j)
  /\ Db.webhook_deliveries db' = Db.webhook_deliveries db
  /\ Db.next_id db' = Db.next_id db
  /\ Db._is_postgres db' = Db._is_postgres db.
Proof.
  intros db'. split; [|split; [|repeat split]].
  - destruct (create_merchant_row dflt now db i nt nm url sec chat)
      as (row & H1 & H2 & H3 & H4 & H5 & H6 & H7 & H8 & H9 & _).
    exists row. repeat split; assumption.
  - intros j Hj. now apply create_merchant_others.
Qed.

(** X12: registration.  A webhook merchant made by
    [create_webhook_merchant], or a chat merchant made by
    [create_telegram_merchant], and stored with [create_merchant] under
    its fields, is read back by [from_dict] as a merchant with the same
    id, notification type, name, URL, secret and chat id, on both
    backends and whatever the directory held. *)
Theorem registration_round_trip (dflt : bool) (now : datetime)
    (db : Db.Database) (m : MerchantModel.Merchant) :
  (exists secret t i url nm,
      Merchant.create_webhook_merchant secret t i url nm = Py.Ok m)
  \/ (exists t i chat nm,
        Merchant.create_telegram_merchant t i chat nm = Py.Ok m) ->
  exists row m',
    Directory.create_merchant dflt now db (MerchantModel.id m)
      (Merchant.NotificationType_value (MerchantModel.notification_type m))
      (MerchantModel.name m) (MerchantModel.webhook_url m)
      (MerchantModel.webhook_secret m) (MerchantModel.telegram_chat_id m)
    = (fst (Directory.create_merchant dflt now db (MerchantModel.id m)
              (Merchant.NotificationType_value (MerchantModel.notification_type m))
              (MerchantModel.name m) (MerchantModel.webhook_url m)
              (MerchantModel.webhook_secret m) (MerchantModel.telegram_chat_id m)),
       Some row)
    /\ MerchantModel.from_dict row = Py.Ok m'
    /\ MerchantModel.id m' = MerchantModel.id m
    /\ MerchantModel.notification_type m' = MerchantModel.notification_type m
    /\ MerchantModel.name m' = MerchantModel.name m
    /\ MerchantModel.webhook_url m' = MerchantModel.webhook_url m
    /\ MerchantModel.webhook_secret m' = MerchantModel.webhook_secret m
    /\ MerchantModel.telegram_chat_id m' = MerchantModel.telegram_chat_id m.
Proof.
  intros H.
  assert (I : MerchantModel.validate m = Py.Ok tt
              /\ MerchantModel.normalise_id (MerchantModel.id m)
                 = MerchantModel.id m).
  { destruct H as [(secret & t & i & url & nm & H)|(t & i & chat & nm & H)];
      eapply init_valid; exact H. }
  destruct I as [V N].
  destruct (create_merchant_row dflt now db (MerchantModel.id m)
              (Merchant.NotificationType_value (MerchantModel.notification_type m))
              (MerchantModel.name m) (MerchantModel.webhook_url m)
              (MerchantModel.webhook_secret m) (MerchantModel.telegram_chat_id m))
    as (row & R & _ & Hi & Hnt & Hnm & Hurl & Hsec & Hchat & _).
  exists row.
  exists (MerchantModel.mkMerchant (MerchantModel.id m)
            (MerchantModel.notification_type m) (MerchantModel.name m)
            (MerchantModel.webhook_url m) (MerchantModel.webhook_secret m)
            (MerchantModel.telegram_chat_id m) (MerchantModel.row_is_active row)
            (MerchantModel.row_created_at row) (MerchantModel.row_updated_at row)).
  split; [rewrite <- R; now destruct (Directory.create_merchant _ _ _ _ _ _ _ _ _)|].
  split; [|cbn; repeat split].
  rewrite <- (from_dict_of_valid m) by assumption.
  f_equal. destruct row. cbn in *. congruence.
Qed.

Lemma registration_round_trip_witness :
  exists row m',
    Directory.create_merchant true 5 (db (Scenario.start false [Scenario.shop]))
      Scenario.chat_shop_id "telegram" None None None (Some "123456789")
    = (fst (Directory.create_merchant true 5
              (db (Scenario.start false [Scenario.shop]))
              Scenario.chat_shop_id "telegram" None None None (Some "123456789")),
       Some row)
    /\ MerchantModel.from_dict row = Py.Ok m'
    /\ MerchantModel.id m' = Scenario.chat_shop_id
    /\ MerchantModel.notification_type m' = MerchantModel.TELEGRAM
    /\ MerchantModel.name m' = None
    /\ MerchantModel.webhook_url m' = None
    /\ MerchantModel.webhook_secret m' = None
    /\ MerchantModel.telegram_chat_id m' = Some "123456789".
Proof.
  apply (registration_round_trip true 5 (db (Scenario.start false [Scenario.shop]))
           (MerchantModel.mkMerchant Scenario.chat_shop_id MerchantModel.TELEGRAM
              None None None (Some "123456789") true 0 0)).
  right. exists 0, "0xABCDEFabcdefabcdefabcdefabcdefabcdefabcd", "123456789", None.
  vm_compute. reflexivity.
Defined.

(** X13: registering an id again.  When the directory already holds the
    id, PostgreSQL keeps the active flag and the creation time of the
    row, while SQLite resets them to the default of the column and to
    the time of the call: a deactivated merchant that is registered
    again stays deactivated on the first and not on the second. *)
Theorem registering_again (dflt : bool) (now : datetime) (db : Db.Database)
    (old : MerchantModel.Row) (nt : string) (nm url sec chat : option string) :
  Db.get_merchant db (MerchantModel.row_id old) = Some old ->
  exists row,
    snd (Directory.create_merchant dflt now db (MerchantModel.row_id old)
           nt nm url sec chat) = Some row
    /\ MerchantModel.row_is_active row
       = (if Db._is_postgres db then MerchantModel.row_is_active old else dflt)
    /\ MerchantModel.row_created_at row
       = (if Db._is_postgres db then MerchantModel.row_created_at old else now).
Proof.
  intros F.
  destruct (create_merchant_row dflt now db (MerchantModel.row_id old)
              nt nm url sec chat)
    as (row & R & _ & _ & _ & _ & _ & _ & _ & _ & Ha & Hc).
  rewrite F in Ha, Hc. exists row. repeat split; assumption.
Qed.

Lemma registering_again_witness :
  exists row,
    snd (Directory.create_merchant true 9
           (db (Scenario.start false [Scenario.closed_shop]))
           Scenario.shop_id "webhook" None (Some "https://example.com/hook")
           (Some "secret123") None) = Some row
    /\ MerchantModel.row_is_active row = true
    /\ MerchantModel.row_created_at row = 9.
Proof.
  apply (registering_again true 9
           (db (Scenario.start false [Scenario.closed_shop]))
           Scenario.closed_shop "webhook" None (Some "https://example.com/hook")
           (Some "secret123") None).
  reflexivity.
Defined.


(* ------------------------------------------------------------------ *)
(** ** The retry queue *)

Section RetryQueue.

Lemma due_iff (now : datetime) (d : Db.Delivery) :
  Db.due now d = true <->
  Db.success d = false /\ exists t, Db.next_retry_at d = Some t /\ t <= now.
Proof.
  unfold Db.due. split.
  - intros H. apply andb_true_iff in H as [H1 H2].
    apply negb_true_iff in H1. split; [exact H1|].
    destruct (Db.next_retry_at d) as [t|]; [|discriminate].
    exists t. split; [reflexivity|]. now apply Z.leb_le.
  - intros (-> & t & -> & Ht). cbn. now apply Z.leb_le.
Qed.

Lemma insert_by_time_sorted (x : Db.Pending) (l : list Db.Pending) :
  StronglySorted (fun p q => Db.retry_time p <= Db.retry_time q) l ->
  StronglySorted (fun p q => Db.retry_time p <= Db.retry_time q)
    (Db.insert_by_time x l).
Proof.
  induction 1 as [|y l Hl IH Hy]; cbn.
  - repeat constructor.
  - destruct (Db.retry_time x <=? Db.retry_time y) eqn:E.
    + apply Z.leb_le in E. constructor; [now constructor|].
      constructor; [lia|]. eapply Forall_impl; [|exact Hy].
      cbn. intros; lia.
    + apply Z.leb_gt in E. constructor; [exact IH|].
      apply Forall_forall. intros z Hz.
      apply In_insert_by_time in Hz as [->|Hz]; [lia|].
      rewrite Forall_forall in Hy. auto.
Qed.

Lemma queue_sorted (l : list Db.Pending) :
  StronglySorted (fun p q => Db.retry_time p <= Db.retry_time q)
    (fold_right Db.insert_by_time [] l).
Proof.
  induction l as [|x l IH]; cbn; [constructor|].
  now apply insert_by_time_sorted.
Qed.

End RetryQueue.

(** X14: what the retry queue holds.  [get_pending_retries] returns
    exactly the rows of the ledger that have not succeeded and whose
    retry time is set and not after the clock, each joined with the
    settings of the directory row of its merchant (a row whose merchant
    is not in the directory is left out), in the order of their retry
    times. *)
Theorem pending_retries_exact (now : datetime) (db : Db.Database) :
  (forall p,
      In p (Db.get_pending_retries now db) <->
      exists d m,
        In d (Db.webhook_deliveries db) /\ In m (Db.merchants db)
        /\ MerchantModel.row_id m = Db.merchant_id d
        /\ Db.success d = false
        /\ (exists t, Db.next_retry_at d = Some t /\ t <= now)
        /\ p = Db.mkPending d (MerchantModel.row_webhook_url m)
                 (MerchantModel.row_webhook_secret m)
                 (MerchantModel.row_telegram_chat_id m))
  /\ StronglySorted (fun p q => Db.retry_time p <= Db.retry_time q)
       (Db.get_pending_retries now db).
Proof.
  unfold Db.get_pending_retries. split; [|apply queue_sorted].
  intros p. rewrite In_sorted, in_flat_map. split.
  - intros (d & Hd & Hp). apply filter_In in Hd as [Hd Hdue].
    apply in_map_iff in Hp as (m & <- & Hm). apply filter_In in Hm as [Hm E].
    apply String.eqb_eq in E. apply due_iff in Hdue as [S T].
    exists d, m. repeat split; auto.
  - intros (d & m & Hd & Hm & E & S & T & ->).
    exists d. split.
    + apply filter_In. split; [exact Hd|]. now apply due_iff.
    + apply in_map_iff. exists m. split; [reflexivity|].
      apply filter_In. split; [exact Hm|]. now apply String.eqb_eq.
Qed.


(* ------------------------------------------------------------------ *)
(** ** Invariants of the ledger *)

Section LedgerInvariant.

Variables (self : Router.t) (env : Env).

Let M := retry_bound self.

Lemma retry_bound_3 : 3 <= M.
Proof. unfold M, retry_bound. lia. Qed.

Lemma retry_bound_delays :
  Z.of_nat (List.length (WebhookService.retry_delays (Router.webhook_service self)))
  <= M.
Proof. unfold M, retry_bound. lia. Qed.

Lemma NoDup_map_filter_gen {A B} (f : A -> B) (P : A -> bool) (l : list A) :
  NoDup (map f l) -> NoDup (map f (filter P l)).
Proof.
  induction l as [|x l IH]; cbn; [auto|].
  intros H. inversion H as [|? ? Hx Hl]; subst.
  destruct (P x); cbn; auto. constructor; auto.
  intros Hin. apply Hx. apply in_map_iff in Hin as (y & E & Hy).
  apply filter_In in Hy as [Hy _]. apply in_map_iff. eauto.
Qed.

Lemma NoDup_snoc_gen {A} (l : list A) (x : A) :
  NoDup l -> ~ In x l -> NoDup (l ++ [x]).
Proof.
  intros Hl Hx. induction Hl as [|y l Hy Hl IH]; cbn.
  - constructor; [intros []|constructor].
  - constructor.
    + rewrite in_app_iff. cbn. intros [H|[H|[]]]; [tauto|].
      apply Hx. left. auto.
    + apply IH. intros H. apply Hx. now right.
Qed.

Lemma same_key_key (eid mid : string) (r : Db.Delivery) :
  Db.same_key eid mid r = true <-> key r = (eid, mid).
Proof.
  unfold key. split.
  - intros H. apply same_key_true in H as [-> ->]. reflexivity.
  - intros H. injection H as <- <-. now apply same_key_refl.
Qed.

(** [log_delivery] keeps the ledger consistent when the row it writes
    is. *)
Lemma log_delivery_consistent now d mid et eid meth pl s rc rb nr :
  consistent M d -> (s = true -> nr = None) ->
  consistent M
    (fst (Db.log_delivery now d mid et eid meth pl s rc rb 0 nr)).
Proof.
  intros (Hk & Hm & Hr) Hs.
  assert (Hnew : forall i a b c e f g h,
             row_consistent M
               (Db.mkDelivery i a b c e f s rc rb 0 nr g h)).
  { pose proof retry_bound_3. intros.
    repeat split; cbn; auto; lia. }
  unfold Db.log_delivery. destruct (Db._is_postgres d).
  - destruct (find _ _) as [old|] eqn:F; cbn [fst]; unfold consistent;
      cbn [Db.webhook_deliveries Db.merchants].
    + repeat split; [|exact Hm|].
      * rewrite map_map. erewrite map_ext; [exact Hk|].
        intros x. destruct (Db.same_key eid mid x); reflexivity.
      * apply Forall_forall. intros x Hx.
        apply in_map_iff in Hx as (y & <- & Hy).
        rewrite Forall_forall in Hr. specialize (Hr y Hy).
        destruct (Db.same_key eid mid y); [apply Hnew|exact Hr].
    + repeat split; [|exact Hm|].
      * rewrite map_app. cbn. apply NoDup_snoc_gen; [exact Hk|].
        intros Hin. apply in_map_iff in Hin as (y & E & Hy).
        cbn in E. apply (same_key_key eid mid y) in E.
        apply (find_none _ _ F) in Hy. congruence.
      * apply Forall_app. split; [exact Hr|].
        constructor; [apply Hnew|constructor].
  - cbn [fst]; unfold consistent; cbn [Db.webhook_deliveries Db.merchants].
    repeat split; [|exact Hm|].
    + rewrite map_app. cbn. apply NoDup_snoc_gen.
      * now apply NoDup_map_filter_gen.
      * intros Hin. apply in_map_iff in Hin as (y & E & Hy).
        cbn in E. apply (same_key_key eid mid y) in E.
        apply filter_In in Hy as [_ Hy]. rewrite E in Hy. discriminate.
    + apply Forall_app. split.
      * apply Forall_forall. intros x Hx. apply filter_In in Hx as [Hx _].
        rewrite Forall_forall in Hr. auto.
      * constructor; [apply Hnew|constructor].
Qed.

Lemma mark_delivery_success_consistent now d i :
  consistent M d -> consistent M (Db.mark_delivery_success now d i).
Proof.
  intros (Hk & Hm & Hr). unfold Db.mark_delivery_success, Db.set_deliveries.
  unfold consistent; cbn [Db.webhook_deliveries Db.merchants].
  repeat split; [|exact Hm|].
  - rewrite map_map. erewrite map_ext; [exact Hk|].
    intros x. destruct (Db.id x =? i); reflexivity.
  - apply Forall_forall. intros x Hx.
    apply in_map_iff in Hx as (y & <- & Hy).
    rewrite Forall_forall in Hr. specialize (Hr y Hy).
    destruct (Db.id y =? i); [|exact Hr].
    destruct Hr as (_ & H2 & _). repeat split; cbn; auto; try lia.
    congruence.
Qed.

Lemma update_delivery_retry_consistent now d i c nr rc rb :
  consistent M d -> 0 <= c <= M -> (nr <> None -> c < M) ->
  (nr <> None ->
   forall row, In row (Db.webhook_deliveries d) -> Db.id row = i ->
               Db.success row = false) ->
  consistent M (Db.update_delivery_retry now d i c nr rc rb).
Proof.
  intros (Hk & Hm & Hr) Hc Hn Hs.
  unfold Db.update_delivery_retry, Db.set_deliveries.
  unfold consistent; cbn [Db.webhook_deliveries Db.merchants].
  repeat split; [|exact Hm|].
  - rewrite map_map. erewrite map_ext; [exact Hk|].
    intros x. destruct (Db.id x =? i); reflexivity.
  - apply Forall_forall. intros x Hx.
    apply in_map_iff in Hx as (y & <- & Hy).
    rewrite Forall_forall in Hr. specialize (Hr y Hy).
    destruct (Db.id y =? i) eqn:E; [|exact Hr].
    apply Z.eqb_eq in E. repeat split; cbn; auto; try lia.
    intros S. destruct nr as [t|]; [|reflexivity].
    rewrite (Hs ltac:(discriminate) y Hy E) in S. discriminate.
Qed.

(** What a retry of the webhook transport does to the ledger. *)
Lemma webhook_retry_db ws p st r st' :
  WebhookService._retry_delivery ws env p st = (r, st') ->
  let i := Db.id (Db.delivery p) in
  let c := Db.retry_count (Db.delivery p) in
  db st' = db st
  \/ (exists now, db st' = Db.mark_delivery_success now (db st) i)
  \/ exists now nr rc rb,
       db st' = Db.update_delivery_retry now (db st) i (c + 1) nr rc rb
       /\ (nr <> None ->
           c + 1 < Z.of_nat (List.length (WebhookService.retry_delays ws))).
Proof.
  unfold WebhookService._retry_delivery. cbv zeta.
  destruct (negb (Py.truthy (Db.webhook_url p))
            || negb (Py.truthy (Db.webhook_secret p))
            || String.eqb (Db.payload_text (Db.payload (Db.delivery p))) "").
  - exec. intros H; inversion H; subst. rewrite db_with_db.
    right. right. do 4 eexists. split; [reflexivity|]. intros N; exfalso; now apply N.
  - destruct (Db.webhook_url p) as [url|];
      [|intros H; inversion H; subst; now left].
    destruct (Db.webhook_secret p) as [secret|];
      [|intros H; inversion H; subst; now left].
    destruct (Db.payload (Db.delivery p)) as [stored|text];
      [|intros H; inversion H; subst; now left].
    destruct (deliver_total env url (fst (Payment.sign stored secret)) secret st)
      as (success & code & body & st1 & D).
    destruct (deliver_frame env _ _ _ _ _ _ D) as (Hdb & _).
    exec. rewrite D. destruct success; exec;
      intros H; inversion H; subst; rewrite db_with_db, Hdb.
    + right. left. eexists. reflexivity.
    + right. right. do 4 eexists. split; [reflexivity|].
      destruct (Db.retry_count (Db.delivery p) + 1
                <? Z.of_nat (List.length (WebhookService.retry_delays ws)))
        eqn:E; [|intros N; exfalso; now apply N].
      intros _. now apply Z.ltb_lt in E.
Qed.

(** What a retry of the chat transport does to the ledger. *)
Lemma telegram_retry_db p st r st' :
  TelegramService._retry_delivery env p st = (r, st') ->
  let i := Db.id (Db.delivery p) in
  let c := Db.retry_count (Db.delivery p) in
  db st' = db st
  \/ (exists now, db st' = Db.mark_delivery_success now (db st) i)
  \/ exists now nr rc rb,
       db st' = Db.update_delivery_retry now (db st) i (c + 1) nr rc rb
       /\ (nr <> None -> c + 1 < 3).
Proof.
  unfold TelegramService._retry_delivery. cbv zeta.
  destruct (Db.telegram_chat_id p) as [chat|].
  2:{ exec. intros H; inversion H; subst. rewrite db_with_db.
      right. right. do 4 eexists. split; [reflexivity|]. intros N; exfalso; now apply N. }
  destruct (String.eqb chat ""
            || String.eqb (Db.payload_text (Db.payload (Db.delivery p))) "").
  - exec. intros H; inversion H; subst. rewrite db_with_db.
    right. right. do 4 eexists. split; [reflexivity|]. intros N; exfalso; now apply N.
  - destruct (send_message_total env chat
                (Db.payload_text (Db.payload (Db.delivery p))) "Markdown" st)
      as (success & response & st1 & D).
    destruct (send_message_frame env _ _ _ _ _ _ D) as (Hdb & _).
    exec. rewrite D. destruct success; exec;
      intros H; inversion H; subst; rewrite db_with_db, Hdb.
    + right. left. eexists. reflexivity.
    + right. right. do 4 eexists. split; [reflexivity|].
      destruct (Db.retry_count (Db.delivery p) + 1 <? 3) eqn:E; [|intros N; exfalso; now apply N].
      intros _. now apply Z.ltb_lt in E.
Qed.

(** A retry keeps the ledger consistent when the row it retries has
    not succeeded and its count is below the bound. *)
Lemma retry_consistent (f : Db.Pending -> Eff.M unit) (B : Z) :
  B <= M ->
  (forall p st r st',
      f p st = (r, st') ->
      db st' = db st
      \/ (exists now,
             db st' = Db.mark_delivery_success now (db st) (Db.id (Db.delivery p)))
      \/ exists now nr rc rb,
           db st' = Db.update_delivery_retry now (db st) (Db.id (Db.delivery p))
                      (Db.retry_count (Db.delivery p) + 1) nr rc rb
           /\ (nr <> None -> Db.retry_count (Db.delivery p) + 1 < B)) ->
  forall p st r st',
    consistent M (db st) ->
    0 <= Db.retry_count (Db.delivery p) < M ->
    (forall row, In row (Db.webhook_deliveries (db st)) ->
                 Db.id row = Db.id (Db.delivery p) -> Db.success row = false) ->
    f p st = (r, st') -> consistent M (db st').
Proof.
  intros HB Hf p st r st' C Hc Hs E.
  destruct (Hf _ _ _ _ E) as [->|[(now & ->)|(now & nr & rc & rb & -> & Hn)]].
  - exact C.
  - now apply mark_delivery_success_consistent.
  - apply update_delivery_retry_consistent; auto; try lia.
    intros H. specialize (Hn H). lia.
Qed.

(** A sweep over a queue of rows with distinct ids. *)
Lemma sweep_consistent (f : Db.Pending -> Eff.M unit) (l : list Db.Pending) :
  (forall p st r st', f p st = (r, st') ->
     rows_rewritten (eq (Db.id (Db.delivery p))) (db st) (db st')) ->
  (forall p st r st',
     consistent M (db st) ->
     0 <= Db.retry_count (Db.delivery p) < M ->
     (forall row, In row (Db.webhook_deliveries (db st)) ->
                  Db.id row = Db.id (Db.delivery p) -> Db.success row = false) ->
     f p st = (r, st') -> consistent M (db st')) ->
  NoDup (map (fun p => Db.id (Db.delivery p)) l) ->
  Forall (fun p => 0 <= Db.retry_count (Db.delivery p) < M) l ->
  forall st r st',
    consistent M (db st) ->
    (forall p row, In p l -> In row (Db.webhook_deliveries (db st)) ->
                   Db.id row = Db.id (Db.delivery p) -> Db.success row = false) ->
    Eff.for_each l f st = (r, st') -> consistent M (db st').
Proof.
  intros Hrw Hf. induction l as [|p l IH]; intros Hn Hc st r st' C Hs E.
  - cbn in E. inversion E; subst. exact C.
  - cbn [Eff.for_each] in E. unfold Eff.bind in E.
    inversion Hn as [|? ? Hp Hl]; subst.
    inversion Hc as [|? ? Hcp Hcl]; subst.
    destruct (f p st) as [[[]|x y] st1] eqn:F.
    + assert (C1 : consistent M (db st1)).
      { eapply Hf; eauto. intros row Hrow. apply Hs; [now left|exact Hrow]. }
      eapply IH; eauto.
      intros q row Hq Hrow Hid.
      destruct (Hrw _ _ _ _ F) as (g & Hg & Ig & Kg & _).
      rewrite Hg in Hrow. apply in_map_iff in Hrow as (row0 & <- & Hrow0).
      rewrite Ig in Hid.
      rewrite Kg.
      * apply (Hs q); [now right|exact Hrow0|exact Hid].
      * intros Heq. apply Hp. apply in_map_iff. exists q.
        split; [congruence|exact Hq].
    + inversion E; subst.
      eapply Hf; eauto. intros row Hrow. apply Hs; [now left|exact Hrow].
Qed.

Lemma insert_by_time_perm x l : Permutation (Db.insert_by_time x l) (x :: l).
Proof.
  induction l as [|y l IH]; cbn; [reflexivity|].
  destruct (Db.retry_time x <=? Db.retry_time y); [reflexivity|].
  rewrite IH. apply perm_swap.
Qed.

Lemma queue_perm l : Permutation (fold_right Db.insert_by_time [] l) l.
Proof.
  induction l as [|x l IH]; cbn; [reflexivity|].
  rewrite insert_by_time_perm. now constructor.
Qed.

Lemma filter_id_unique (ms : list MerchantModel.Row) (k : string) :
  NoDup (map MerchantModel.row_id ms) ->
  (List.length
     (filter (fun m => String.eqb (MerchantModel.row_id m) k) ms) <= 1)%nat.
Proof.
  induction ms as [|m ms IH]; cbn; [lia|].
  intros H. inversion H as [|? ? Hm Hms]; subst.
  destruct (String.eqb_spec (MerchantModel.row_id m) k) as [E|E];
    [|now apply IH].
  cbn. replace (filter _ ms) with (@nil MerchantModel.Row); [cbn; lia|].
  symmetry.
  destruct (filter _ ms) as [|m' rest] eqn:F; [reflexivity|exfalso].
  assert (Hin : In m' (filter (fun m0 => String.eqb (MerchantModel.row_id m0) k) ms))
    by (rewrite F; now left).
  apply filter_In in Hin as [Hin Hk]. apply String.eqb_eq in Hk.
  apply Hm. apply in_map_iff. exists m'. split; [congruence|exact Hin].
Qed.

(** The rows of the retry queue have distinct ids. *)
Lemma queue_ids_distinct now d :
  NoDup (map Db.id (Db.webhook_deliveries d)) ->
  NoDup (map MerchantModel.row_id (Db.merchants d)) ->
  NoDup (map (fun p => Db.id (Db.delivery p)) (Db.get_pending_retries now d)).
Proof.
  intros Hr Hm. unfold Db.get_pending_retries.
  eapply Permutation_NoDup.
  { apply Permutation_map. symmetry. apply queue_perm. }
  apply (NoDup_map_filter_gen Db.id (Db.due now)) in Hr.
  induction (filter (Db.due now) (Db.webhook_deliveries d)) as [|x l IH];
    cbn; [constructor|].
  inversion Hr as [|? ? Hx Hl]; subst.
  rewrite map_app, map_map. cbn [Db.delivery].
  pose proof (filter_id_unique (Db.merchants d) (Db.merchant_id x) Hm) as U.
  destruct (filter _ (Db.merchants d)) as [|m [|m' rest]]; cbn in U |- *;
    [now apply IH| |lia].
  constructor; [|now apply IH].
  intros Hin. apply Hx. apply in_map_iff in Hin as (p & E & Hp).
  apply in_flat_map in Hp as (y & Hy & Hp).
  apply in_map_iff in Hp as (m0 & <- & _). cbn in E.
  apply in_map_iff. exists y. split; [exact E|exact Hy].
Qed.

(** A sweep of either transport keeps the ledger consistent. *)
Lemma sweep_of_queue_consistent (f : Db.Pending -> Eff.M unit)
    (P : Db.Pending -> bool) st r st' :
  (forall p st r st', f p st = (r, st') ->
     rows_rewritten (eq (Db.id (Db.delivery p))) (db st) (db st')) ->
  (forall p st r st',
     consistent M (db st) ->
     0 <= Db.retry_count (Db.delivery p) < M ->
     (forall row, In row (Db.webhook_deliveries (db st)) ->
                  Db.id row = Db.id (Db.delivery p) -> Db.success row = false) ->
     f p st = (r, st') -> consistent M (db st')) ->
  well_formed (db st) -> consistent M (db st) ->
  Eff.for_each (filter P (Db.get_pending_retries (clock st) (db st))) f st
  = (r, st') ->
  consistent M (db st').
Proof.
  intros Hrw Hf W C E. pose proof C as (_ & Hm & Hr). pose proof W as (Hn & _).
  apply (sweep_consistent f
           (filter P (Db.get_pending_retries (clock st) (db st))) Hrw Hf)
    with (st := st) (r := r); [| |exact C| |exact E].
  - apply NoDup_map_filter_gen. now apply queue_ids_distinct.
  - apply Forall_forall. intros p Hp. apply filter_In in Hp as [Hp _].
    apply pending_due in Hp as [Hin Hdue].
    apply due_not_exhausted in Hdue as (_ & t & Ht & _).
    rewrite Forall_forall in Hr. destruct (Hr _ Hin) as (_ & H2 & H3).
    split; [lia|]. apply H3. congruence.
  - intros p row Hp Hrow Hid. apply filter_In in Hp as [Hp _].
    apply pending_due in Hp as [Hin Hdue].
    apply due_not_exhausted in Hdue as (S & _).
    assert (row = Db.delivery p) by (eapply unique_id; eauto).
    congruence.
Qed.

Lemma webhook_tick_consistent st :
  well_formed (db st) -> consistent M (db st) ->
  consistent M
    (db (snd (WebhookService.retry_tick (Router.webhook_service self) env st))).
Proof.
  intros W C. unfold WebhookService.retry_tick. rewrite swallow_state.
  unfold WebhookService._process_retries. exec.
  destruct (Eff.for_each _ _ st) as [r st'] eqn:E. cbn [snd].
  eapply sweep_of_queue_consistent; [| |exact W|exact C|exact E].
  - apply webhook_retry_rewrites.
  - apply (retry_consistent _
             (Z.of_nat (List.length
                (WebhookService.retry_delays (Router.webhook_service self)))));
      [apply retry_bound_delays|].
    intros p st0 r0 st0' H. exact (webhook_retry_db _ _ _ _ _ H).
Qed.

Lemma telegram_tick_consistent st :
  well_formed (db st) -> consistent M (db st) ->
  consistent M (db (snd (TelegramService.retry_tick env st))).
Proof.
  intros W C. unfold TelegramService.retry_tick. rewrite swallow_state.
  unfold TelegramService._process_retries. exec.
  destruct (Eff.for_each _ _ st) as [r st'] eqn:E. cbn [snd].
  eapply sweep_of_queue_consistent; [| |exact W|exact C|exact E].
  - apply telegram_retry_rewrites.
  - apply (retry_consistent _ 3); [apply retry_bound_3|].
    intros p st0 r0 st0' H. exact (telegram_retry_db _ _ _ _ H).
Qed.

(** What a routing writes: nothing, or one row without a retry time if
    it succeeded. *)
Lemma route_db_outcome e et st r st' :
  Router.route_notification self env e et st = (r, st') ->
  db st' = db st
  \/ exists mid now meth pl s rc rb nr,
       db st' = fst (Db.log_delivery now (db st) mid et
                       (Payment.get_event_id e) meth pl s rc rb 0 nr)
       /\ (s = true -> nr = None).
Proof.
  rewrite route_run. cbv zeta.
  destruct (Db.check_event_processed _ _ _) eqn:C.
  { intros H; inversion H; subst. now left. }
  destruct (Db.get_merchant _ _) as [row|] eqn:G.
  2:{ intros H; inversion H; subst. now left. }
  destruct (MerchantModel.from_dict row) as [m|x y] eqn:F.
  2:{ intros H; inversion H; subst. now left. }
  destruct (negb (MerchantModel.is_active m)).
  { intros H; inversion H; subst. now left. }
  set (st0 := with_stats (Router.inc_total (_stats st)) st).
  destruct (MerchantModel.notification_type m).
  - destruct (WebhookService.send_notification (Router.webhook_service self)
                env m e et st0) as [r1 st1] eqn:S.
    destruct (send_notification_cases _ _ _ _ _ _ _ _ S)
      as [[-> [err' [->|(x & y & ->)]]]|
          (url & secret & unsigned & success & code & body & st2 & _ & D & -> & ->)].
    + rewrite (send_webhook_run _ _ _ _ _ _ _ _ _ S).
      intros H; inversion H; subst. now left.
    + rewrite (send_webhook_raise _ _ _ _ _ _ _ _ _ S).
      intros H; inversion H; subst. now left.
    + rewrite (send_webhook_run _ _ _ _ _ _ _ _ _ S).
      intros H; inversion H; subst. right.
      do 8 eexists. rewrite db_with_stats, db_with_db.
      split; [reflexivity|]. now intros ->.
  - destruct (TelegramService.send_notification (Router.telegram_service self)
                env m e et st0) as [r1 st1] eqn:S.
    destruct (telegram_send_cases _ _ _ _ _ _ _ _ S)
      as [[-> [err' [->|(x & y & ->)]]]|
          (chat & text & success & response & st2 & _ & D & [err' ->] & ->)].
    + rewrite (send_telegram_run _ _ _ _ _ _ _ _ _ S).
      intros H; inversion H; subst. now left.
    + rewrite (send_telegram_raise _ _ _ _ _ _ _ _ _ S).
      intros H; inversion H; subst. now left.
    + rewrite (send_telegram_run _ _ _ _ _ _ _ _ _ S).
      intros H; inversion H; subst. right.
      do 8 eexists. rewrite db_with_stats, db_with_db.
      split; [reflexivity|]. now intros ->.
Qed.

(** One step of the process keeps the ledger well formed and
    consistent. *)
Lemma step_consistent st o :
  well_formed (db st) -> consistent M (db st) ->
  well_formed (db (step self env st o))
  /\ consistent M (db (step self env st o)).
Proof.
  intros W C. destruct o as [e et| | |d]; cbn [step].
  - destruct (Router.route_notification self env e et st) as [r st'] eqn:R.
    cbn [snd].
    destruct (route_db_outcome _ _ _ _ _ R)
      as [->|(mid & now & meth & pl & s & rc & rb & nr & -> & Hs)]; [auto|].
    split; [now apply log_delivery_well_formed|].
    now apply log_delivery_consistent.
  - split.
    + eapply rewritten_well_formed; [apply webhook_tick_rewrites|exact W].
    + now apply webhook_tick_consistent.
  - split.
    + eapply rewritten_well_formed; [apply telegram_tick_rewrites|exact W].
    + now apply telegram_tick_consistent.
  - auto.
Qed.

End LedgerInvariant.

(** Operations that run one after the other, none overlapping another:
    starting from a well-formed ledger with one row per (event id,
    merchant id) and one directory row per id, they leave a ledger with
    one row per key in which a row that succeeded has no retry time,
    every retry count lies between 0 and the bound, and a row that
    still has a retry time has a count below the bound. *)
Lemma consistent_in_sequence (self : Router.t) (env : Env)
    (ops : list Op) (st : State) :
  well_formed (db st) -> consistent (retry_bound self) (db st) ->
  consistent (retry_bound self) (db (run_ops self env ops st)).
Proof.
  unfold run_ops. revert st.
  induction ops as [|o ops IH]; intros st W C; cbn [fold_left]; [exact C|].
  destruct (step_consistent self env st o W C) as [W' C'].
  now apply IH.
Qed.



(* ------------------------------------------------------------------ *)
(** ** Retry sweeps *)

Section Sweeps.

Variables (self : Router.t) (env : Env).

Lemma for_each_rel {A} (R : State -> State -> Prop) (f : A -> Eff.M unit)
    (l : list A) :
  (forall st, R st st) ->
  (forall a b c, R a b -> R b c -> R a c) ->
  (forall x st r st', f x st = (r, st') -> R st st') ->
  forall st r st', Eff.for_each l f st = (r, st') -> R st st'.
Proof.
  intros Hrefl Htrans Hf. induction l as [|x l IH]; intros st r st' H.
  - cbn in H. inversion H; subst. apply Hrefl.
  - cbn [Eff.for_each] in H. unfold Eff.bind in H.
    destruct (f x st) as [[[]|e m] st1] eqn:E.
    + eapply Htrans; [eapply Hf; exact E|eapply IH; exact H].
    + inversion H; subst. eapply Hf; exact E.
Qed.

Lemma webhook_frame_refl st : webhook_frame st st.
Proof. repeat split. Qed.

Lemma webhook_frame_trans a b c :
  webhook_frame a b -> webhook_frame b c -> webhook_frame a c.
Proof.
  intros (A1 & A2 & A3 & A4) (B1 & B2 & B3 & B4).
  repeat split; congruence.
Qed.

Lemma telegram_frame_refl st : telegram_frame st st.
Proof. repeat split. Qed.

Lemma telegram_frame_trans a b c :
  telegram_frame a b -> telegram_frame b c -> telegram_frame a c.
Proof.
  intros (A1 & A2 & A3) (B1 & B2 & B3). repeat split; congruence.
Qed.

Lemma webhook_retry_frame ws p st r st' :
  WebhookService._retry_delivery ws env p st = (r, st') ->
  webhook_frame st st'.
Proof.
  unfold WebhookService._retry_delivery.
  destruct (negb (Py.truthy (Db.webhook_url p))
            || negb (Py.truthy (Db.webhook_secret p))
            || String.eqb (Db.payload_text (Db.payload (Db.delivery p))) "").
  - exec. intros H; inversion H; subst. repeat split.
  - destruct (Db.webhook_url p) as [url|];
      [|intros H; inversion H; subst; apply webhook_frame_refl].
    destruct (Db.webhook_secret p) as [secret|];
      [|intros H; inversion H; subst; apply webhook_frame_refl].
    destruct (Db.payload (Db.delivery p)) as [stored|text];
      [|intros H; inversion H; subst; apply webhook_frame_refl].
    destruct (deliver_total env url (fst (Payment.sign stored secret)) secret st)
      as (success & code & body & st1 & D).
    destruct (deliver_frame env _ _ _ _ _ _ D)
      as (Hdb & Hck & Htp & Hls & Hst & _).
    exec. rewrite D. destruct success; exec;
      intros H; inversion H; subst; unfold webhook_frame;
      rewrite db_with_db; cbn; rewrite Hdb; repeat split; auto.
Qed.

Lemma telegram_retry_frame p st r st' :
  TelegramService._retry_delivery env p st = (r, st') ->
  telegram_frame st st'.
Proof.
  unfold TelegramService._retry_delivery.
  destruct (Db.telegram_chat_id p) as [chat|].
  2:{ exec. intros H; inversion H; subst. repeat split. }
  destruct (String.eqb chat ""
            || String.eqb (Db.payload_text (Db.payload (Db.delivery p))) "").
  - exec. intros H; inversion H; subst. repeat split.
  - destruct (send_message_total env chat
                (Db.payload_text (Db.payload (Db.delivery p))) "Markdown" st)
      as (success & response & st1 & D).
    destruct (send_message_frame env _ _ _ _ _ _ D) as (Hdb & Hhp & Hst & _).
    exec. rewrite D. destruct success; exec;
      intros H; inversion H; subst; unfold telegram_frame;
      rewrite db_with_db; cbn; rewrite Hdb; repeat split; auto.
Qed.

(** The rows a sweep may rewrite are rows of its own transport. *)
Lemma sweep_keeps_other_rows (f : Db.Pending -> Eff.M unit) (method : string)
    st r st' d :
  (forall p st r st', f p st = (r, st') ->
     rows_rewritten (eq (Db.id (Db.delivery p))) (db st) (db st')) ->
  NoDup (map Db.id (Db.webhook_deliveries (db st))) ->
  Eff.for_each
    (filter (fun p => String.eqb (Db.delivery_method (Db.delivery p)) method)
            (Db.get_pending_retries (clock st) (db st))) f st = (r, st') ->
  In d (Db.webhook_deliveries (db st)) -> Db.delivery_method d <> method ->
  In d (Db.webhook_deliveries (db st')).
Proof.
  intros Hf Hn E Hd Hm.
  apply for_each_rewrites in E; [|exact Hf].
  eapply rewritten_keeps; [exact E|exact Hd|].
  intros (p & Hp & Hid). apply filter_In in Hp as [Hp Hmeth].
  apply String.eqb_eq in Hmeth. apply pending_due in Hp as [Hin _].
  assert (Db.delivery p = d) by (eapply unique_id; eauto).
  congruence.
Qed.

End Sweeps.

(** X16: each retry sweep stays with its own transport.  In a ledger
    whose rows have distinct ids, a sweep of the webhook transport sends
    no chat message, leaves the rate limiter, the counters and the
    directory alone, and keeps every row whose delivery method is not
    [webhook]; a sweep of the chat transport makes no POST, leaves the
    counters and the directory alone, and keeps every row whose
    delivery method is not [telegram]. *)
Theorem sweeps_stay_in_lane (self : Router.t) (env : Env) (st : State)
    (d : Db.Delivery) :
  NoDup (map Db.id (Db.webhook_deliveries (db st))) ->
  In d (Db.webhook_deliveries (db st)) ->
  let sw := snd (WebhookService.retry_tick (Router.webhook_service self) env st) in
  let sc := snd (TelegramService.retry_tick env st) in
  webhook_frame st sw
  /\ (Db.delivery_method d <> "webhook" -> In d (Db.webhook_deliveries (db sw)))
  /\ telegram_frame st sc
  /\ (Db.delivery_method d <> "telegram" -> In d (Db.webhook_deliveries (db sc))).
Proof.
  intros W Hd sw sc. subst sw sc.
  unfold WebhookService.retry_tick, TelegramService.retry_tick.
  rewrite !swallow_state.
  unfold WebhookService._process_retries, TelegramService._process_retries.
  exec.
  destruct (Eff.for_each _ (WebhookService._retry_delivery _ env) st)
    as [r1 s1] eqn:E1.
  destruct (Eff.for_each _ (TelegramService._retry_delivery env) st)
    as [r2 s2] eqn:E2.
  cbn [snd].
  assert (F1 : webhook_frame st s1).
  { eapply (for_each_rel webhook_frame); [| | |exact E1].
    - apply webhook_frame_refl.
    - apply webhook_frame_trans.
    - apply webhook_retry_frame. }
  assert (F2 : telegram_frame st s2).
  { eapply (for_each_rel telegram_frame); [| | |exact E2].
    - apply telegram_frame_refl.
    - apply telegram_frame_trans.
    - apply telegram_retry_frame. }
  split; [exact F1|]. split; [|split; [exact F2|]].
  - intros Hm. eapply sweep_keeps_other_rows; eauto.
    apply webhook_retry_rewrites.
  - intros Hm. eapply sweep_keeps_other_rows; eauto.
    apply telegram_retry_rewrites.
Qed.

Lemma sweeps_stay_in_lane_witness :
  let st := advance (DateTime.minutes 120)
              (Scenario.failed_delivery true Scenario.chat_shop) in
  let d := nth 0 (Db.webhook_deliveries (db st))
             (Db.mkDelivery 0 "" "" "" "" (Db.TextPayload "") false None None
                0 None 0 0) in
  Db.delivery_method d = "telegram"
  /\ In d (Db.webhook_deliveries
             (db (snd (WebhookService.retry_tick WebhookService.default
                         Scenario.down st)))).
Proof.
  intros st d. split; [reflexivity|].
  refine (proj1 (proj2 (sweeps_stay_in_lane Scenario.router Scenario.down
                          st d _ _)) _).
  - vm_compute. constructor; [intros []|constructor].
  - vm_compute. left. reflexivity.
  - vm_compute. discriminate.
Defined.


(* ------------------------------------------------------------------ *)
(** ** A retry that succeeds *)

Section RetrySuccess.

Variables (self : Router.t) (env : Env).

Lemma telegram_retry_succeeded p st chat response st1 :
  Db.telegram_chat_id p = Some chat -> chat <> "" ->
  Db.payload_text (Db.payload (Db.delivery p)) <> "" ->
  TelegramService._send_message env chat
    (Db.payload_text (Db.payload (Db.delivery p))) "Markdown" st
  = (Py.Ok (true, response), st1) ->
  TelegramService._retry_delivery env p st
  = (Py.Ok tt,
     with_db (Db.mark_delivery_success (clock st1) (db st)
                (Db.id (Db.delivery p)))
             st1).
Proof.
  intros C Cn T D.
  unfold TelegramService._retry_delivery. rewrite C.
  apply String.eqb_neq in Cn, T. rewrite Cn, T.
  cbn [orb]. exec. rewrite D. exec.
  destruct (send_message_frame env _ _ _ _ _ _ D) as (Hdb & _).
  rewrite Hdb. reflexivity.
Qed.

(** What [mark_delivery_success] settles. *)
Lemma mark_success_settles now d x :
  In x (Db.webhook_deliveries d) ->
  let d' := Db.mark_delivery_success now d (Db.id x) in
  Db.check_event_processed d' (Db.event_id x) (Db.merchant_id x) = true
  /\ (forall t q, In q (Db.get_pending_retries t d') ->
                  Db.id (Db.delivery q) <> Db.id x)
  /\ exists x',
       In x' (Db.webhook_deliveries d')
       /\ Db.id x' = Db.id x /\ Db.success x' = true
       /\ Db.next_retry_at x' = None
       /\ Db.retry_count x' = Db.retry_count x
       /\ Db.payload x' = Db.payload x.
Proof.
  intros Hx d'. subst d'.
  unfold Db.mark_delivery_success, Db.set_deliveries, Db.check_event_processed.
  cbn [Db.webhook_deliveries].
  set (g := fun r : Db.Delivery =>
              if Db.id r =? Db.id x
              then Db.mkDelivery (Db.id r) (Db.merchant_id r) (Db.event_type r)
                     (Db.event_id r) (Db.delivery_method r) (Db.payload r) true
                     (Db.response_code r) (Db.response_body r)
                     (Db.retry_count r) None now (Db.created_at r)
              else r).
  assert (Hg : In (g x) (map g (Db.webhook_deliveries d)))
    by now apply in_map.
  assert (Ex : g x = Db.mkDelivery (Db.id x) (Db.merchant_id x) (Db.event_type x)
                       (Db.event_id x) (Db.delivery_method x) (Db.payload x) true
                       (Db.response_code x) (Db.response_body x)
                       (Db.retry_count x) None now (Db.created_at x)).
  { unfold g. now rewrite Z.eqb_refl. }
  repeat split.
  - apply existsb_exists. exists (g x). split; [exact Hg|].
    rewrite Ex. cbn. unfold Db.same_key. cbn. now rewrite !String.eqb_refl.
  - intros t q Hq Hid. apply pending_due in Hq as [Hin Hdue].
    apply due_not_exhausted in Hdue as [Hf _].
    cbn [Db.webhook_deliveries] in Hin.
    apply in_map_iff in Hin as (y & Hy & _).
    assert (Eid : Db.id y = Db.id x).
    { rewrite <- Hid, <- Hy. unfold g. now destruct (Db.id y =? Db.id x). }
    unfold g in Hy. rewrite Eid, Z.eqb_refl in Hy.
    rewrite <- Hy in Hf. discriminate.
  - exists (g x). split; [exact Hg|]. rewrite Ex. cbn. repeat split.
Qed.

(** A routing of an event that counts as processed. *)
Lemma route_processed e et st :
  Db.check_event_processed (db st) (Payment.get_event_id e)
    (Payment.merchant_id e) = true ->
  exists st',
    Router.route_notification self env e et st = (Py.Ok (true, None), st')
    /\ db st' = db st /\ transport_calls st' = transport_calls st.
Proof.
  intros C. rewrite route_run. cbv zeta. rewrite C.
  eexists. split; [reflexivity|].
  now rewrite !db_with_stats, !calls_with_stats.
Qed.

End RetrySuccess.

Lemma marked_settled (self : Router.t) (env : Env) (x : Db.Delivery)
    (now : datetime) (st st' : State) :
  In x (Db.webhook_deliveries (db st)) ->
  db st' = Db.mark_delivery_success now (db st) (Db.id x) ->
  settled self env x st'.
Proof.
  intros Hin Hdb.
  destruct (mark_success_settles now (db st) x Hin)
    as (C & Q & x' & X1 & X2 & X3 & X4 & X5 & _).
  unfold settled. rewrite Hdb.
  split; [exists x'; repeat split; assumption|].
  split; [exact Q|].
  intros e et He Hm.
  destruct (route_processed self env e et st') as (st'' & R & D & T).
  - now rewrite Hdb, He, Hm.
  - exists st''. rewrite <- Hdb. auto.
Qed.




(* ------------------------------------------------------------------ *)
(** ** The counters of the router *)

Section Counters.

Variables (self : Router.t) (env : Env).

Lemma webhook_send_stats ws m e et st r st' :
  WebhookService.send_notification ws env m e et st = (r, st') ->
  _stats st' = _stats st.
Proof.
  intros H.
  destruct (send_notification_cases _ _ _ _ _ _ _ _ H)
    as [[-> _]|(url & secret & unsigned & success & code & body & st1 & _ & D & _ & ->)];
    [reflexivity|].
  destruct (deliver_frame env _ _ _ _ _ _ D) as (_ & _ & _ & _ & Hs & _).
  exact Hs.
Qed.

Lemma telegram_send_stats ts m e et st r st' :
  TelegramService.send_notification ts env m e et st = (r, st') ->
  _stats st' = _stats st.
Proof.
  intros H.
  destruct (telegram_send_cases _ _ _ _ _ _ _ _ H)
    as [[-> _]|(chat & text & success & response & st1 & _ & D & _ & ->)];
    [reflexivity|].
  destruct (send_message_frame env _ _ _ _ _ _ D) as (_ & _ & Hs & _).
  exact Hs.
Qed.

(** What a routing does to the counters. *)
Lemma route_stats e et st :
  let s := _stats st in
  let s' := _stats (snd (Router.route_notification self env e et st)) in
  total_notifications s' = total_notifications s + 1
  /\ outcomes s <= outcomes s' <= outcomes s + 1.
Proof.
  cbv zeta. rewrite route_run. cbv zeta.
  destruct (Db.check_event_processed _ _ _).
  { unfold with_stats, outcomes. cbn. lia. }
  destruct (Db.get_merchant _ _) as [row|].
  2:{ unfold with_stats, outcomes. cbn. lia. }
  destruct (MerchantModel.from_dict row) as [m|x y].
  2:{ unfold with_stats, outcomes. cbn. lia. }
  destruct (negb (MerchantModel.is_active m)).
  { unfold with_stats, outcomes. cbn. lia. }
  set (st0 := with_stats (Router.inc_total (_stats st)) st).
  assert (H0 : total_notifications (_stats st0)
               = total_notifications (_stats st) + 1
               /\ outcomes (_stats st0) = outcomes (_stats st))
    by (split; reflexivity).
  destruct H0 as [T0 O0]. rewrite <- T0, <- O0. clearbody st0.
  destruct (MerchantModel.notification_type m).
  - destruct (WebhookService.send_notification (Router.webhook_service self)
                env m e et st0) as [[[success err]|x y] st1] eqn:S.
    + rewrite (send_webhook_run _ _ _ _ _ _ _ _ _ S).
      apply webhook_send_stats in S. cbn [snd]. rewrite <- S.
      destruct success; unfold with_stats, outcomes; cbn; lia.
    + rewrite (send_webhook_raise _ _ _ _ _ _ _ _ _ S).
      apply webhook_send_stats in S. cbn [snd]. rewrite S. lia.
  - destruct (TelegramService.send_notification (Router.telegram_service self)
                env m e et st0) as [[[success err]|x y] st1] eqn:S.
    + rewrite (send_telegram_run _ _ _ _ _ _ _ _ _ S).
      apply telegram_send_stats in S. cbn [snd]. rewrite <- S.
      destruct success; unfold with_stats, outcomes; cbn; lia.
    + rewrite (send_telegram_raise _ _ _ _ _ _ _ _ _ S).
      apply telegram_send_stats in S. cbn [snd]. rewrite S. lia.
Qed.

Lemma webhook_tick_stats st :
  _stats (snd (WebhookService.retry_tick (Router.webhook_service self) env st))
  = _stats st.
Proof.
  unfold WebhookService.retry_tick. rewrite swallow_state.
  unfold WebhookService._process_retries. exec.
  destruct (Eff.for_each _ _ st) as [r st'] eqn:E. cbn [snd].
  apply (for_each_rel webhook_frame) in E.
  - now destruct E as (_ & _ & E & _).
  - apply webhook_frame_refl.
  - apply webhook_frame_trans.
  - apply webhook_retry_frame.
Qed.

Lemma telegram_tick_stats st :
  _stats (snd (TelegramService.retry_tick env st)) = _stats st.
Proof.
  unfold TelegramService.retry_tick. rewrite swallow_state.
  unfold TelegramService._process_retries. exec.
  destruct (Eff.for_each _ _ st) as [r st'] eqn:E. cbn [snd].
  apply (for_each_rel telegram_frame) in E.
  - now destruct E as (_ & E & _).
  - apply telegram_frame_refl.
  - apply telegram_frame_trans.
  - apply telegram_retry_frame.
Qed.

End Counters.

(** X18: the counters of the router.  Over any run of routings, retry
    sweeps and waits, [total_notifications] grows by exactly the number
    of routings (one that raised included), the other six counters
    together grow by at most that number and never shrink, and the
    retry sweeps leave all counters alone; [get_stats] returns the
    counters without changing anything and [reset_stats] sets all seven
    to 0. *)
Theorem counters_count_routings (self : Router.t) (env : Env)
    (ops : list Op) (st : State) :
  let s := _stats st in
  let s' := _stats (run_ops self env ops st) in
  total_notifications s' = total_notifications s + routings ops
  /\ outcomes s <= outcomes s' <= outcomes s + routings ops
  /\ NotificationRouter.get_stats st = (Py.Ok s, st)
  /\ NotificationRouter.reset_stats st
     = (Py.Ok tt, with_stats (mkStats 0 0 0 0 0 0 0) st).
Proof.
  cbv zeta. split; [|split; [|split; reflexivity]]; revert st;
    unfold run_ops, routings;
    induction ops as [|o ops IH]; intros st; cbn [fold_left filter List.length];
    try lia.
  - rewrite IH. destruct o as [e et| | |d]; cbn [step List.length].
    + destruct (route_stats self env e et st) as [T _]. rewrite T. lia.
    + rewrite webhook_tick_stats. lia.
    + rewrite telegram_tick_stats. lia.
    + cbn. lia.
  - specialize (IH (step self env st o)).
    destruct o as [e et| | |d]; cbn [step List.length] in *.
    + destruct (route_stats self env e et st) as [_ O]. lia.
    + rewrite webhook_tick_stats in IH. lia.
    + rewrite telegram_tick_stats in IH. lia.
    + cbn in IH. lia.
Qed.

(* ------------------------------------------------------------------ *)
(** ** Configuration and data errors *)

Lemma accepted_config (r : MerchantModel.Row) (m : MerchantModel.Merchant) :
  MerchantModel.from_dict r = Py.Ok m ->
  match MerchantModel.notification_type m with
  | MerchantModel.WEBHOOK =>
      exists u, MerchantModel.webhook_url m = Some u
                /\ MerchantModel.is_http_url u = true
  | MerchantModel.TELEGRAM =>
      exists c, MerchantModel.telegram_chat_id m = Some c /\ c <> ""
  end.
Proof.
  intros H. apply from_dict_inv in H as (nt & _ & _ & V).
  now apply validate_ok in V.
Qed.

(** X19: a webhook merchant without a secret.  [validate] accepts a
    webhook merchant that has a URL and no secret; routing an event to
    it fails with a configuration message, counts as one failed webhook,
    and leaves the ledger and the transports untouched: nothing is
    posted, no row is written, so nothing is ever retried. *)
Theorem webhook_without_secret (self : Router.t) (env : Env)
    (e : Payment.PaymentEvent) (et : string) (st : State)
    (row : MerchantModel.Row) (m : MerchantModel.Merchant) :
  Db.check_event_processed (db st) (Payment.get_event_id e)
    (Payment.merchant_id e) = false ->
  Db.get_merchant (db st) (Payment.merchant_id e) = Some row ->
  MerchantModel.from_dict row = Py.Ok m ->
  MerchantModel.is_active m = true ->
  MerchantModel.notification_type m = MerchantModel.WEBHOOK ->
  Py.truthy (MerchantModel.webhook_secret m) = false ->
  Router.route_notification self env e et st
  = (Py.Ok (false, Some "Webhook URL or secret not configured"),
     with_stats (Router.inc_webhook_failed (Router.inc_total (_stats st))) st).
Proof.
  intros C G F A T S. rewrite route_run. cbv zeta. rewrite C, G, F, A, T.
  cbn [negb].
  assert (H : forall st0,
             WebhookService.send_notification (Router.webhook_service self)
               env m e et st0
             = (Py.Ok (false, Some "Webhook URL or secret not configured"),
                st0)).
  { intros st0. unfold WebhookService.send_notification.
    unfold MerchantModel.is_webhook. rewrite T. cbn [negb].
    destruct (MerchantModel.webhook_url m) as [url|]; [|reflexivity].
    destruct (MerchantModel.webhook_secret m) as [secret|]; [|reflexivity].
    cbn in S. apply negb_false_iff in S. rewrite S, orb_true_r. reflexivity. }
  rewrite (send_webhook_run _ _ _ _ _ _ _ _ _ (H _)). reflexivity.
Qed.

Lemma webhook_without_secret_witness :
  let row := MerchantModel.mkRow Scenario.shop_id "webhook" None
               (Some "https://example.com/webhook") None None true 0 0 in
  let st := Scenario.start true [row] in
  Router.route_notification Scenario.router Scenario.up
    (Scenario.payment Scenario.shop_id) "payment.completed" st
  = (Py.Ok (false, Some "Webhook URL or secret not configured"),
     with_stats (Router.inc_webhook_failed (Router.inc_total (_stats st))) st).
Proof.
  intros row st.
  apply (webhook_without_secret Scenario.router Scenario.up
           (Scenario.payment Scenario.shop_id) "payment.completed" st row
           (MerchantModel.mkMerchant Scenario.shop_id MerchantModel.WEBHOOK None
              (Some "https://example.com/webhook") None None true 0 0));
    vm_compute; reflexivity.
Defined.

(** X20: an amount that is not an integer.  When the amount of an
    event is not a literal that [int()] accepts, routing it to an
    active merchant with a complete configuration raises [ValueError]:
    the routing is counted, nothing is sent and no row is written, so
    the event is never retried; the callback of the listener swallows
    the exception. *)
Theorem malformed_amount_raises (self : Router.t) (env : Env)
    (e : Payment.PaymentEvent) (et : string) (st : State)
    (row : MerchantModel.Row) (m : MerchantModel.Merchant) :
  Py.int_of_str (Payment.amount e) = None ->
  Db.check_event_processed (db st) (Payment.get_event_id e)
    (Payment.merchant_id e) = false ->
  Db.get_merchant (db st) (Payment.merchant_id e) = Some row ->
  MerchantModel.from_dict row = Py.Ok m ->
  MerchantModel.is_active m = true ->
  (MerchantModel.notification_type m = MerchantModel.WEBHOOK ->
   Py.truthy (MerchantModel.webhook_secret m) = true) ->
  (exists msg,
      Router.route_notification self env e et st
      = (Py.Raise "ValueError" msg,
         with_stats (Router.inc_total (_stats st)) st))
  /\ Main._handle_payment self env e st
     = (Py.Ok tt, with_stats (Router.inc_total (_stats st)) st).
Proof.
  intros I C G F A S.
  assert (R : exists msg,
             Router.route_notification self env e "payment.completed" st
             = (Py.Raise "ValueError" msg,
                with_stats (Router.inc_total (_stats st)) st)
             /\ Router.route_notification self env e et st
                = (Py.Raise "ValueError" msg,
                   with_stats (Router.inc_total (_stats st)) st)).
  { assert (Hf : Payment.get_formatted_amount e
                 = Py.Raise "ValueError" (Py.int_error (Payment.amount e))).
    { unfold Payment.get_formatted_amount. now rewrite I. }
    eexists. rewrite !route_run. cbv zeta. rewrite C, G, F, A. cbn [negb].
    pose proof (accepted_config _ _ F) as K.
    destruct (MerchantModel.notification_type m) eqn:T.
    - destruct K as (u & U & Hu).
      destruct (MerchantModel.webhook_secret m) as [secret|] eqn:Sec;
        [|specialize (S eq_refl); discriminate].
      specialize (S eq_refl). cbn in S. apply negb_true_iff in S.
      assert (Un : String.eqb u "" = false).
      { destruct u; [cbn in Hu; discriminate|reflexivity]. }
      assert (H : forall et0 st0,
                 WebhookService.send_notification (Router.webhook_service self)
                   env m e et0 st0
                 = (Py.Raise "ValueError"
                      (Py.int_error (Payment.amount e)), st0)).
      { intros et0 st0. unfold WebhookService.send_notification.
        unfold MerchantModel.is_webhook. rewrite T, U, Sec, Un, S.
        cbn [negb orb]. exec.
        unfold Payment.from_payment_event. rewrite Hf. reflexivity. }
      rewrite !(send_webhook_raise _ _ _ _ _ _ _ _ _ (H _ _)). split; reflexivity.
    - destruct K as (c & Hc & Hn).
      assert (H : forall et0 st0,
                 TelegramService.send_notification (Router.telegram_service self)
                   env m e et0 st0
                 = (Py.Raise "ValueError"
                      (Py.int_error (Payment.amount e)), st0)).
      { intros et0 st0. unfold TelegramService.send_notification.
        unfold MerchantModel.is_telegram. rewrite T, Hc.
        apply String.eqb_neq in Hn. rewrite Hn. cbn [negb]. exec.
        unfold Payment.format. rewrite Hf. reflexivity. }
      rewrite !(send_telegram_raise _ _ _ _ _ _ _ _ _ (H _ _)). split; reflexivity. }
  destruct R as (msg & R1 & R2). split; [now exists msg|].
  unfold Main._handle_payment, Eff.swallow, Eff.bind. now rewrite R1.
Qed.

Lemma malformed_amount_raises_witness :
  let e := Payment.PaymentEvent_init "pi_test123" Scenario.shop_id
             "0x0987654321098765432109876543210987654321" Scenario.usdc "12.5"
             "0xabcdef" 1 0 "completed" 0 in
  let st := Scenario.start true [Scenario.shop] in
  Main._handle_payment Scenario.router Scenario.up e st
  = (Py.Ok tt, with_stats (Router.inc_total (_stats st)) st).
Proof.
  intros e st.
  refine (proj2 (malformed_amount_raises Scenario.router Scenario.up e
                   "payment.completed" st Scenario.shop
                   (MerchantModel.mkMerchant Scenario.shop_id
                      MerchantModel.WEBHOOK (Some "Test Shop")
                      (Some "https://example.com/webhook") (Some "secret123")
                      None true 0 0) _ _ _ _ _ _));
    vm_compute; reflexivity.
Defined.

(** The message names the literal as [repr] shows it. *)
Example malformed_amount_message :
  let e amount :=
    Payment.PaymentEvent_init "pi_test123" Scenario.shop_id
      "0x0987654321098765432109876543210987654321" Scenario.usdc amount
      "0xabcdef" 1 0 "completed" 0 in
  Payment.get_formatted_amount (e "12.5")
  = Py.Raise "ValueError" "invalid literal for int() with base 10: '12.5'"
  /\ Payment.get_formatted_amount (e "1'000")
     = Py.Raise "ValueError"
         ("invalid literal for int() with base 10: "
            ++ Json.dquote ++ "1'000" ++ Json.dquote).
Proof. split; vm_compute; reflexivity. Qed.


(* ------------------------------------------------------------------ *)
(** ** What is posted *)

Section Posted.

Variables (ws : WebhookService.t) (env : Env).

Lemma deliver_posts url payload secret st :
  webhook_session st = true ->
  exists r st',
    WebhookService._deliver env url payload secret st = (Py.Ok r, st')
    /\ http_posts st' = (http_posts st ++ [request_of url payload])%list.
Proof.
  intros H. unfold WebhookService._deliver. rewrite H. cbn [negb].
  destruct (http_reply env (List.length (http_posts st))) as [status b|msg| |msg].
  - destruct ((200 <=? status) && (status <? 300));
      eexists; eexists; split; reflexivity.
  - eexists; eexists; split; reflexivity.
  - eexists; eexists; split; reflexivity.
  - eexists; eexists; split; reflexivity.
Qed.

Lemma deliver_no_session url payload secret st :
  webhook_session st = false ->
  WebhookService._deliver env url payload secret st
  = (Py.Ok (false, None, Some "Session not initialized"), st).
Proof.
  intros H. unfold WebhookService._deliver. now rewrite H.
Qed.

Lemma from_payment_event_fields now e et p :
  Payment.from_payment_event now e et = Py.Ok p ->
  Payment.event_id p = Payment.get_event_id e
  /\ Payment.event_type p = et /\ Payment.timestamp p = now
  /\ Payment.signature p = None.
Proof.
  unfold Payment.from_payment_event.
  destruct (Payment.get_formatted_amount e); [|discriminate].
  cbn [Py.bind]. intros H. injection H as <-. repeat split.
Qed.

Lemma to_json_not_canonical (p : Payment.WebhookPayload) :
  Payment.to_json p <> Payment.canonical_json p.
Proof.
  unfold Payment.to_json, Payment.canonical_json.
  rewrite pop_to_dict, !dumps_dict. unfold Payment.to_dict.
  cbn [map fst snd]. cbv zeta.
  set (a := Json.dumps false (Json.JStr (Payment.event_id p))).
  set (b := Json.dumps true (Json.JDict (Payment.data p))).
  cbn. discriminate.
Qed.

End Posted.

(** X21: what a live delivery posts.  With a started session, a webhook
    delivery makes exactly one POST, to the URL of the merchant: its body
    is [to_json] of the signed payload, its headers carry the signature
    with the prefix [sha256=], the event type, the event id and the
    timestamp; the signature is the one stored in the body, it verifies
    against the canonical text of the payload under the secret of the
    merchant, and the body itself is not that canonical text. *)
Theorem posted_request_is_signed (ws : WebhookService.t) (env : Env)
    (m : MerchantModel.Merchant) (e : Payment.PaymentEvent) (et : string)
    (st : State) (url secret : string) (unsigned : Payment.WebhookPayload) :
  MerchantModel.is_webhook m = true ->
  MerchantModel.webhook_url m = Some url ->
  MerchantModel.webhook_secret m = Some secret ->
  url <> "" -> secret <> "" ->
  webhook_session st = true ->
  Payment.from_payment_event (clock st) e et = Py.Ok unsigned ->
  let signed := fst (Payment.sign unsigned secret) in
  let sg := snd (Payment.sign unsigned secret) in
  http_posts (snd (WebhookService.send_notification ws env m e et st))
  = (http_posts st
     ++ [mkHttpRequest url (Payment.to_json signed)
           [ ("Content-Type", "application/json");
             ("X-Webhook-Signature", ("sha256=" ++ sg)%string);
             ("X-Webhook-Event", et);
             ("X-Webhook-ID", Payment.get_event_id e);
             ("X-Webhook-Timestamp", DateTime.isoformat (clock st)) ]])%list
  /\ Payment.signature signed = Some sg
  /\ Payment.verify_signature (Payment.canonical_json signed) sg secret
     = Py.Ok true
  /\ Payment.to_json signed <> Payment.canonical_json signed.
Proof.
  intros W U S Un Sn Hs F signed sg.
  destruct (deliver_posts env url signed secret st Hs)
    as ([[success code] body] & st1 & D & P).
  rewrite (send_notification_run ws env m e et st url secret unsigned
             success code body st1) by assumption.
  cbn [snd]. unfold with_db. cbn [http_posts]. rewrite P.
  destruct (from_payment_event_fields _ _ _ _ F) as (Hid & Het & Hts & _).
  repeat split.
  - unfold request_of, WebhookService.signature_header, signed, sg,
      Payment.sign.
    cbn [fst snd Payment.signature Payment.event_type Payment.event_id
         Payment.timestamp].
    now rewrite Hid, Het, Hts.
  - unfold signed, sg. rewrite canonical_json_signed.
    unfold Payment.sign; cbn [snd].
    rewrite verify_signature_eq. now rewrite String.eqb_refl.
  - apply to_json_not_canonical.
Qed.

Lemma posted_request_is_signed_witness :
  let e := Scenario.payment Scenario.shop_id in
  let st := Scenario.start true [Scenario.shop] in
  exists unsigned,
    Payment.from_payment_event (clock st) e "payment.completed" = Py.Ok unsigned
    /\ Payment.verify_signature
         (Payment.canonical_json (fst (Payment.sign unsigned "secret123")))
         (snd (Payment.sign unsigned "secret123")) "secret123" = Py.Ok true.
Proof.
  intros e st.
  destruct (Payment.from_payment_event (clock st) e "payment.completed")
    as [unsigned|] eqn:F; [|vm_compute in F; discriminate].
  exists unsigned. split; [reflexivity|].
  refine (proj1 (proj2 (proj2
            (posted_request_is_signed WebhookService.default Scenario.up
               (MerchantModel.mkMerchant Scenario.shop_id MerchantModel.WEBHOOK
                  None (Some "https://example.com/webhook") (Some "secret123")
                  None true 0 0)
               e "payment.completed" st "https://example.com/webhook"
               "secret123" unsigned _ _ _ _ _ _ F))));
    try reflexivity; discriminate.
Defined.

(* ------------------------------------------------------------------ *)
(** ** A service that was not started *)

(** X22: delivering through a service without a session (before
    [start], after [stop]).  Nothing is sent and the rate limiter is not
    consulted, but the attempt is recorded as a failure with the message
    [Session not initialized] and no response code, and a retry is
    scheduled as after any failure: after the first delay of the
    schedule for a webhook, after one minute for a chat message. *)
Theorem delivery_without_session (ws : WebhookService.t)
    (ts : TelegramService.t) (env : Env) (m : MerchantModel.Merchant)
    (e : Payment.PaymentEvent) (et : string) (st : State) :
  (forall url secret unsigned,
      MerchantModel.is_webhook m = true ->
      MerchantModel.webhook_url m = Some url ->
      MerchantModel.webhook_secret m = Some secret ->
      url <> "" -> secret <> "" ->
      Payment.from_payment_event (clock st) e et = Py.Ok unsigned ->
      webhook_session st = false ->
      exists st' row,
        WebhookService.send_notification ws env m e et st
        = (Py.Ok (false, Some "Session not initialized"), st')
        /\ http_posts st' = http_posts st
        /\ Db.lookup (db st') (Payment.get_event_id e) (MerchantModel.id m)
           = Some row
        /\ Db.success row = false /\ Db.response_code row = None
        /\ Db.response_body row = Some "Session not initialized"
        /\ Db.next_retry_at row
           = (if (0 <? List.length (WebhookService.retry_delays ws))%nat
              then Some (clock st + DateTime.minutes
                                      (nth 0 (WebhookService.retry_delays ws) 0))
              else None))
  /\ (forall chat text,
         MerchantModel.is_telegram m = true ->
         MerchantModel.telegram_chat_id m = Some chat -> chat <> "" ->
         Payment.format e (TelegramService.etherscan_url ts) = Py.Ok text ->
         telegram_session st = false ->
         exists st' row,
           TelegramService.send_notification ts env m e et st
           = (Py.Ok (false, Some "Session not initialized"), st')
           /\ telegram_posts st' = telegram_posts st
           /\ _last_send_times st' = _last_send_times st
           /\ Db.lookup (db st') (Payment.get_event_id e) (MerchantModel.id m)
              = Some row
           /\ Db.success row = false /\ Db.response_code row = None
           /\ Db.next_retry_at row = Some (clock st + DateTime.minutes 1)).
Proof.
  split.
  - intros url secret unsigned W U S Un Sn F Hs.
    pose proof (deliver_no_session env url (fst (Payment.sign unsigned secret))
                  secret st Hs) as D.
    rewrite (send_notification_run ws env m e et st url secret unsigned
               false None (Some "Session not initialized") st) by assumption.
    cbn [negb andb].
    destruct (log_delivery_lookup (clock st) (db st) (MerchantModel.id m) et
                (Payment.get_event_id e) "webhook"
                (Db.JsonPayload (fst (Payment.sign unsigned secret)))
                false None (Some "Session not initialized") 0
                (if (0 <? List.length (WebhookService.retry_delays ws))%nat
                 then Some (clock st + DateTime.minutes
                              (nth 0 (WebhookService.retry_delays ws) 0))
                 else None))
      as (row & L & _ & _ & R1 & R2 & R3 & _ & R5).
    eexists. exists row. split; [reflexivity|].
    rewrite db_with_db. repeat split; assumption.
  - intros chat text T C Cn F Hs.
    assert (D : TelegramService._send_message env chat text "Markdown" st
                = (Py.Ok (false, TelegramService.error_data
                                   "Session not initialized"), st)).
    { unfold TelegramService._send_message. now rewrite Hs. }
    rewrite (telegram_send_run ts env m e et st chat text false
               (TelegramService.error_data "Session not initialized") st)
      by assumption.
    change (repr (TelegramService.error_data "Session not initialized"))
      with "{'description': 'Session not initialized'}".
    cbn [negb description error_code TelegramService.error_data].
    destruct (log_delivery_lookup (clock st) (db st) (MerchantModel.id m) et
                (Payment.get_event_id e) "telegram" (Db.TextPayload text)
                false None
                (Some "{'description': 'Session not initialized'}") 0
                (Some (clock st + DateTime.minutes 1)))
      as (row & L & _ & _ & R1 & R2 & _ & _ & R5).
    eexists. exists row. split; [reflexivity|].
    rewrite db_with_db. repeat split; assumption.
Qed.

Lemma delivery_without_session_witness :
  let e := Scenario.payment Scenario.chat_shop_id in
  let st := mkState (Db.mkDatabase true [Scenario.chat_shop] [] 1)
              1706400010000000 false false [] [] [] Scenario.no_stats in
  exists text st' row,
    Payment.format e "https://sepolia.etherscan.io" = Py.Ok text
    /\ TelegramService.send_notification
         (TelegramService.mk "token" "https://sepolia.etherscan.io")
         Scenario.up
         (MerchantModel.mkMerchant Scenario.chat_shop_id MerchantModel.TELEGRAM
            None None None (Some "123456789") true 0 0)
         e "payment.completed" st
       = (Py.Ok (false, Some "Session not initialized"), st')
    /\ telegram_posts st' = telegram_posts st
    /\ _last_send_times st' = _last_send_times st
    /\ Db.lookup (db st') (Payment.get_event_id e) Scenario.chat_shop_id
       = Some row
    /\ Db.success row = false /\ Db.response_code row = None
    /\ Db.next_retry_at row = Some (clock st + DateTime.minutes 1).
Proof.
  intros e st.
  destruct (Payment.format e "https://sepolia.etherscan.io") as [text|] eqn:F;
    [|vm_compute in F; discriminate].
  exists text.
  destruct (proj2 (delivery_without_session WebhookService.default
                     (TelegramService.mk "token" "https://sepolia.etherscan.io")
                     Scenario.up
                     (MerchantModel.mkMerchant Scenario.chat_shop_id
                        MerchantModel.TELEGRAM None None None (Some "123456789")
                        true 0 0)
                     e "payment.completed" st)
              "123456789" text eq_refl eq_refl ltac:(discriminate) F eq_refl)
    as (st' & row & H).
  exists st', row. split; [reflexivity|exact H].
Defined.

(* ------------------------------------------------------------------ *)
(** ** A retry without configuration *)

(** X23: retrying a row whose merchant has lost its configuration.
    When the directory row of the merchant has no URL or no secret (for
    the webhook sweep) or no chat id (for the chat sweep), the retry
    sends nothing and ends the retries of the row at once: the count
    goes up by one, the retry time is cleared whatever the count was,
    and the message tells that the configuration is missing. *)
Theorem retry_without_configuration (ws : WebhookService.t) (env : Env)
    (p : Db.Pending) (st : State) (d : Db.Delivery) :
  Db.by_id (db st) (Db.id (Db.delivery p)) = Some d ->
  (Py.truthy (Db.webhook_url p) = false
   \/ Py.truthy (Db.webhook_secret p) = false ->
   let st' := snd (WebhookService._retry_delivery ws env p st) in
   http_posts st' = http_posts st
   /\ exists d',
        Db.by_id (db st') (Db.id (Db.delivery p)) = Some d'
        /\ Db.retry_count d' = Db.retry_count (Db.delivery p) + 1
        /\ Db.next_retry_at d' = None
        /\ Db.response_body d' = Some "Missing webhook configuration"
        /\ Db.success d' = Db.success d)
  /\ (Py.truthy (Db.telegram_chat_id p) = false ->
      let st' := snd (TelegramService._retry_delivery env p st) in
      telegram_posts st' = telegram_posts st
      /\ exists d',
           Db.by_id (db st') (Db.id (Db.delivery p)) = Some d'
           /\ Db.retry_count d' = Db.retry_count (Db.delivery p) + 1
           /\ Db.next_retry_at d' = None
           /\ Db.response_body d' = Some "Missing Telegram configuration"
           /\ Db.success d' = Db.success d).
Proof.
  intros B. split.
  - intros H. cbv zeta. unfold WebhookService._retry_delivery.
    replace (negb (Py.truthy (Db.webhook_url p))
             || negb (Py.truthy (Db.webhook_secret p))
             || String.eqb (Db.payload_text (Db.payload (Db.delivery p))) "")
      with true
      by (destruct H as [-> | ->]; cbn; now rewrite ?orb_true_r).
    exec. split; [reflexivity|].
    rewrite db_with_db, by_id_update, B. cbn [option_map].
    eexists. split; [reflexivity|]. repeat split.
  - intros H. cbv zeta. unfold TelegramService._retry_delivery.
    destruct (Db.telegram_chat_id p) as [chat|].
    + cbn in H. apply negb_false_iff in H. rewrite H. cbn [orb]. exec.
      split; [reflexivity|].
      rewrite db_with_db, by_id_update, B. cbn [option_map].
      eexists. split; [reflexivity|]. repeat split.
    + exec. split; [reflexivity|].
      rewrite db_with_db, by_id_update, B. cbn [option_map].
      eexists. split; [reflexivity|]. repeat split.
Qed.

Lemma retry_without_configuration_witness :
  let row := Db.mkDelivery 1 Scenario.shop_id "payment.completed" "evt_1"
               "webhook" (Db.JsonPayload Scenario.a_payload) false (Some 500)
               (Some "Internal Server Error") 0 (Some 60000000) 0 0 in
  let st := mkState (Db.mkDatabase true [] [row] 2) 120000000 true true
              [] [] [] Scenario.no_stats in
  let p := Db.mkPending row (Some "https://example.com/webhook") None None in
  let st' := snd (WebhookService._retry_delivery WebhookService.default
                    Scenario.up p st) in
  http_posts st' = http_posts st
  /\ exists d',
       Db.by_id (db st') 1 = Some d'
       /\ Db.retry_count d' = 0 + 1
       /\ Db.next_retry_at d' = None
       /\ Db.response_body d' = Some "Missing webhook configuration"
       /\ Db.success d' = false.
Proof.
  intros row st p.
  refine (proj1 (retry_without_configuration WebhookService.default Scenario.up
                   p st row _) _).
  - reflexivity.
  - right. reflexivity.
Defined.


(* ------------------------------------------------------------------ *)
(** ** The wait of the rate limiter *)

(** X24: the wait of the rate limiter is bounded.  When no recorded
    send time lies in the future, [_apply_rate_limit] sleeps at most one
    period and never moves the clock back; it does not sleep at all
    below 20 sends within the last period and sleeps a positive time
    from 20 on; the times it keeps are those of the last period and the
    time of entry, none of them in the future of the new clock. *)
Theorem rate_limit_bounded (st : State) :
  Forall (fun t => t <= clock st) (_last_send_times st) ->
  let recent := filter (fun t => clock st - t <? TelegramService.RATE_PERIOD)
                  (_last_send_times st) in
  let st' := snd (TelegramService._apply_rate_limit st) in
  clock st <= clock st' <= clock st + TelegramService.RATE_PERIOD
  /\ ((List.length recent < TelegramService.RATE_LIMIT)%nat ->
      clock st' = clock st)
  /\ ((TelegramService.RATE_LIMIT <= List.length recent)%nat ->
      clock st < clock st')
  /\ List.length (_last_send_times st') = S (List.length recent)
  /\ Forall (fun t => clock st - TelegramService.RATE_PERIOD < t <= clock st')
       (_last_send_times st').
Proof.
  intros Hpast recent st'.
  assert (Hrec : forall t, In t recent ->
                   clock st - TelegramService.RATE_PERIOD < t <= clock st).
  { intros t Ht. apply filter_In in Ht as [Hin Hlt].
    apply Z.ltb_lt in Hlt. rewrite Forall_forall in Hpast.
    specialize (Hpast t Hin). cbv beta in Hpast. lia. }
  assert (Hc : clock st'
               = clock st + fst (TelegramService.rate_limit (clock st)
                                   (_last_send_times st))).
  { unfold st', TelegramService._apply_rate_limit.
    now destruct (TelegramService.rate_limit _ _). }
  assert (Ht : _last_send_times st' = (recent ++ [clock st])%list).
  { unfold recent. rewrite <- rate_limit_records_entry.
    unfold st', TelegramService._apply_rate_limit.
    now destruct (TelegramService.rate_limit _ _). }
  assert (Hp : 0 < TelegramService.RATE_PERIOD) by reflexivity.
  rewrite rate_limit_wait in Hc. cbv zeta in Hc. fold recent in Hc.
  assert (Hw : clock st <= clock st' <= clock st + TelegramService.RATE_PERIOD
               /\ ((TelegramService.RATE_LIMIT <= List.length recent)%nat ->
                   clock st < clock st')
               /\ ((List.length recent < TelegramService.RATE_LIMIT)%nat ->
                   clock st' = clock st)).
  { destruct (TelegramService.RATE_LIMIT <=? List.length recent)%nat eqn:L.
    - apply Nat.leb_le in L.
      assert (Hin : In (nth 0 recent 0) recent).
      { apply nth_In. unfold TelegramService.RATE_LIMIT in L. lia. }
      specialize (Hrec _ Hin). repeat split; intros; lia.
    - apply Nat.leb_gt in L. repeat split; intros; lia. }
  destruct Hw as (W1 & W2 & W3).
  split; [exact W1|]. split; [exact W3|]. split; [exact W2|].
  rewrite Ht. split.
  - rewrite List.length_app. cbn. lia.
  - apply Forall_app. split.
    + apply Forall_forall. intros t Hin. specialize (Hrec t Hin). lia.
    + constructor; [lia|constructor].
Qed.

Lemma rate_limit_bounded_witness :
  let st := mkState (Db.mkDatabase true [] [] 1) 400000 true true [] []
              (repeat 0 20) Scenario.no_stats in
  clock st < clock (snd (TelegramService._apply_rate_limit st))
  /\ clock (snd (TelegramService._apply_rate_limit st))
     <= clock st + TelegramService.RATE_PERIOD.
Proof.
  intros st.
  assert (H : Forall (fun t => t <= clock st) (_last_send_times st)).
  { apply Forall_forall. intros t Ht. apply repeat_spec in Ht. subst t.
    cbn. lia. }
  split.
  - refine (proj1 (proj2 (proj2 (rate_limit_bounded st H))) _).
    vm_compute. constructor.
  - exact (proj2 (proj1 (rate_limit_bounded st H))).
Defined.

(* ------------------------------------------------------------------ *)
(** ** Broadcasts *)

Section Broadcast.

Variables (self : Router.t) (env : Env).

Lemma deliver_calls_le url payload secret st r st1 :
  WebhookService._deliver env url payload secret st = (r, st1) ->
  (transport_calls st1 <= S (transport_calls st))%nat.
Proof.
  unfold WebhookService._deliver, transport_calls.
  destruct (negb (webhook_session st)).
  { intros H; inversion H; subst; lia. }
  destruct (http_reply env _) as [status b|e| |e];
    [destruct ((200 <=? status) && (status <? 300))| | |];
    intros H; inversion H; subst; cbn; rewrite List.length_app; cbn; lia.
Qed.

Lemma send_message_calls_le chat text pm st r st1 :
  TelegramService._send_message env chat text pm st = (r, st1) ->
  (transport_calls st1 <= S (transport_calls st))%nat.
Proof.
  unfold TelegramService._send_message, TelegramService._apply_rate_limit,
    transport_calls.
  destruct (negb (telegram_session st)).
  { intros H; inversion H; subst; lia. }
  destruct (TelegramService.rate_limit _ _) as [w ts].
  destruct (telegram_reply env _) as [[|] data result|e|e];
    intros H; inversion H; subst; cbn; rewrite List.length_app; cbn; lia.
Qed.

Lemma log_delivery_merchants now d mid et eid meth pl s rc rb n nr :
  Db.merchants (fst (Db.log_delivery now d mid et eid meth pl s rc rb n nr))
  = Db.merchants d.
Proof.
  unfold Db.log_delivery.
  destruct (Db._is_postgres d); [|reflexivity].
  now destruct (find _ _).
Qed.

Lemma route_calls_le e et st r st' :
  Router.route_notification self env e et st = (r, st') ->
  (transport_calls st' <= S (transport_calls st))%nat.
Proof.
  rewrite route_run. cbv zeta.
  destruct (Db.check_event_processed _ _ _).
  { intros H; inversion H; subst. rewrite !calls_with_stats. lia. }
  destruct (Db.get_merchant _ _) as [row|].
  2:{ intros H; inversion H; subst. rewrite !calls_with_stats. lia. }
  destruct (MerchantModel.from_dict row) as [m|x y].
  2:{ intros H; inversion H; subst. rewrite !calls_with_stats. lia. }
  destruct (negb (MerchantModel.is_active m)).
  { intros H; inversion H; subst. rewrite !calls_with_stats. lia. }
  set (st0 := with_stats (Router.inc_total (_stats st)) st).
  assert (C0 : transport_calls st0 = transport_calls st)
    by apply calls_with_stats.
  rewrite <- C0. clearbody st0.
  destruct (MerchantModel.notification_type m).
  - destruct (WebhookService.send_notification (Router.webhook_service self)
                env m e et st0) as [[[success err]|x y] st1] eqn:S.
    + rewrite (send_webhook_run _ _ _ _ _ _ _ _ _ S).
      intros H; inversion H; subst. rewrite calls_with_stats.
      destruct (send_notification_cases _ _ _ _ _ _ _ _ S)
        as [[-> _]|(url & secret & unsigned & s & code & body & st2 & _ & D & _ & ->)];
        [lia|].
      rewrite calls_with_db. eapply deliver_calls_le; exact D.
    + rewrite (send_webhook_raise _ _ _ _ _ _ _ _ _ S).
      intros H; inversion H; subst.
      destruct (send_notification_cases _ _ _ _ _ _ _ _ S)
        as [[-> _]|(url & secret & unsigned & s & code & body & st2 & _ & D & _ & ->)];
        [lia|].
      rewrite calls_with_db. eapply deliver_calls_le; exact D.
  - destruct (TelegramService.send_notification (Router.telegram_service self)
                env m e et st0) as [[[success err]|x y] st1] eqn:S.
    + rewrite (send_telegram_run _ _ _ _ _ _ _ _ _ S).
      intros H; inversion H; subst. rewrite calls_with_stats.
      destruct (telegram_send_cases _ _ _ _ _ _ _ _ S)
        as [[-> _]|(chat & text & s & response & st2 & _ & D & _ & ->)];
        [lia|].
      rewrite calls_with_db. eapply send_message_calls_le; exact D.
    + rewrite (send_telegram_raise _ _ _ _ _ _ _ _ _ S).
      intros H; inversion H; subst.
      destruct (telegram_send_cases _ _ _ _ _ _ _ _ S)
        as [[-> _]|(chat & text & s & response & st2 & _ & D & _ & ->)];
        [lia|].
      rewrite calls_with_db. eapply send_message_calls_le; exact D.
Qed.

Lemma route_merchants e et st r st' :
  Router.route_notification self env e et st = (r, st') ->
  Db.merchants (db st') = Db.merchants (db st).
Proof.
  intros H.
  destruct (route_db_outcome self env _ _ _ _ _ H)
    as [->|(mid & now & meth & pl & s & rc & rb & nr & -> & _)];
    [reflexivity|apply log_delivery_merchants].
Qed.

Lemma set_result_keys results k v k' :
  In k' (map fst (NotificationRouter.set_result results k v))
  <-> k' = k \/ In k' (map fst results).
Proof.
  induction results as [|[k0 v0] rest IH]; cbn.
  - intuition.
  - destruct (String.eqb k0 k) eqn:E; cbn.
    + apply String.eqb_eq in E. subst. intuition.
    + rewrite IH. intuition.
Qed.

Lemma broadcast_loop_effect event et rows :
  forall results st r st',
    NotificationRouter.broadcast_loop self env event et rows results st
    = (r, st') ->
    (transport_calls st' <= transport_calls st + List.length rows)%nat
    /\ Db.merchants (db st') = Db.merchants (db st)
    /\ forall out, r = Py.Ok out ->
         total_notifications (_stats st')
         = total_notifications (_stats st) + Z.of_nat (List.length rows)
         /\ forall k, In k (map fst out)
                      <-> In k (map fst results)
                          \/ exists row, In row rows
                               /\ k = MerchantModel.normalise_id
                                        (MerchantModel.row_id row).
Proof.
  induction rows as [|row rest IH]; intros results st r st' H.
  - cbn in H. inversion H; subst. split; [lia|]. split; [reflexivity|].
    intros out E. inversion E; subst. split; [cbn; lia|].
    intros k. split; [auto|]. intros [K|(x & [] & _)]. exact K.
  - cbn [NotificationRouter.broadcast_loop] in H.
    unfold Eff.bind, Eff.lift, Eff.utcnow in H.
    destruct (MerchantModel.from_dict row) as [m|x y] eqn:F.
    2:{ inversion H; subst. split; [lia|]. split; [reflexivity|].
        intros out E. discriminate. }
    destruct (Router.route_notification self env _ et st)
      as [[r1|x y] st1] eqn:R.
    2:{ inversion H; subst. split.
        - apply route_calls_le in R. cbn [List.length]. lia.
        - split; [eapply route_merchants; exact R|]. intros out E. discriminate. }
    pose proof (route_calls_le _ _ _ _ _ R) as C1.
    pose proof (route_merchants _ _ _ _ _ R) as M1.
    match type of R with
    | Router.route_notification _ _ ?ev _ _ = _ =>
        pose proof (route_stats self env ev et st) as T1
    end.
    cbv zeta in T1.
    rewrite R in T1. cbn [snd] in T1. destruct T1 as [T1 _].
    destruct (IH _ _ _ _ H) as (C2 & M2 & O2).
    split; [cbn [List.length]; lia|]. split; [congruence|].
    intros out E. destruct (O2 out E) as [T2 K2].
    split; [cbn [List.length]; lia|].
    intros k. rewrite K2, set_result_keys.
    apply from_dict_inv in F as (nt & _ & -> & _).
    cbn [MerchantModel.id].
    split.
    + intros [[->|K]|(x & Hx & ->)]; eauto.
      * right. exists row. split; [now left|reflexivity].
      * right. exists x. split; [now right|reflexivity].
    + intros [K|(x & [<-|Hx] & ->)]; eauto.
Qed.

End Broadcast.

(** X25: what a broadcast does.  [broadcast_to_all] makes at most one
    transport call for each active merchant of the directory and leaves
    the directory as it was; when it returns, the router has counted one
    notification for each active merchant, and the result has an entry
    for exactly the normalised ids of the active merchants. *)
Theorem broadcast_reaches_active (self : Router.t) (env : Env)
    (event : Payment.PaymentEvent) (et : string) (st : State) :
  let active := Directory.get_active_merchants (db st) in
  let run := NotificationRouter.broadcast_to_all self env event et st in
  (transport_calls (snd run) <= transport_calls st + List.length active)%nat
  /\ Db.merchants (db (snd run)) = Db.merchants (db st)
  /\ forall results, fst run = Py.Ok results ->
       total_notifications (_stats (snd run))
       = total_notifications (_stats st) + Z.of_nat (List.length active)
       /\ forall k, In k (map fst results)
                    <-> exists row, In row (Db.merchants (db st))
                          /\ MerchantModel.row_is_active row = true
                          /\ k = MerchantModel.normalise_id
                                   (MerchantModel.row_id row).
Proof.
  intros active run. subst run.
  unfold NotificationRouter.broadcast_to_all, Eff.bind, Eff.get.
  fold active.
  destruct (NotificationRouter.broadcast_loop self env event et active [] st)
    as [r st'] eqn:H.
  destruct (broadcast_loop_effect self env _ _ _ _ _ _ _ H) as (C & M & O).
  cbn [fst snd]. split; [exact C|]. split; [exact M|].
  intros results E. destruct (O results E) as [T K]. split; [exact T|].
  intros k. rewrite K. cbn [map]. split.
  - intros [[]|(row & Hin & ->)]. apply filter_In in Hin as [Hin Ha]. eauto.
  - intros (row & Hin & Ha & ->). right. exists row. split; [|reflexivity].
    apply filter_In. auto.
Qed.


(* ------------------------------------------------------------------ *)
(** ** The status of a merchant and the retries *)

Section Status.

Variable env : Env.

Lemma deliver_with_merchants ms url payload secret st :
  WebhookService._deliver env url payload secret (with_merchants ms st)
  = (fst (WebhookService._deliver env url payload secret st),
     with_merchants ms (snd (WebhookService._deliver env url payload secret st))).
Proof.
  unfold WebhookService._deliver, with_merchants, with_db.
  cbn [webhook_session http_posts].
  destruct (negb (webhook_session st)); [reflexivity|].
  destruct (http_reply env _) as [status b|e| |e];
    [destruct ((200 <=? status) && (status <? 300))| | |]; reflexivity.
Qed.

Lemma send_message_with_merchants ms chat text pm st :
  TelegramService._send_message env chat text pm (with_merchants ms st)
  = (fst (TelegramService._send_message env chat text pm st),
     with_merchants ms (snd (TelegramService._send_message env chat text pm st))).
Proof.
  unfold TelegramService._send_message, TelegramService._apply_rate_limit,
    with_merchants, with_db.
  cbn [telegram_session telegram_posts clock _last_send_times].
  destruct (negb (telegram_session st)); [reflexivity|].
  destruct (TelegramService.rate_limit _ _) as [w ts].
  cbn [telegram_posts].
  destruct (telegram_reply env _) as [[|] data result|e|e]; reflexivity.
Qed.

Lemma webhook_retry_with_merchants ws ms p st :
  WebhookService._retry_delivery ws env p (with_merchants ms st)
  = (fst (WebhookService._retry_delivery ws env p st),
     with_merchants ms (snd (WebhookService._retry_delivery ws env p st))).
Proof.
  unfold WebhookService._retry_delivery.
  destruct (negb (Py.truthy (Db.webhook_url p))
            || negb (Py.truthy (Db.webhook_secret p))
            || String.eqb (Db.payload_text (Db.payload (Db.delivery p))) "").
  { reflexivity. }
  destruct (Db.webhook_url p) as [url|]; [|reflexivity].
  destruct (Db.webhook_secret p) as [secret|]; [|reflexivity].
  destruct (Db.payload (Db.delivery p)) as [stored|text]; [|reflexivity].
  unfold Eff.bind at 1 3 5. rewrite deliver_with_merchants.
  destruct (WebhookService._deliver env url _ secret st)
    as [[[[success code] body]|x y] st1]; cbn [fst snd]; [|reflexivity].
  destruct success; reflexivity.
Qed.

Lemma telegram_retry_with_merchants ms p st :
  TelegramService._retry_delivery env p (with_merchants ms st)
  = (fst (TelegramService._retry_delivery env p st),
     with_merchants ms (snd (TelegramService._retry_delivery env p st))).
Proof.
  unfold TelegramService._retry_delivery.
  destruct (Db.telegram_chat_id p) as [chat|]; [|reflexivity].
  destruct (String.eqb chat ""
            || String.eqb (Db.payload_text (Db.payload (Db.delivery p))) "").
  { reflexivity. }
  unfold Eff.bind at 1 3 5. rewrite send_message_with_merchants.
  destruct (TelegramService._send_message env chat _ "Markdown" st)
    as [[[success response]|x y] st1]; cbn [fst snd]; [|reflexivity].
  destruct success; reflexivity.
Qed.

Lemma for_each_with_merchants {A} (f : A -> Eff.M unit) ms (l : list A) :
  (forall x st, f x (with_merchants ms st)
                = (fst (f x st), with_merchants ms (snd (f x st)))) ->
  forall st,
    Eff.for_each l f (with_merchants ms st)
    = (fst (Eff.for_each l f st), with_merchants ms (snd (Eff.for_each l f st))).
Proof.
  intros Hf. induction l as [|x l IH]; intros st; [reflexivity|].
  cbn [Eff.for_each]. unfold Eff.bind. rewrite Hf.
  destruct (f x st) as [[[]|e m] st1]; cbn [fst snd]; [apply IH|reflexivity].
Qed.

(** The join of the retry queue reads the id and the three settings of a
    directory row, not its status. *)
Lemma queue_ignores_status now t d mid active :
  Db.get_pending_retries t (Db.update_merchant_status now d mid active)
  = Db.get_pending_retries t d.
Proof.
  unfold Db.get_pending_retries, Db.update_merchant_status.
  cbn [Db.webhook_deliveries Db.merchants]. f_equal.
  apply flat_map_ext. intros x.
  induction (Db.merchants d) as [|m l IH]; [reflexivity|].
  cbn [map filter].
  destruct (String.eqb (MerchantModel.row_id m) mid); cbn [MerchantModel.row_id];
    destruct (String.eqb (MerchantModel.row_id m) (Db.merchant_id x));
    cbn [map]; now rewrite IH.
Qed.

End Status.

(** X26: the status of a merchant and the retries.  Changing the
    status of a merchant with [update_merchant_status] (deactivating it,
    say) leaves the retry queue as it is: the next sweep of either
    transport sends the same requests as it would have sent without the
    change, and leaves the same rows in the ledger. *)
Theorem deactivation_keeps_retries (ws : WebhookService.t) (env : Env)
    (st : State) (mid : string) (active : bool) :
  let st' := with_db (Db.update_merchant_status (clock st) (db st) mid active)
               st in
  Db.get_pending_retries (clock st') (db st')
  = Db.get_pending_retries (clock st) (db st)
  /\ http_posts (snd (WebhookService.retry_tick ws env st'))
     = http_posts (snd (WebhookService.retry_tick ws env st))
  /\ Db.webhook_deliveries (db (snd (WebhookService.retry_tick ws env st')))
     = Db.webhook_deliveries (db (snd (WebhookService.retry_tick ws env st)))
  /\ telegram_posts (snd (TelegramService.retry_tick env st'))
     = telegram_posts (snd (TelegramService.retry_tick env st))
  /\ Db.webhook_deliveries (db (snd (TelegramService.retry_tick env st')))
     = Db.webhook_deliveries (db (snd (TelegramService.retry_tick env st))).
Proof.
  intros st'.
  assert (Q : Db.get_pending_retries (clock st') (db st')
              = Db.get_pending_retries (clock st) (db st))
    by apply queue_ignores_status.
  split; [exact Q|].
  assert (E : st' = with_merchants
                      (Db.merchants
                         (Db.update_merchant_status (clock st) (db st) mid
                            active)) st) by reflexivity.
  unfold WebhookService.retry_tick, TelegramService.retry_tick.
  rewrite !swallow_state.
  unfold WebhookService._process_retries, TelegramService._process_retries,
    DbM.get_pending_retries, Eff.bind, Eff.get, Eff.ret.
  rewrite Q. rewrite E.
  rewrite (for_each_with_merchants (WebhookService._retry_delivery ws env))
    by apply webhook_retry_with_merchants.
  rewrite (for_each_with_merchants (TelegramService._retry_delivery env))
    by apply telegram_retry_with_merchants.
  cbn [snd]. repeat split.
Qed.

(** A merchant that was deactivated after a failed delivery is still
    sent the retry. *)
Example deactivated_merchant_is_retried :
  let st := advance (DateTime.minutes 2)
              (Scenario.failed_delivery true Scenario.shop) in
  let st' := with_db (Db.update_merchant_status (clock st) (db st)
                        Scenario.shop_id false) st in
  Directory.get_active_merchants (db st') = []
  /\ List.length (http_posts (snd (WebhookService.retry_tick
                                     WebhookService.default Scenario.up st')))
     = S (List.length (http_posts st')).
Proof. split; vm_compute; reflexivity. Qed.


(* ------------------------------------------------------------------ *)
(** ** Coroutines and the event loop *)

Section Coroutines.

Lemma run_bind {A B} (p : Proc A) (f : A -> Proc B) st :
  Co.run (Co.bind p f) st = Eff.bind (Co.run p) (fun a => Co.run (f a)) st.
Proof.
  revert st. induction p as [[a|e m]|X act k IH]; intros st; cbn.
  - reflexivity.
  - reflexivity.
  - unfold Eff.bind. destruct (act st) as [[x|e m] st1]; [apply IH|reflexivity].
Qed.

Lemma run_for_each {A} (l : list A) (f : A -> Proc unit) st :
  Co.run (Co.for_each l f) st = Eff.for_each l (fun x => Co.run (f x)) st.
Proof.
  revert st. induction l as [|x l IH]; intros st; [reflexivity|].
  cbn [Co.for_each Eff.for_each]. rewrite run_bind. unfold Eff.bind.
  destruct (Co.run (f x) st) as [[[]|e m] st1]; [apply IH|reflexivity].
Qed.

Lemma for_each_ext {A} (l : list A) (f g : A -> Eff.M unit) :
  (forall x st, f x st = g x st) ->
  forall st, Eff.for_each l f st = Eff.for_each l g st.
Proof.
  intros H. induction l as [|x l IH]; intros st; [reflexivity|].
  cbn [Eff.for_each]. unfold Eff.bind. rewrite H.
  destruct (g x st) as [[[]|e m] st1]; [apply IH|reflexivity].
Qed.

Variables (self : Router.t) (env : Env).

(** Run without a suspension, the coroutines are the functions of the
    services and of the router. *)
Lemma run_webhook_send ws m e et st :
  Co.run (Async.Webhook.send_notification ws env m e et) st
  = WebhookService.send_notification ws env m e et st.
Proof.
  unfold Async.Webhook.send_notification, WebhookService.send_notification.
  destruct (negb (MerchantModel.is_webhook m)); [reflexivity|].
  destruct (MerchantModel.webhook_url m) as [url|]; [|reflexivity].
  destruct (MerchantModel.webhook_secret m) as [secret|]; [|reflexivity].
  destruct (String.eqb url "" || String.eqb secret ""); [reflexivity|].
  cbn [Co.run]. unfold Eff.bind, Eff.utcnow, Eff.lift, Eff.ret.
  destruct (Payment.from_payment_event (clock st) e et) as [unsigned|x y];
    [|reflexivity].
  destruct (WebhookService._deliver env url _ secret st)
    as [[[[success code] body]|x y] st1]; [|reflexivity].
  cbn [Co.run]. unfold Eff.bind.
  destruct (DbM.log_delivery _ _ _ _ _ _ _ _ _ _ st1) as [[i|x y] st2];
    [|reflexivity].
  destruct success; reflexivity.
Qed.

Lemma run_telegram_send ts m e et st :
  Co.run (Async.Telegram.send_notification ts env m e et) st
  = TelegramService.send_notification ts env m e et st.
Proof.
  unfold Async.Telegram.send_notification, TelegramService.send_notification.
  destruct (negb (MerchantModel.is_telegram m)); [reflexivity|].
  destruct (MerchantModel.telegram_chat_id m) as [chat|]; [|reflexivity].
  destruct (String.eqb chat ""); [reflexivity|].
  cbn [Co.run]. unfold Eff.bind, Eff.utcnow, Eff.lift, Eff.ret.
  destruct (Payment.format e (TelegramService.etherscan_url ts)) as [text|x y];
    [|reflexivity].
  destruct (TelegramService._send_message env chat text "Markdown" st)
    as [[[success response]|x y] st1]; [|reflexivity].
  cbn [Co.run]. unfold Eff.bind.
  destruct (DbM.log_delivery _ _ _ _ _ _ _ _ _ _ st1) as [[i|x y] st2];
    [|reflexivity].
  destruct success; reflexivity.
Qed.

Lemma run_webhook_retry ws p st :
  Co.run (Async.Webhook._retry_delivery ws env p) st
  = WebhookService._retry_delivery ws env p st.
Proof.
  unfold Async.Webhook._retry_delivery, WebhookService._retry_delivery.
  destruct (negb (Py.truthy (Db.webhook_url p))
            || negb (Py.truthy (Db.webhook_secret p))
            || String.eqb (Db.payload_text (Db.payload (Db.delivery p))) "").
  { cbn [Co.run]. unfold Eff.bind.
    destruct (DbM.update_delivery_retry _ _ _ _ _ st) as [[[]|x y] st1];
      reflexivity. }
  destruct (Db.webhook_url p) as [url|]; [|reflexivity].
  destruct (Db.webhook_secret p) as [secret|]; [|reflexivity].
  destruct (Db.payload (Db.delivery p)) as [stored|text]; [|reflexivity].
  cbn [Co.run]. unfold Eff.bind.
  destruct (WebhookService._deliver env url _ secret st)
    as [[[[success code] body]|x y] st1]; [|reflexivity].
  destruct success; cbn [Co.run]; unfold Eff.bind.
  - destruct (DbM.mark_delivery_success _ st1) as [[[]|x y] st2]; reflexivity.
  - unfold Eff.utcnow.
    destruct (DbM.update_delivery_retry _ _ _ _ _ st1) as [[[]|x y] st2];
      reflexivity.
Qed.

Lemma run_telegram_retry p st :
  Co.run (Async.Telegram._retry_delivery env p) st
  = TelegramService._retry_delivery env p st.
Proof.
  unfold Async.Telegram._retry_delivery, TelegramService._retry_delivery.
  destruct (Db.telegram_chat_id p) as [chat|].
  2:{ cbn [Co.run]. unfold Eff.bind.
      destruct (DbM.update_delivery_retry _ _ _ _ _ st) as [[[]|x y] st1];
        reflexivity. }
  destruct (String.eqb chat ""
            || String.eqb (Db.payload_text (Db.payload (Db.delivery p))) "").
  { cbn [Co.run]. unfold Eff.bind.
    destruct (DbM.update_delivery_retry _ _ _ _ _ st) as [[[]|x y] st1];
      reflexivity. }
  cbn [Co.run]. unfold Eff.bind.
  destruct (TelegramService._send_message env chat _ "Markdown" st)
    as [[[success response]|x y] st1]; [|reflexivity].
  destruct success; cbn [Co.run]; unfold Eff.bind.
  - destruct (DbM.mark_delivery_success _ st1) as [[[]|x y] st2]; reflexivity.
  - unfold Eff.utcnow.
    destruct (DbM.update_delivery_retry _ _ _ _ _ st1) as [[[]|x y] st2];
      reflexivity.
Qed.

Lemma run_webhook_sweep ws st :
  Co.run (Async.Webhook._process_retries ws env) st
  = WebhookService._process_retries ws env st.
Proof.
  unfold Async.Webhook._process_retries, WebhookService._process_retries.
  cbn [Co.run]. unfold Eff.bind at 1 2.
  destruct (DbM.get_pending_retries st) as [[pending|x y] st1]; [|reflexivity].
  rewrite run_for_each. apply for_each_ext. intros p s.
  apply run_webhook_retry.
Qed.

Lemma run_telegram_sweep st :
  Co.run (Async.Telegram._process_retries env) st
  = TelegramService._process_retries env st.
Proof.
  unfold Async.Telegram._process_retries, TelegramService._process_retries.
  cbn [Co.run]. unfold Eff.bind at 1 2.
  destruct (DbM.get_pending_retries st) as [[pending|x y] st1]; [|reflexivity].
  rewrite run_for_each. apply for_each_ext. intros p s.
  apply run_telegram_retry.
Qed.

Lemma run_route e et st :
  Co.run (Async.Routing.route_notification self env e et) st
  = Router.route_notification self env e et st.
Proof.
  unfold Async.Routing.route_notification, Router.route_notification.
  cbn [Co.run]. unfold Eff.bind at 1 3.
  destruct ((Router.bump Router.inc_total ;;;
             DbM.check_event_processed (Payment.get_event_id e)
               (Payment.merchant_id e)) st) as [[already|x y] st1] eqn:E.
  2:{ unfold Eff.bind in E |- *.
      destruct (Router.bump Router.inc_total st) as [[[]|x' y'] st0];
        [|inversion E; subst; reflexivity].
      now rewrite E. }
  unfold Eff.bind in E |- *.
  destruct (Router.bump Router.inc_total st) as [[[]|x' y'] st0];
    [|discriminate].
  rewrite E. destruct already.
  { cbn [Co.run]. unfold Eff.bind.
    destruct (Router.bump Router.inc_already_processed st1) as [[[]|x y] st2];
      reflexivity. }
  cbn [Co.run]. unfold Eff.bind.
  destruct (DbM.get_merchant (Payment.merchant_id e) st1)
    as [[[row|]|x y] st2]; [| |reflexivity].
  2:{ cbn [Co.run]. unfold Eff.bind.
      destruct (Router.bump Router.inc_merchant_not_found st2)
        as [[[]|x y] st3]; reflexivity. }
  unfold Eff.lift.
  destruct (MerchantModel.from_dict row) as [m|x y]; [|reflexivity].
  destruct (negb (MerchantModel.is_active m)); [reflexivity|].
  destruct (MerchantModel.notification_type m).
  - unfold Async.Routing._send_webhook, Router._send_webhook.
    rewrite run_bind. unfold Eff.bind. rewrite run_webhook_send.
    destruct (WebhookService.send_notification _ env m e et st2)
      as [[[success err]|x y] st3]; [|reflexivity].
    destruct success; cbn [Co.run]; unfold Eff.bind;
      destruct (Router.bump _ st3) as [[[]|x y] st4]; reflexivity.
  - unfold Async.Routing._send_telegram, Router._send_telegram.
    rewrite run_bind. unfold Eff.bind. rewrite run_telegram_send.
    destruct (TelegramService.send_notification _ env m e et st2)
      as [[[success err]|x y] st3]; [|reflexivity].
    destruct success; cbn [Co.run]; unfold Eff.bind;
      destruct (Router.bump _ st3) as [[[]|x y] st4]; reflexivity.
Qed.

(** The task of an operation, run without a suspension, is the step of
    the operation. *)
Lemma run_task_of o p st :
  In p (task_of self env o) ->
  snd (Co.run p st) = step self env st o.
Proof.
  destruct o as [e et| | |d]; cbn [task_of In step]; intros H;
    [destruct H as [<-|[]]..|destruct H].
  - rewrite run_bind. unfold Eff.bind. rewrite run_route.
    now destruct (Router.route_notification self env e et st)
      as [[r|x y] st1].
  - rewrite run_webhook_sweep. unfold WebhookService.retry_tick.
    now rewrite swallow_state.
  - rewrite run_telegram_sweep. unfold TelegramService.retry_tick.
    now rewrite swallow_state.
Qed.

End Coroutines.

Section Safety.

Variable I : State -> Prop.

Lemma safe_bind {A B} (p : Proc A) (f : A -> Proc B) :
  safe I p -> (forall a, safe I (f a)) -> safe I (Co.bind p f).
Proof.
  intros Hp Hf. induction p as [[a|e m]|X act k IH]; cbn.
  - apply Hf.
  - exact Logic.I.
  - intros st Hst. cbn in Hp. destruct (Hp st Hst) as [H1 H2].
    split; [exact H1|]. intros x E. apply IH. now apply H2.
Qed.

Lemma safe_for_each {A} (l : list A) (f : A -> Proc unit) :
  (forall x, In x l -> safe I (f x)) -> safe I (Co.for_each l f).
Proof.
  induction l as [|x l IH]; intros H; cbn [Co.for_each].
  - exact Logic.I.
  - apply safe_bind; [apply H; now left|].
    intros _. apply IH. intros y Hy. apply H. now right.
Qed.

Lemma Forall_put {A} (P : A -> Prop) i x (l : list A) :
  Forall P l -> P x -> Forall P (put i x l).
Proof.
  intros Hl Hx. revert i. induction Hl as [|y l Hy Hl IH]; intros i; cbn.
  - destruct i; constructor.
  - destruct i; constructor; auto.
Qed.

Variables (self : Router.t) (env : Env).

Hypothesis time_passes : forall d st, I st -> I (advance d st).
Hypothesis tasks_safe : forall o p, In p (task_of self env o) -> safe I p.

(** An invariant of the shared state that every piece of every task
    keeps holds after every run of the loop. *)
Lemma safe_run_moves ms :
  forall l,
    I (shared l) -> Forall (safe I) (tasks l) ->
    I (shared (run_moves self env ms l))
    /\ Forall (safe I) (tasks (run_moves self env ms l)).
Proof.
  unfold run_moves. induction ms as [|m ms IH]; intros l Hs Ht; cbn [fold_left].
  - auto.
  - apply IH.
    + destruct m as [[e et| | |d]|i]; cbn [move shared]; auto.
      unfold resume.
      destruct (nth_error (tasks l) i) as [[r|X act k]|] eqn:N; auto.
      destruct (act (shared l)) as [r st] eqn:E. cbn [shared].
      apply nth_error_In in N. rewrite Forall_forall in Ht.
      specialize (Ht _ N (shared l) Hs). rewrite E in Ht. apply Ht.
    + destruct m as [[e et| | |d]|i]; cbn [move tasks]; auto.
      * apply Forall_app. split; [exact Ht|].
        apply Forall_forall. intros p Hp. eapply tasks_safe; exact Hp.
      * apply Forall_app. split; [exact Ht|].
        apply Forall_forall. intros p Hp. eapply tasks_safe; exact Hp.
      * apply Forall_app. split; [exact Ht|].
        apply Forall_forall. intros p Hp. eapply tasks_safe; exact Hp.
      * unfold resume.
        destruct (nth_error (tasks l) i) as [[r|X act k]|] eqn:N; auto.
        destruct (act (shared l)) as [r st] eqn:E. cbn [tasks].
        apply Forall_put; [exact Ht|].
        apply nth_error_In in N. rewrite Forall_forall in Ht.
        specialize (Ht _ N (shared l) Hs). rewrite E in Ht.
        destruct r as [x|e m]; [|exact Logic.I]. now apply Ht.
Qed.

End Safety.

(* ------------------------------------------------------------------ *)
(** ** A successful record under interleaving *)

Section TerminalAsync.

Variables (self : Router.t) (env : Env) (x : Db.Delivery).

Hypothesis x_success : Db.success x = true.

Lemma holds_row_db st st' :
  db st' = db st -> holds_row x st -> holds_row x st'.
Proof. unfold holds_row. now intros ->. Qed.

Lemma update_keeps_row i c nr rc rb st :
  i <> Db.id x -> holds_row x st ->
  holds_row x (snd (DbM.update_delivery_retry i c nr rc rb st)).
Proof.
  intros Hi [W Hx]. unfold DbM.update_delivery_retry. exec.
  pose proof (update_delivery_retry_rewrites (clock st) (db st) i c nr rc rb)
    as R.
  split; [eapply rewritten_well_formed; eauto|].
  eapply rewritten_keeps; eauto.
Qed.

Lemma mark_keeps_row i st :
  i <> Db.id x -> holds_row x st ->
  holds_row x (snd (DbM.mark_delivery_success i st)).
Proof.
  intros Hi [W Hx]. unfold DbM.mark_delivery_success. exec.
  pose proof (mark_delivery_success_rewrites (clock st) (db st) i) as R.
  split; [eapply rewritten_well_formed; eauto|].
  eapply rewritten_keeps; eauto.
Qed.

Lemma log_keeps_row mid et eid meth pl s rc rb nr st :
  Db.same_key eid mid x = false -> holds_row x st ->
  holds_row x (snd (DbM.log_delivery mid et eid meth pl s rc rb 0 nr st)).
Proof.
  intros K [W Hx]. unfold DbM.log_delivery. exec.
  destruct (Db.log_delivery (clock st) (db st) mid et eid meth pl s rc rb 0 nr)
    as [d i] eqn:L. cbn.
  replace d with (fst (Db.log_delivery (clock st) (db st) mid et eid meth pl
                         s rc rb 0 nr)) by now rewrite L.
  split; [now apply log_delivery_well_formed|now apply log_delivery_keeps].
Qed.

Lemma deliver_keeps_row url payload secret st :
  holds_row x st ->
  holds_row x (snd (WebhookService._deliver env url payload secret st)).
Proof.
  intros H.
  destruct (WebhookService._deliver env url payload secret st)
    as [r st1] eqn:D.
  destruct (deliver_frame env _ _ _ _ _ _ D) as (Hdb & _).
  cbn [snd]. eapply holds_row_db; eauto.
Qed.

Lemma send_message_keeps_row chat text pm st :
  holds_row x st ->
  holds_row x (snd (TelegramService._send_message env chat text pm st)).
Proof.
  intros H.
  destruct (TelegramService._send_message env chat text pm st)
    as [r st1] eqn:D.
  destruct (send_message_frame env _ _ _ _ _ _ D) as (Hdb & _).
  cbn [snd]. eapply holds_row_db; eauto.
Qed.

(** A retry of another row never touches the record. *)
Lemma webhook_retry_safe ws p :
  Db.id (Db.delivery p) <> Db.id x ->
  safe (holds_row x) (Async.Webhook._retry_delivery ws env p).
Proof.
  intros Hid. unfold Async.Webhook._retry_delivery.
  destruct (negb (Py.truthy (Db.webhook_url p))
            || negb (Py.truthy (Db.webhook_secret p))
            || String.eqb (Db.payload_text (Db.payload (Db.delivery p))) "").
  { cbn [safe]. intros st H. split; [now apply update_keeps_row|].
    intros; exact Logic.I. }
  destruct (Db.webhook_url p) as [url|]; [|exact Logic.I].
  destruct (Db.webhook_secret p) as [secret|]; [|exact Logic.I].
  destruct (Db.payload (Db.delivery p)) as [stored|text]; [|exact Logic.I].
  cbn [safe]. intros st H. split; [now apply deliver_keeps_row|].
  intros [[success code] body] _. destruct success; cbn [safe].
  - intros st1 H1. split; [now apply mark_keeps_row|]. intros; exact Logic.I.
  - intros st1 H1. split; [|intros; exact Logic.I].
    unfold Eff.bind, Eff.utcnow. now apply update_keeps_row.
Qed.

Lemma telegram_retry_safe p :
  Db.id (Db.delivery p) <> Db.id x ->
  safe (holds_row x) (Async.Telegram._retry_delivery env p).
Proof.
  intros Hid. unfold Async.Telegram._retry_delivery.
  destruct (Db.telegram_chat_id p) as [chat|].
  2:{ cbn [safe]. intros st H. split; [now apply update_keeps_row|].
      intros; exact Logic.I. }
  destruct (String.eqb chat ""
            || String.eqb (Db.payload_text (Db.payload (Db.delivery p))) "").
  { cbn [safe]. intros st H. split; [now apply update_keeps_row|].
    intros; exact Logic.I. }
  cbn [safe]. intros st H. split; [now apply send_message_keeps_row|].
  intros [success response] _. destruct success; cbn [safe].
  - intros st1 H1. split; [now apply mark_keeps_row|]. intros; exact Logic.I.
  - intros st1 H1. split; [|intros; exact Logic.I].
    unfold Eff.bind, Eff.utcnow. now apply update_keeps_row.
Qed.

(** The rows of a queue read while the record is in the ledger are
    other rows. *)
Lemma queue_avoids_row st p :
  holds_row x st ->
  In p (Db.get_pending_retries (clock st) (db st)) ->
  Db.id (Db.delivery p) <> Db.id x.
Proof.
  intros [W Hx] Hp E.
  apply (success_not_queued st x W Hx x_success). exists p. auto.
Qed.

Lemma webhook_sweep_safe ws :
  safe (holds_row x) (Async.Webhook._process_retries ws env).
Proof.
  unfold Async.Webhook._process_retries. cbn [safe]. intros st H.
  split; [exact H|]. intros pending E.
  unfold DbM.get_pending_retries in E. cbn in E. injection E as <-.
  apply safe_for_each. intros p Hp. apply filter_In in Hp as [Hp _].
  apply webhook_retry_safe. eapply queue_avoids_row; eauto.
Qed.

Lemma telegram_sweep_safe :
  safe (holds_row x) (Async.Telegram._process_retries env).
Proof.
  unfold Async.Telegram._process_retries. cbn [safe]. intros st H.
  split; [exact H|]. intros pending E.
  unfold DbM.get_pending_retries in E. cbn in E. injection E as <-.
  apply safe_for_each. intros p Hp. apply filter_In in Hp as [Hp _].
  apply telegram_retry_safe. eapply queue_avoids_row; eauto.
Qed.

(** A live delivery under another key never touches the record. *)
Lemma webhook_send_safe ws m e et :
  Db.same_key (Payment.get_event_id e) (MerchantModel.id m) x = false ->
  safe (holds_row x) (Async.Webhook.send_notification ws env m e et).
Proof.
  intros K. unfold Async.Webhook.send_notification.
  destruct (negb (MerchantModel.is_webhook m)); [exact Logic.I|].
  destruct (MerchantModel.webhook_url m) as [url|]; [|exact Logic.I].
  destruct (MerchantModel.webhook_secret m) as [secret|]; [|exact Logic.I].
  destruct (String.eqb url "" || String.eqb secret ""); [exact Logic.I|].
  cbn [safe]. intros st H.
  match goal with
  | |- holds_row x (snd (?act st)) /\ _ =>
      destruct (act st) as [r0 st1] eqn:A
  end.
  unfold Eff.bind, Eff.utcnow, Eff.lift, Eff.ret in A.
  destruct (Payment.from_payment_event (clock st) e et) as [unsigned|a b] eqn:F.
  2:{ inversion A; subst. split; [exact H|]. intros sent E. discriminate. }
  pose proof (deliver_keeps_row url (fst (Payment.sign unsigned secret)) secret
                st H) as H1.
  destruct (WebhookService._deliver env url _ secret st) as [[r|a b] st1'].
  2:{ inversion A; subst. split; [exact H1|]. intros sent E. discriminate. }
  inversion A; subst. cbn [snd fst] in *. split; [exact H1|].
  intros sent E. injection E as <-. destruct r as [[success code] body].
  cbn [safe]. intros st2 H2. split.
  - unfold Eff.bind, Eff.utcnow. apply log_keeps_row; [|exact H2].
    destruct (from_payment_event_id _ _ _ _ F) as [Hid _].
    cbn [Payment.event_id]. now rewrite Hid.
  - intros _ _. now destruct success.
Qed.

Lemma telegram_send_safe ts m e et :
  Db.same_key (Payment.get_event_id e) (MerchantModel.id m) x = false ->
  safe (holds_row x) (Async.Telegram.send_notification ts env m e et).
Proof.
  intros K. unfold Async.Telegram.send_notification.
  destruct (negb (MerchantModel.is_telegram m)); [exact Logic.I|].
  destruct (MerchantModel.telegram_chat_id m) as [chat|]; [|exact Logic.I].
  destruct (String.eqb chat ""); [exact Logic.I|].
  cbn [safe]. intros st H.
  match goal with
  | |- holds_row x (snd (?act st)) /\ _ =>
      destruct (act st) as [r0 st1] eqn:A
  end.
  unfold Eff.bind, Eff.lift, Eff.ret in A.
  destruct (Payment.format e (TelegramService.etherscan_url ts))
    as [text|a b] eqn:F.
  2:{ inversion A; subst. split; [exact H|]. intros sent E. discriminate. }
  pose proof (send_message_keeps_row chat text "Markdown" st H) as H1.
  destruct (TelegramService._send_message env chat text "Markdown" st)
    as [[r|a b] st1'].
  2:{ inversion A; subst. split; [exact H1|]. intros sent E. discriminate. }
  inversion A; subst. cbn [snd fst] in *. split; [exact H1|].
  intros sent E. injection E as <-. destruct r as [success response].
  cbn [safe]. intros st2 H2. split.
  - unfold Eff.bind, Eff.utcnow. now apply log_keeps_row.
  - intros _ _. now destruct success.
Qed.

Lemma bump_keeps_row f st :
  holds_row x st -> holds_row x (snd (Router.bump f st)).
Proof. intros H. eapply holds_row_db; [|exact H]. reflexivity. Qed.

(** A routing that starts while the record is in the ledger never
    touches it: for the pair of the record it is a replay, for another
    pair it writes under the other key. *)
Lemma route_safe e et :
  safe (holds_row x) (Async.Routing.route_notification self env e et).
Proof.
  unfold Async.Routing.route_notification. cbn [safe]. intros st H.
  assert (E0 : (Router.bump Router.inc_total ;;;
                DbM.check_event_processed (Payment.get_event_id e)
                  (Payment.merchant_id e)) st
               = (Py.Ok (Db.check_event_processed (db st)
                           (Payment.get_event_id e) (Payment.merchant_id e)),
                  with_stats (Router.inc_total (_stats st)) st))
    by reflexivity.
  rewrite E0. cbn [fst snd]. split; [eapply holds_row_db; [|exact H]; reflexivity|].
  intros already E. injection E as <-.
  destruct (Db.check_event_processed _ _ _) eqn:C; cbn [safe].
  { intros st1 H1. split; [now apply bump_keeps_row|]. intros; exact Logic.I. }
  assert (K : Db.same_key (Payment.get_event_id e) (Payment.merchant_id e) x
              = false).
  { destruct H as [_ Hx]. eapply not_processed_other_key; eauto. }
  intros st1 H1. split; [exact H1|]. intros merchant_data E.
  unfold DbM.get_merchant in E. cbn in E. injection E as <-.
  destruct (Db.get_merchant (db st1) (Payment.merchant_id e)) as [row|] eqn:G.
  2:{ cbn [safe]. intros st2 H2. split; [now apply bump_keeps_row|].
      intros; exact Logic.I. }
  destruct (MerchantModel.from_dict row) as [m|a b] eqn:F; [|exact Logic.I].
  destruct (negb (MerchantModel.is_active m)); [exact Logic.I|].
  assert (Hid : MerchantModel.id m = Payment.merchant_id e).
  { destruct H1 as [(_ & _ & Wm) _]. rewrite Forall_forall in Wm.
    apply from_dict_fields in F as (I & _). rewrite I.
    rewrite (Wm row (get_merchant_in _ _ _ G)).
    now apply get_merchant_id in G. }
  rewrite <- Hid in K.
  destruct (MerchantModel.notification_type m).
  - unfold Async.Routing._send_webhook. apply safe_bind.
    + now apply webhook_send_safe.
    + intros [success err]. cbn [safe]. intros st2 H2. split.
      * destruct success; now apply bump_keeps_row.
      * intros; exact Logic.I.
  - unfold Async.Routing._send_telegram. apply safe_bind.
    + now apply telegram_send_safe.
    + intros [success err]. cbn [safe]. intros st2 H2. split.
      * destruct success; now apply bump_keeps_row.
      * intros; exact Logic.I.
Qed.

Lemma task_safe o p :
  In p (task_of self env o) -> safe (holds_row x) p.
Proof.
  destruct o as [e et| | |d]; cbn [task_of In]; intros H;
    [destruct H as [<-|[]]..|destruct H].
  - apply safe_bind; [apply route_safe|]. intros; exact Logic.I.
  - apply webhook_sweep_safe.
  - apply telegram_sweep_safe.
Qed.

End TerminalAsync.

Lemma put_last {A} (before : list A) (p q : A) :
  put (List.length before) q (before ++ [p]) = (before ++ [q])%list.
Proof. induction before as [|a l IH]; cbn; [reflexivity|now rewrite IH]. Qed.

Lemma nth_error_last {A} (before : list A) (p : A) :
  nth_error (before ++ [p]) (List.length before) = Some p.
Proof. induction before as [|a l IH]; cbn; auto. Qed.

Lemma run_to_completion (self : Router.t) (env : Env) (p : Proc unit) :
  forall st before,
  exists n r,
    run_moves self env (repeat (Resume (List.length before)) n)
      (mkLoop st (before ++ [p]))
    = mkLoop (snd (Co.run p st)) (before ++ [Done r]).
Proof.
  induction p as [r|X act k IH]; intros st before.
  - exists 0%nat, r. reflexivity.
  - destruct (act st) as [[x|e m] st1] eqn:E.
    + destruct (IH x st1 before) as (n & r & Hn).
      exists (S n), r. cbn [repeat]. unfold run_moves in *. cbn [fold_left move].
      unfold resume. cbn [tasks shared]. rewrite nth_error_last, E, put_last.
      rewrite Hn. cbn [Co.run]. unfold Eff.bind. now rewrite E.
    + exists 1%nat, (Py.Raise e m). cbn [repeat]. unfold run_moves.
      cbn [fold_left move]. unfold resume. cbn [tasks shared].
      rewrite nth_error_last, E, put_last.
      cbn [Co.run]. unfold Eff.bind. now rewrite E.
Qed.

Lemma run_moves_app (self : Router.t) (env : Env) ms1 ms2 l :
  run_moves self env (ms1 ++ ms2) l
  = run_moves self env ms2 (run_moves self env ms1 l).
Proof. unfold run_moves. apply fold_left_app. Qed.

(** The runs of the operations one after the other are among the runs
    of the loop. *)
Lemma sequential_runs_are_schedules (self : Router.t) (env : Env)
    (ops : list Op) :
  forall st ts,
  exists ms ts',
    run_moves self env ms (mkLoop st ts) = mkLoop (run_ops self env ops st) ts'.
Proof.
  induction ops as [|o ops IH]; intros st ts.
  - exists [], ts. reflexivity.
  - assert (H1 : exists ms1 ts1,
               run_moves self env ms1 (mkLoop st ts)
               = mkLoop (step self env st o) ts1).
    { destruct (task_of self env o) as [|p [|q rest]] eqn:T.
      - destruct o as [e et| | |d]; try discriminate.
        exists [Start (Wait d)], ts. reflexivity.
      - destruct (run_to_completion self env p st ts) as (n & r & Hn).
        exists (Start o :: repeat (Resume (List.length ts)) n).
        exists (ts ++ [Done r])%list.
        change (Start o :: repeat (Resume (List.length ts)) n)
          with ([Start o] ++ repeat (Resume (List.length ts)) n)%list.
        rewrite run_moves_app.
        assert (S0 : run_moves self env [Start o] (mkLoop st ts)
                     = mkLoop st (ts ++ [p])).
        { unfold run_moves. cbn [fold_left move].
          destruct o as [e et| | |d]; try discriminate;
            cbn [shared tasks]; now rewrite T. }
        rewrite S0, Hn. f_equal. apply run_task_of. rewrite T. now left.
      - destruct o; discriminate. }
    destruct H1 as (ms1 & ts1 & H1).
    destruct (IH (step self env st o) ts1) as (ms2 & ts2 & H2).
    exists (ms1 ++ ms2)%list, ts2. rewrite run_moves_app, H1, H2.
    reflexivity.
Qed.

(** With an operation in flight the record is not safe.  A retry whose
    POST has failed waits for its write while the event is routed again
    and delivered: the write of the retry then lands on the successful
    row and gives it a retry count and a retry time. *)
Example retry_in_flight_rewrites_success :
  let e := Scenario.payment Scenario.shop_id in
  let env := mkEnv (fun n => match n with
                             | 2%nat => HttpResponse 200 "ok"
                             | _ => HttpResponse 500 "Internal Server Error"
                             end)
                   (telegram_reply Scenario.down) in
  let go ms l := run_moves Scenario.router env ms l in
  let failed := go [Start (Route e "payment.completed");
                    Resume 0; Resume 0; Resume 0; Resume 0; Resume 0;
                    Start (Wait (DateTime.minutes 2))]
                  (mkLoop (Scenario.start true [Scenario.shop]) []) in
  let in_flight := go [Start WebhookRetry; Resume 1; Resume 1] failed in
  let delivered := go [Start (Route e "payment.completed");
                       Resume 2; Resume 2; Resume 2; Resume 2; Resume 2]
                     in_flight in
  let written := go [Resume 1] delivered in
  Scenario.schedule_of e (shared failed)
  = Some (false, 0, Some (- DateTime.minutes 1))
  /\ Scenario.schedule_of e (shared delivered) = Some (true, 0, None)
  /\ Scenario.schedule_of e (shared written)
     = Some (true, 1, Some (DateTime.minutes 5)).
Proof. repeat split; vm_compute; reflexivity. Qed.

(** Two routings of one event in flight at once: both pass the check,
    the first delivers and records the success, the second fails and
    its write replaces the success by a failure with a retry. *)
Example routing_in_flight_overwrites_success :
  let e := Scenario.payment Scenario.shop_id in
  let go ms l := run_moves Scenario.router Scenario.up_once ms l in
  let checked := go [Start (Route e "payment.completed");
                     Start (Route e "payment.completed");
                     Resume 0; Resume 1]
                   (mkLoop (Scenario.start true [Scenario.shop]) []) in
  let delivered := go [Resume 0; Resume 0; Resume 0; Resume 0] checked in
  let overwritten := go [Resume 1; Resume 1; Resume 1; Resume 1] delivered in
  Scenario.schedule_of e (shared delivered) = Some (true, 0, None)
  /\ Scenario.schedule_of e (shared overwritten)
     = Some (false, 0, Some (DateTime.minutes 1))
  /\ List.length (http_posts (shared overwritten)) = 2%nat.
Proof. repeat split; vm_compute; reflexivity. Qed.

(** C2, as the code has it.  In a ledger with distinct row ids below
    the next id and normalised directory ids, a record whose success
    flag is true when no operation is in flight is never changed by the
    operations that start afterwards, however the event loop interleaves
    them at their awaits: after any run of routings, retry sweeps of
    both transports and waits, started then, the very same row is in the
    ledger.  (The check of the router and the filter of the retry queue
    keep it; neither [log_delivery] nor the writes by row id look at the
    success flag, so an operation that was in flight when the record
    succeeded does change it.) *)
Theorem success_is_terminal :
  forall self env ms st x,
  well_formed (db st) ->
  In x (Db.webhook_deliveries (db st)) -> Db.success x = true ->
  In x (Db.webhook_deliveries
          (db (shared (run_moves self env ms (mkLoop st []))))).
Proof.
  intros self env ms st x W Hx S.
  destruct (safe_run_moves (holds_row x) self env) with (ms := ms)
    (l := mkLoop st []) as [[_ H] _].
  - intros d s H. exact H.
  - intros o p. now apply task_safe.
  - split; assumption.
  - constructor.
  - exact H.
Qed.

Lemma success_is_terminal_witness :
  let e := Scenario.payment Scenario.chat_shop_id in
  let e' := Scenario.payment Scenario.shop_id in
  let st := Scenario.after
              (Router.route_notification Scenario.router Scenario.up_once e
                 "payment.completed")
              (Scenario.start false [Scenario.chat_shop; Scenario.shop]) in
  exists x,
    Db.lookup (db st) (Payment.get_event_id e) (Payment.merchant_id e) = Some x
    /\ Db.success x = true
    /\ In x (Db.webhook_deliveries
               (db (shared
                      (run_moves Scenario.router Scenario.up_once
                         [Start (Route e' "payment.completed");
                          Start (Route e "payment.completed");
                          Resume 0; Resume 1; Resume 0; Start TelegramRetry;
                          Resume 1; Resume 0; Resume 2; Resume 0;
                          Start (Wait (DateTime.minutes 120));
                          Start WebhookRetry; Resume 3; Resume 3; Resume 0;
                          Resume 3]
                         (mkLoop st []))))).
Proof.
  intros e e' st. eexists. split; [vm_compute; reflexivity|].
  split; [reflexivity|].
  apply success_is_terminal.
  - unfold well_formed. vm_compute. repeat split.
    + constructor; [intros []|constructor].
    + constructor; [reflexivity|constructor].
    + constructor; [reflexivity|]. constructor; [reflexivity|constructor].
  - vm_compute. left. reflexivity.
  - reflexivity.
Defined.

(* ------------------------------------------------------------------ *)
(** ** Invariants of the ledger under interleaving *)

Section BoundedAsync.

Variables (self : Router.t) (env : Env).

Let M := retry_bound self.

Lemma bounded_db st st' :
  db st' = db st -> bounded M st -> bounded M st'.
Proof. unfold bounded. now intros ->. Qed.

Lemma log_bounded mid et eid meth pl s rc rb nr st :
  bounded M st ->
  bounded M (snd (DbM.log_delivery mid et eid meth pl s rc rb 0 nr st)).
Proof.
  intros (Hk & Hr). unfold DbM.log_delivery. exec.
  destruct (Db.log_delivery (clock st) (db st) mid et eid meth pl s rc rb 0 nr)
    as [d i] eqn:L. cbn.
  replace d with (fst (Db.log_delivery (clock st) (db st) mid et eid meth pl
                         s rc rb 0 nr)) by now rewrite L.
  clear L d i.
  assert (Hnew : forall i a b c e f g h,
             row_bounded M (Db.mkDelivery i a b c e f s rc rb 0 nr g h)).
  { pose proof (retry_bound_3 self). intros. split; cbn; fold M; lia. }
  unfold Db.log_delivery. destruct (Db._is_postgres (db st)).
  - destruct (find _ _) as [old|] eqn:F; cbn [fst]; unfold bounded;
      rewrite db_with_db; cbn [Db.webhook_deliveries].
    + split.
      * rewrite map_map. erewrite map_ext; [exact Hk|].
        intros y. destruct (Db.same_key eid mid y); reflexivity.
      * apply Forall_forall. intros y Hy.
        apply in_map_iff in Hy as (z & <- & Hz).
        rewrite Forall_forall in Hr. specialize (Hr z Hz).
        destruct (Db.same_key eid mid z); [apply Hnew|exact Hr].
    + split.
      * rewrite map_app. cbn. apply NoDup_snoc_gen; [exact Hk|].
        intros Hin. apply in_map_iff in Hin as (y & E & Hy).
        cbn in E. apply (same_key_key eid mid y) in E.
        apply (find_none _ _ F) in Hy. congruence.
      * apply Forall_app. split; [exact Hr|].
        constructor; [apply Hnew|constructor].
  - cbn [fst]; unfold bounded; rewrite db_with_db;
      cbn [Db.webhook_deliveries]. split.
    + rewrite map_app. cbn. apply NoDup_snoc_gen.
      * now apply NoDup_map_filter_gen.
      * intros Hin. apply in_map_iff in Hin as (y & E & Hy).
        cbn in E. apply (same_key_key eid mid y) in E.
        apply filter_In in Hy as [_ Hy]. rewrite E in Hy. discriminate.
    + apply Forall_app. split.
      * apply Forall_forall. intros y Hy. apply filter_In in Hy as [Hy _].
        rewrite Forall_forall in Hr. auto.
      * constructor; [apply Hnew|constructor].
Qed.

Lemma mark_bounded i st :
  bounded M st -> bounded M (snd (DbM.mark_delivery_success i st)).
Proof.
  intros (Hk & Hr). unfold DbM.mark_delivery_success. exec.
  unfold Db.mark_delivery_success, Db.set_deliveries, bounded.
  rewrite db_with_db. cbn [Db.webhook_deliveries]. split.
  - rewrite map_map. erewrite map_ext; [exact Hk|].
    intros y. destruct (Db.id y =? i); reflexivity.
  - apply Forall_forall. intros y Hy.
    apply in_map_iff in Hy as (z & <- & Hz).
    rewrite Forall_forall in Hr. specialize (Hr z Hz).
    destruct (Db.id z =? i); [|exact Hr].
    destruct Hr as (H2 & _). split; cbn; [exact H2|congruence].
Qed.

Lemma update_bounded i c nr rc rb st :
  0 <= c <= M -> (nr <> None -> c < M) ->
  bounded M st ->
  bounded M (snd (DbM.update_delivery_retry i c nr rc rb st)).
Proof.
  intros Hc Hn (Hk & Hr). unfold DbM.update_delivery_retry. exec.
  unfold Db.update_delivery_retry, Db.set_deliveries, bounded.
  rewrite db_with_db. cbn [Db.webhook_deliveries]. split.
  - rewrite map_map. erewrite map_ext; [exact Hk|].
    intros y. destruct (Db.id y =? i); reflexivity.
  - apply Forall_forall. intros y Hy.
    apply in_map_iff in Hy as (z & <- & Hz).
    rewrite Forall_forall in Hr. specialize (Hr z Hz).
    destruct (Db.id z =? i); [|exact Hr].
    split; cbn; auto.
Qed.

(** The write of a retry is within the bounds whatever the row has
    become since the queue was read. *)
Lemma webhook_retry_bounded p :
  0 <= Db.retry_count (Db.delivery p) < M ->
  safe (bounded M)
    (Async.Webhook._retry_delivery (Router.webhook_service self) env p).
Proof.
  intros Hc. pose proof (retry_bound_delays self) as HB. fold M in HB.
  unfold Async.Webhook._retry_delivery.
  destruct (negb (Py.truthy (Db.webhook_url p))
            || negb (Py.truthy (Db.webhook_secret p))
            || String.eqb (Db.payload_text (Db.payload (Db.delivery p))) "").
  { cbn [safe]. intros st H. split; [|intros; exact Logic.I].
    apply update_bounded; [lia|intros N; now destruct N|exact H]. }
  destruct (Db.webhook_url p) as [url|]; [|exact Logic.I].
  destruct (Db.webhook_secret p) as [secret|]; [|exact Logic.I].
  destruct (Db.payload (Db.delivery p)) as [stored|text]; [|exact Logic.I].
  cbn [safe]. intros st H. split.
  { destruct (WebhookService._deliver env url _ secret st) as [r st1] eqn:D.
    destruct (deliver_frame env _ _ _ _ _ _ D) as (Hdb & _).
    cbn [snd]. eapply bounded_db; eauto. }
  intros [[success code] body] _. destruct success; cbn [safe].
  - intros st1 H1. split; [now apply mark_bounded|]. intros; exact Logic.I.
  - intros st1 H1. split; [|intros; exact Logic.I].
    unfold Eff.bind, Eff.utcnow. apply update_bounded; [lia| |exact H1].
    destruct (_ <? _) eqn:L; [|intros N; now destruct N].
    apply Z.ltb_lt in L. intros _. lia.
Qed.

Lemma telegram_retry_bounded p :
  0 <= Db.retry_count (Db.delivery p) < M ->
  safe (bounded M) (Async.Telegram._retry_delivery env p).
Proof.
  intros Hc. pose proof (retry_bound_3 self) as HB. fold M in HB.
  unfold Async.Telegram._retry_delivery.
  destruct (Db.telegram_chat_id p) as [chat|].
  2:{ cbn [safe]. intros st H. split; [|intros; exact Logic.I].
      apply update_bounded; [lia|intros N; now destruct N|exact H]. }
  destruct (String.eqb chat ""
            || String.eqb (Db.payload_text (Db.payload (Db.delivery p))) "").
  { cbn [safe]. intros st H. split; [|intros; exact Logic.I].
    apply update_bounded; [lia|intros N; now destruct N|exact H]. }
  cbn [safe]. intros st H. split.
  { destruct (TelegramService._send_message env chat _ "Markdown" st)
      as [r st1] eqn:D.
    destruct (send_message_frame env _ _ _ _ _ _ D) as (Hdb & _).
    cbn [snd]. eapply bounded_db; eauto. }
  intros [success response] _. destruct success; cbn [safe].
  - intros st1 H1. split; [now apply mark_bounded|]. intros; exact Logic.I.
  - intros st1 H1. split; [|intros; exact Logic.I].
    unfold Eff.bind, Eff.utcnow. apply update_bounded; [lia| |exact H1].
    destruct (_ <? 3) eqn:L; [|intros N; now destruct N].
    apply Z.ltb_lt in L. intros _. lia.
Qed.

(** A row of the queue has a retry time, so its count is below the
    bound. *)
Lemma queue_row_bounded st p :
  bounded M st ->
  In p (Db.get_pending_retries (clock st) (db st)) ->
  0 <= Db.retry_count (Db.delivery p) < M.
Proof.
  intros (_ & Hr) Hp. apply pending_due in Hp as [Hin Hdue].
  apply due_not_exhausted in Hdue as (_ & t & Ht & _).
  rewrite Forall_forall in Hr. destruct (Hr _ Hin) as (H1 & H2).
  split; [lia|]. apply H2. congruence.
Qed.

Lemma webhook_send_bounded ws m e et :
  safe (bounded M) (Async.Webhook.send_notification ws env m e et).
Proof.
  unfold Async.Webhook.send_notification.
  destruct (negb (MerchantModel.is_webhook m)); [exact Logic.I|].
  destruct (MerchantModel.webhook_url m) as [url|]; [|exact Logic.I].
  destruct (MerchantModel.webhook_secret m) as [secret|]; [|exact Logic.I].
  destruct (String.eqb url "" || String.eqb secret ""); [exact Logic.I|].
  cbn [safe]. intros st H.
  match goal with
  | |- bounded M (snd (?act st)) /\ _ => destruct (act st) as [r0 st1] eqn:A
  end.
  unfold Eff.bind, Eff.utcnow, Eff.lift, Eff.ret in A.
  destruct (Payment.from_payment_event (clock st) e et) as [unsigned|a b].
  2:{ inversion A; subst. split; [exact H|]. intros sent E. discriminate. }
  destruct (WebhookService._deliver env url _ secret st)
    as [r st1'] eqn:D.
  destruct (deliver_frame env _ _ _ _ _ _ D) as (Hdb & _).
  assert (H1 : bounded M st1') by (eapply bounded_db; eauto).
  destruct r as [r|a b].
  2:{ inversion A; subst. split; [exact H1|]. intros sent E. discriminate. }
  inversion A; subst. cbn [snd fst] in *. split; [exact H1|].
  intros sent E. injection E as <-. destruct r as [[success code] body].
  cbn [safe]. intros st2 H2. split.
  - unfold Eff.bind, Eff.utcnow. now apply log_bounded.
  - intros _ _. now destruct success.
Qed.

Lemma telegram_send_bounded ts m e et :
  safe (bounded M) (Async.Telegram.send_notification ts env m e et).
Proof.
  unfold Async.Telegram.send_notification.
  destruct (negb (MerchantModel.is_telegram m)); [exact Logic.I|].
  destruct (MerchantModel.telegram_chat_id m) as [chat|]; [|exact Logic.I].
  destruct (String.eqb chat ""); [exact Logic.I|].
  cbn [safe]. intros st H.
  match goal with
  | |- bounded M (snd (?act st)) /\ _ => destruct (act st) as [r0 st1] eqn:A
  end.
  unfold Eff.bind, Eff.lift, Eff.ret in A.
  destruct (Payment.format e (TelegramService.etherscan_url ts)) as [text|a b].
  2:{ inversion A; subst. split; [exact H|]. intros sent E. discriminate. }
  destruct (TelegramService._send_message env chat text "Markdown" st)
    as [r st1'] eqn:D.
  destruct (send_message_frame env _ _ _ _ _ _ D) as (Hdb & _).
  assert (H1 : bounded M st1') by (eapply bounded_db; eauto).
  destruct r as [r|a b].
  2:{ inversion A; subst. split; [exact H1|]. intros sent E. discriminate. }
  inversion A; subst. cbn [snd fst] in *. split; [exact H1|].
  intros sent E. injection E as <-. destruct r as [success response].
  cbn [safe]. intros st2 H2. split.
  - unfold Eff.bind, Eff.utcnow. now apply log_bounded.
  - intros _ _. now destruct success.
Qed.

Lemma route_bounded e et :
  safe (bounded M) (Async.Routing.route_notification self env e et).
Proof.
  unfold Async.Routing.route_notification. cbn [safe]. intros st H.
  split; [eapply bounded_db; [|exact H]; reflexivity|].
  intros already _. destruct already; cbn [safe].
  { intros st1 H1. split; [|intros; exact Logic.I].
    eapply bounded_db; [|exact H1]. reflexivity. }
  intros st1 H1. split; [exact H1|]. intros [row|] _.
  2:{ cbn [safe]. intros st2 H2. split; [|intros; exact Logic.I].
      eapply bounded_db; [|exact H2]. reflexivity. }
  destruct (MerchantModel.from_dict row) as [m|a b]; [|exact Logic.I].
  destruct (negb (MerchantModel.is_active m)); [exact Logic.I|].
  destruct (MerchantModel.notification_type m).
  - unfold Async.Routing._send_webhook. apply safe_bind.
    + apply webhook_send_bounded.
    + intros [success err]. cbn [safe]. intros st2 H2. split.
      * destruct success; (eapply bounded_db; [|exact H2]); reflexivity.
      * intros; exact Logic.I.
  - unfold Async.Routing._send_telegram. apply safe_bind.
    + apply telegram_send_bounded.
    + intros [success err]. cbn [safe]. intros st2 H2. split.
      * destruct success; (eapply bounded_db; [|exact H2]); reflexivity.
      * intros; exact Logic.I.
Qed.

Lemma task_bounded o p :
  In p (task_of self env o) -> safe (bounded M) p.
Proof.
  destruct o as [e et| | |d]; cbn [task_of In]; intros H;
    [destruct H as [<-|[]]..|destruct H].
  - apply safe_bind; [apply route_bounded|]. intros; exact Logic.I.
  - unfold Async.Webhook._process_retries. cbn [safe]. intros st H.
    split; [exact H|]. intros pending E.
    unfold DbM.get_pending_retries in E. cbn in E. injection E as <-.
    apply safe_for_each. intros p Hp. apply filter_In in Hp as [Hp _].
    apply webhook_retry_bounded. eapply queue_row_bounded; eauto.
  - unfold Async.Telegram._process_retries. cbn [safe]. intros st H.
    split; [exact H|]. intros pending E.
    unfold DbM.get_pending_retries in E. cbn in E. injection E as <-.
    apply safe_for_each. intros p Hp. apply filter_In in Hp as [Hp _].
    apply telegram_retry_bounded. eapply queue_row_bounded; eauto.
Qed.

End BoundedAsync.

(** X15: invariants of the ledger.  Starting with no operation in
    flight from a ledger with one row per (event id, merchant id) in
    which every retry count lies between 0 and the bound (the length of
    the webhook delay schedule, or 3 if that is larger) and every row
    with a retry time has a count below the bound, every run of
    routings, retry sweeps of both transports and waits, interleaved at
    their awaits in any order, leaves such a ledger. *)
Theorem ledger_stays_bounded (self : Router.t) (env : Env)
    (ms : list Move) (st : State) :
  bounded (retry_bound self) st ->
  bounded (retry_bound self) (shared (run_moves self env ms (mkLoop st []))).
Proof.
  intros H.
  destruct (safe_run_moves (bounded (retry_bound self)) self env) with
    (ms := ms) (l := mkLoop st []) as [H1 _].
  - intros d s Hs. exact Hs.
  - intros o p. apply task_bounded.
  - exact H.
  - constructor.
  - exact H1.
Qed.

Lemma ledger_stays_bounded_witness :
  bounded 4
    (shared
       (run_moves Scenario.router Scenario.down
          [Start (Route (Scenario.payment Scenario.shop_id) "payment.completed");
           Resume 0; Resume 0; Resume 0; Resume 0; Resume 0;
           Start (Wait (DateTime.minutes 2)); Start WebhookRetry;
           Start (Route (Scenario.payment Scenario.shop_id) "payment.completed");
           Resume 1; Resume 2; Resume 1; Resume 2; Resume 2; Resume 2;
           Resume 1]
          (mkLoop (Scenario.start true [Scenario.shop; Scenario.chat_shop])
                  []))).
Proof.
  apply (ledger_stays_bounded Scenario.router Scenario.down).
  split; cbn; constructor.
Defined.

(** Not an invariant under interleaving: a row that succeeded has no
    retry time.  It holds while the operations do not overlap; the
    write of a retry in flight breaks it. *)
Example succeeded_row_with_retry_time :
  let e := Scenario.payment Scenario.shop_id in
  let env := mkEnv (fun n => match n with
                             | 2%nat => HttpResponse 200 "ok"
                             | _ => HttpResponse 500 "Internal Server Error"
                             end)
                   (telegram_reply Scenario.down) in
  let l := run_moves Scenario.router env
             [Start (Route e "payment.completed");
              Resume 0; Resume 0; Resume 0; Resume 0; Resume 0;
              Start (Wait (DateTime.minutes 2));
              Start WebhookRetry; Resume 1; Resume 1;
              Start (Route e "payment.completed");
              Resume 2; Resume 2; Resume 2; Resume 2; Resume 2;
              Resume 1]
             (mkLoop (Scenario.start true [Scenario.shop]) []) in
  exists r t, In r (Db.webhook_deliveries (db (shared l)))
              /\ Db.success r = true /\ Db.next_retry_at r = Some t.
Proof.
  eexists. eexists. split; [vm_compute; left; reflexivity|].
  split; reflexivity.
Qed.

(* ------------------------------------------------------------------ *)
(** ** A retry that succeeds, under interleaving *)

Lemma put_same {A} (l : list A) i p :
  nth_error l i = Some p -> put i p l = l.
Proof.
  revert i. induction l as [|a l IH]; intros [|i]; cbn; try discriminate.
  - intros H. now injection H as ->.
  - intros H. now rewrite IH.
Qed.

(** A move of the loop is a piece of one of its tasks. *)
Lemma resume_piece i l p :
  nth_error (tasks l) i = Some p ->
  resume i l
  = mkLoop (fst (piece p (shared l))) (put i (snd (piece p (shared l))) (tasks l)).
Proof.
  intros N. unfold resume. rewrite N. destruct p as [r|X act k]; cbn [piece].
  - cbn [fst snd]. rewrite (put_same _ _ _ N). now destruct l.
  - now destruct (act (shared l)) as [[x|e m] st].
Qed.

Section RetrySuccessAsync.

Variables (self : Router.t) (env : Env) (p : Db.Pending).

(** The write of a retry whose POST was answered with a 2xx status. *)
Lemma webhook_retry_write st st2 url secret stored code body st1 :
  Db.webhook_url p = Some url -> url <> "" ->
  Db.webhook_secret p = Some secret -> secret <> "" ->
  Db.payload (Db.delivery p) = Db.JsonPayload stored ->
  WebhookService._deliver env url (fst (Payment.sign stored secret)) secret st
  = (Py.Ok (true, code, body), st1) ->
  fst (piece (Async.Webhook._retry_delivery (Router.webhook_service self) env p)
         st) = st1
  /\ db (fst (piece
                (snd (piece (Async.Webhook._retry_delivery
                               (Router.webhook_service self) env p) st))
                st2))
     = Db.mark_delivery_success (clock st2) (db st2) (Db.id (Db.delivery p)).
Proof.
  intros U Un S Sn P D. unfold Async.Webhook._retry_delivery.
  rewrite U, S, P. cbn [Py.truthy Db.payload_text negb].
  apply String.eqb_neq in Un, Sn. rewrite Un, Sn, to_json_nonempty.
  cbn [negb orb piece]. rewrite D. cbn [fst snd piece].
  split; reflexivity.
Qed.

Lemma telegram_retry_write st st2 chat response st1 :
  Db.telegram_chat_id p = Some chat -> chat <> "" ->
  Db.payload_text (Db.payload (Db.delivery p)) <> "" ->
  TelegramService._send_message env chat
    (Db.payload_text (Db.payload (Db.delivery p))) "Markdown" st
  = (Py.Ok (true, response), st1) ->
  fst (piece (Async.Telegram._retry_delivery env p) st) = st1
  /\ db (fst (piece (snd (piece (Async.Telegram._retry_delivery env p) st))
                st2))
     = Db.mark_delivery_success (clock st2) (db st2) (Db.id (Db.delivery p)).
Proof.
  intros C Cn T D. unfold Async.Telegram._retry_delivery. rewrite C.
  apply String.eqb_neq in Cn, T. rewrite Cn, T.
  cbn [orb piece]. rewrite D. cbn [fst snd piece]. split; reflexivity.
Qed.

End RetrySuccessAsync.

(** A mark by an id that no row has changes no row. *)
Lemma mark_of_missing_id now d i :
  (forall y, In y (Db.webhook_deliveries d) -> Db.id y <> i) ->
  Db.webhook_deliveries (Db.mark_delivery_success now d i)
  = Db.webhook_deliveries d.
Proof.
  intros H. unfold Db.mark_delivery_success, Db.set_deliveries.
  cbn [Db.webhook_deliveries].
  rewrite <- (map_id (Db.webhook_deliveries d)) at 2.
  apply map_ext_in. intros y Hy.
  destruct (Db.id y =? i) eqn:E; [|reflexivity].
  apply Z.eqb_eq in E. now apply H in Hy.
Qed.

(** X17: a retry that succeeds.  When the POST of a retry is answered
    with a 2xx status (or the bot API with ok), the write that follows,
    whatever the other tasks did in between, is a
    [mark_delivery_success] by the id read from the queue.  If the row
    still has that id when the write runs, then in the state right
    after the write the row is successful without a retry time and with
    the retry count it had, it is in no retry queue at any clock, and a
    routing of its event to its merchant run from that state is
    answered as delivered without a transport call or a ledger write.
    If no row has the id any more, the write changes no row. *)
Theorem successful_retry_settles (self : Router.t) (env : Env)
    (p : Db.Pending) (st st2 : State) :
  (forall url secret stored code body st1,
      Db.webhook_url p = Some url -> url <> "" ->
      Db.webhook_secret p = Some secret -> secret <> "" ->
      Db.payload (Db.delivery p) = Db.JsonPayload stored ->
      WebhookService._deliver env url (fst (Payment.sign stored secret))
        secret st = (Py.Ok (true, code, body), st1) ->
      let written :=
        fst (piece (snd (piece (Async.Webhook._retry_delivery
                                  (Router.webhook_service self) env p) st))
               st2) in
      (forall x, In x (Db.webhook_deliveries (db st2)) ->
                 Db.id x = Db.id (Db.delivery p) ->
                 settled self env x written)
      /\ ((forall y, In y (Db.webhook_deliveries (db st2)) ->
                     Db.id y <> Db.id (Db.delivery p)) ->
          Db.webhook_deliveries (db written)
          = Db.webhook_deliveries (db st2)))
  /\ (forall chat response st1,
         Db.telegram_chat_id p = Some chat -> chat <> "" ->
         Db.payload_text (Db.payload (Db.delivery p)) <> "" ->
         TelegramService._send_message env chat
           (Db.payload_text (Db.payload (Db.delivery p))) "Markdown" st
         = (Py.Ok (true, response), st1) ->
         let written :=
           fst (piece (snd (piece (Async.Telegram._retry_delivery env p) st))
                  st2) in
         (forall x, In x (Db.webhook_deliveries (db st2)) ->
                    Db.id x = Db.id (Db.delivery p) ->
                    settled self env x written)
         /\ ((forall y, In y (Db.webhook_deliveries (db st2)) ->
                        Db.id y <> Db.id (Db.delivery p)) ->
             Db.webhook_deliveries (db written)
             = Db.webhook_deliveries (db st2))).
Proof.
  split.
  - intros url secret stored code body st1 U Un S Sn P D written.
    destruct (webhook_retry_write self env p st st2 url secret stored code
                body st1 U Un S Sn P D) as [_ W].
    fold written in W. split.
    + intros x Hx Hid. eapply marked_settled; [exact Hx|].
      rewrite W. now rewrite Hid.
    + intros H. rewrite W. now apply mark_of_missing_id.
  - intros chat response st1 C Cn T D written.
    destruct (telegram_retry_write env p st st2 chat response st1 C Cn T D)
      as [_ W].
    fold written in W. split.
    + intros x Hx Hid. eapply marked_settled; [exact Hx|].
      rewrite W. now rewrite Hid.
    + intros H. rewrite W. now apply mark_of_missing_id.
Qed.

Lemma successful_retry_settles_witness :
  let st := advance (DateTime.minutes 2)
              (Scenario.failed_delivery true Scenario.shop) in
  let p := nth 0 (Db.get_pending_retries (clock st) (db st))
             (Db.mkPending
                (Db.mkDelivery 0 "" "" "" "" (Db.TextPayload "") false None None
                   0 None 0 0) None None None) in
  let st2 := advance (DateTime.minutes 1) st in
  settled Scenario.router Scenario.up (Db.delivery p)
    (fst (piece (snd (piece (Async.Webhook._retry_delivery
                               WebhookService.default Scenario.up p) st))
            st2)).
Proof.
  intros st p st2.
  refine (proj1 (proj1 (successful_retry_settles Scenario.router Scenario.up
                          p st st2)
                   "https://example.com/webhook" "secret123"
                   (match Db.payload (Db.delivery p) with
                    | Db.JsonPayload w => w
                    | Db.TextPayload _ => Scenario.a_payload
                    end)
                   (Some 200) (Some "ok") _ _ _ _ _ _ _)
            (Db.delivery p) _ _).
  - reflexivity.
  - discriminate.
  - reflexivity.
  - discriminate.
  - vm_compute. reflexivity.
  - unfold WebhookService._deliver. vm_compute. reflexivity.
  - vm_compute. left. reflexivity.
  - reflexivity.
Defined.

(** On SQLite the write of a successful retry can be lost: the event
    is routed again while the retry is in flight and fails, which
    replaces the row under a new id; the retry was delivered, its mark
    finds no row, and the ledger keeps a failed row with a retry
    scheduled. *)
Example successful_retry_lost_on_sqlite :
  let e := Scenario.payment Scenario.shop_id in
  let env := mkEnv (fun n => match n with
                             | 1%nat => HttpResponse 200 "ok"
                             | _ => HttpResponse 500 "Internal Server Error"
                             end)
                   (telegram_reply Scenario.down) in
  let l := run_moves Scenario.router env
             [Start (Route e "payment.completed");
              Resume 0; Resume 0; Resume 0; Resume 0; Resume 0;
              Start (Wait (DateTime.minutes 2));
              Start WebhookRetry; Resume 1; Resume 1;
              Start (Route e "payment.completed");
              Resume 2; Resume 2; Resume 2; Resume 2; Resume 2;
              Resume 1; Resume 1]
             (mkLoop (Scenario.start false [Scenario.shop]) []) in
  map req_url (http_posts (shared l))
  = ["https://example.com/webhook"; "https://example.com/webhook";
     "https://example.com/webhook"]
  /\ Scenario.schedule_of e (shared l)
     = Some (false, 0, Some (DateTime.minutes 1)).
Proof. split; vm_compute; reflexivity. Qed.
